(** * ftpd: the per-session FTP protocol engine (ftpSession.cpp)

    A shallow embedding of the session code: the path codec, the command
    dispatch, the command handlers and the reactor's per-session step,
    followed by the properties of the specification that were checked
    against it. *)

From Stdlib Require Import String Ascii List ZArith Lia Bool Arith.
Import ListNotations.

Local Open Scope string_scope.
Local Open Scope list_scope.
Local Open Scope nat_scope.

(** String concatenation, written apart from list append. *)
Infix "+++" := String.append (right associativity, at level 60).

(* ================================================================== *)
(** ** Bytes and strings *)

(** [char] values are modelled as [ascii] (eight bits), [std::string],
    [std::string_view] and C strings as [string]. *)

Definition NUL : ascii := ascii_of_nat 0.
Definition LF : ascii := ascii_of_nat 10.
Definition CR : ascii := ascii_of_nat 13.
Definition SPACE : ascii := ascii_of_nat 32.
Definition DQUOTE : ascii := ascii_of_nat 34.
Definition COMMA : ascii := ascii_of_nat 44.
Definition DOT : ascii := ascii_of_nat 46.
Definition SLASH : ascii := ascii_of_nat 47.
Definition STAR : ascii := ascii_of_nat 42.
Definition SEMI : ascii := ascii_of_nat 59.

(** The two-byte line terminator of every reply. *)
Definition CRLF : string := String CR (String LF EmptyString).

Definition str1 (c : ascii) : string := String c EmptyString.

Fixpoint smap (f : ascii -> ascii) (s : string) : string :=
  match s with
  | EmptyString => EmptyString
  | String c s' => String (f c) (smap f s')
  end.

Fixpoint sexists (p : ascii -> bool) (s : string) : bool :=
  match s with
  | EmptyString => false
  | String c s' => p c || sexists p s'
  end.

Fixpoint scount (p : ascii -> bool) (s : string) : nat :=
  match s with
  | EmptyString => 0
  | String c s' => (if p c then 1 else 0) + scount p s'
  end.

Definition sempty (s : string) : bool :=
  match s with EmptyString => true | _ => false end.

(** [s.c_str ()] read back as a C string: the bytes before the first NUL. *)
Fixpoint c_str (s : string) : string :=
  match s with
  | EmptyString => EmptyString
  | String c s' => if Ascii.eqb c NUL then EmptyString else String c (c_str s')
  end.

(** [std::string_view::find (c, pos)]: the first index [>= pos] holding [c]. *)
Fixpoint find (c : ascii) (s : string) (pos : nat) : option nat :=
  match s with
  | EmptyString => None
  | String a s' =>
    match pos with
    | O => if Ascii.eqb a c then Some 0 else option_map S (find c s' 0)
    | S p => option_map S (find c s' p)
    end
  end.

(** [std::string_view::rfind (c)]: the last index holding [c]. *)
Fixpoint rfind (c : ascii) (s : string) : option nat :=
  match s with
  | EmptyString => None
  | String a s' =>
    match rfind c s' with
    | Some n => Some (S n)
    | None => if Ascii.eqb a c then Some 0 else None
    end
  end.

(** [s.substr (pos)]: everything from [pos] on. *)
Fixpoint substr_from (pos : nat) (s : string) : string :=
  match pos, s with
  | O, _ => s
  | S p, EmptyString => EmptyString
  | S p, String _ s' => substr_from p s'
  end.

(** [s.substr (pos, len)]. *)
Definition substr (pos len : nat) (s : string) : string := substring pos len s.

(** [std::isdigit], [std::isspace] and [std::tolower] in the C locale. *)
Definition isdigit (c : ascii) : bool :=
  let n := nat_of_ascii c in (48 <=? n) && (n <=? 57).

Definition isspace (c : ascii) : bool :=
  let n := nat_of_ascii c in (n =? 32) || ((9 <=? n) && (n <=? 13)).

Definition tolower (c : ascii) : ascii :=
  let n := nat_of_ascii c in
  if (65 <=? n) && (n <=? 90) then ascii_of_nat (n + 32) else c.

Definition digit_value (c : ascii) : Z := (Z.of_nat (nat_of_ascii c) - 48)%Z.

(* ================================================================== *)
(** ** Anonymous-namespace helpers of ftpSession.cpp *)

(** [isCString]: the view itself holds a NUL byte. *)
Definition isCString (str_ : string) : bool := sexists (Ascii.eqb NUL) str_.

(** The byte-wise loop of [compare]: the first differing pair of lowered
    bytes decides, otherwise the difference of the sizes. *)
Fixpoint compare_loop (lhs_ rhs_ : string) : Z :=
  match lhs_, rhs_ with
  | String a l', String b r' =>
    let l := tolower a in
    let r := tolower b in
    if Ascii.eqb l r then compare_loop l' r'
    else (Z.of_nat (nat_of_ascii l) - Z.of_nat (nat_of_ascii r))%Z
  | _, _ => (Z.of_nat (String.length lhs_) - Z.of_nat (String.length rhs_))%Z
  end.

(** [::strcasecmp] on C strings: the first differing pair of lowered bytes
    decides, the terminating NUL counting as byte 0. *)
Fixpoint strcasecmp (a b : string) : Z :=
  match a, b with
  | EmptyString, EmptyString => 0%Z
  | EmptyString, String y _ => (0 - Z.of_nat (nat_of_ascii (tolower y)))%Z
  | String x _, EmptyString => Z.of_nat (nat_of_ascii (tolower x))
  | String x a', String y b' =>
    let l := tolower x in
    let r := tolower y in
    if Ascii.eqb l r then strcasecmp a' b'
    else (Z.of_nat (nat_of_ascii l) - Z.of_nat (nat_of_ascii r))%Z
  end.

(** [compare]: case-insensitive three-way compare.  When both views hold a
    NUL the source hands both to [::strcasecmp], which reads the bytes
    before the first NUL.  Bytes are compared as unsigned values. *)
Definition compare (lhs_ rhs_ : string) : Z :=
  if isCString lhs_ && isCString rhs_
  then strcasecmp (c_str lhs_) (c_str rhs_)
  else compare_loop lhs_ rhs_.

(** [::strncasecmp (a, b, n) == 0] on C strings: the first [n] bytes agree
    up to case, or both strings end together before that. *)
Fixpoint strncasecmp_eq (a b : string) (n : nat) : bool :=
  match n with
  | O => true
  | S n' =>
    match a, b with
    | EmptyString, EmptyString => true
    | String x a', String y b' =>
      Ascii.eqb (tolower x) (tolower y) && strncasecmp_eq a' b' n'
    | _, _ => false
    end
  end.

(** [parseCommand]: the position of the first [\r\n] or [\n] delimiter and
    the position following it. *)
Fixpoint parseCommand_from (buffer_ : string) (p : nat) : option (nat * nat) :=
  match buffer_ with
  | EmptyString => None
  | String c rest =>
    match rest with
    | String d _ =>
      if Ascii.eqb c CR && Ascii.eqb d LF then Some (p, p + 2)
      else if Ascii.eqb c LF then Some (p, p + 1)
      else parseCommand_from rest (S p)
    | EmptyString =>
      if Ascii.eqb c LF then Some (p, p + 1) else None
    end
  end.

Definition parseCommand (buffer_ : string) : option (nat * nat) :=
  parseCommand_from buffer_ 0.

Definition nul_to_lf (c : ascii) : ascii := if Ascii.eqb c NUL then LF else c.
Definition lf_to_nul (c : ascii) : ascii := if Ascii.eqb c LF then NUL else c.

(** [decodePath]: every NUL of the buffer becomes a line feed. *)
Definition decodePath (buffer_ : string) : string := smap nul_to_lf buffer_.

(** The encoding loop of [encodePath]. *)
Fixpoint encodePath_loop (quotes_ : bool) (s : string) : string :=
  match s with
  | EmptyString => EmptyString
  | String c s' =>
    if Ascii.eqb c LF then String NUL (encodePath_loop quotes_ s')
    else if quotes_ && Ascii.eqb c DQUOTE
    then String DQUOTE (String DQUOTE (encodePath_loop quotes_ s'))
    else String c (encodePath_loop quotes_ s')
  end.

(** [encodePath]: line feeds become NUL and, when [quotes_], every double
    quote is doubled; a buffer that needs neither is returned as it is. *)
Definition encodePath (buffer_ : string) (quotes_ : bool) : string :=
  let lf := sexists (Ascii.eqb LF) buffer_ in
  let numQuotes := if quotes_ then scount (Ascii.eqb DQUOTE) buffer_ else 0 in
  if negb lf && (numQuotes =? 0) then buffer_
  else encodePath_loop quotes_ buffer_.

(** [dirName]: the path without its last component, ["/"] when nothing is
    left. *)
Definition dirName (path_ : string) : string :=
  let dir :=
    match rfind SLASH path_ with
    | Some n => substr 0 n path_
    | None => path_
    end in
  if sempty dir then "/" else dir.

(** The splitting loop of [resolvePath]: [next] is the next slash at or
    after [pos]; the bytes between the two form a component unless there
    are none.  The loop runs once per slash, so the length of the path
    bounds it. *)
Fixpoint split_loop (fuel : nat) (path_ : string) (pos : nat)
    (components : list string) : nat * list string :=
  match fuel with
  | O => (pos, components)
  | S fuel' =>
    match find SLASH path_ pos with
    | None => (pos, components)
    | Some next =>
      split_loop fuel' path_ (next + 1)
        (if next =? pos then components
         else components ++ [substr pos (next - pos) path_])
    end
  end.

Definition split_components (path_ : string) : list string :=
  let '(pos, components) := split_loop (String.length path_) path_ 1 [] in
  if pos =? String.length path_ then components
  else components ++ [substr_from pos path_].

(** The collapsing loop of [resolvePath].  The iterator [it] cuts the
    vector in two: [done] holds the components before it, the second list
    those from it on.  Erasing a ["."] drops the head of the second list;
    a [".."] also erases the component before it, when there is one. *)
Fixpoint collapse (done rest : list string) : list string :=
  match rest with
  | [] => done
  | c :: rest' =>
    if String.eqb c "." then collapse done rest'
    else if String.eqb c ".." then collapse (removelast done) rest'
    else collapse (done ++ [c]) rest'
  end.

(** The joining loop of [resolvePath]. *)
Fixpoint join_components (outPath : string) (components : list string) : string :=
  match components with
  | [] => outPath
  | component :: rest => join_components (outPath +++ component +++ "/") rest
  end.

(** [std::string::pop_back]. *)
Fixpoint pop_back (s : string) : string :=
  match s with
  | EmptyString => EmptyString
  | String c EmptyString => EmptyString
  | String c s' => String c (pop_back s')
  end.

(** The lexical part of [resolvePath], after the parent directory was
    checked: split, collapse, join. *)
Definition resolvePath_lexical (path_ : string) : string :=
  let components := collapse [] (split_components path_) in
  let outPath := join_components "/" components in
  if 1 <? String.length outPath then pop_back outPath else outPath.

(** The slash-coalescing loop of [buildPath]: a slash that follows a slash
    is erased; [prev] is the byte before the iterator. *)
Fixpoint coalesce_slashes (prev : option ascii) (s : string) : string :=
  match s with
  | EmptyString => EmptyString
  | String c s' =>
    match prev with
    | Some q =>
      if Ascii.eqb c SLASH && Ascii.eqb q SLASH then coalesce_slashes prev s'
      else String c (coalesce_slashes (Some c) s')
    | None => String c (coalesce_slashes (Some c) s')
    end
  end.

(** [buildPath]: [args_] when it is absolute, otherwise [cwd_ + '/' + args_];
    consecutive slashes are then coalesced.  [args_[0]] of an empty
    argument is the terminating NUL of the C string it was built from. *)
Definition buildPath (cwd_ args_ : string) : string :=
  let path :=
    match args_ with
    | String c _ => if Ascii.eqb c SLASH then args_ else cwd_ +++ "/" +++ args_
    | EmptyString => cwd_ +++ "/" +++ args_
    end in
  coalesce_slashes None path.

(* ------------------------------------------------------------------ *)
(** *** Shape of a path, as the specification words it *)

(** The pieces of a string between its slashes. *)
Fixpoint split_on (c : ascii) (s : string) : list string :=
  match s with
  | EmptyString => [EmptyString]
  | String a s' =>
    match split_on c s' with
    | [] => [EmptyString]
    | p :: ps => if Ascii.eqb a c then EmptyString :: p :: ps else String a p :: ps
    end
  end.

(** Two slashes in a row somewhere in the string. *)
Fixpoint doubled_slash (s : string) : bool :=
  match s with
  | String a ((String b _) as s') =>
    (Ascii.eqb a SLASH && Ascii.eqb b SLASH) || doubled_slash s'
  | _ => false
  end.

Definition begins_with_slash (s : string) : bool :=
  match s with
  | String c _ => Ascii.eqb c SLASH
  | EmptyString => false
  end.

(** A component as the splitting loop makes them: some bytes, none of them
    a slash. *)
Definition component (c : string) : Prop :=
  c <> "" /\ sexists (Ascii.eqb SLASH) c = false.

(** A component the collapsing loop lets through. *)
Definition plain_component (c : string) : Prop :=
  component c /\ c <> "." /\ c <> "..".

(** Components separated by slashes. *)
Fixpoint joined (components : list string) : string :=
  match components with
  | [] => ""
  | [c] => c
  | c :: rest => c +++ "/" +++ joined rest
  end.

(* ================================================================== *)
(** ** The platform

    Sockets, the file system, the clock, zlib and the configuration store
    are collaborators outside the session code.  Every call the session
    makes to them is recorded in the [World], newest first, and answered by
    the world's oracle from the calls made so far; a property proved for
    every oracle holds whatever the platform answers. *)

(** A socket, by its descriptor. *)
Definition Socket := nat.

Record SockAddr := mkSockAddr {
  sa_name : string;   (* [name ()]: the dotted quad *)
  sa_addr : Z;        (* [sin_addr] *)
  sa_port : Z         (* [port ()], host byte order *)
}.

Record stat_t := mkStat {
  st_mode : Z;
  st_nlink : Z;
  st_uid : Z;
  st_gid : Z;
  st_size : Z;
  st_mtime : Z
}.

Inductive ZKind := ZDeflate | ZInflate.

Inductive Call :=
| SysTime                                   (* std::time (nullptr) *)
| SysClockNow                               (* system_clock::now () as time_t *)
| SysStat (path : string)
| SysLStat (path : string)
| SysUnlink (path : string)
| SysMkdir (path : string) (mode : Z)
| SysRmdir (path : string)
| SysRename (from to : string)
| SysChdir (path : string)
| SysInetAton (text : string)
| FileOpen (path mode : string)
| FileSetBufferSize
| FileSeek (pos : Z)
| FileRead (size : nat)
| FileWrite (data : string)
| FileClose
| DirOpen (path : string)
| DirRead
| DirClose
| GlobGlob (pattern : string)
| GlobFree
| SockCreate
| SockSetRecvBufferSize (fd : Socket)
| SockSetSendBufferSize (fd : Socket)
| SockSetNonBlocking (fd : Socket)
| SockBind (fd : Socket) (addr : SockAddr)
| SockListen (fd : Socket) (backlog : Z)
| SockAccept (fd : Socket)
| SockConnect (fd : Socket) (addr : SockAddr)
| SockName (fd : Socket)
| SockPeerName (fd : Socket)
| SockAtMark (fd : Socket)
| SockRead (fd : Socket) (size : nat) (oob : bool)
| SockWrite (fd : Socket) (data : string)
| SockShutdown (fd : Socket)
| SockSetLinger (fd : Socket)
| SockClose (fd : Socket)
| ZInit (kind : ZKind) (level : Z)
| ZRun (kind : ZKind) (input : string) (outSize : nat) (flush : bool)
| ZEnd (kind : ZKind)
| ServerUpdateFreeSpace
| ServerStartTime
| ConfigSetPort (arg : string)
| ConfigParseDeflateLevel (arg : string)
| ConfigSave
| MdnsSetHostname (name : string)
| StaleByte                                 (* a byte the program never stored *).

(** What the platform answers to a call: the return code, the value of
    [errno] after the call, and the data the call hands back. *)
Record Ret := mkRet {
  rc : Z;
  r_errno : Z;
  r_data : string;
  r_used : nat;            (* input consumed, for zlib *)
  r_stat : stat_t;
  r_addr : SockAddr;
  r_names : list string    (* the path vector of a glob *)
}.

Record World := mkWorld {
  w_oracle : list Call -> Ret;   (* the answer to the head of the list *)
  w_trace : list Call;           (* calls made so far, newest first *)
  w_errno : Z;                   (* errno *)
  w_strerror : Z -> string       (* std::strerror *)
}.

Definition ask (c : Call) (w : World) : Ret := w_oracle w (c :: w_trace w).

Definition tell (c : Call) (w : World) : World :=
  mkWorld (w_oracle w) (c :: w_trace w) (r_errno (ask c w)) (w_strerror w).

Definition set_errno (e : Z) (w : World) : World :=
  mkWorld (w_oracle w) (w_trace w) e (w_strerror w).

(** errno.h and poll.h values of the POSIX build. *)
Definition EAGAIN : Z := 11.
Definition EWOULDBLOCK : Z := 11.
Definition ENOMEM : Z := 12.
Definition EIO : Z := 5.
Definition ENOTDIR : Z := 20.
Definition EINVAL : Z := 22.
Definition EINPROGRESS : Z := 115.

Definition POLLIN : Z := 1.
Definition POLLPRI : Z := 2.
Definition POLLOUT : Z := 4.
Definition POLLERR : Z := 8.
Definition POLLHUP : Z := 16.

(** sys/stat.h: file type and permission bits. *)
Definition S_IFMT : Z := 61440.    (* 0170000 *)
Definition S_IFSOCK : Z := 49152.  (* 0140000 *)
Definition S_IFLNK : Z := 40960.   (* 0120000 *)
Definition S_IFREG : Z := 32768.   (* 0100000 *)
Definition S_IFBLK : Z := 24576.   (* 0060000 *)
Definition S_IFDIR : Z := 16384.   (* 0040000 *)
Definition S_IFCHR : Z := 8192.    (* 0020000 *)
Definition S_IFIFO : Z := 4096.    (* 0010000 *)
Definition S_ISUID : Z := 2048.
Definition S_ISGID : Z := 1024.
Definition S_ISVTX : Z := 512.
Definition S_IRWXU : Z := 448.
Definition S_IRUSR : Z := 256.
Definition S_IWUSR : Z := 128.
Definition S_IXUSR : Z := 64.
Definition S_IRWXG : Z := 56.
Definition S_IRGRP : Z := 32.
Definition S_IWGRP : Z := 16.
Definition S_IXGRP : Z := 8.
Definition S_IRWXO : Z := 7.
Definition S_IROTH : Z := 4.
Definition S_IWOTH : Z := 2.
Definition S_IXOTH : Z := 1.

Definition has_type (mode type : Z) : bool := Z.eqb (Z.land mode S_IFMT) type.
Definition S_ISREG (mode : Z) : bool := has_type mode S_IFREG.
Definition S_ISDIR (mode : Z) : bool := has_type mode S_IFDIR.
Definition S_ISLNK (mode : Z) : bool := has_type mode S_IFLNK.
Definition S_ISCHR (mode : Z) : bool := has_type mode S_IFCHR.
Definition S_ISBLK (mode : Z) : bool := has_type mode S_IFBLK.
Definition S_ISFIFO (mode : Z) : bool := has_type mode S_IFIFO.
Definition S_ISSOCK (mode : Z) : bool := has_type mode S_IFSOCK.

(** [mode & bit] read as a condition. *)
Definition has_bit (mode bit : Z) : bool := negb (Z.eqb (Z.land mode bit) 0).

(** Unsigned 64-bit, unsigned 16-bit and signed 32-bit wrap-around. *)
Definition wrap64 (z : Z) : Z := (z mod 2 ^ 64)%Z.
Definition wrap16 (z : Z) : Z := (z mod 2 ^ 16)%Z.
Definition wrap_int (z : Z) : Z := ((z + 2 ^ 31) mod 2 ^ 32 - 2 ^ 31)%Z.
Definition wrap_unsigned (z : Z) : Z := (z mod 2 ^ 32)%Z.
Definition UINT64_MAX : Z := (2 ^ 64 - 1)%Z.

(* ================================================================== *)
(** ** IOBuffer *)

(** Modelled from the spec: the IOBuffer class (ioBuffer.h and
    ioBuffer.cpp are not among the sources).  A byte region of fixed
    capacity; the used bytes start at [buf_start], the free area follows
    them. *)
Record IOBuffer := mkIOBuffer {
  buf_capacity : nat;
  buf_start : nat;
  buf_used : string
}.

Definition IOBuffer_new (size_ : nat) : IOBuffer := mkIOBuffer size_ 0 EmptyString.

Definition usedArea (b : IOBuffer) : string := buf_used b.
Definition usedSize (b : IOBuffer) : nat := String.length (buf_used b).
Definition freeSize (b : IOBuffer) : nat :=
  buf_capacity b - (buf_start b + String.length (buf_used b)).
Definition buf_empty (b : IOBuffer) : bool := sempty (buf_used b).

(** Bytes are stored into the free area and then marked used. *)
Definition markUsed (bytes : string) (b : IOBuffer) : IOBuffer :=
  mkIOBuffer (buf_capacity b) (buf_start b) (buf_used b +++ bytes).

Definition markFree (n : nat) (b : IOBuffer) : IOBuffer :=
  mkIOBuffer (buf_capacity b) (buf_start b + n) (substr_from n (buf_used b)).

Definition buf_clear (b : IOBuffer) : IOBuffer :=
  mkIOBuffer (buf_capacity b) 0 EmptyString.

Definition coalesce (b : IOBuffer) : IOBuffer :=
  mkIOBuffer (buf_capacity b) 0 (buf_used b).

(* ================================================================== *)
(** ** The session *)

Inductive State := COMMAND | DATA_CONNECT | DATA_TRANSFER.

Inductive XferFileMode := RETR_mode | STOR_mode | APPE_mode.

Inductive XferDirMode := LIST_mode | MLSD_mode | MLST_mode | NLST_mode | STAT_mode.

(** The transfer the member-function pointer [m_transfer] points at. *)
Inductive Transfer := xfer_list | xfer_glob | xfer_retrieve | xfer_store.

Definition State_eqb (a b : State) : bool :=
  match a, b with
  | COMMAND, COMMAND | DATA_CONNECT, DATA_CONNECT | DATA_TRANSFER, DATA_TRANSFER => true
  | _, _ => false
  end.

Definition XferDirMode_eqb (a b : XferDirMode) : bool :=
  match a, b with
  | LIST_mode, LIST_mode | MLSD_mode, MLSD_mode | MLST_mode, MLST_mode
  | NLST_mode, NLST_mode | STAT_mode, STAT_mode => true
  | _, _ => false
  end.

(** Modelled from the spec: the FtpConfig record (ftpConfig.h is not among
    the sources).  The session holds a reference to it. *)
Record FtpConfig := mkFtpConfig {
  cfg_user : string;
  cfg_pass : string;
  cfg_hostname : string;
  cfg_deflateLevel : Z
}.

(** The fields of [FtpSession] the protocol engine reads or writes, and
    the platform it runs on.  The lock and the fields that only feed the
    on-screen rate display are left out. *)

Record FtpSession := mkFtpSession {
  m_config : FtpConfig;
  m_commandSocket : option Socket;
  m_pasvSocket : option Socket;
  m_dataSocket : option Socket;
  m_pendingCloseSocket : list Socket;
  m_commandBuffer : IOBuffer;
  m_responseBuffer : IOBuffer;
  m_xferBuffer : IOBuffer;
  m_zStreamBuffer : IOBuffer;
  m_zStream : option ZKind;
  m_file : bool;
  m_dir : bool;
  m_glob : option (list string * nat);
  m_state : State;
  m_transfer : option Transfer;
  m_xferDirMode : XferDirMode;
  m_timestamp : Z;
  m_cwd : string;
  m_lwd : string;
  m_rename : string;
  m_workItem : string;
  m_portAddr : SockAddr;
  m_restartPosition : Z;
  m_fileSize : Z;
  m_filePosition : Z;
  m_zStreamPosition : Z;
  m_authorizedUser : bool;
  m_authorizedPass : bool;
  m_pasv : bool;
  m_port : bool;
  m_recv : bool;
  m_send : bool;
  m_urgent : bool;
  m_deflate : bool;
  m_zFlushed : bool;
  m_eof : bool;
  m_mlstType : bool;
  m_mlstSize : bool;
  m_mlstModify : bool;
  m_mlstPerm : bool;
  m_mlstUnixMode : bool;
  m_devZero : bool;
  world : World
}.

Definition set_m_config (v : FtpConfig) (s : FtpSession) : FtpSession :=
  mkFtpSession v (m_commandSocket s) (m_pasvSocket s) (m_dataSocket s) (m_pendingCloseSocket s) (m_commandBuffer s) (m_responseBuffer s) (m_xferBuffer s) (m_zStreamBuffer s) (m_zStream s) (m_file s) (m_dir s) (m_glob s) (m_state s) (m_transfer s) (m_xferDirMode s) (m_timestamp s) (m_cwd s) (m_lwd s) (m_rename s) (m_workItem s) (m_portAddr s) (m_restartPosition s) (m_fileSize s) (m_filePosition s) (m_zStreamPosition s) (m_authorizedUser s) (m_authorizedPass s) (m_pasv s) (m_port s) (m_recv s) (m_send s) (m_urgent s) (m_deflate s) (m_zFlushed s) (m_eof s) (m_mlstType s) (m_mlstSize s) (m_mlstModify s) (m_mlstPerm s) (m_mlstUnixMode s) (m_devZero s) (world s).

Definition set_m_commandSocket (v : option Socket) (s : FtpSession) : FtpSession :=
  mkFtpSession (m_config s) v (m_pasvSocket s) (m_dataSocket s) (m_pendingCloseSocket s) (m_commandBuffer s) (m_responseBuffer s) (m_xferBuffer s) (m_zStreamBuffer s) (m_zStream s) (m_file s) (m_dir s) (m_glob s) (m_state s) (m_transfer s) (m_xferDirMode s) (m_timestamp s) (m_cwd s) (m_lwd s) (m_rename s) (m_workItem s) (m_portAddr s) (m_restartPosition s) (m_fileSize s) (m_filePosition s) (m_zStreamPosition s) (m_authorizedUser s) (m_authorizedPass s) (m_pasv s) (m_port s) (m_recv s) (m_send s) (m_urgent s) (m_deflate s) (m_zFlushed s) (m_eof s) (m_mlstType s) (m_mlstSize s) (m_mlstModify s) (m_mlstPerm s) (m_mlstUnixMode s) (m_devZero s) (world s).

Definition set_m_pasvSocket (v : option Socket) (s : FtpSession) : FtpSession :=
  mkFtpSession (m_config s) (m_commandSocket s) v (m_dataSocket s) (m_pendingCloseSocket s) (m_commandBuffer s) (m_responseBuffer s) (m_xferBuffer s) (m_zStreamBuffer s) (m_zStream s) (m_file s) (m_dir s) (m_glob s) (m_state s) (m_transfer s) (m_xferDirMode s) (m_timestamp s) (m_cwd s) (m_lwd s) (m_rename s) (m_workItem s) (m_portAddr s) (m_restartPosition s) (m_fileSize s) (m_filePosition s) (m_zStreamPosition s) (m_authorizedUser s) (m_authorizedPass s) (m_pasv s) (m_port s) (m_recv s) (m_send s) (m_urgent s) (m_deflate s) (m_zFlushed s) (m_eof s) (m_mlstType s) (m_mlstSize s) (m_mlstModify s) (m_mlstPerm s) (m_mlstUnixMode s) (m_devZero s) (world s).

Definition set_m_dataSocket (v : option Socket) (s : FtpSession) : FtpSession :=
  mkFtpSession (m_config s) (m_commandSocket s) (m_pasvSocket s) v (m_pendingCloseSocket s) (m_commandBuffer s) (m_responseBuffer s) (m_xferBuffer s) (m_zStreamBuffer s) (m_zStream s) (m_file s) (m_dir s) (m_glob s) (m_state s) (m_transfer s) (m_xferDirMode s) (m_timestamp s) (m_cwd s) (m_lwd s) (m_rename s) (m_workItem s) (m_portAddr s) (m_restartPosition s) (m_fileSize s) (m_filePosition s) (m_zStreamPosition s) (m_authorizedUser s) (m_authorizedPass s) (m_pasv s) (m_port s) (m_recv s) (m_send s) (m_urgent s) (m_deflate s) (m_zFlushed s) (m_eof s) (m_mlstType s) (m_mlstSize s) (m_mlstModify s) (m_mlstPerm s) (m_mlstUnixMode s) (m_devZero s) (world s).

Definition set_m_pendingCloseSocket (v : list Socket) (s : FtpSession) : FtpSession :=
  mkFtpSession (m_config s) (m_commandSocket s) (m_pasvSocket s) (m_dataSocket s) v (m_commandBuffer s) (m_responseBuffer s) (m_xferBuffer s) (m_zStreamBuffer s) (m_zStream s) (m_file s) (m_dir s) (m_glob s) (m_state s) (m_transfer s) (m_xferDirMode s) (m_timestamp s) (m_cwd s) (m_lwd s) (m_rename s) (m_workItem s) (m_portAddr s) (m_restartPosition s) (m_fileSize s) (m_filePosition s) (m_zStreamPosition s) (m_authorizedUser s) (m_authorizedPass s) (m_pasv s) (m_port s) (m_recv s) (m_send s) (m_urgent s) (m_deflate s) (m_zFlushed s) (m_eof s) (m_mlstType s) (m_mlstSize s) (m_mlstModify s) (m_mlstPerm s) (m_mlstUnixMode s) (m_devZero s) (world s).

Definition set_m_commandBuffer (v : IOBuffer) (s : FtpSession) : FtpSession :=
  mkFtpSession (m_config s) (m_commandSocket s) (m_pasvSocket s) (m_dataSocket s) (m_pendingCloseSocket s) v (m_responseBuffer s) (m_xferBuffer s) (m_zStreamBuffer s) (m_zStream s) (m_file s) (m_dir s) (m_glob s) (m_state s) (m_transfer s) (m_xferDirMode s) (m_timestamp s) (m_cwd s) (m_lwd s) (m_rename s) (m_workItem s) (m_portAddr s) (m_restartPosition s) (m_fileSize s) (m_filePosition s) (m_zStreamPosition s) (m_authorizedUser s) (m_authorizedPass s) (m_pasv s) (m_port s) (m_recv s) (m_send s) (m_urgent s) (m_deflate s) (m_zFlushed s) (m_eof s) (m_mlstType s) (m_mlstSize s) (m_mlstModify s) (m_mlstPerm s) (m_mlstUnixMode s) (m_devZero s) (world s).

Definition set_m_responseBuffer (v : IOBuffer) (s : FtpSession) : FtpSession :=
  mkFtpSession (m_config s) (m_commandSocket s) (m_pasvSocket s) (m_dataSocket s) (m_pendingCloseSocket s) (m_commandBuffer s) v (m_xferBuffer s) (m_zStreamBuffer s) (m_zStream s) (m_file s) (m_dir s) (m_glob s) (m_state s) (m_transfer s) (m_xferDirMode s) (m_timestamp s) (m_cwd s) (m_lwd s) (m_rename s) (m_workItem s) (m_portAddr s) (m_restartPosition s) (m_fileSize s) (m_filePosition s) (m_zStreamPosition s) (m_authorizedUser s) (m_authorizedPass s) (m_pasv s) (m_port s) (m_recv s) (m_send s) (m_urgent s) (m_deflate s) (m_zFlushed s) (m_eof s) (m_mlstType s) (m_mlstSize s) (m_mlstModify s) (m_mlstPerm s) (m_mlstUnixMode s) (m_devZero s) (world s).

Definition set_m_xferBuffer (v : IOBuffer) (s : FtpSession) : FtpSession :=
  mkFtpSession (m_config s) (m_commandSocket s) (m_pasvSocket s) (m_dataSocket s) (m_pendingCloseSocket s) (m_commandBuffer s) (m_responseBuffer s) v (m_zStreamBuffer s) (m_zStream s) (m_file s) (m_dir s) (m_glob s) (m_state s) (m_transfer s) (m_xferDirMode s) (m_timestamp s) (m_cwd s) (m_lwd s) (m_rename s) (m_workItem s) (m_portAddr s) (m_restartPosition s) (m_fileSize s) (m_filePosition s) (m_zStreamPosition s) (m_authorizedUser s) (m_authorizedPass s) (m_pasv s) (m_port s) (m_recv s) (m_send s) (m_urgent s) (m_deflate s) (m_zFlushed s) (m_eof s) (m_mlstType s) (m_mlstSize s) (m_mlstModify s) (m_mlstPerm s) (m_mlstUnixMode s) (m_devZero s) (world s).

Definition set_m_zStreamBuffer (v : IOBuffer) (s : FtpSession) : FtpSession :=
  mkFtpSession (m_config s) (m_commandSocket s) (m_pasvSocket s) (m_dataSocket s) (m_pendingCloseSocket s) (m_commandBuffer s) (m_responseBuffer s) (m_xferBuffer s) v (m_zStream s) (m_file s) (m_dir s) (m_glob s) (m_state s) (m_transfer s) (m_xferDirMode s) (m_timestamp s) (m_cwd s) (m_lwd s) (m_rename s) (m_workItem s) (m_portAddr s) (m_restartPosition s) (m_fileSize s) (m_filePosition s) (m_zStreamPosition s) (m_authorizedUser s) (m_authorizedPass s) (m_pasv s) (m_port s) (m_recv s) (m_send s) (m_urgent s) (m_deflate s) (m_zFlushed s) (m_eof s) (m_mlstType s) (m_mlstSize s) (m_mlstModify s) (m_mlstPerm s) (m_mlstUnixMode s) (m_devZero s) (world s).

Definition set_m_zStream (v : option ZKind) (s : FtpSession) : FtpSession :=
  mkFtpSession (m_config s) (m_commandSocket s) (m_pasvSocket s) (m_dataSocket s) (m_pendingCloseSocket s) (m_commandBuffer s) (m_responseBuffer s) (m_xferBuffer s) (m_zStreamBuffer s) v (m_file s) (m_dir s) (m_glob s) (m_state s) (m_transfer s) (m_xferDirMode s) (m_timestamp s) (m_cwd s) (m_lwd s) (m_rename s) (m_workItem s) (m_portAddr s) (m_restartPosition s) (m_fileSize s) (m_filePosition s) (m_zStreamPosition s) (m_authorizedUser s) (m_authorizedPass s) (m_pasv s) (m_port s) (m_recv s) (m_send s) (m_urgent s) (m_deflate s) (m_zFlushed s) (m_eof s) (m_mlstType s) (m_mlstSize s) (m_mlstModify s) (m_mlstPerm s) (m_mlstUnixMode s) (m_devZero s) (world s).

Definition set_m_file (v : bool) (s : FtpSession) : FtpSession :=
  mkFtpSession (m_config s) (m_commandSocket s) (m_pasvSocket s) (m_dataSocket s) (m_pendingCloseSocket s) (m_commandBuffer s) (m_responseBuffer s) (m_xferBuffer s) (m_zStreamBuffer s) (m_zStream s) v (m_dir s) (m_glob s) (m_state s) (m_transfer s) (m_xferDirMode s) (m_timestamp s) (m_cwd s) (m_lwd s) (m_rename s) (m_workItem s) (m_portAddr s) (m_restartPosition s) (m_fileSize s) (m_filePosition s) (m_zStreamPosition s) (m_authorizedUser s) (m_authorizedPass s) (m_pasv s) (m_port s) (m_recv s) (m_send s) (m_urgent s) (m_deflate s) (m_zFlushed s) (m_eof s) (m_mlstType s) (m_mlstSize s) (m_mlstModify s) (m_mlstPerm s) (m_mlstUnixMode s) (m_devZero s) (world s).

Definition set_m_dir (v : bool) (s : FtpSession) : FtpSession :=
  mkFtpSession (m_config s) (m_commandSocket s) (m_pasvSocket s) (m_dataSocket s) (m_pendingCloseSocket s) (m_commandBuffer s) (m_responseBuffer s) (m_xferBuffer s) (m_zStreamBuffer s) (m_zStream s) (m_file s) v (m_glob s) (m_state s) (m_transfer s) (m_xferDirMode s) (m_timestamp s) (m_cwd s) (m_lwd s) (m_rename s) (m_workItem s) (m_portAddr s) (m_restartPosition s) (m_fileSize s) (m_filePosition s) (m_zStreamPosition s) (m_authorizedUser s) (m_authorizedPass s) (m_pasv s) (m_port s) (m_recv s) (m_send s) (m_urgent s) (m_deflate s) (m_zFlushed s) (m_eof s) (m_mlstType s) (m_mlstSize s) (m_mlstModify s) (m_mlstPerm s) (m_mlstUnixMode s) (m_devZero s) (world s).

Definition set_m_glob (v : option (list string * nat)) (s : FtpSession) : FtpSession :=
  mkFtpSession (m_config s) (m_commandSocket s) (m_pasvSocket s) (m_dataSocket s) (m_pendingCloseSocket s) (m_commandBuffer s) (m_responseBuffer s) (m_xferBuffer s) (m_zStreamBuffer s) (m_zStream s) (m_file s) (m_dir s) v (m_state s) (m_transfer s) (m_xferDirMode s) (m_timestamp s) (m_cwd s) (m_lwd s) (m_rename s) (m_workItem s) (m_portAddr s) (m_restartPosition s) (m_fileSize s) (m_filePosition s) (m_zStreamPosition s) (m_authorizedUser s) (m_authorizedPass s) (m_pasv s) (m_port s) (m_recv s) (m_send s) (m_urgent s) (m_deflate s) (m_zFlushed s) (m_eof s) (m_mlstType s) (m_mlstSize s) (m_mlstModify s) (m_mlstPerm s) (m_mlstUnixMode s) (m_devZero s) (world s).

Definition set_m_state (v : State) (s : FtpSession) : FtpSession :=
  mkFtpSession (m_config s) (m_commandSocket s) (m_pasvSocket s) (m_dataSocket s) (m_pendingCloseSocket s) (m_commandBuffer s) (m_responseBuffer s) (m_xferBuffer s) (m_zStreamBuffer s) (m_zStream s) (m_file s) (m_dir s) (m_glob s) v (m_transfer s) (m_xferDirMode s) (m_timestamp s) (m_cwd s) (m_lwd s) (m_rename s) (m_workItem s) (m_portAddr s) (m_restartPosition s) (m_fileSize s) (m_filePosition s) (m_zStreamPosition s) (m_authorizedUser s) (m_authorizedPass s) (m_pasv s) (m_port s) (m_recv s) (m_send s) (m_urgent s) (m_deflate s) (m_zFlushed s) (m_eof s) (m_mlstType s) (m_mlstSize s) (m_mlstModify s) (m_mlstPerm s) (m_mlstUnixMode s) (m_devZero s) (world s).

Definition set_m_transfer (v : option Transfer) (s : FtpSession) : FtpSession :=
  mkFtpSession (m_config s) (m_commandSocket s) (m_pasvSocket s) (m_dataSocket s) (m_pendingCloseSocket s) (m_commandBuffer s) (m_responseBuffer s) (m_xferBuffer s) (m_zStreamBuffer s) (m_zStream s) (m_file s) (m_dir s) (m_glob s) (m_state s) v (m_xferDirMode s) (m_timestamp s) (m_cwd s) (m_lwd s) (m_rename s) (m_workItem s) (m_portAddr s) (m_restartPosition s) (m_fileSize s) (m_filePosition s) (m_zStreamPosition s) (m_authorizedUser s) (m_authorizedPass s) (m_pasv s) (m_port s) (m_recv s) (m_send s) (m_urgent s) (m_deflate s) (m_zFlushed s) (m_eof s) (m_mlstType s) (m_mlstSize s) (m_mlstModify s) (m_mlstPerm s) (m_mlstUnixMode s) (m_devZero s) (world s).

Definition set_m_xferDirMode (v : XferDirMode) (s : FtpSession) : FtpSession :=
  mkFtpSession (m_config s) (m_commandSocket s) (m_pasvSocket s) (m_dataSocket s) (m_pendingCloseSocket s) (m_commandBuffer s) (m_responseBuffer s) (m_xferBuffer s) (m_zStreamBuffer s) (m_zStream s) (m_file s) (m_dir s) (m_glob s) (m_state s) (m_transfer s) v (m_timestamp s) (m_cwd s) (m_lwd s) (m_rename s) (m_workItem s) (m_portAddr s) (m_restartPosition s) (m_fileSize s) (m_filePosition s) (m_zStreamPosition s) (m_authorizedUser s) (m_authorizedPass s) (m_pasv s) (m_port s) (m_recv s) (m_send s) (m_urgent s) (m_deflate s) (m_zFlushed s) (m_eof s) (m_mlstType s) (m_mlstSize s) (m_mlstModify s) (m_mlstPerm s) (m_mlstUnixMode s) (m_devZero s) (world s).

Definition set_m_timestamp (v : Z) (s : FtpSession) : FtpSession :=
  mkFtpSession (m_config s) (m_commandSocket s) (m_pasvSocket s) (m_dataSocket s) (m_pendingCloseSocket s) (m_commandBuffer s) (m_responseBuffer s) (m_xferBuffer s) (m_zStreamBuffer s) (m_zStream s) (m_file s) (m_dir s) (m_glob s) (m_state s) (m_transfer s) (m_xferDirMode s) v (m_cwd s) (m_lwd s) (m_rename s) (m_workItem s) (m_portAddr s) (m_restartPosition s) (m_fileSize s) (m_filePosition s) (m_zStreamPosition s) (m_authorizedUser s) (m_authorizedPass s) (m_pasv s) (m_port s) (m_recv s) (m_send s) (m_urgent s) (m_deflate s) (m_zFlushed s) (m_eof s) (m_mlstType s) (m_mlstSize s) (m_mlstModify s) (m_mlstPerm s) (m_mlstUnixMode s) (m_devZero s) (world s).

Definition set_m_cwd (v : string) (s : FtpSession) : FtpSession :=
  mkFtpSession (m_config s) (m_commandSocket s) (m_pasvSocket s) (m_dataSocket s) (m_pendingCloseSocket s) (m_commandBuffer s) (m_responseBuffer s) (m_xferBuffer s) (m_zStreamBuffer s) (m_zStream s) (m_file s) (m_dir s) (m_glob s) (m_state s) (m_transfer s) (m_xferDirMode s) (m_timestamp s) v (m_lwd s) (m_rename s) (m_workItem s) (m_portAddr s) (m_restartPosition s) (m_fileSize s) (m_filePosition s) (m_zStreamPosition s) (m_authorizedUser s) (m_authorizedPass s) (m_pasv s) (m_port s) (m_recv s) (m_send s) (m_urgent s) (m_deflate s) (m_zFlushed s) (m_eof s) (m_mlstType s) (m_mlstSize s) (m_mlstModify s) (m_mlstPerm s) (m_mlstUnixMode s) (m_devZero s) (world s).

Definition set_m_lwd (v : string) (s : FtpSession) : FtpSession :=
  mkFtpSession (m_config s) (m_commandSocket s) (m_pasvSocket s) (m_dataSocket s) (m_pendingCloseSocket s) (m_commandBuffer s) (m_responseBuffer s) (m_xferBuffer s) (m_zStreamBuffer s) (m_zStream s) (m_file s) (m_dir s) (m_glob s) (m_state s) (m_transfer s) (m_xferDirMode s) (m_timestamp s) (m_cwd s) v (m_rename s) (m_workItem s) (m_portAddr s) (m_restartPosition s) (m_fileSize s) (m_filePosition s) (m_zStreamPosition s) (m_authorizedUser s) (m_authorizedPass s) (m_pasv s) (m_port s) (m_recv s) (m_send s) (m_urgent s) (m_deflate s) (m_zFlushed s) (m_eof s) (m_mlstType s) (m_mlstSize s) (m_mlstModify s) (m_mlstPerm s) (m_mlstUnixMode s) (m_devZero s) (world s).

Definition set_m_rename (v : string) (s : FtpSession) : FtpSession :=
  mkFtpSession (m_config s) (m_commandSocket s) (m_pasvSocket s) (m_dataSocket s) (m_pendingCloseSocket s) (m_commandBuffer s) (m_responseBuffer s) (m_xferBuffer s) (m_zStreamBuffer s) (m_zStream s) (m_file s) (m_dir s) (m_glob s) (m_state s) (m_transfer s) (m_xferDirMode s) (m_timestamp s) (m_cwd s) (m_lwd s) v (m_workItem s) (m_portAddr s) (m_restartPosition s) (m_fileSize s) (m_filePosition s) (m_zStreamPosition s) (m_authorizedUser s) (m_authorizedPass s) (m_pasv s) (m_port s) (m_recv s) (m_send s) (m_urgent s) (m_deflate s) (m_zFlushed s) (m_eof s) (m_mlstType s) (m_mlstSize s) (m_mlstModify s) (m_mlstPerm s) (m_mlstUnixMode s) (m_devZero s) (world s).

Definition set_m_workItem (v : string) (s : FtpSession) : FtpSession :=
  mkFtpSession (m_config s) (m_commandSocket s) (m_pasvSocket s) (m_dataSocket s) (m_pendingCloseSocket s) (m_commandBuffer s) (m_responseBuffer s) (m_xferBuffer s) (m_zStreamBuffer s) (m_zStream s) (m_file s) (m_dir s) (m_glob s) (m_state s) (m_transfer s) (m_xferDirMode s) (m_timestamp s) (m_cwd s) (m_lwd s) (m_rename s) v (m_portAddr s) (m_restartPosition s) (m_fileSize s) (m_filePosition s) (m_zStreamPosition s) (m_authorizedUser s) (m_authorizedPass s) (m_pasv s) (m_port s) (m_recv s) (m_send s) (m_urgent s) (m_deflate s) (m_zFlushed s) (m_eof s) (m_mlstType s) (m_mlstSize s) (m_mlstModify s) (m_mlstPerm s) (m_mlstUnixMode s) (m_devZero s) (world s).

Definition set_m_portAddr (v : SockAddr) (s : FtpSession) : FtpSession :=
  mkFtpSession (m_config s) (m_commandSocket s) (m_pasvSocket s) (m_dataSocket s) (m_pendingCloseSocket s) (m_commandBuffer s) (m_responseBuffer s) (m_xferBuffer s) (m_zStreamBuffer s) (m_zStream s) (m_file s) (m_dir s) (m_glob s) (m_state s) (m_transfer s) (m_xferDirMode s) (m_timestamp s) (m_cwd s) (m_lwd s) (m_rename s) (m_workItem s) v (m_restartPosition s) (m_fileSize s) (m_filePosition s) (m_zStreamPosition s) (m_authorizedUser s) (m_authorizedPass s) (m_pasv s) (m_port s) (m_recv s) (m_send s) (m_urgent s) (m_deflate s) (m_zFlushed s) (m_eof s) (m_mlstType s) (m_mlstSize s) (m_mlstModify s) (m_mlstPerm s) (m_mlstUnixMode s) (m_devZero s) (world s).

Definition set_m_restartPosition (v : Z) (s : FtpSession) : FtpSession :=
  mkFtpSession (m_config s) (m_commandSocket s) (m_pasvSocket s) (m_dataSocket s) (m_pendingCloseSocket s) (m_commandBuffer s) (m_responseBuffer s) (m_xferBuffer s) (m_zStreamBuffer s) (m_zStream s) (m_file s) (m_dir s) (m_glob s) (m_state s) (m_transfer s) (m_xferDirMode s) (m_timestamp s) (m_cwd s) (m_lwd s) (m_rename s) (m_workItem s) (m_portAddr s) v (m_fileSize s) (m_filePosition s) (m_zStreamPosition s) (m_authorizedUser s) (m_authorizedPass s) (m_pasv s) (m_port s) (m_recv s) (m_send s) (m_urgent s) (m_deflate s) (m_zFlushed s) (m_eof s) (m_mlstType s) (m_mlstSize s) (m_mlstModify s) (m_mlstPerm s) (m_mlstUnixMode s) (m_devZero s) (world s).

Definition set_m_fileSize (v : Z) (s : FtpSession) : FtpSession :=
  mkFtpSession (m_config s) (m_commandSocket s) (m_pasvSocket s) (m_dataSocket s) (m_pendingCloseSocket s) (m_commandBuffer s) (m_responseBuffer s) (m_xferBuffer s) (m_zStreamBuffer s) (m_zStream s) (m_file s) (m_dir s) (m_glob s) (m_state s) (m_transfer s) (m_xferDirMode s) (m_timestamp s) (m_cwd s) (m_lwd s) (m_rename s) (m_workItem s) (m_portAddr s) (m_restartPosition s) v (m_filePosition s) (m_zStreamPosition s) (m_authorizedUser s) (m_authorizedPass s) (m_pasv s) (m_port s) (m_recv s) (m_send s) (m_urgent s) (m_deflate s) (m_zFlushed s) (m_eof s) (m_mlstType s) (m_mlstSize s) (m_mlstModify s) (m_mlstPerm s) (m_mlstUnixMode s) (m_devZero s) (world s).

Definition set_m_filePosition (v : Z) (s : FtpSession) : FtpSession :=
  mkFtpSession (m_config s) (m_commandSocket s) (m_pasvSocket s) (m_dataSocket s) (m_pendingCloseSocket s) (m_commandBuffer s) (m_responseBuffer s) (m_xferBuffer s) (m_zStreamBuffer s) (m_zStream s) (m_file s) (m_dir s) (m_glob s) (m_state s) (m_transfer s) (m_xferDirMode s) (m_timestamp s) (m_cwd s) (m_lwd s) (m_rename s) (m_workItem s) (m_portAddr s) (m_restartPosition s) (m_fileSize s) v (m_zStreamPosition s) (m_authorizedUser s) (m_authorizedPass s) (m_pasv s) (m_port s) (m_recv s) (m_send s) (m_urgent s) (m_deflate s) (m_zFlushed s) (m_eof s) (m_mlstType s) (m_mlstSize s) (m_mlstModify s) (m_mlstPerm s) (m_mlstUnixMode s) (m_devZero s) (world s).

Definition set_m_zStreamPosition (v : Z) (s : FtpSession) : FtpSession :=
  mkFtpSession (m_config s) (m_commandSocket s) (m_pasvSocket s) (m_dataSocket s) (m_pendingCloseSocket s) (m_commandBuffer s) (m_responseBuffer s) (m_xferBuffer s) (m_zStreamBuffer s) (m_zStream s) (m_file s) (m_dir s) (m_glob s) (m_state s) (m_transfer s) (m_xferDirMode s) (m_timestamp s) (m_cwd s) (m_lwd s) (m_rename s) (m_workItem s) (m_portAddr s) (m_restartPosition s) (m_fileSize s) (m_filePosition s) v (m_authorizedUser s) (m_authorizedPass s) (m_pasv s) (m_port s) (m_recv s) (m_send s) (m_urgent s) (m_deflate s) (m_zFlushed s) (m_eof s) (m_mlstType s) (m_mlstSize s) (m_mlstModify s) (m_mlstPerm s) (m_mlstUnixMode s) (m_devZero s) (world s).

Definition set_m_authorizedUser (v : bool) (s : FtpSession) : FtpSession :=
  mkFtpSession (m_config s) (m_commandSocket s) (m_pasvSocket s) (m_dataSocket s) (m_pendingCloseSocket s) (m_commandBuffer s) (m_responseBuffer s) (m_xferBuffer s) (m_zStreamBuffer s) (m_zStream s) (m_file s) (m_dir s) (m_glob s) (m_state s) (m_transfer s) (m_xferDirMode s) (m_timestamp s) (m_cwd s) (m_lwd s) (m_rename s) (m_workItem s) (m_portAddr s) (m_restartPosition s) (m_fileSize s) (m_filePosition s) (m_zStreamPosition s) v (m_authorizedPass s) (m_pasv s) (m_port s) (m_recv s) (m_send s) (m_urgent s) (m_deflate s) (m_zFlushed s) (m_eof s) (m_mlstType s) (m_mlstSize s) (m_mlstModify s) (m_mlstPerm s) (m_mlstUnixMode s) (m_devZero s) (world s).

Definition set_m_authorizedPass (v : bool) (s : FtpSession) : FtpSession :=
  mkFtpSession (m_config s) (m_commandSocket s) (m_pasvSocket s) (m_dataSocket s) (m_pendingCloseSocket s) (m_commandBuffer s) (m_responseBuffer s) (m_xferBuffer s) (m_zStreamBuffer s) (m_zStream s) (m_file s) (m_dir s) (m_glob s) (m_state s) (m_transfer s) (m_xferDirMode s) (m_timestamp s) (m_cwd s) (m_lwd s) (m_rename s) (m_workItem s) (m_portAddr s) (m_restartPosition s) (m_fileSize s) (m_filePosition s) (m_zStreamPosition s) (m_authorizedUser s) v (m_pasv s) (m_port s) (m_recv s) (m_send s) (m_urgent s) (m_deflate s) (m_zFlushed s) (m_eof s) (m_mlstType s) (m_mlstSize s) (m_mlstModify s) (m_mlstPerm s) (m_mlstUnixMode s) (m_devZero s) (world s).

Definition set_m_pasv (v : bool) (s : FtpSession) : FtpSession :=
  mkFtpSession (m_config s) (m_commandSocket s) (m_pasvSocket s) (m_dataSocket s) (m_pendingCloseSocket s) (m_commandBuffer s) (m_responseBuffer s) (m_xferBuffer s) (m_zStreamBuffer s) (m_zStream s) (m_file s) (m_dir s) (m_glob s) (m_state s) (m_transfer s) (m_xferDirMode s) (m_timestamp s) (m_cwd s) (m_lwd s) (m_rename s) (m_workItem s) (m_portAddr s) (m_restartPosition s) (m_fileSize s) (m_filePosition s) (m_zStreamPosition s) (m_authorizedUser s) (m_authorizedPass s) v (m_port s) (m_recv s) (m_send s) (m_urgent s) (m_deflate s) (m_zFlushed s) (m_eof s) (m_mlstType s) (m_mlstSize s) (m_mlstModify s) (m_mlstPerm s) (m_mlstUnixMode s) (m_devZero s) (world s).

Definition set_m_port (v : bool) (s : FtpSession) : FtpSession :=
  mkFtpSession (m_config s) (m_commandSocket s) (m_pasvSocket s) (m_dataSocket s) (m_pendingCloseSocket s) (m_commandBuffer s) (m_responseBuffer s) (m_xferBuffer s) (m_zStreamBuffer s) (m_zStream s) (m_file s) (m_dir s) (m_glob s) (m_state s) (m_transfer s) (m_xferDirMode s) (m_timestamp s) (m_cwd s) (m_lwd s) (m_rename s) (m_workItem s) (m_portAddr s) (m_restartPosition s) (m_fileSize s) (m_filePosition s) (m_zStreamPosition s) (m_authorizedUser s) (m_authorizedPass s) (m_pasv s) v (m_recv s) (m_send s) (m_urgent s) (m_deflate s) (m_zFlushed s) (m_eof s) (m_mlstType s) (m_mlstSize s) (m_mlstModify s) (m_mlstPerm s) (m_mlstUnixMode s) (m_devZero s) (world s).

Definition set_m_recv (v : bool) (s : FtpSession) : FtpSession :=
  mkFtpSession (m_config s) (m_commandSocket s) (m_pasvSocket s) (m_dataSocket s) (m_pendingCloseSocket s) (m_commandBuffer s) (m_responseBuffer s) (m_xferBuffer s) (m_zStreamBuffer s) (m_zStream s) (m_file s) (m_dir s) (m_glob s) (m_state s) (m_transfer s) (m_xferDirMode s) (m_timestamp s) (m_cwd s) (m_lwd s) (m_rename s) (m_workItem s) (m_portAddr s) (m_restartPosition s) (m_fileSize s) (m_filePosition s) (m_zStreamPosition s) (m_authorizedUser s) (m_authorizedPass s) (m_pasv s) (m_port s) v (m_send s) (m_urgent s) (m_deflate s) (m_zFlushed s) (m_eof s) (m_mlstType s) (m_mlstSize s) (m_mlstModify s) (m_mlstPerm s) (m_mlstUnixMode s) (m_devZero s) (world s).

Definition set_m_send (v : bool) (s : FtpSession) : FtpSession :=
  mkFtpSession (m_config s) (m_commandSocket s) (m_pasvSocket s) (m_dataSocket s) (m_pendingCloseSocket s) (m_commandBuffer s) (m_responseBuffer s) (m_xferBuffer s) (m_zStreamBuffer s) (m_zStream s) (m_file s) (m_dir s) (m_glob s) (m_state s) (m_transfer s) (m_xferDirMode s) (m_timestamp s) (m_cwd s) (m_lwd s) (m_rename s) (m_workItem s) (m_portAddr s) (m_restartPosition s) (m_fileSize s) (m_filePosition s) (m_zStreamPosition s) (m_authorizedUser s) (m_authorizedPass s) (m_pasv s) (m_port s) (m_recv s) v (m_urgent s) (m_deflate s) (m_zFlushed s) (m_eof s) (m_mlstType s) (m_mlstSize s) (m_mlstModify s) (m_mlstPerm s) (m_mlstUnixMode s) (m_devZero s) (world s).

Definition set_m_urgent (v : bool) (s : FtpSession) : FtpSession :=
  mkFtpSession (m_config s) (m_commandSocket s) (m_pasvSocket s) (m_dataSocket s) (m_pendingCloseSocket s) (m_commandBuffer s) (m_responseBuffer s) (m_xferBuffer s) (m_zStreamBuffer s) (m_zStream s) (m_file s) (m_dir s) (m_glob s) (m_state s) (m_transfer s) (m_xferDirMode s) (m_timestamp s) (m_cwd s) (m_lwd s) (m_rename s) (m_workItem s) (m_portAddr s) (m_restartPosition s) (m_fileSize s) (m_filePosition s) (m_zStreamPosition s) (m_authorizedUser s) (m_authorizedPass s) (m_pasv s) (m_port s) (m_recv s) (m_send s) v (m_deflate s) (m_zFlushed s) (m_eof s) (m_mlstType s) (m_mlstSize s) (m_mlstModify s) (m_mlstPerm s) (m_mlstUnixMode s) (m_devZero s) (world s).

Definition set_m_deflate (v : bool) (s : FtpSession) : FtpSession :=
  mkFtpSession (m_config s) (m_commandSocket s) (m_pasvSocket s) (m_dataSocket s) (m_pendingCloseSocket s) (m_commandBuffer s) (m_responseBuffer s) (m_xferBuffer s) (m_zStreamBuffer s) (m_zStream s) (m_file s) (m_dir s) (m_glob s) (m_state s) (m_transfer s) (m_xferDirMode s) (m_timestamp s) (m_cwd s) (m_lwd s) (m_rename s) (m_workItem s) (m_portAddr s) (m_restartPosition s) (m_fileSize s) (m_filePosition s) (m_zStreamPosition s) (m_authorizedUser s) (m_authorizedPass s) (m_pasv s) (m_port s) (m_recv s) (m_send s) (m_urgent s) v (m_zFlushed s) (m_eof s) (m_mlstType s) (m_mlstSize s) (m_mlstModify s) (m_mlstPerm s) (m_mlstUnixMode s) (m_devZero s) (world s).

Definition set_m_zFlushed (v : bool) (s : FtpSession) : FtpSession :=
  mkFtpSession (m_config s) (m_commandSocket s) (m_pasvSocket s) (m_dataSocket s) (m_pendingCloseSocket s) (m_commandBuffer s) (m_responseBuffer s) (m_xferBuffer s) (m_zStreamBuffer s) (m_zStream s) (m_file s) (m_dir s) (m_glob s) (m_state s) (m_transfer s) (m_xferDirMode s) (m_timestamp s) (m_cwd s) (m_lwd s) (m_rename s) (m_workItem s) (m_portAddr s) (m_restartPosition s) (m_fileSize s) (m_filePosition s) (m_zStreamPosition s) (m_authorizedUser s) (m_authorizedPass s) (m_pasv s) (m_port s) (m_recv s) (m_send s) (m_urgent s) (m_deflate s) v (m_eof s) (m_mlstType s) (m_mlstSize s) (m_mlstModify s) (m_mlstPerm s) (m_mlstUnixMode s) (m_devZero s) (world s).

Definition set_m_eof (v : bool) (s : FtpSession) : FtpSession :=
  mkFtpSession (m_config s) (m_commandSocket s) (m_pasvSocket s) (m_dataSocket s) (m_pendingCloseSocket s) (m_commandBuffer s) (m_responseBuffer s) (m_xferBuffer s) (m_zStreamBuffer s) (m_zStream s) (m_file s) (m_dir s) (m_glob s) (m_state s) (m_transfer s) (m_xferDirMode s) (m_timestamp s) (m_cwd s) (m_lwd s) (m_rename s) (m_workItem s) (m_portAddr s) (m_restartPosition s) (m_fileSize s) (m_filePosition s) (m_zStreamPosition s) (m_authorizedUser s) (m_authorizedPass s) (m_pasv s) (m_port s) (m_recv s) (m_send s) (m_urgent s) (m_deflate s) (m_zFlushed s) v (m_mlstType s) (m_mlstSize s) (m_mlstModify s) (m_mlstPerm s) (m_mlstUnixMode s) (m_devZero s) (world s).

Definition set_m_mlstType (v : bool) (s : FtpSession) : FtpSession :=
  mkFtpSession (m_config s) (m_commandSocket s) (m_pasvSocket s) (m_dataSocket s) (m_pendingCloseSocket s) (m_commandBuffer s) (m_responseBuffer s) (m_xferBuffer s) (m_zStreamBuffer s) (m_zStream s) (m_file s) (m_dir s) (m_glob s) (m_state s) (m_transfer s) (m_xferDirMode s) (m_timestamp s) (m_cwd s) (m_lwd s) (m_rename s) (m_workItem s) (m_portAddr s) (m_restartPosition s) (m_fileSize s) (m_filePosition s) (m_zStreamPosition s) (m_authorizedUser s) (m_authorizedPass s) (m_pasv s) (m_port s) (m_recv s) (m_send s) (m_urgent s) (m_deflate s) (m_zFlushed s) (m_eof s) v (m_mlstSize s) (m_mlstModify s) (m_mlstPerm s) (m_mlstUnixMode s) (m_devZero s) (world s).

Definition set_m_mlstSize (v : bool) (s : FtpSession) : FtpSession :=
  mkFtpSession (m_config s) (m_commandSocket s) (m_pasvSocket s) (m_dataSocket s) (m_pendingCloseSocket s) (m_commandBuffer s) (m_responseBuffer s) (m_xferBuffer s) (m_zStreamBuffer s) (m_zStream s) (m_file s) (m_dir s) (m_glob s) (m_state s) (m_transfer s) (m_xferDirMode s) (m_timestamp s) (m_cwd s) (m_lwd s) (m_rename s) (m_workItem s) (m_portAddr s) (m_restartPosition s) (m_fileSize s) (m_filePosition s) (m_zStreamPosition s) (m_authorizedUser s) (m_authorizedPass s) (m_pasv s) (m_port s) (m_recv s) (m_send s) (m_urgent s) (m_deflate s) (m_zFlushed s) (m_eof s) (m_mlstType s) v (m_mlstModify s) (m_mlstPerm s) (m_mlstUnixMode s) (m_devZero s) (world s).

Definition set_m_mlstModify (v : bool) (s : FtpSession) : FtpSession :=
  mkFtpSession (m_config s) (m_commandSocket s) (m_pasvSocket s) (m_dataSocket s) (m_pendingCloseSocket s) (m_commandBuffer s) (m_responseBuffer s) (m_xferBuffer s) (m_zStreamBuffer s) (m_zStream s) (m_file s) (m_dir s) (m_glob s) (m_state s) (m_transfer s) (m_xferDirMode s) (m_timestamp s) (m_cwd s) (m_lwd s) (m_rename s) (m_workItem s) (m_portAddr s) (m_restartPosition s) (m_fileSize s) (m_filePosition s) (m_zStreamPosition s) (m_authorizedUser s) (m_authorizedPass s) (m_pasv s) (m_port s) (m_recv s) (m_send s) (m_urgent s) (m_deflate s) (m_zFlushed s) (m_eof s) (m_mlstType s) (m_mlstSize s) v (m_mlstPerm s) (m_mlstUnixMode s) (m_devZero s) (world s).

Definition set_m_mlstPerm (v : bool) (s : FtpSession) : FtpSession :=
  mkFtpSession (m_config s) (m_commandSocket s) (m_pasvSocket s) (m_dataSocket s) (m_pendingCloseSocket s) (m_commandBuffer s) (m_responseBuffer s) (m_xferBuffer s) (m_zStreamBuffer s) (m_zStream s) (m_file s) (m_dir s) (m_glob s) (m_state s) (m_transfer s) (m_xferDirMode s) (m_timestamp s) (m_cwd s) (m_lwd s) (m_rename s) (m_workItem s) (m_portAddr s) (m_restartPosition s) (m_fileSize s) (m_filePosition s) (m_zStreamPosition s) (m_authorizedUser s) (m_authorizedPass s) (m_pasv s) (m_port s) (m_recv s) (m_send s) (m_urgent s) (m_deflate s) (m_zFlushed s) (m_eof s) (m_mlstType s) (m_mlstSize s) (m_mlstModify s) v (m_mlstUnixMode s) (m_devZero s) (world s).

Definition set_m_mlstUnixMode (v : bool) (s : FtpSession) : FtpSession :=
  mkFtpSession (m_config s) (m_commandSocket s) (m_pasvSocket s) (m_dataSocket s) (m_pendingCloseSocket s) (m_commandBuffer s) (m_responseBuffer s) (m_xferBuffer s) (m_zStreamBuffer s) (m_zStream s) (m_file s) (m_dir s) (m_glob s) (m_state s) (m_transfer s) (m_xferDirMode s) (m_timestamp s) (m_cwd s) (m_lwd s) (m_rename s) (m_workItem s) (m_portAddr s) (m_restartPosition s) (m_fileSize s) (m_filePosition s) (m_zStreamPosition s) (m_authorizedUser s) (m_authorizedPass s) (m_pasv s) (m_port s) (m_recv s) (m_send s) (m_urgent s) (m_deflate s) (m_zFlushed s) (m_eof s) (m_mlstType s) (m_mlstSize s) (m_mlstModify s) (m_mlstPerm s) v (m_devZero s) (world s).

Definition set_m_devZero (v : bool) (s : FtpSession) : FtpSession :=
  mkFtpSession (m_config s) (m_commandSocket s) (m_pasvSocket s) (m_dataSocket s) (m_pendingCloseSocket s) (m_commandBuffer s) (m_responseBuffer s) (m_xferBuffer s) (m_zStreamBuffer s) (m_zStream s) (m_file s) (m_dir s) (m_glob s) (m_state s) (m_transfer s) (m_xferDirMode s) (m_timestamp s) (m_cwd s) (m_lwd s) (m_rename s) (m_workItem s) (m_portAddr s) (m_restartPosition s) (m_fileSize s) (m_filePosition s) (m_zStreamPosition s) (m_authorizedUser s) (m_authorizedPass s) (m_pasv s) (m_port s) (m_recv s) (m_send s) (m_urgent s) (m_deflate s) (m_zFlushed s) (m_eof s) (m_mlstType s) (m_mlstSize s) (m_mlstModify s) (m_mlstPerm s) (m_mlstUnixMode s) v (world s).

Definition set_world (v : World) (s : FtpSession) : FtpSession :=
  mkFtpSession (m_config s) (m_commandSocket s) (m_pasvSocket s) (m_dataSocket s) (m_pendingCloseSocket s) (m_commandBuffer s) (m_responseBuffer s) (m_xferBuffer s) (m_zStreamBuffer s) (m_zStream s) (m_file s) (m_dir s) (m_glob s) (m_state s) (m_transfer s) (m_xferDirMode s) (m_timestamp s) (m_cwd s) (m_lwd s) (m_rename s) (m_workItem s) (m_portAddr s) (m_restartPosition s) (m_fileSize s) (m_filePosition s) (m_zStreamPosition s) (m_authorizedUser s) (m_authorizedPass s) (m_pasv s) (m_port s) (m_recv s) (m_send s) (m_urgent s) (m_deflate s) (m_zFlushed s) (m_eof s) (m_mlstType s) (m_mlstSize s) (m_mlstModify s) (m_mlstPerm s) (m_mlstUnixMode s) (m_devZero s) v.

(* ================================================================== *)
(** ** Calls to the platform from a session *)

Definition answer (c : Call) (s : FtpSession) : Ret := ask c (world s).

Definition sys (c : Call) (s : FtpSession) : FtpSession :=
  set_world (tell c (world s)) s.

Definition errno (s : FtpSession) : Z := w_errno (world s).

Definition assign_errno (e : Z) (s : FtpSession) : FtpSession :=
  set_world (set_errno e (world s)) s.

Definition strerror (e : Z) (s : FtpSession) : string := w_strerror (world s) e.

(** [m_timestamp = std::time (nullptr)]. *)
Definition stamp (s : FtpSession) : FtpSession :=
  set_m_timestamp (rc (answer SysTime s)) (sys SysTime s).

(** Statements in sequence. *)
Definition andThen (f g : FtpSession -> FtpSession) : FtpSession -> FtpSession :=
  fun s => g (f s).
Infix ";;" := andThen (at level 62, left associativity).

(* ================================================================== *)
(** ** printf conversions *)

Definition digit_char (d : Z) : ascii := ascii_of_nat (48 + Z.to_nat d).

(** The digits of a non-negative number in a base up to ten, most
    significant first. *)
Fixpoint render_base (base : Z) (fuel : nat) (n : Z) (acc : string) : string :=
  match fuel with
  | O => acc
  | S fuel' =>
    let acc' := String (digit_char (n mod base)) acc in
    if (n / base =? 0)%Z then acc' else render_base base fuel' (n / base) acc'
  end.

(** [%u], [%lu], [%llu] of a value already reduced to its type. *)
Definition fmt_u (n : Z) : string := render_base 10 (S (Z.to_nat (Z.log2 n))) n EmptyString.

(** [%lo]. *)
Definition fmt_o (n : Z) : string := render_base 8 (S (Z.to_nat (Z.log2 n))) n EmptyString.

(** [%d]. *)
Definition fmt_d (n : Z) : string :=
  if (n <? 0)%Z then "-" +++ fmt_u (- n) else fmt_u n.

(** [%02u] and the two-digit fields of [strftime]. *)
Definition fmt_02u (n : Z) : string :=
  if (n <? 10)%Z then "0" +++ fmt_u n else fmt_u n.

(* ================================================================== *)
(** ** gmtime and strftime *)

(** Modelled on the C library: [std::gmtime] (proleptic Gregorian
    calendar, no leap seconds) and the conversions of [std::strftime] the
    session uses, in the C locale. *)
Record tm := mkTm {
  tm_year : Z;   (* years since 1900 *)
  tm_mon : Z;    (* 0 .. 11 *)
  tm_mday : Z;   (* 1 .. 31 *)
  tm_hour : Z;
  tm_min : Z;
  tm_sec : Z
}.

Definition INT_MAX : Z := (2 ^ 31 - 1)%Z.
Definition INT_MIN : Z := (- 2 ^ 31)%Z.

Definition gmtime (t : Z) : option tm :=
  let days := (t / 86400)%Z in
  let secs := (t mod 86400)%Z in
  let z := (days + 719468)%Z in
  let era := (z / 146097)%Z in
  let doe := (z - era * 146097)%Z in
  let yoe := ((doe - doe / 1460 + doe / 36524 - doe / 146096) / 365)%Z in
  let doy := (doe - (365 * yoe + yoe / 4 - yoe / 100))%Z in
  let mp := ((5 * doy + 2) / 153)%Z in
  let d := (doy - (153 * mp + 2) / 5 + 1)%Z in
  let m := (if mp <? 10 then mp + 3 else mp - 9)%Z in
  let y := (yoe + era * 400 + (if m <=? 2 then 1 else 0))%Z in
  if ((y - 1900 <? INT_MIN) || (INT_MAX <? y - 1900))%Z then None
  else Some (mkTm (y - 1900) (m - 1) d (secs / 3600) (secs / 60 mod 60) (secs mod 60)).

Definition month_abbrev (mon : Z) : string :=
  match mon with
  | 0 => "Jan" | 1 => "Feb" | 2 => "Mar" | 3 => "Apr" | 4 => "May" | 5 => "Jun"
  | 6 => "Jul" | 7 => "Aug" | 8 => "Sep" | 9 => "Oct" | 10 => "Nov" | 11 => "Dec"
  | _ => "?"
  end%Z.

(** [%Y], [%b] and [%e]. *)
Definition fmt_Y (t : tm) : string := fmt_d (tm_year t + 1900).
Definition fmt_b (t : tm) : string := month_abbrev (tm_mon t).
Definition fmt_e (t : tm) : string :=
  if (tm_mday t <? 10)%Z then " " +++ fmt_u (tm_mday t) else fmt_u (tm_mday t).

(** ["Modify=%Y%m%d%H%M%S;"] *)
Definition strftime_modify (t : tm) : string :=
  "Modify=" +++ fmt_Y t +++ fmt_02u (tm_mon t + 1) +++ fmt_02u (tm_mday t)
    +++ fmt_02u (tm_hour t) +++ fmt_02u (tm_min t) +++ fmt_02u (tm_sec t) +++ ";".

(** ["%b %e %Y "] *)
Definition strftime_date (t : tm) : string :=
  fmt_b t +++ " " +++ fmt_e t +++ " " +++ fmt_Y t +++ " ".

(** ["%b %e %H:%M "] *)
Definition strftime_time (t : tm) : string :=
  fmt_b t +++ " " +++ fmt_e t +++ " " +++ fmt_02u (tm_hour t) +++ ":"
    +++ fmt_02u (tm_min t) +++ " ".

(** What [std::strftime (buf, max, ...)] returns for the text it formats:
    its length when the text and its NUL fit in [max] bytes, otherwise 0. *)
Definition strftime_rc (max : nat) (text : string) : nat :=
  if String.length text <? max then String.length text else 0.

(** The bytes [std::snprintf (buf, avail, ...)] stores for the text it
    formats, the terminating NUL left aside when the text fits. *)
Definition snprintf_bytes (avail : nat) (text : string) : string :=
  if String.length text <? avail then text
  else if avail =? 0 then EmptyString
  else substr 0 (avail - 1) text +++ str1 NUL.

(* ================================================================== *)
(** ** Sockets of a session *)

Definition holds (o : option Socket) (fd : Socket) : nat :=
  match o with
  | Some x => if x =? fd then 1 else 0
  | None => 0
  end.

(** [use_count] of the shared socket [fd]: the command slot, the data slot
    and the pending-close list are its possible owners. *)
Definition use_count (fd : Socket) (s : FtpSession) : nat :=
  holds (m_commandSocket s) fd + holds (m_dataSocket s) fd
  + count_occ Nat.eq_dec (m_pendingCloseSocket s) fd.

(** [closeSocket (socket_)] for the slot read by [get] and written by
    [set]. *)
Definition closeSocket (get : FtpSession -> option Socket)
    (set : option Socket -> FtpSession -> FtpSession) (s : FtpSession) : FtpSession :=
  match get s with
  | Some fd =>
    if use_count fd s =? 1 then
      let s := sys (SockShutdown fd) s in
      let s := sys (SockSetLinger fd) s in
      set None (set_m_pendingCloseSocket (m_pendingCloseSocket s ++ [fd]) s)
    else set None s
  | None => s
  end.

Definition closeCommand : FtpSession -> FtpSession :=
  closeSocket m_commandSocket set_m_commandSocket.

(** [closePasv]: the listener is moved into a local that goes out of
    scope, which closes it. *)
Definition closePasv (s : FtpSession) : FtpSession :=
  match m_pasvSocket s with
  | Some fd => sys (SockClose fd) (set_m_pasvSocket None s)
  | None => s
  end.

Definition closeData (s : FtpSession) : FtpSession :=
  let s := closeSocket m_dataSocket set_m_dataSocket s in
  let s := set_m_recv false s in
  set_m_send false s.

(** Assignment to [m_dataSocket]: the reference held before is dropped,
    which closes that socket when it was the last one. *)
Definition assign_dataSocket (v : option Socket) (s : FtpSession) : FtpSession :=
  match m_dataSocket s with
  | Some old =>
    if use_count old s =? 1 then sys (SockClose old) (set_m_dataSocket v s)
    else set_m_dataSocket v s
  | None => set_m_dataSocket v s
  end.

Definition file_close (s : FtpSession) : FtpSession :=
  if m_file s then sys FileClose (set_m_file false s) else s.

Definition dir_close (s : FtpSession) : FtpSession :=
  if m_dir s then sys DirClose (set_m_dir false s) else s.

Definition zStream_reset (s : FtpSession) : FtpSession :=
  match m_zStream s with
  | Some k => sys (ZEnd k) (set_m_zStream None s)
  | None => s
  end.

Definition authorized (s : FtpSession) : bool :=
  m_authorizedUser s && m_authorizedPass s.

Definition setState (state_ : State) (closePasv_ closeData_ : bool)
    (s : FtpSession) : FtpSession :=
  let s := set_m_state state_ s in
  let s := stamp s in
  let s := if closePasv_ then closePasv s else s in
  let s := if closeData_ then closeData s else s in
  match state_ with
  | COMMAND =>
    let s := set_m_restartPosition 0%Z s in
    let s := set_m_fileSize 0%Z s in
    let s := set_m_filePosition 0%Z s in
    let s := set_m_workItem EmptyString s in
    let s := set_m_devZero false s in
    let s := file_close s in
    let s := dir_close s in
    zStream_reset s
  | _ => s
  end.

(** [m_commandSocket->write (m_responseBuffer)]: [Socket::write
    (IOBuffer &)] hands the used area to the socket and marks free what
    the socket took.  [response_write_rc] is the value it returns,
    [response_write] the session after it. *)
Definition response_write_rc (fd : Socket) (s : FtpSession) : Z :=
  rc (answer (SockWrite fd (usedArea (m_responseBuffer s))) s).

Definition response_write (fd : Socket) (s : FtpSession) : FtpSession :=
  let bytes := response_write_rc fd s in
  let s := sys (SockWrite fd (usedArea (m_responseBuffer s))) s in
  if (0 <? bytes)%Z
  then set_m_responseBuffer (markFree (Z.to_nat bytes) (m_responseBuffer s)) s
  else s.

(** [sendResponse (fmt_, ...)], applied to the formatted text. *)
Definition sendResponse (response : string) (s : FtpSession) : FtpSession :=
  match m_commandSocket s with
  | None => s
  | Some fd =>
    let size := freeSize (m_responseBuffer s) in
    if size <? String.length response then closeCommand s
    else
      let s := set_m_responseBuffer
                 (markUsed (snprintf_bytes size response) (m_responseBuffer s)) s in
      let bytes := response_write_rc fd s in
      let s := response_write fd s in
      if (bytes <=? 0)%Z then
        if (bytes =? 0)%Z || negb (errno s =? EWOULDBLOCK)%Z then closeCommand s else s
      else
        let s := stamp s in
        set_m_responseBuffer (coalesce (m_responseBuffer s)) s
  end.

(** [sendResponse (std::string_view)]: the text is queued, not written. *)
Definition sendResponse_view (response_ : string) (s : FtpSession) : FtpSession :=
  match m_commandSocket s with
  | None => s
  | Some fd =>
    let size := freeSize (m_responseBuffer s) in
    if size <? String.length response_ then closeCommand s
    else set_m_responseBuffer (markUsed response_ (m_responseBuffer s)) s
  end.

(** [writeResponse]; the reactor calls it on an event of the command
    socket. *)
Definition writeResponse (s : FtpSession) : FtpSession :=
  match m_commandSocket s with
  | None => s
  | Some fd =>
    let bytes := response_write_rc fd s in
    let s := response_write fd s in
    if (bytes <=? 0)%Z then closeCommand s
    else
      let s := stamp s in
      set_m_responseBuffer (coalesce (m_responseBuffer s)) s
  end.

(* ================================================================== *)
(** ** Paths against the file system *)

(** [resolvePath]: empty when the parent is missing or not a directory,
    otherwise the lexically resolved path. *)
Definition resolvePath (path_ : string) (s : FtpSession) : string * FtpSession :=
  let c := SysStat (c_str (dirName path_)) in
  let r := answer c s in
  let s := sys c s in
  if negb (rc r =? 0)%Z then (EmptyString, s)
  else if negb (S_ISDIR (st_mode (r_stat r))) then (EmptyString, assign_errno ENOTDIR s)
  else (resolvePath_lexical path_, s).

Definition buildResolvedPath (cwd_ args_ : string) (s : FtpSession)
    : string * FtpSession :=
  resolvePath (buildPath cwd_ args_) s.

(** [tzStat] and [tzLStat] of the POSIX build: the return code and the
    record of [::stat] and [::lstat]. *)
Definition tzStat_rc (path_ : string) (s : FtpSession) : Z :=
  rc (answer (SysStat path_) s).
Definition tzStat_st (path_ : string) (s : FtpSession) : stat_t :=
  r_stat (answer (SysStat path_) s).
Definition tzStat (path_ : string) (s : FtpSession) : FtpSession :=
  sys (SysStat path_) s.

Definition tzLStat_rc (path_ : string) (s : FtpSession) : Z :=
  rc (answer (SysLStat path_) s).
Definition tzLStat_st (path_ : string) (s : FtpSession) : stat_t :=
  r_stat (answer (SysLStat path_) s).
Definition tzLStat (path_ : string) (s : FtpSession) : FtpSession :=
  sys (SysLStat path_) s.

(** [std::string::find_last_of ('/')] then the cut [changeDir] and the
    listing code make with it. *)
Definition find_last_of (c : ascii) (s : string) : option nat := rfind c s.

Definition changeDir (args_ : string) (s : FtpSession) : bool * FtpSession :=
  if String.eqb args_ ".." then
    match find_last_of SLASH (m_cwd s) with
    | Some 0 => (true, set_m_cwd "/" s)
    | Some pos => (true, set_m_cwd (substr 0 pos (m_cwd s)) s)
    | None => (true, s)   (* excluded by the assertion *)
    end
  else
    let r := buildResolvedPath (m_cwd s) args_ s in
    let path := fst r in
    let s := snd r in
    if sempty path then (false, s)
    else
      let rc_ := tzStat_rc (c_str path) s in
      let st := tzStat_st (c_str path) s in
      let s := tzStat (c_str path) s in
      if negb (rc_ =? 0)%Z then (false, s)
      else if negb (S_ISDIR (st_mode st)) then (false, assign_errno ENOTDIR s)
      else (true, set_m_cwd path s).

(* ================================================================== *)
(** ** fillDirent *)

(** The bytes stored so far in the free area, or the error returned. *)
Definition Filled := (Z + string)%type.

(** [if (pos >= size) return EAGAIN; buffer[pos++] = c;] *)
Definition put (size : nat) (c : ascii) (out : Filled) : Filled :=
  match out with
  | inl e => inl e
  | inr o => if size <=? String.length o then inl EAGAIN else inr (o +++ str1 c)
  end.

Definition put_if (b : bool) (size : nat) (c : ascii) (out : Filled) : Filled :=
  if b then put size c out else out.

(** [rc = snprintf (&buffer[pos], size - pos, ...); if (rc > size - pos)
    return EAGAIN; pos += rc;] *)
Definition put_snprintf (size : nat) (text : string) (out : Filled) : Filled :=
  match out with
  | inl e => inl e
  | inr o =>
    let avail := size - String.length o in
    if avail <? String.length text then inl EAGAIN
    else inr (o +++ snprintf_bytes avail text)
  end.

(** The [Type=] fact when no type was passed in. *)
Definition mlst_type (mode : Z) : string :=
  if S_ISREG mode then "file"
  else if S_ISDIR mode then "dir"
  else if S_ISLNK mode then "os.unix=symlink"
  else if S_ISCHR mode then "os.unix=character"
  else if S_ISBLK mode then "os.unix=block"
  else if S_ISFIFO mode then "os.unix=fifo"
  else if S_ISSOCK mode then "os.unix=socket"
  else "???".

(** The [Modify=] fact. *)
Definition put_modify (size : nat) (err : Z) (mtime : Z) (out : Filled) : Filled :=
  match out with
  | inl e => inl e
  | inr o =>
    match gmtime mtime with
    | None => inl err
    | Some t =>
      let text := strftime_modify t in
      if strftime_rc (size - String.length o) text =? 0 then inl EAGAIN
      else inr (o +++ text)
    end
  end.

(** The [Perm=] fact. *)
Definition put_perm (size : nat) (mode : Z) (out : Filled) : Filled :=
  let header := "Perm=" in
  match out with
  | inl e => inl e
  | inr o =>
    if size - String.length o <? String.length header then inl EAGAIN
    else
      let out := inr (o +++ header) in
      let out := put_if (S_ISREG mode && has_bit mode S_IWUSR) size "a" out in
      let out := put_if (S_ISDIR mode && has_bit mode S_IWUSR) size "c" out in
      let out := put size "d" out in
      let out := put_if (S_ISDIR mode && has_bit mode S_IXUSR) size "e" out in
      let out := put size "f" out in
      let out := put_if (S_ISDIR mode && has_bit mode S_IRUSR) size "l" out in
      let out := put_if (S_ISDIR mode && has_bit mode S_IWUSR) size "m" out in
      let out := put_if (S_ISDIR mode && has_bit mode S_IWUSR) size "p" out in
      let out := put_if (S_ISREG mode && has_bit mode S_IRUSR) size "r" out in
      let out := put_if (S_ISREG mode && has_bit mode S_IWUSR) size "w" out in
      put size ";" out
  end.

Definition unix_mode_mask : Z :=
  Z.lor S_IRWXU (Z.lor S_IRWXG (Z.lor S_IRWXO (Z.lor S_ISVTX (Z.lor S_ISGID S_ISUID)))).

(** The last byte of a string. *)
Fixpoint last_byte (s : string) : option ascii :=
  match s with
  | EmptyString => None
  | String c EmptyString => Some c
  | String _ s' => last_byte s'
  end.

(** [buffer[pos - 1]]: the byte stored last, or with [pos = 0] the byte in
    front of the free area, which is the last used byte of the buffer or,
    failing that, memory the session never stored. *)
Definition byte_before (o : string) (buf : IOBuffer) (s : FtpSession) : ascii :=
  match last_byte o with
  | Some c => c
  | None =>
    match last_byte (buf_used buf) with
    | Some c => c
    | None =>
      match r_data (answer StaleByte s) with
      | String c _ => c
      | EmptyString => NUL
      end
    end
  end.

(** The MLSD and MLST line up to the name. *)
Definition fill_facts (size : nat) (buf : IOBuffer) (s : FtpSession) (st_ : stat_t)
    (type_ : option string) : Filled :=
  let out : Filled := inr EmptyString in
  let out := put_if (XferDirMode_eqb (m_xferDirMode s) MLST_mode) size SPACE out in
  let out :=
    if m_mlstType s then
      let type_ := match type_ with Some t => t | None => mlst_type (st_mode st_) end in
      put_snprintf size ("Type=" +++ type_ +++ ";") out
    else out in
  let out :=
    if m_mlstSize s
    then put_snprintf size ("Size=" +++ fmt_u (wrap64 (st_size st_)) +++ ";") out
    else out in
  let out := if m_mlstModify s then put_modify size (errno s) (st_mtime st_) out else out in
  let out := if m_mlstPerm s then put_perm size (st_mode st_) out else out in
  let out :=
    if m_mlstUnixMode s
    then put_snprintf size
           ("UNIX.mode=0" +++ fmt_o (Z.land (st_mode st_) unix_mode_mask) +++ ";") out
    else out in
  match out with
  | inl e => inl e
  | inr o =>
    if Ascii.eqb (byte_before o buf s) SPACE then inr o else put size SPACE (inr o)
  end.

Definition list_type_char (mode : Z) : ascii :=
  if S_ISREG mode then "-"
  else if S_ISDIR mode then "d"
  else if S_ISLNK mode then "l"
  else if S_ISCHR mode then "c"
  else if S_ISBLK mode then "b"
  else if S_ISFIFO mode then "p"
  else if S_ISSOCK mode then "s"
  else "?".

Definition perm_char (mode bit : Z) (c : ascii) : ascii :=
  if has_bit mode bit then c else "-".

(** The LIST and STAT line up to the name. *)
Definition fill_list (size : nat) (s : FtpSession) (st_ : stat_t) : Filled :=
  let mode := st_mode st_ in
  let out : Filled := inr EmptyString in
  let out := put_if (XferDirMode_eqb (m_xferDirMode s) STAT_mode) size SPACE out in
  let owner := fmt_d (st_uid st_) in
  let group := fmt_d (st_gid st_) in
  let text :=
    String (list_type_char mode)
      (String (perm_char mode S_IRUSR "r") (String (perm_char mode S_IWUSR "w")
      (String (perm_char mode S_IXUSR "x") (String (perm_char mode S_IRGRP "r")
      (String (perm_char mode S_IWGRP "w") (String (perm_char mode S_IXGRP "x")
      (String (perm_char mode S_IROTH "r") (String (perm_char mode S_IWOTH "w")
      (String (perm_char mode S_IXOTH "x") EmptyString)))))))))
    +++ " " +++ fmt_u (wrap64 (st_nlink st_)) +++ " " +++ owner +++ " " +++ group
    +++ " " +++ fmt_u (wrap64 (st_size st_)) +++ " " in
  match put_snprintf size text out with
  | inl e => inl e
  | inr o =>
    match gmtime (st_mtime st_) with
    | None => inl (errno s)
    | Some t =>
      let recent :=
        ((st_mtime st_ <? m_timestamp s)
         && (m_timestamp s - st_mtime st_ <? 60 * 60 * 24 * 365 / 2))%Z in
      let text := if recent then strftime_time t else strftime_date t in
      let rc_ := strftime_rc (size - String.length o) text in
      if size - String.length o <? rc_ then inl EAGAIN
      else inr (if rc_ =? 0 then o else o +++ text)
    end
  end.

Definition ioBuffer (s : FtpSession) : IOBuffer :=
  if m_deflate s then m_zStreamBuffer s else m_xferBuffer s.

Definition set_ioBuffer (b : IOBuffer) (s : FtpSession) : FtpSession :=
  if m_deflate s then set_m_zStreamBuffer b s else set_m_xferBuffer b s.

(** Everything [fillDirent] stores for one entry, or the error. *)
Definition fillDirent_line (s : FtpSession) (st_ : stat_t) (path_ : string)
    (type_ : option string) : Filled :=
  let size := freeSize (ioBuffer s) in
  let out :=
    match m_xferDirMode s with
    | MLSD_mode | MLST_mode => fill_facts size (ioBuffer s) s st_ type_
    | NLST_mode => inr EmptyString
    | LIST_mode | STAT_mode => fill_list size s st_
    end in
  match out with
  | inl e => inl e
  | inr o =>
    if size - String.length o <? String.length path_ + 2 then inl EAGAIN
    else inr (o +++ path_ +++ CRLF)
  end.

(** [fillDirent (st_, path_, type_)]: the value returned and the session
    left behind. *)
Definition fillDirent (st_ : stat_t) (path_ : string) (type_ : option string)
    (s : FtpSession) : Z * FtpSession :=
  match fillDirent_line s st_ path_ type_ with
  | inl e => (e, s)
  | inr line =>
    let s := set_ioBuffer (markUsed line (ioBuffer s)) s in
    (0%Z, set_m_filePosition
            (wrap64 (m_filePosition s + Z.of_nat (String.length line))) s)
  end.

(** [fillDirent (path_, type_)]: the entry is looked up first. *)
Definition fillDirent_path (path_ : string) (type_ : option string)
    (s : FtpSession) : Z * FtpSession :=
  let rc_ := tzStat_rc (c_str path_) s in
  let st := tzStat_st (c_str path_) s in
  let s := tzStat (c_str path_) s in
  if negb (rc_ =? 0)%Z then (errno s, s)
  else fillDirent st (encodePath path_ false) type_ s.

(* ================================================================== *)
(** ** Data connection and transfer set-up *)

(** A platform call that answers [bool]: non-zero is [true]. *)
Definition succeeded (r : Ret) : bool := negb (rc r =? 0)%Z.

(** A platform call that hands back a socket: a negative code is the null
    pointer. *)
Definition new_socket (r : Ret) : option Socket :=
  if (rc r <? 0)%Z then None else Some (Z.to_nat (rc r)).

(** [m_zStream->msg ? m_zStream->msg : "zlib error"]. *)
Definition zlib_msg (r : Ret) : string :=
  if sempty (r_data r) then "zlib error" else r_data r.

Definition Z_OK : Z := 0.
Definition Z_STREAM_END : Z := 1.
Definition Z_BUF_ERROR : Z := (-5)%Z.

Definition dataAccept (s : FtpSession) : bool * FtpSession :=
  if negb (m_pasv s) then
    (false, (sendResponse ("503 Bad sequence of commands" +++ CRLF)
             ;; setState COMMAND true true) s)
  else
    let s := set_m_pasv false s in
    match m_pasvSocket s with
    | None => (false, s)   (* null listener: not reached from the reactor *)
    | Some lfd =>
      let peer := new_socket (answer (SockAccept lfd) s) in
      let s := sys (SockAccept lfd) s in
      let s := assign_dataSocket peer s in
      match peer with
      | None =>
        (false, (sendResponse ("425 Failed to establish connection" +++ CRLF)
                 ;; setState COMMAND true true) s)
      | Some fd =>
        let s := sys (SockSetRecvBufferSize fd) s in
        let s := sys (SockSetSendBufferSize fd) s in
        let nonBlocking := succeeded (answer (SockSetNonBlocking fd) s) in
        let s := sys (SockSetNonBlocking fd) s in
        if negb nonBlocking then
          (false, (sendResponse ("425 Failed to establish connection" +++ CRLF)
                   ;; setState COMMAND true true) s)
        else
          (true, (sendResponse ("150 Ready" +++ CRLF)
                  ;; setState DATA_TRANSFER true false) s)
      end
    end.

Definition dataConnect (s : FtpSession) : bool * FtpSession :=
  let s := set_m_port false s in
  let data := new_socket (answer SockCreate s) in
  let s := sys SockCreate s in
  let s := assign_dataSocket data s in
  match data with
  | None => (false, s)
  | Some fd =>
    let s := sys (SockSetRecvBufferSize fd) s in
    let s := sys (SockSetSendBufferSize fd) s in
    let nonBlocking := succeeded (answer (SockSetNonBlocking fd) s) in
    let s := sys (SockSetNonBlocking fd) s in
    if negb nonBlocking then (false, s)
    else
      let connected := succeeded (answer (SockConnect fd (m_portAddr s)) s) in
      let s := sys (SockConnect fd (m_portAddr s)) s in
      if negb connected then
        if negb (errno s =? EINPROGRESS)%Z then (false, s) else (true, s)
      else
        (true, (sendResponse ("150 Ready" +++ CRLF)
                ;; setState DATA_TRANSFER true false) s)
  end.

(** The start of [xferFile] and [xferDir]: flags and buffers are reset. *)
Definition xfer_reset (s : FtpSession) : FtpSession :=
  let s := set_m_zFlushed false s in
  let s := set_m_eof false s in
  let s := set_m_xferBuffer (buf_clear (m_xferBuffer s)) s in
  set_m_zStreamBuffer (buf_clear (m_zStreamBuffer s)) s.

(** A fresh zlib stream replaces the one held and is initialised:
    [zStream_init] is the session after the call, [zStream_init_rc] the
    code the call returns and [zStream_init_msg] the message it leaves. *)
Definition zStream_fresh (kind : ZKind) (s : FtpSession) : FtpSession :=
  set_m_zStream (Some kind) (zStream_reset s).

Definition zStream_init_call (kind : ZKind) (s : FtpSession) : Call :=
  ZInit kind (cfg_deflateLevel (m_config s)).

Definition zStream_init_rc (kind : ZKind) (s : FtpSession) : Z :=
  rc (answer (zStream_init_call kind s) (zStream_fresh kind s)).

Definition zStream_init_msg (kind : ZKind) (s : FtpSession) : string :=
  zlib_msg (answer (zStream_init_call kind s) (zStream_fresh kind s)).

Definition zStream_init (kind : ZKind) (s : FtpSession) : FtpSession :=
  sys (zStream_init_call kind s) (zStream_fresh kind s).

(** The end of [xferFile]: the data connection is set up and the transfer
    installed. *)
Definition xferFile_connect (mode_ : XferFileMode) (path : string)
    (s : FtpSession) : FtpSession :=
  if negb (m_port s) && negb (m_pasv s) then
    (sendResponse ("503 Bad sequence of commands" +++ CRLF)
     ;; setState COMMAND true true) s
  else
    let s := setState DATA_CONNECT false true s in
    let r := if m_port s then dataConnect s else (true, s) in
    let s := snd r in
    if negb (fst r) then
      (sendResponse ("425 Can't open data connection" +++ CRLF)
       ;; setState COMMAND true true) s
    else
      let s :=
        match mode_ with
        | RETR_mode =>
          set_m_transfer (Some xfer_retrieve) (set_m_send true (set_m_recv false s))
        | _ =>
          set_m_transfer (Some xfer_store) (set_m_send false (set_m_recv true s))
        end in
      set_m_workItem path s.

(** [m_file.open (path, mode)]. *)
Definition file_open_ok (path mode : string) (s : FtpSession) : bool :=
  succeeded (answer (FileOpen path mode) s).
Definition file_open (path mode : string) (s : FtpSession) : FtpSession :=
  let ok := file_open_ok path mode s in
  let s := sys (FileOpen path mode) s in
  if ok then set_m_file true s else s.

(** [m_file.seek (pos, SEEK_SET)]: the return code, zero on success. *)
Definition file_seek_rc (pos : Z) (s : FtpSession) : Z := rc (answer (FileSeek pos) s).
Definition file_seek (pos : Z) (s : FtpSession) : FtpSession := sys (FileSeek pos) s.

Definition xferFile (args_ : string) (mode_ : XferFileMode) (s : FtpSession)
    : FtpSession :=
  let s := xfer_reset s in
  let kind := match mode_ with RETR_mode => ZDeflate | _ => ZInflate end in
  let init_rc := if m_deflate s then zStream_init_rc kind s else Z_OK in
  let init_msg := zStream_init_msg kind s in
  let s := if m_deflate s then zStream_init kind s else s in
  if negb (init_rc =? Z_OK)%Z then
    (sendResponse ("550 " +++ init_msg +++ CRLF) ;; setState COMMAND true true) s
  else
    (* build the path of the file to transfer *)
    let r := buildResolvedPath (m_cwd s) args_ s in
    let path := fst r in
    let s := snd r in
    if sempty path then
      (sendResponse ("553 " +++ strerror (errno s) s +++ CRLF)
       ;; setState COMMAND true true) s
    else if String.eqb path "/devZero" then
      xferFile_connect mode_ path (set_m_devZero true s)
    else
      match mode_ with
      | RETR_mode =>
        (* stat the file *)
        let rc_ := tzStat_rc (c_str path) s in
        let st := tzStat_st (c_str path) s in
        let s := tzStat (c_str path) s in
        if negb (rc_ =? 0)%Z then
          sendResponse ("450 " +++ strerror (errno s) s +++ CRLF) s
        else
          (* open the file in read mode *)
          let opened := file_open_ok (c_str path) "rb" s in
          let s := file_open (c_str path) "rb" s in
          if negb opened then
            sendResponse ("450 " +++ strerror (errno s) s +++ CRLF) s
          else
            let s := set_m_fileSize (wrap64 (st_size st)) s in
            let s := sys FileSetBufferSize s in
            let seek_rc :=
              if negb (m_restartPosition s =? 0)%Z
              then file_seek_rc (m_restartPosition s) s else 0%Z in
            let s :=
              if negb (m_restartPosition s =? 0)%Z
              then file_seek (m_restartPosition s) s else s in
            if negb (seek_rc =? 0)%Z then
              sendResponse ("450 " +++ strerror (errno s) s +++ CRLF) s
            else
              xferFile_connect mode_ path
                (set_m_filePosition (m_restartPosition s) s)
      | _ =>
        let append := match mode_ with APPE_mode => true | _ => false end in
        let mode :=
          if append then "ab"
          else if negb (m_restartPosition s =? 0)%Z then "r+b"
          else "wb" in
        (* open file in write mode *)
        let opened := file_open_ok (c_str path) mode s in
        let s := file_open (c_str path) mode s in
        if negb opened then
          sendResponse ("450 " +++ strerror (errno s) s +++ CRLF) s
        else
          let s := sys ServerUpdateFreeSpace s in
          let s := sys FileSetBufferSize s in
          (* check if this had REST but not APPE *)
          let seeking := negb (m_restartPosition s =? 0)%Z && negb append in
          let seek_rc := if seeking then file_seek_rc (m_restartPosition s) s else 0%Z in
          let s := if seeking then file_seek (m_restartPosition s) s else s in
          if negb (seek_rc =? 0)%Z then
            sendResponse ("450 " +++ strerror (errno s) s +++ CRLF) s
          else
            xferFile_connect mode_ path
              (set_m_filePosition (m_restartPosition s) s)
      end.

(** [args_[i]] of a C string: the terminating NUL past its end. *)
Fixpoint c_at (s : string) (i : nat) : ascii :=
  match s, i with
  | EmptyString, _ => NUL
  | String c _, O => c
  | String _ s', S i' => c_at s' i'
  end.

Definition dir_open_ok (path : string) (s : FtpSession) : bool :=
  succeeded (answer (DirOpen path) s).
Definition dir_open (path : string) (s : FtpSession) : FtpSession :=
  let ok := dir_open_ok path s in
  let s := sys (DirOpen path) s in
  if ok then set_m_dir true s else s.

(** The reply and transition of [xferDir] on a failure. *)
Definition xferDir_fail (code : string) (e : Z) (s : FtpSession) : FtpSession :=
  (sendResponse (code +++ " " +++ strerror e s +++ CRLF)
   ;; setState COMMAND true true) s.

(** The end of [xferDir]: MLST and STAT answer on the command socket, the
    others set up the data connection. *)
Definition xferDir_connect (mode_ : XferDirMode) (s : FtpSession) : FtpSession :=
  match mode_ with
  | MLST_mode | STAT_mode =>
    let s := sendResponse ("250-Status" +++ CRLF) s in
    let s := setState DATA_TRANSFER true true s in
    let s := assign_dataSocket (m_commandSocket s) s in
    set_m_send true s
  | _ =>
    if negb (m_port s) && negb (m_pasv s) then
      (* Prior PORT or PASV required *)
      (sendResponse ("503 Bad sequence of commands" +++ CRLF)
       ;; setState COMMAND true true) s
    else
      let s := setState DATA_CONNECT false true s in
      let s := set_m_send true s in
      let r := if m_port s then dataConnect s else (true, s) in
      let s := snd r in
      if negb (fst r) then
        (sendResponse ("425 Can't open data connection" +++ CRLF)
         ;; setState COMMAND true true) s
      else s
  end.

(** [xferDir]; [retry] is the call made again without the option when the
    [LIST -a] work-around applies. *)
Definition xferDir_with (retry : string -> FtpSession -> FtpSession)
    (args_ : string) (mode_ : XferDirMode) (workaround_ : bool)
    (s : FtpSession) : FtpSession :=
  (* set up the transfer *)
  let s := set_m_xferDirMode mode_ s in
  let s := set_m_recv false s in
  let s := set_m_send true s in
  let s := set_m_zFlushed false s in
  let s := set_m_eof false s in
  let s := set_m_filePosition 0%Z s in
  let s := set_m_zStreamPosition 0%Z s in
  let s := set_m_xferBuffer (buf_clear (m_xferBuffer s)) s in
  let s := set_m_zStreamBuffer (buf_clear (m_zStreamBuffer s)) s in
  let init_rc := if m_deflate s then zStream_init_rc ZDeflate s else Z_OK in
  let init_msg := zStream_init_msg ZDeflate s in
  let s := if m_deflate s then zStream_init ZDeflate s else s in
  if negb (init_rc =? Z_OK)%Z then
    (sendResponse ("550 " +++ init_msg +++ CRLF) ;; setState COMMAND true true) s
  else
    let s := set_m_transfer (Some xfer_list) s in
    if 0 <? String.length args_ then
      (* work around broken clients that think LIST -a/-l is valid *)
      let needWorkaround :=
        workaround_ && Ascii.eqb (c_at args_ 0) "-"
        && (Ascii.eqb (c_at args_ 1) "a" || Ascii.eqb (c_at args_ 1) "l")
        && (Ascii.eqb (c_at args_ 2) NUL || Ascii.eqb (c_at args_ 2) SPACE) in
      let retry_args :=
        substr_from (2 + (if Ascii.eqb (c_at args_ 2) SPACE then 1 else 0)) args_ in
      (* an argument was provided *)
      let r := buildResolvedPath (m_cwd s) args_ s in
      let path := fst r in
      let s := snd r in
      if sempty path then
        if needWorkaround then retry retry_args s
        else xferDir_fail "550" (errno s) s
      else
        let rc_ := tzStat_rc (c_str path) s in
        let st := tzStat_st (c_str path) s in
        let s := tzStat (c_str path) s in
        if negb (rc_ =? 0)%Z then
          if needWorkaround then retry retry_args s
          else xferDir_fail "550" (errno s) s
        else
          match mode_ with
          | MLST_mode =>
            let f := fillDirent st path None s in
            if negb (fst f =? 0)%Z then xferDir_fail "550" (fst f) (snd f)
            else xferDir_connect mode_ (set_m_workItem path (snd f))
          | _ =>
            if S_ISDIR (st_mode st) then
              let opened := dir_open_ok (c_str path) s in
              let s := dir_open (c_str path) s in
              if negb opened then xferDir_fail "550" (errno s) s
              else
                (* set as lwd *)
                let s := set_m_lwd path s in
                let f :=
                  match mode_ with
                  | MLSD_mode =>
                    if m_mlstType s
                    then fillDirent st (m_lwd s) (Some "cdir") s   (* type=cdir *)
                    else (0%Z, s)
                  | _ => (0%Z, s)
                  end in
                if negb (fst f =? 0)%Z then xferDir_fail "550" (fst f) (snd f)
                else xferDir_connect mode_ (set_m_workItem (m_lwd (snd f)) (snd f))
            else
              match mode_ with
              | MLSD_mode =>
                (* specified file instead of directory for MLSD *)
                xferDir_fail "501" ENOTDIR s
              | _ =>
                let name :=
                  match mode_ with
                  | NLST_mode => encodePath path false   (* full path name *)
                  | _ =>
                    match find_last_of SLASH path with
                    | Some pos => encodePath (substr_from (pos + 1) path) false
                    | None => encodePath path false   (* excluded by the assertion *)
                    end
                  end in
                let f := fillDirent st name None s in
                if negb (fst f =? 0)%Z then xferDir_fail "550" (fst f) (snd f)
                else xferDir_connect mode_ (set_m_workItem path (snd f))
              end
          end
    else
      match mode_ with
      | MLST_mode =>
        let f := fillDirent_path (m_cwd s) None s in
        if negb (fst f =? 0)%Z then xferDir_fail "550" (fst f) (snd f)
        else xferDir_connect mode_ (set_m_workItem (m_cwd (snd f)) (snd f))
      | _ =>
        let opened := dir_open_ok (c_str (m_cwd s)) s in
        let s := dir_open (c_str (m_cwd s)) s in
        if negb opened then
          (* no argument, but opening cwd failed *)
          xferDir_fail "550" (errno s) s
        else
          (* set the cwd as the lwd *)
          let s := set_m_lwd (m_cwd s) s in
          let f :=
            match mode_ with
            | MLSD_mode =>
              if m_mlstType s
              then fillDirent_path (m_lwd s) (Some "cdir") s   (* type=cdir *)
              else (0%Z, s)
            | _ => (0%Z, s)
            end in
          if negb (fst f =? 0)%Z then xferDir_fail "550" (fst f) (snd f)
          else xferDir_connect mode_ (set_m_workItem (m_lwd (snd f)) (snd f))
      end.

(** The retried call has [workaround_ = false] and so never retries. *)
Definition xferDir (args_ : string) (mode_ : XferDirMode) (workaround_ : bool)
    : FtpSession -> FtpSession :=
  xferDir_with (fun a => xferDir_with (fun _ s => s) a mode_ false)
    args_ mode_ workaround_.

(* ================================================================== *)
(** ** Command handlers *)

Definition Handler := string -> FtpSession -> FtpSession.

Definition not_logged_in : FtpSession -> FtpSession :=
  sendResponse ("530 Not logged in" +++ CRLF).

Definition ABOR (args_ : string) (s : FtpSession) : FtpSession :=
  if State_eqb (m_state s) COMMAND then
    sendResponse ("225 No transfer to abort" +++ CRLF) s
  else
    (* abort the transfer *)
    (sendResponse ("225 Aborted" +++ CRLF)
     ;; sendResponse ("425 Transfer aborted" +++ CRLF)
     ;; setState COMMAND true true) s.

Definition ALLO (args_ : string) : FtpSession -> FtpSession :=
  sendResponse ("202 Superfluous command" +++ CRLF) ;; setState COMMAND false false.

Definition APPE (args_ : string) (s : FtpSession) : FtpSession :=
  if negb (authorized s) then (setState COMMAND false false ;; not_logged_in) s
  else xferFile args_ APPE_mode s.   (* open the file in append mode *)

Definition CDUP (args_ : string) (s : FtpSession) : FtpSession :=
  let s := setState COMMAND false false s in
  if negb (authorized s) then not_logged_in s
  else
    let r := changeDir ".." s in
    if negb (fst r)
    then sendResponse ("550 " +++ strerror (errno (snd r)) (snd r) +++ CRLF) (snd r)
    else sendResponse ("200 OK" +++ CRLF) (snd r).

Definition CWD (args_ : string) (s : FtpSession) : FtpSession :=
  let s := setState COMMAND false false s in
  if negb (authorized s) then not_logged_in s
  else
    let r := changeDir args_ s in
    if negb (fst r)
    then sendResponse ("550 " +++ strerror (errno (snd r)) (snd r) +++ CRLF) (snd r)
    else sendResponse ("200 OK" +++ CRLF) (snd r).

(** The shape shared by DELE, MKD and RMD: resolve the path, make one
    call on it, reply. *)
Definition path_command (args_ : string) (call : string -> Call) (failure : string)
    (s : FtpSession) : FtpSession :=
  let s := setState COMMAND false false s in
  if negb (authorized s) then not_logged_in s
  else
    let r := buildResolvedPath (m_cwd s) args_ s in
    let path := fst r in
    let s := snd r in
    if sempty path then sendResponse ("553 " +++ strerror (errno s) s +++ CRLF) s
    else
      let rc_ := rc (answer (call (c_str path)) s) in
      let s := sys (call (c_str path)) s in
      if negb (rc_ =? 0)%Z
      then sendResponse (failure +++ strerror (errno s) s +++ CRLF) s
      else (sys ServerUpdateFreeSpace ;; sendResponse ("250 OK" +++ CRLF)) s.

Definition DELE (args_ : string) : FtpSession -> FtpSession :=
  path_command args_ SysUnlink "550 ".

Definition mlst_star (b : bool) : string := if b then "*" else "".

Definition FEAT (args_ : string) (s : FtpSession) : FtpSession :=
  let s := setState COMMAND false false s in
  sendResponse
    ("211-" +++ CRLF
     +++ " MDTM" +++ CRLF
     +++ " MLST Type" +++ mlst_star (m_mlstType s)
     +++ ";Size" +++ mlst_star (m_mlstSize s)
     +++ ";Modify" +++ mlst_star (m_mlstModify s)
     +++ ";Perm" +++ mlst_star (m_mlstPerm s)
     +++ ";UNIX.mode" +++ mlst_star (m_mlstUnixMode s) +++ ";" +++ CRLF
     +++ " MODE Z" +++ CRLF
     +++ " PASV" +++ CRLF
     +++ " SIZE" +++ CRLF
     +++ " TVFS" +++ CRLF
     +++ " UTF8" +++ CRLF
     +++ CRLF
     +++ "211 End" +++ CRLF) s.

Definition HELP (args_ : string) : FtpSession -> FtpSession :=
  setState COMMAND false false
  ;; sendResponse
       ("214-" +++ CRLF
        +++ "The following commands are recognized" +++ CRLF
        +++ " ABOR ALLO APPE CDUP CWD DELE FEAT HELP LIST MDTM MKD MLSD MLST MODE"
        +++ CRLF
        +++ " NLST NOOP OPTS PASS PASV PORT PWD QUIT REST RETR RMD RNFR RNTO SITE"
        +++ CRLF
        +++ " SIZE STAT STOR STOU STRU SYST TYPE USER XCUP XCWD XMKD XPWD XRMD"
        +++ CRLF
        +++ "214 End" +++ CRLF).

Definition LIST (args_ : string) (s : FtpSession) : FtpSession :=
  if negb (authorized s) then (setState COMMAND false false ;; not_logged_in) s
  else xferDir args_ LIST_mode true s.   (* open the path in LIST mode *)

Definition MDTM (args_ : string) (s : FtpSession) : FtpSession :=
  let s := setState COMMAND false false s in
  if negb (authorized s) then not_logged_in s
  else sendResponse ("502 Command not implemented" +++ CRLF) s.

Definition MKD (args_ : string) : FtpSession -> FtpSession :=
  path_command args_ (fun path => SysMkdir path 493 (* 0755 *)) "550 ".

Definition MLSD (args_ : string) (s : FtpSession) : FtpSession :=
  if negb (authorized s) then (setState COMMAND false false ;; not_logged_in) s
  else xferDir args_ MLSD_mode false s.   (* open the path in MLSD mode *)

Definition MLST (args_ : string) (s : FtpSession) : FtpSession :=
  if negb (authorized s) then (setState COMMAND false false ;; not_logged_in) s
  else xferDir args_ MLST_mode false s.   (* open the path in MLST mode *)

Definition MODE (args_ : string) (s : FtpSession) : FtpSession :=
  let s := setState COMMAND false false s in
  if (compare args_ "S" =? 0)%Z then
    (* S (stream) mode *)
    sendResponse ("200 OK" +++ CRLF) (set_m_deflate false s)
  else if (compare args_ "Z" =? 0)%Z then
    (* Z (deflate) mode *)
    sendResponse ("200 OK" +++ CRLF) (set_m_deflate true s)
  else sendResponse ("504 Unavailable" +++ CRLF) s.

Definition GLOB_NOSPACE : Z := 1.

(** [Glob::clear]. *)
Definition glob_clear (s : FtpSession) : FtpSession :=
  match m_glob s with
  | Some _ => set_m_glob None (sys GlobFree s)
  | None => s
  end.

(** [Glob::glob]. *)
Definition glob_glob (pattern_ : string) (s : FtpSession) : bool * FtpSession :=
  let s :=
    match m_glob s with
    | None => set_m_glob (Some ([], 0)) s
    | Some _ => sys GlobFree s
    end in
  let r := answer (GlobGlob pattern_) s in
  let s := sys (GlobGlob pattern_) s in
  let s := set_m_glob (Some (r_names r, 0)) s in
  if (rc r =? GLOB_NOSPACE)%Z then (false, assign_errno ENOMEM (glob_clear s))
  else if negb (rc r =? 0)%Z then (false, assign_errno EIO (glob_clear s))
  else (true, s).

Definition NLST (args_ : string) (s : FtpSession) : FtpSession :=
  if negb (authorized s) then (setState COMMAND false false ;; not_logged_in) s
  else if sexists (Ascii.eqb STAR) args_ then
    let chdir_rc := rc (answer (SysChdir (c_str (m_cwd s))) s) in
    let s := sys (SysChdir (c_str (m_cwd s))) s in
    let g := if negb (chdir_rc =? 0)%Z then (false, s) else glob_glob args_ s in
    let s := snd g in
    if negb (fst g) then
      (sendResponse ("501 " +++ strerror (errno s) s +++ CRLF)
       ;; setState COMMAND false false) s
    else
      let s := set_m_transfer (Some xfer_glob) s in
      if negb (m_port s) && negb (m_pasv s) then
        (* Prior PORT or PASV required *)
        (sendResponse ("503 Bad sequence of commands" +++ CRLF)
         ;; setState COMMAND true true) s
      else
        let s := setState DATA_CONNECT false true s in
        let s := set_m_send true s in
        let r := if m_port s then dataConnect s else (true, s) in
        let s := snd r in
        if negb (fst r) then
          (sendResponse ("425 Can't open data connection" +++ CRLF)
           ;; setState COMMAND true true) s
        else s
  else xferDir args_ NLST_mode false s.

Definition NOOP (args_ : string) : FtpSession -> FtpSession :=
  sendResponse ("200 OK" +++ CRLF).

(** [std::strchr (p, ';')] then [++p]: what follows the first semicolon. *)
Fixpoint after_semicolon (p : string) : option string :=
  match p with
  | EmptyString => None
  | String c rest => if Ascii.eqb c SEMI then Some rest else after_semicolon rest
  end.

Definition fact_match (name_ arg_ : string) : bool :=
  strncasecmp_eq name_ arg_ (String.length name_).

(** The fact loop of [OPTS MLST]; each round moves past one semicolon. *)
Fixpoint OPTS_mlst_loop (fuel : nat) (p : string) (s : FtpSession) : FtpSession :=
  match fuel with
  | O => s
  | S fuel' =>
    if sempty p then s
    else
      let s :=
        if fact_match "Type;" p then set_m_mlstType true s
        else if fact_match "Size;" p then set_m_mlstSize true s
        else if fact_match "Modify;" p then set_m_mlstModify true s
        else if fact_match "Perm;" p then set_m_mlstPerm true s
        else if fact_match "UNIX.mode;" p then set_m_mlstUnixMode true s
        else s in
      match after_semicolon p with
      | None => s
      | Some p' => OPTS_mlst_loop fuel' p' s
      end
  end.

Fixpoint skip_spaces (p : string) : string :=
  match p with
  | String c rest => if isspace c then skip_spaces rest else p
  | EmptyString => EmptyString
  end.

Fixpoint take_word (p : string) : string * string :=
  match p with
  | String c rest =>
    if isspace c then (EmptyString, p)
    else let w := take_word rest in (String c (fst w), snd w)
  | EmptyString => (EmptyString, EmptyString)
  end.

(** The [nextWord] lambda of [OPTS]: the word and what follows it. *)
Definition nextWord (p : string) : string * string := take_word (skip_spaces p).

Definition set_cfg_user (v : string) (c : FtpConfig) : FtpConfig :=
  mkFtpConfig v (cfg_pass c) (cfg_hostname c) (cfg_deflateLevel c).
Definition set_cfg_pass (v : string) (c : FtpConfig) : FtpConfig :=
  mkFtpConfig (cfg_user c) v (cfg_hostname c) (cfg_deflateLevel c).
Definition set_cfg_hostname (v : string) (c : FtpConfig) : FtpConfig :=
  mkFtpConfig (cfg_user c) (cfg_pass c) v (cfg_deflateLevel c).
Definition set_cfg_deflateLevel (v : Z) (c : FtpConfig) : FtpConfig :=
  mkFtpConfig (cfg_user c) (cfg_pass c) (cfg_hostname c) v.

(** The option loop of [OPTS MODE Z]: the level reached, or [None] once
    the 501 reply was sent. *)
Fixpoint OPTS_level_loop (fuel : nat) (p : string) (level : Z) (s : FtpSession)
    : option Z * FtpSession :=
  match fuel with
  | O => (Some level, s)
  | S fuel' =>
    if sempty p then (Some level, s)
    else
      let w := nextWord p in
      let opt := fst w in
      if sempty opt then (Some level, s)
      else if (String.length opt =? 5) && strncasecmp_eq opt "LEVEL" 5 then
        let v := nextWord (snd w) in
        let val := fst v in
        if negb (String.length val =? 1) || negb (isdigit (c_at val 0)) then
          (None, sendResponse ("501 " +++ strerror EINVAL s +++ CRLF) s)
        else
          let level := digit_value (c_at val 0) in
          OPTS_level_loop fuel' (snd v) level
            (set_m_config (set_cfg_deflateLevel level (m_config s)) s)
      else (None, sendResponse ("501 " +++ strerror EINVAL s +++ CRLF) s)
  end.

Definition fact_name (b : bool) (name : string) : string := if b then name else "".

Definition OPTS (args_ : string) (s : FtpSession) : FtpSession :=
  let s := setState COMMAND false false s in
  (* check UTF8 options *)
  if (compare args_ "UTF8" =? 0)%Z || (compare args_ "UTF8 ON" =? 0)%Z
     || (compare args_ "UTF8 NLST" =? 0)%Z then
    sendResponse ("200 OK" +++ CRLF) s
  (* check MLST options *)
  else if strncasecmp_eq args_ "MLST " 5 then
    let s := set_m_mlstType false s in
    let s := set_m_mlstSize false s in
    let s := set_m_mlstModify false s in
    let s := set_m_mlstPerm false s in
    let s := set_m_mlstUnixMode false s in
    let p := substr_from 5 args_ in
    let s := OPTS_mlst_loop (S (String.length p)) p s in
    sendResponse
      ("200 MLST OPTS"
       +++ (if m_mlstType s || m_mlstSize s || m_mlstModify s || m_mlstPerm s
               || m_mlstUnixMode s then " " else "")
       +++ fact_name (m_mlstType s) "Type;"
       +++ fact_name (m_mlstSize s) "Size;"
       +++ fact_name (m_mlstModify s) "Modify;"
       +++ fact_name (m_mlstPerm s) "Perm;"
       +++ fact_name (m_mlstUnixMode s) "UNIX.mode;" +++ CRLF) s
  else if strncasecmp_eq args_ "MODE Z " 7 then
    let p := substr_from 7 args_ in
    let r := OPTS_level_loop (S (String.length p)) p (-1)%Z s in
    let s := snd r in
    match fst r with
    | None => s
    | Some level =>
      if (level <? 0)%Z then sendResponse ("501 " +++ strerror EINVAL s +++ CRLF) s
      else sendResponse ("200 MODE Z LEVEL set to " +++ fmt_u level +++ CRLF) s
    end
  else sendResponse ("504 " +++ strerror EINVAL s +++ CRLF) s.

Definition PASS (args_ : string) (s : FtpSession) : FtpSession :=
  let s := setState COMMAND false false s in
  let s := set_m_authorizedPass false s in
  let user := cfg_user (m_config s) in
  let pass := cfg_pass (m_config s) in
  if negb (sempty user) && negb (m_authorizedUser s) then
    sendResponse ("430 User not authorized" +++ CRLF) s
  else if sempty pass || String.eqb pass args_ then
    sendResponse ("230 OK" +++ CRLF) (set_m_authorizedPass true s)
  else sendResponse ("430 Invalid password" +++ CRLF) s.

(** The dots of the listener's address become commas. *)
Definition dots_to_commas (name : string) : string :=
  smap (fun c => if Ascii.eqb c DOT then COMMA else c) name.

Definition PASV (args_ : string) (s : FtpSession) : FtpSession :=
  if negb (authorized s) then (setState COMMAND false false ;; not_logged_in) s
  else
    (* reset state *)
    let s := setState COMMAND true true s in
    let s := set_m_pasv false s in
    let s := set_m_port false s in
    (* create a socket to listen on *)
    let pasv := new_socket (answer SockCreate s) in
    let s := sys SockCreate s in
    let s := closePasv s in
    let s := set_m_pasvSocket pasv s in
    match pasv with
    | None => sendResponse ("451 Failed to create listening socket" +++ CRLF) s
    | Some fd =>
      (* set the socket options *)
      let s := sys (SockSetRecvBufferSize fd) s in
      let s := sys (SockSetSendBufferSize fd) s in
      match m_commandSocket s with
      | None => s   (* null command socket: the source dereferences it *)
      | Some cfd =>
        (* create an address to bind *)
        let name := r_addr (answer (SockName cfd) s) in
        let s := sys (SockName cfd) s in
        let addr := mkSockAddr (sa_name name) (sa_addr name) 0%Z in
        (* bind to the address *)
        let bound := succeeded (answer (SockBind fd addr) s) in
        let s := sys (SockBind fd addr) s in
        if negb bound then
          (closePasv ;; sendResponse ("451 Failed to bind address" +++ CRLF)) s
        else
          (* listen on the socket *)
          let listening := succeeded (answer (SockListen fd 1) s) in
          let s := sys (SockListen fd 1) s in
          if negb listening then
            (closePasv ;; sendResponse ("451 Failed to listen on socket" +++ CRLF)) s
          else
            (* we are now listening on the socket *)
            let sockName := r_addr (answer (SockName fd) s) in
            let s := sys (SockName fd) s in
            let name := dots_to_commas (sa_name sockName) in
            let port := wrap16 (sa_port sockName) in
            let s := set_m_pasv true s in
            sendResponse
              ("227 Entering Passive Mode (" +++ name +++ ","
               +++ fmt_u (Z.shiftr port 8) +++ "," +++ fmt_u (Z.land port 255)
               +++ ")." +++ CRLF) s
      end
    end.

(** The first loop of [PORT]: every comma becomes a dot, but the one
    counted fourth becomes NUL. *)
Fixpoint PORT_rewrite (addrString : string) (commas : Z) : string * Z :=
  match addrString with
  | EmptyString => (EmptyString, commas)
  | String p rest =>
    if Ascii.eqb p COMMA then
      let r := PORT_rewrite rest (wrap_unsigned (commas + 1)) in
      (String (if (commas =? 3)%Z then NUL else DOT) (fst r), snd r)
    else
      let r := PORT_rewrite rest commas in
      (String p (fst r), snd r)
  end.

(** [portString]: the index following the comma counted fourth. *)
Fixpoint PORT_portString (addrString : string) (commas : Z) (i : nat)
    (portString : option nat) : option nat :=
  match addrString with
  | EmptyString => portString
  | String p rest =>
    if Ascii.eqb p COMMA then
      PORT_portString rest (wrap_unsigned (commas + 1)) (S i)
        (if (commas =? 3)%Z then Some (S i) else portString)
    else PORT_portString rest commas (S i) portString
  end.

(** The port loop of [PORT] on the C string at [portString]; [val] is an
    [int], whose overflow is taken to wrap, [port] a [std::uint16_t]. *)
Fixpoint PORT_parse (p : string) (first : bool) (val port : Z) : option (Z * Z) :=
  match p with
  | EmptyString => Some (val, port)
  | String c rest =>
    if negb (isdigit c) then
      if first || negb (Ascii.eqb c DOT) || (255 <? val)%Z then None
      else PORT_parse rest false 0%Z (wrap16 (wrap16 (port * 256) + val))
    else
      PORT_parse rest false (wrap_int (wrap_int (val * 10) + digit_value c)) port
  end.

Definition invalid_argument (s : FtpSession) : FtpSession :=
  sendResponse ("501 " +++ strerror EINVAL s +++ CRLF) s.

Definition PORT (args_ : string) (s : FtpSession) : FtpSession :=
  if negb (authorized s) then (setState COMMAND false false ;; not_logged_in) s
  else
    (* reset state *)
    let s := setState COMMAND true true s in
    let s := set_m_pasv false s in
    let s := set_m_port false s in
    (* convert a,b,c,d,e,f with a.b.c.d\0e.f *)
    let addrString := fst (PORT_rewrite args_ 0%Z) in
    let commas := snd (PORT_rewrite args_ 0%Z) in
    (* check for the expected number of fields *)
    if negb (commas =? 5)%Z then invalid_argument s
    else
      (* parse the address *)
      let a := answer (SysInetAton (c_str addrString)) s in
      let s := sys (SysInetAton (c_str addrString)) s in
      if negb (succeeded a) then invalid_argument s
      else
        match PORT_portString args_ 0%Z 0 None with
        | None => s   (* null portString: excluded by the comma count *)
        | Some i =>
          (* parse the port *)
          match PORT_parse (c_str (substr_from i addrString)) true 0%Z 0%Z with
          | None => invalid_argument s
          | Some (val, port) =>
            if ((255 <? val) || (255 <? port))%Z then invalid_argument s
            else
              let port := wrap16 (wrap16 (port * 256) + val) in
              (* we are ready to connect to the client *)
              let s := set_m_portAddr
                         (mkSockAddr (c_str addrString) (sa_addr (r_addr a)) port) s in
              let s := set_m_port true s in
              sendResponse ("200 OK" +++ CRLF) s
          end
        end.

Definition PWD (args_ : string) (s : FtpSession) : FtpSession :=
  if negb (authorized s) then not_logged_in s
  else
    sendResponse_view
      (String "2" (String "5" (String "7" (String " " (str1 DQUOTE))))
       +++ encodePath (m_cwd s) true +++ str1 DQUOTE +++ CRLF) s.

Definition QUIT (args_ : string) : FtpSession -> FtpSession :=
  sendResponse ("221 Disconnecting" +++ CRLF) ;; closeCommand.

(** The digit loop of [REST] on a [std::uint64_t]. *)
Fixpoint REST_parse (p : string) (pos : Z) : option Z :=
  match p with
  | EmptyString => Some pos
  | String c rest =>
    if negb (isdigit c) || (UINT64_MAX / 10 <? pos)%Z then None
    else
      let pos := wrap64 (pos * 10) in
      if (UINT64_MAX - digit_value c <? pos)%Z then None
      else REST_parse rest (wrap64 (pos + digit_value c))
  end.

Definition REST (args_ : string) (s : FtpSession) : FtpSession :=
  let s := setState COMMAND false false s in
  if negb (authorized s) then not_logged_in s
  else
    (* parse the offset *)
    match REST_parse args_ 0%Z with
    | None => sendResponse ("504 " +++ strerror (errno s) s +++ CRLF) s
    | Some pos =>
      (* set the restart offset *)
      sendResponse ("350 OK" +++ CRLF) (set_m_restartPosition pos s)
    end.

Definition RETR (args_ : string) (s : FtpSession) : FtpSession :=
  if negb (authorized s) then (setState COMMAND false false ;; not_logged_in) s
  else xferFile args_ RETR_mode s.   (* open the file to retrieve *)

(** The line of the [rmdir] failure reply, [__LINE__] in the source. *)
Definition RMD_line : Z := 3079.

Definition RMD (args_ : string) : FtpSession -> FtpSession :=
  path_command args_ SysRmdir ("550 " +++ fmt_d RMD_line +++ " ").

Definition RNFR (args_ : string) (s : FtpSession) : FtpSession :=
  let s := setState COMMAND false false s in
  if negb (authorized s) then not_logged_in s
  else
    (* build the path to rename from *)
    let r := buildResolvedPath (m_cwd s) args_ s in
    let path := fst r in
    let s := snd r in
    if sempty path then sendResponse ("553 " +++ strerror (errno s) s +++ CRLF) s
    else
      (* make sure the path exists *)
      let rc_ := tzLStat_rc (c_str path) s in
      let s := tzLStat (c_str path) s in
      if negb (rc_ =? 0)%Z then sendResponse ("450 " +++ strerror (errno s) s +++ CRLF) s
      else
        (* we are ready for RNTO *)
        sendResponse ("350 OK" +++ CRLF) (set_m_rename path s).

Definition RNTO (args_ : string) (s : FtpSession) : FtpSession :=
  let s := setState COMMAND false false s in
  if negb (authorized s) then not_logged_in s
  (* make sure the previous command was RNFR *)
  else if sempty (m_rename s) then
    sendResponse ("503 Bad sequence of commands" +++ CRLF) s
  else
    (* build the path to rename to *)
    let r := buildResolvedPath (m_cwd s) args_ s in
    let path := fst r in
    let s := snd r in
    if sempty path then
      let s := set_m_rename EmptyString s in
      sendResponse ("554 " +++ strerror (errno s) s +++ CRLF) s
    else
      (* rename the file *)
      let c := SysRename (c_str (m_rename s)) (c_str path) in
      let rc_ := rc (answer c s) in
      let s := sys c s in
      if negb (rc_ =? 0)%Z then
        let s := set_m_rename EmptyString s in
        sendResponse ("550 " +++ strerror (errno s) s +++ CRLF) s
      else
        (* clear the rename state *)
        let s := set_m_rename EmptyString s in
        (sys ServerUpdateFreeSpace ;; sendResponse ("250 OK" +++ CRLF)) s.

(** [std::string_view::find_first_of (' ')]. *)
Definition find_first_of (c : ascii) (s : string) : option nat := find c s 0.

Definition SITE (args_ : string) (s : FtpSession) : FtpSession :=
  let s := setState COMMAND false false s in
  let str := args_ in
  let pos := find_first_of SPACE str in
  let command := match pos with Some n => substr 0 n str | None => str end in
  let arg := match pos with Some n => substr_from (n + 1) str | None => EmptyString end in
  (* [command.data ()] is the whole of [args_] as a C string *)
  if (compare str "HELP" =? 0)%Z then
    sendResponse
      ("211-" +++ CRLF
       +++ " Show this help: SITE HELP" +++ CRLF
       +++ " Set username: SITE USER <NAME>" +++ CRLF
       +++ " Set password: SITE PASS <PASS>" +++ CRLF
       +++ " Set port: SITE PORT <PORT>" +++ CRLF
       +++ " Set deflate level: SITE DEFLATE <LEVEL>" +++ CRLF
       +++ " Set hostname: SITE HOST <HOSTNAME>" +++ CRLF
       +++ " Save config: SITE SAVE" +++ CRLF
       +++ "211 End" +++ CRLF) s
  else if negb (authorized s) then not_logged_in s
  else if (compare command "USER" =? 0)%Z then
    sendResponse ("200 OK" +++ CRLF) (set_m_config (set_cfg_user arg (m_config s)) s)
  else if (compare command "PASS" =? 0)%Z then
    sendResponse ("200 OK" +++ CRLF) (set_m_config (set_cfg_pass arg (m_config s)) s)
  else if (compare command "PORT" =? 0)%Z then
    let ok := succeeded (answer (ConfigSetPort arg) s) in
    let s := sys (ConfigSetPort arg) s in
    if negb ok then sendResponse ("550 " +++ strerror (errno s) s +++ CRLF) s
    else sendResponse ("200 OK" +++ CRLF) s
  else if (compare command "DEFLATE" =? 0)%Z then
    let a := answer (ConfigParseDeflateLevel arg) s in
    let s := sys (ConfigParseDeflateLevel arg) s in
    if negb (succeeded a) then sendResponse ("550 " +++ strerror (errno s) s +++ CRLF) s
    else
      sendResponse ("200 OK" +++ CRLF)
        (set_m_config (set_cfg_deflateLevel (Z.of_nat (r_used a)) (m_config s)) s)
  else if (compare command "HOST" =? 0)%Z then
    let s := set_m_config (set_cfg_hostname arg (m_config s)) s in
    let s := sys (MdnsSetHostname arg) s in
    sendResponse ("550 Invalid command" +++ CRLF) s
  else if (compare command "SAVE" =? 0)%Z then
    let ok := succeeded (answer ConfigSave s) in
    let s := sys ConfigSave s in
    if negb ok then sendResponse ("550 " +++ strerror (errno s) s +++ CRLF) s
    else sendResponse ("200 OK" +++ CRLF) s
  else sendResponse ("550 Invalid command" +++ CRLF) s.

Definition SIZE (args_ : string) (s : FtpSession) : FtpSession :=
  let s := setState COMMAND false false s in
  if negb (authorized s) then not_logged_in s
  else
    (* build the path to stat *)
    let r := buildResolvedPath (m_cwd s) args_ s in
    let path := fst r in
    let s := snd r in
    if sempty path then sendResponse ("553 " +++ strerror (errno s) s +++ CRLF) s
    else
      (* stat the path *)
      let rc_ := tzStat_rc (c_str path) s in
      let st := tzStat_st (c_str path) s in
      let s := tzStat (c_str path) s in
      if negb (rc_ =? 0)%Z then sendResponse ("550 " +++ strerror (errno s) s +++ CRLF) s
      else if negb (S_ISREG (st_mode st)) then sendResponse ("550 Not a file" +++ CRLF) s
      else sendResponse ("213 " +++ fmt_u (wrap64 (st_size st)) +++ CRLF) s.

Definition STAT (args_ : string) (s : FtpSession) : FtpSession :=
  match m_state s with
  | DATA_CONNECT =>
    sendResponse
      ("211-FTP server status" +++ CRLF
       +++ " Waiting for data connection" +++ CRLF
       +++ "211 End" +++ CRLF) s
  | DATA_TRANSFER =>
    sendResponse
      ("211-FTP server status" +++ CRLF
       +++ " Transferred " +++ fmt_u (m_filePosition s) +++ " bytes" +++ CRLF
       +++ "211 End" +++ CRLF) s
  | COMMAND =>
    if String.length args_ =? 0 then
      let now := rc (answer SysClockNow s) in
      let s := sys SysClockNow s in
      let start := rc (answer ServerStartTime s) in
      let s := sys ServerStartTime s in
      let uptime := (now - start)%Z in
      let hours := wrap_unsigned (Z.quot uptime 3600) in
      let minutes := wrap_unsigned (Z.rem (Z.quot uptime 60) 60) in
      let seconds := wrap_unsigned (Z.rem uptime 60) in
      sendResponse
        ("211-FTP server status" +++ CRLF
         +++ " Uptime: " +++ fmt_02u hours +++ ":" +++ fmt_02u minutes +++ ":"
         +++ fmt_02u seconds +++ CRLF
         +++ "211 End" +++ CRLF) s
    else if negb (authorized s) then (setState COMMAND false false ;; not_logged_in) s
    else xferDir args_ STAT_mode false s
  end.

Definition STOR (args_ : string) (s : FtpSession) : FtpSession :=
  if negb (authorized s) then (setState COMMAND false false ;; not_logged_in) s
  else xferFile args_ STOR_mode s.   (* open the file to store *)

Definition STOU (args_ : string) : FtpSession -> FtpSession :=
  setState COMMAND false false ;; sendResponse ("502 Command not implemented" +++ CRLF).

Definition STRU (args_ : string) (s : FtpSession) : FtpSession :=
  let s := setState COMMAND false false s in
  (* we only support F (no structure) mode *)
  if (compare args_ "F" =? 0)%Z then sendResponse ("200 OK" +++ CRLF) s
  else sendResponse ("504 Unavailable" +++ CRLF) s.

Definition SYST (args_ : string) : FtpSession -> FtpSession :=
  setState COMMAND false false ;; sendResponse ("215 UNIX Type: L8" +++ CRLF).

Definition TYPE (args_ : string) : FtpSession -> FtpSession :=
  (* we always transfer in binary mode *)
  setState COMMAND false false ;; sendResponse ("200 OK" +++ CRLF).

Definition USER (args_ : string) (s : FtpSession) : FtpSession :=
  let s := setState COMMAND false false s in
  let s := set_m_authorizedUser false s in
  let user := cfg_user (m_config s) in
  let pass := cfg_pass (m_config s) in
  if sempty user || String.eqb user args_ then
    let s := set_m_authorizedUser true s in
    if sempty pass then sendResponse ("230 OK" +++ CRLF) s
    else sendResponse ("331 Need password" +++ CRLF) s
  else sendResponse ("430 Invalid user" +++ CRLF) s.

(** The dispatch table, sorted by name. *)
Definition handlers : list (string * Handler) :=
  [ ("ABOR", ABOR); ("ALLO", ALLO); ("APPE", APPE); ("CDUP", CDUP); ("CWD", CWD);
    ("DELE", DELE); ("FEAT", FEAT); ("HELP", HELP); ("LIST", LIST); ("MDTM", MDTM);
    ("MKD", MKD); ("MLSD", MLSD); ("MLST", MLST); ("MODE", MODE); ("NLST", NLST);
    ("NOOP", NOOP); ("OPTS", OPTS); ("PASS", PASS); ("PASV", PASV); ("PORT", PORT);
    ("PWD", PWD); ("QUIT", QUIT); ("REST", REST); ("RETR", RETR); ("RMD", RMD);
    ("RNFR", RNFR); ("RNTO", RNTO); ("SITE", SITE); ("SIZE", SIZE); ("STAT", STAT);
    ("STOR", STOR); ("STOU", STOU); ("STRU", STRU); ("SYST", SYST); ("TYPE", TYPE);
    ("USER", USER); ("XCUP", CDUP); ("XCWD", CWD); ("XMKD", MKD); ("XPWD", PWD);
    ("XRMD", RMD) ].

(* ================================================================== *)
(** ** readCommand *)

(** [std::lower_bound] over the index range [first, first + len). *)
Fixpoint lower_bound {A : Type} (comp : A -> bool) (v : list A)
    (first len fuel : nat) : nat :=
  match fuel with
  | O => first
  | S fuel' =>
    if len =? 0 then first
    else
      let half := len / 2 in
      match nth_error v (first + half) with
      | Some middle =>
        if comp middle
        then lower_bound comp v (first + half + 1) (len - half - 1) fuel'
        else lower_bound comp v first half fuel'
      | None => first
      end
  end.

(** The handler whose name equals the command up to case, as
    [readCommand] looks it up. *)
Definition find_handler (command : string) : option (string * Handler) :=
  let it :=
    lower_bound (fun h : string * Handler => (compare (fst h) command <? 0)%Z)
      handlers 0 (List.length handlers) (List.length handlers) in
  match nth_error handlers it with
  | Some h => if negb (compare (fst h) command =? 0)%Z then None else Some h
  | None => None
  end.

(** The command is cut at its first white space. *)
Fixpoint split_verb (line : string) : string * string :=
  match line with
  | EmptyString => (EmptyString, EmptyString)
  | String c rest =>
    if isspace c then (EmptyString, rest)
    else let r := split_verb rest in (String c (fst r), snd r)
  end.

Definition invalid_command (command args : string) : FtpSession -> FtpSession :=
  sendResponse_view
    ("502 Invalid command " +++ str1 DQUOTE +++ encodePath command false
     +++ (if sempty args then "" else " " +++ encodePath args false)
     +++ str1 DQUOTE +++ CRLF).

(** Only some commands are available during data transfer. *)
Definition allowed_during_transfer (command : string) : bool :=
  negb ((negb (compare command "ABOR" =? 0) && negb (compare command "NOOP" =? 0)
         && negb (compare command "PWD" =? 0) && negb (compare command "QUIT" =? 0)
         && negb (compare command "STAT" =? 0) && negb (compare command "XPWD" =? 0))%Z).

(** What [readCommand] does with one command line once it is split. *)
Definition dispatch (command args : string) (s : FtpSession) : FtpSession :=
  let it := find_handler command in
  let s := stamp s in
  match it with
  | None => invalid_command command args s
  | Some (_, handler) =>
    if negb (State_eqb (m_state s) COMMAND) then
      if negb (allowed_during_transfer command) then
        (sendResponse ("503 Invalid command during transfer" +++ CRLF)
         ;; setState COMMAND true true
         ;; closeCommand) s
      else handler args s
    else
      (* clear rename for all commands except RNTO *)
      let s :=
        if negb (compare command "RNTO" =? 0)%Z then set_m_rename EmptyString s
        else s in
      handler args s
  end.

(** The command loop of [readCommand]; every round frees at least the
    delimiter, so the bytes in the buffer bound it. *)
Fixpoint readCommand_loop (fuel : nat) (s : FtpSession) : FtpSession :=
  match fuel with
  | O => s
  | S fuel' =>
    let buffer := usedArea (m_commandBuffer s) in
    if usedSize (m_commandBuffer s) <? 1 then s
    else
      match parseCommand buffer with
      | None => s
      | Some (delim, next) =>
        let line := decodePath (substr 0 delim buffer) in
        let command := fst (split_verb line) in
        let args := snd (split_verb line) in
        let s := dispatch command args s in
        let s := set_m_commandBuffer (coalesce (markFree next (m_commandBuffer s))) s in
        readCommand_loop fuel' s
      end
  end.

(** [m_commandSocket->read (m_commandBuffer, oob)]: the bytes the socket
    delivers are stored in the free area and marked used. *)
Definition command_read_rc (fd : Socket) (oob : bool) (s : FtpSession) : Z :=
  rc (answer (SockRead fd (freeSize (m_commandBuffer s)) oob) s).

Definition command_read (fd : Socket) (oob : bool) (s : FtpSession) : FtpSession :=
  let c := SockRead fd (freeSize (m_commandBuffer s)) oob in
  let r := answer c s in
  let s := sys c s in
  if (0 <? rc r)%Z then
    set_m_commandBuffer
      (markUsed (substr 0 (Nat.min (Z.to_nat (rc r)) (freeSize (m_commandBuffer s)))
                   (r_data r))
         (m_commandBuffer s)) s
  else s.

(** The telnet data mark. *)
Definition DATA_MARK : ascii := ascii_of_nat 242.

Definition readCommand (events_ : Z) (s : FtpSession) : FtpSession :=
  match m_commandSocket s with
  | None => s   (* the reactor calls it on an event of the command socket *)
  | Some fd =>
    if has_bit events_ POLLPRI then
      (* check out-of-band data *)
      let s := set_m_urgent true s in
      (* check if we are at the urgent marker *)
      let atMark := rc (answer (SockAtMark fd) s) in
      let s := sys (SockAtMark fd) s in
      if (atMark <? 0)%Z then closeCommand s
      else if (atMark =? 0)%Z then
        (* discard in-band data *)
        let s := set_m_commandBuffer (buf_clear (m_commandBuffer s)) s in
        let rc_ := command_read_rc fd false s in
        let s := command_read fd false s in
        if (rc_ <? 0)%Z && negb (errno s =? EWOULDBLOCK)%Z then closeCommand s
        else stamp s
      else
        (* retrieve the urgent data *)
        let s := set_m_commandBuffer (buf_clear (m_commandBuffer s)) s in
        let rc_ := command_read_rc fd true s in
        let s := command_read fd true s in
        if (rc_ <? 0)%Z then
          (* EWOULDBLOCK means out-of-band data is on the way *)
          if negb (errno s =? EWOULDBLOCK)%Z then closeCommand s else stamp s
        else
          let s := stamp s in
          (* reset the command buffer *)
          set_m_commandBuffer (buf_clear (m_commandBuffer s)) s
    else
      let commands (s : FtpSession) : FtpSession :=
        readCommand_loop (S (usedSize (m_commandBuffer s))) s in
      if has_bit events_ POLLIN then
        (* prepare to receive data *)
        if freeSize (m_commandBuffer s) =? 0 then closeCommand s
        else
          let rc_ := command_read_rc fd false s in
          let s := command_read fd false s in
          if (rc_ <? 0)%Z then closeCommand s
          else if (rc_ =? 0)%Z then closeCommand s   (* peer closed connection *)
          else
            let s := stamp s in
            if m_urgent s then
              (* look for telnet data mark *)
              match find DATA_MARK (usedArea (m_commandBuffer s)) 0 with
              | None => s
              | Some mark =>
                (* ignore all data that precedes the data mark *)
                let s := set_m_commandBuffer
                           (coalesce (markFree (mark + 1) (m_commandBuffer s))) s in
                commands (set_m_urgent false s)
              end
            else commands s
      else commands s
  end.

(* ================================================================== *)
(** ** Transfers *)

(** [deflate] and [inflate] on the two buffers: the input consumed leaves
    the stream buffer, the output produced enters the transfer buffer. *)
Definition zRun_call (kind : ZKind) (flush_ : bool) (s : FtpSession) : Call :=
  ZRun kind (usedArea (m_zStreamBuffer s)) (freeSize (m_xferBuffer s)) flush_.

Definition zRun_consumed (r : Ret) (s : FtpSession) : nat :=
  Nat.min (r_used r) (usedSize (m_zStreamBuffer s)).

Definition zRun_produced (r : Ret) (s : FtpSession) : string :=
  substr 0 (freeSize (m_xferBuffer s)) (r_data r).

(** The three statements that close every successful round of
    [deflateBuffer] and [inflateBuffer]; [advance] is what
    [m_zStreamPosition] grows by. *)
Definition zRun_account (r : Ret) (advance : nat) (s : FtpSession) : FtpSession :=
  let consumed := zRun_consumed r s in
  let produced := zRun_produced r s in
  let s := set_m_zStreamBuffer (markFree consumed (m_zStreamBuffer s)) s in
  let s := set_m_xferBuffer (markUsed produced (m_xferBuffer s)) s in
  set_m_zStreamPosition (wrap64 (m_zStreamPosition s + Z.of_nat advance)) s.

Definition zlib_failed (r : Ret) : FtpSession -> FtpSession :=
  sendResponse ("501 " +++ zlib_msg r +++ CRLF) ;; setState COMMAND true true.

Definition deflateBuffer (flush_ : bool) (s : FtpSession) : bool * FtpSession :=
  let c := zRun_call ZDeflate flush_ s in
  let r := answer c s in
  let s := sys c s in
  let advance := String.length (zRun_produced r s) in
  if flush_ then
    if (rc r =? Z_OK)%Z || (rc r =? Z_BUF_ERROR)%Z then (true, zRun_account r advance s)
    else if (rc r =? Z_STREAM_END)%Z
    then (true, zRun_account r advance (set_m_zFlushed true s))
    else (false, zlib_failed r s)
  else if negb (rc r =? Z_OK)%Z then (false, zlib_failed r s)
  else (true, zRun_account r advance s).

Definition inflateBuffer (s : FtpSession) : bool * FtpSession :=
  let c := zRun_call ZInflate false s in
  let r := answer c s in
  let s := sys c s in
  let advance := zRun_consumed r s in
  if (rc r =? Z_STREAM_END)%Z then (true, zRun_account r advance (set_m_zFlushed true s))
  else if negb (rc r =? Z_OK)%Z then (false, zlib_failed r s)
  else (true, zRun_account r advance s).

(** [m_dataSocket->write (m_xferBuffer)] and what every sending transfer
    does with its result. *)
Definition send_pending (s : FtpSession) : bool * FtpSession :=
  match m_dataSocket s with
  | None => (false, s)   (* null data socket: not reached from the reactor *)
  | Some fd =>
    let c := SockWrite fd (usedArea (m_xferBuffer s)) in
    let rc_ := rc (answer c s) in
    let s := sys c s in
    let s :=
      if (0 <? rc_)%Z
      then set_m_xferBuffer (markFree (Z.to_nat rc_) (m_xferBuffer s)) s else s in
    if (rc_ <=? 0)%Z then
      (* error sending data *)
      if (rc_ <? 0)%Z && (errno s =? EWOULDBLOCK)%Z then (false, s)
      else
        (false, (sendResponse ("426 Connection broken during transfer" +++ CRLF)
                 ;; setState COMMAND true true) s)
    else (true, stamp s)   (* we can try to send more data *)
  end.

(** The code of the final reply of a listing. *)
Definition list_done_code (s : FtpSession) : string :=
  match m_xferDirMode s with
  | MLST_mode | STAT_mode => "250"
  | _ => "226"
  end.

(** The producing loop of [listTransfer], entered with the transfer
    buffer empty.  A round is repeated only while the buffer stays empty,
    that is after an entry was skipped, so the loop is as long as the run
    of skipped entries the directory delivers; [None] when [fuel] rounds
    did not end it.  [Some (None, s)] is the exit of the loop towards the
    sending code, [Some (Some b, s)] a [return b] from inside it. *)
Fixpoint listTransfer_fill (fuel : nat) (s : FtpSession)
    : option (option bool * FtpSession) :=
  match fuel with
  | O => None
  | S fuel' =>
    let again (s : FtpSession) :=
      if buf_empty (m_xferBuffer s) then listTransfer_fill fuel' s
      else Some (None, s) in
    let s := set_m_xferBuffer (buf_clear (m_xferBuffer s)) s in
    if negb (buf_empty (m_zStreamBuffer s)) then
      let r := deflateBuffer false s in Some (Some (fst r), snd r)
    else if m_deflate s && negb (m_zFlushed s) && m_eof s then
      let r := deflateBuffer true s in Some (Some (fst r), snd r)
    else
      let s := set_m_zStreamBuffer (buf_clear (m_zStreamBuffer s)) s in
      if m_eof s && Bool.eqb (m_deflate s) (m_zFlushed s) then
        Some (Some false,
              (sendResponse (list_done_code s +++ " OK" +++ CRLF)
               ;; setState COMMAND true true) s)
      else if negb (m_dir s) then
        (* we already sent the file's listing *)
        Some (Some true, set_m_eof true s)
      else
        (* get the next directory entry *)
        let dent := answer DirRead s in
        let s := sys DirRead s in
        if negb (succeeded dent) then
          (* we have exhausted the directory listing *)
          Some (Some true, set_m_eof true s)
        else
          let d_name := c_str (r_data dent) in
          if String.eqb d_name "." || String.eqb d_name ".." then
            again s   (* just skip it *)
          else
            match m_xferDirMode s with
            | NLST_mode =>
              (* NLST gives the whole path name *)
              let path := encodePath (buildPath (m_lwd s) d_name) false +++ CRLF in
              if freeSize (ioBuffer s) <? String.length path then
                Some (Some false,
                      (sendResponse ("501 " +++ strerror ENOMEM s +++ CRLF)
                       ;; setState COMMAND true true) s)
              else
                let s := set_ioBuffer (markUsed path (ioBuffer s)) s in
                let s := set_m_filePosition
                           (wrap64 (m_filePosition s
                                    + Z.of_nat (String.length path))) s in
                if m_deflate s then Some (Some true, s) else again s
            | _ =>
              (* build the path *)
              let fullPath := buildPath (m_lwd s) d_name in
              (* lstat the entry *)
              let rc_ := tzLStat_rc (c_str fullPath) s in
              let st := tzLStat_st (c_str fullPath) s in
              let s := tzLStat (c_str fullPath) s in
              if negb (rc_ =? 0)%Z then again s   (* just skip it *)
              else
                let path := encodePath d_name false in
                let f := fillDirent st path None s in
                let s := snd f in
                if negb (fst f =? 0)%Z then
                  Some (Some false,
                        (sendResponse ("425 " +++ strerror (errno s) s +++ CRLF)
                         ;; setState COMMAND true true) s)
                else if m_deflate s then Some (Some true, s)
                else again s
            end
  end.

Definition listTransfer (fuel : nat) (s : FtpSession) : option (bool * FtpSession) :=
  if buf_empty (m_xferBuffer s) then
    match listTransfer_fill fuel s with
    | None => None
    | Some (Some b, s) => Some (b, s)
    | Some (None, s) => Some (send_pending s)   (* send any pending data *)
    end
  else Some (send_pending s).

(** [Glob::next]. *)
Definition glob_next (s : FtpSession) : option string * FtpSession :=
  match m_glob s with
  | None => (None, s)
  | Some (pathv, offset) =>
    match nth_error pathv offset with
    | None => (None, glob_clear s)
    | Some entry => (Some entry, set_m_glob (Some (pathv, S offset)) s)
    end
  end.

Definition globTransfer (s : FtpSession) : bool * FtpSession :=
  if buf_empty (m_xferBuffer s) then
    let s := set_m_xferBuffer (buf_clear (m_xferBuffer s)) s in
    let g := glob_next s in
    let s := snd g in
    match fst g with
    | None =>
      (* we have exhausted the glob listing *)
      (false, (sendResponse ("226 OK" +++ CRLF) ;; setState COMMAND true true) s)
    | Some entry =>
      (* NLST gives the whole path name *)
      let path := encodePath (c_str entry) false +++ CRLF in
      if freeSize (m_xferBuffer s) <? String.length path then
        (false, (sendResponse ("501 " +++ strerror ENOMEM s +++ CRLF)
                 ;; setState COMMAND true true) s)
      else
        let s := set_m_xferBuffer (markUsed path (m_xferBuffer s)) s in
        let s := set_m_filePosition
                   (wrap64 (m_filePosition s + Z.of_nat (String.length path))) s in
        send_pending s
    end
  else send_pending s.

(** [size] zero bytes. *)
Fixpoint zeros (size : nat) : string :=
  match size with
  | O => EmptyString
  | S n => String NUL (zeros n)
  end.

Definition retrieveTransfer (s : FtpSession) : bool * FtpSession :=
  if buf_empty (m_xferBuffer s) then
    let s := set_m_xferBuffer (buf_clear (m_xferBuffer s)) s in
    if negb (buf_empty (m_zStreamBuffer s)) then deflateBuffer false s
    else if m_deflate s && negb (m_zFlushed s) && m_eof s then deflateBuffer true s
    else
      let s := set_m_zStreamBuffer (buf_clear (m_zStreamBuffer s)) s in
      if negb (m_devZero s) then
        if m_eof s && Bool.eqb (m_deflate s) (m_zFlushed s) then
          (false, (sendResponse ("226 OK" +++ CRLF) ;; setState COMMAND true true) s)
        else
          (* we have sent all the data, so read some more *)
          let c := FileRead (freeSize (ioBuffer s)) in
          let r := answer c s in
          let s := sys c s in
          if (rc r <? 0)%Z then
            (* failed to read data *)
            (false, (sendResponse ("451 " +++ strerror (errno s) s +++ CRLF)
                     ;; setState COMMAND true true) s)
          else if (rc r =? 0)%Z then
            (true, set_m_eof true s)   (* reached end of file *)
          else
            let bytes :=
              substr 0 (Nat.min (Z.to_nat (rc r)) (freeSize (ioBuffer s))) (r_data r) in
            let s := set_ioBuffer (markUsed bytes (ioBuffer s)) s in
            let s := set_m_filePosition (wrap64 (m_filePosition s + rc r)) s in
            if m_deflate s then (true, s) else send_pending s
      else
        let size := freeSize (ioBuffer s) in
        let s := set_ioBuffer (markUsed (zeros size) (ioBuffer s)) s in
        let s := set_m_filePosition (wrap64 (m_filePosition s + Z.of_nat size)) s in
        if m_deflate s then (true, s) else send_pending s
  else send_pending s.

(** The writing half of [storeTransfer]. *)
Definition store_pending (s : FtpSession) : bool * FtpSession :=
  if negb (m_devZero s) then
    (* write any pending data *)
    let c := FileWrite (usedArea (m_xferBuffer s)) in
    let r := answer c s in
    let s := sys c s in
    let s :=
      if (0 <? rc r)%Z
      then set_m_xferBuffer (markFree (Z.to_nat (rc r)) (m_xferBuffer s)) s else s in
    if (rc r <=? 0)%Z then
      (* error writing data *)
      (false,
       (sendResponse
          ("426 " +++ (if (rc r <? 0)%Z then strerror (errno s) s
                       else "Failed to write data") +++ CRLF)
        ;; setState COMMAND true true) s)
    else
      (* we can try to recv/write more data *)
      (true, set_m_filePosition (wrap64 (m_filePosition s + rc r)) s)
  else
    let s := set_m_filePosition
               (wrap64 (m_filePosition s + Z.of_nat (usedSize (m_xferBuffer s)))) s in
    (true, set_m_xferBuffer (buf_clear (m_xferBuffer s)) s).

Definition storeTransfer (s : FtpSession) : bool * FtpSession :=
  if buf_empty (m_xferBuffer s) then
    let s := set_m_xferBuffer (buf_clear (m_xferBuffer s)) s in
    if negb (buf_empty (m_zStreamBuffer s)) then inflateBuffer s
    else if m_deflate s && negb (m_zFlushed s) && m_eof s then inflateBuffer s
    else if m_eof s && Bool.eqb (m_deflate s) (m_zFlushed s) then
      (false, (sendResponse ("226 OK" +++ CRLF) ;; setState COMMAND true true) s)
    else
      match m_dataSocket s with
      | None => (false, s)   (* null data socket: not reached from the reactor *)
      | Some fd =>
        (* we have written all the received data, so try to get some more *)
        let c := SockRead fd (freeSize (ioBuffer s)) false in
        let r := answer c s in
        let s := sys c s in
        if (rc r <? 0)%Z then
          (* failed to read data *)
          if (errno s =? EWOULDBLOCK)%Z then (false, s)
          else
            (false, (sendResponse ("451 " +++ strerror (errno s) s +++ CRLF)
                     ;; setState COMMAND true true) s)
        else if (rc r =? 0)%Z then
          (true, set_m_eof true s)   (* reached end of file *)
        else
          let bytes :=
            substr 0 (Nat.min (Z.to_nat (rc r)) (freeSize (ioBuffer s))) (r_data r) in
          let s := set_ioBuffer (markUsed bytes (ioBuffer s)) s in
          let s := stamp s in
          if m_deflate s then (true, s) else store_pending s
      end
  else store_pending s.

(** The call through [m_transfer]. *)
Definition run_transfer (fuel : nat) (s : FtpSession) : option (bool * FtpSession) :=
  match m_transfer s with
  | Some xfer_list => listTransfer fuel s
  | Some xfer_glob => Some (globTransfer s)
  | Some xfer_retrieve => Some (retrieveTransfer s)
  | Some xfer_store => Some (storeTransfer s)
  | None => Some (false, s)   (* null member pointer: not reached *)
  end.

(** The pump of the reactor: the transfer is called until it answers
    [false], [n] times at most. *)
Fixpoint pump (n : nat) (fuel : nat) (s : FtpSession) : option FtpSession :=
  match n with
  | O => Some s
  | S n' =>
    match run_transfer fuel s with
    | None => None
    | Some (true, s) => pump n' fuel s
    | Some (false, s) => Some s
    end
  end.

(* ================================================================== *)
(** ** The reactor *)

(** Idle timeout *)
Definition IDLE_TIMEOUT : Z := 60.

Record PollInfo := mkPollInfo {
  pi_socket : Socket;
  pi_events : Z;
  pi_revents : Z
}.

Definition is_socket (o : option Socket) (fd : Socket) : bool :=
  match o with
  | Some x => x =? fd
  | None => false
  end.

Definition any_bit (revents mask : Z) : bool := has_bit revents mask.

(** What the second loop of [poll] does for one entry with events on one
    session, once [handled] is set; [None] is [std::abort]. *)
Definition poll_entry (fuel : nat) (i : PollInfo) (s : FtpSession)
    : option FtpSession :=
  let revents := pi_revents i in
  (* check command socket *)
  let s :=
    if is_socket (m_commandSocket s) (pi_socket i) then
      let s :=
        match m_dataSocket s with
        | None => if any_bit revents POLLOUT then writeResponse s else s
        | Some _ => s
        end in
      let s :=
        if any_bit revents (Z.lor POLLIN POLLPRI) then readCommand revents s else s in
      if any_bit revents (Z.lor POLLERR POLLHUP) then closeCommand s else s
    else s in
  (* check the data socket *)
  if is_socket (m_pasvSocket s) (pi_socket i) || is_socket (m_dataSocket s) (pi_socket i)
  then
    match m_state s with
    | COMMAND => None
    | DATA_CONNECT =>
      if any_bit revents (Z.lor POLLERR POLLHUP) then
        Some ((sendResponse ("426 Data connection failed" +++ CRLF)
               ;; setState COMMAND true true) s)
      else if any_bit revents POLLIN then
        (* we need to accept the PASV connection *)
        Some (snd (dataAccept s))
      else if any_bit revents POLLOUT then
        (* PORT connection completed *)
        match m_dataSocket s with
        | None => Some s   (* null data socket: the source dereferences it *)
        | Some fd =>
          Some ((sendResponse ("150 Ready" +++ CRLF)
                 ;; setState DATA_TRANSFER true false) s)
        end
      else Some s
    | DATA_TRANSFER =>
      (* we need to transfer data *)
      if any_bit revents (Z.lor POLLERR POLLHUP) then
        Some ((sendResponse ("426 Data connection failed" +++ CRLF)
               ;; setState COMMAND true true) s)
      else if any_bit revents (Z.lor POLLIN POLLOUT) then pump 10 fuel s
      else Some s
    end
  else Some s.

(** The inner loop of [poll] for one session: every entry with events
    sets [handled], whichever session its socket belongs to. *)
Fixpoint poll_entries (fuel : nat) (pollInfo : list PollInfo) (handled : bool)
    (s : FtpSession) : option (bool * FtpSession) :=
  match pollInfo with
  | [] => Some (handled, s)
  | i :: rest =>
    if (pi_revents i =? 0)%Z then poll_entries fuel rest handled s
    else
      match poll_entry fuel i s with
      | None => None
      | Some s => poll_entries fuel rest true s
      end
  end.

(** The body of the second loop of [poll] for one session, [now] being the
    time taken after [Socket::poll] returned. *)
Definition poll_session (fuel : nat) (now : Z) (pollInfo : list PollInfo)
    (s : FtpSession) : option FtpSession :=
  match poll_entries fuel pollInfo false s with
  | None => None
  | Some (handled, s) =>
    if negb handled && (IDLE_TIMEOUT <=? now - m_timestamp s)%Z
    then Some ((closeCommand ;; closePasv ;; closeData) s)
    else Some s
  end.

(** The entries a session adds to the poll set. *)
Definition session_pollInfo (s : FtpSession) : list PollInfo :=
  (match m_commandSocket s with
   | Some fd =>
     [mkPollInfo fd
        (if usedSize (m_responseBuffer s) =? 0 then Z.lor POLLIN POLLPRI
         else Z.lor (Z.lor POLLIN POLLPRI) POLLOUT) 0]
   | None => []
   end)
  ++
  match m_state s with
  | COMMAND => []   (* we are waiting to read a command *)
  | DATA_CONNECT =>
    if m_pasv s then
      (* we are waiting for a PASV connection *)
      match m_pasvSocket s with Some fd => [mkPollInfo fd POLLIN 0] | None => [] end
    else
      (* we are waiting to complete a PORT connection *)
      match m_dataSocket s with Some fd => [mkPollInfo fd POLLOUT 0] | None => [] end
  | DATA_TRANSFER =>
    (* we need to transfer data *)
    match m_dataSocket s with
    | Some fd => [mkPollInfo fd (if m_recv s then POLLIN else POLLOUT) 0]
    | None => []
    end
  end.

(** The second loop of [poll] over all sessions. *)
Fixpoint poll_sessions (fuel : nat) (now : Z) (pollInfo : list PollInfo)
    (sessions_ : list FtpSession) : option (list FtpSession) :=
  match sessions_ with
  | [] => Some []
  | s :: rest =>
    match poll_session fuel now pollInfo s with
    | None => None
    | Some s' =>
      match poll_sessions fuel now pollInfo rest with
      | None => None
      | Some rest' => Some (s' :: rest')
      end
    end
  end.

(* ================================================================== *)
(** ** Construction *)

(** The constructor; the sizes of the buffers come from ftpSession.h.
    Members without an initialiser in the constructor start from their
    default values. *)
Definition FtpSession_new (config_ : FtpConfig) (commandSocket_ : Socket)
    (COMMAND_BUFFERSIZE RESPONSE_BUFFERSIZE XFER_BUFFERSIZE : nat)
    (w : World) : FtpSession :=
  let s :=
    mkFtpSession config_ (Some commandSocket_) None None []
      (IOBuffer_new COMMAND_BUFFERSIZE) (IOBuffer_new RESPONSE_BUFFERSIZE)
      (IOBuffer_new XFER_BUFFERSIZE) (IOBuffer_new XFER_BUFFERSIZE)
      None false false None COMMAND None LIST_mode 0%Z
      "/" EmptyString EmptyString EmptyString (mkSockAddr EmptyString 0%Z 0%Z)
      0%Z 0%Z 0%Z 0%Z
      false false false false false false false false false false
      true true true true false false
      w in
  let s := if sempty (cfg_user (m_config s)) then set_m_authorizedUser true s else s in
  let s := if sempty (cfg_pass (m_config s)) then set_m_authorizedPass true s else s in
  let s := sys (SockSetNonBlocking commandSocket_) s in
  sendResponse ("220 Hello!" +++ CRLF) s.

(* ================================================================== *)
(** ** What the properties observe *)

(** The members that only the login and rename commands, and the command
    reader, write: the two authorization latches, the configured user and
    password, the rename path and the command buffer; with them the two
    parts of the platform that no call changes. *)
Definition latches (s : FtpSession)
    : bool * bool * string * string * string * IOBuffer
      * (list Call -> Ret) * (Z -> string) :=
  (m_authorizedUser s, m_authorizedPass s, cfg_user (m_config s),
   cfg_pass (m_config s), m_rename s, m_commandBuffer s,
   w_oracle (world s), w_strerror (world s)).

(** The bytes socket [fd] took in the calls of a trace, oldest first. *)
Fixpoint sent_on (oracle : list Call -> Ret) (fd : Socket) (trace : list Call)
    : string :=
  match trace with
  | [] => EmptyString
  | c :: older =>
    sent_on oracle fd older +++
    match c with
    | SockWrite fd' data =>
      if (fd' =? fd) && (0 <? rc (oracle trace))%Z
      then substr 0 (Z.to_nat (rc (oracle trace))) data
      else EmptyString
    | _ => EmptyString
    end
  end.

(** Everything the session has said on the command channel [fd]: the
    bytes the socket took, then the bytes still queued for it. *)
Definition command_output (fd : Socket) (s : FtpSession) : string :=
  sent_on (w_oracle (world s)) fd (w_trace (world s))
  +++ usedArea (m_responseBuffer s).

(** The session processes command lines, already split, in order. *)
Definition run (commands : list (string * string)) (s : FtpSession) : FtpSession :=
  fold_left (fun s c => dispatch (fst c) (snd c) s) commands s.

(** A platform for examples: every path is a directory, sockets take
    all they are given, the clock stands at 1000. *)
Definition example_stat : stat_t := mkStat (Z.lor S_IFDIR 493) 2 0 0 4096 0.

Definition example_oracle (trace : list Call) : Ret :=
  let quiet := mkRet 0 0 EmptyString 0 example_stat (mkSockAddr "10.0.0.1" 0 2121) [] in
  match trace with
  | SockWrite _ data :: _ =>
    mkRet (Z.of_nat (String.length data)) 0 EmptyString 0 example_stat
      (mkSockAddr "10.0.0.1" 0 2121) []
  | SysTime :: _ =>
    mkRet 1000 0 EmptyString 0 example_stat (mkSockAddr "10.0.0.1" 0 2121) []
  | SysInetAton _ :: _ =>
    mkRet 1 0 EmptyString 0 example_stat (mkSockAddr "10.0.0.2" 167772162 0) []
  | SockCreate :: _ =>
    mkRet 7 0 EmptyString 0 example_stat (mkSockAddr "10.0.0.1" 0 2121) []
  | SockBind _ _ :: _ | SockListen _ _ :: _ | SockSetNonBlocking _ :: _
  | FileOpen _ _ :: _ | DirOpen _ :: _ =>
    mkRet 1 0 EmptyString 0 example_stat (mkSockAddr "10.0.0.1" 0 2121) []
  | _ => quiet
  end.

Definition example_world : World :=
  mkWorld example_oracle [] 0 (fun _ => "Invalid argument").

Definition example_config : FtpConfig := mkFtpConfig "user" "secret" "ftpd" 6.

(** A session just accepted on socket 3. *)
Definition example_session : FtpSession :=
  FtpSession_new example_config 3 4096 4096 4096 example_world.

(** The same after USER and PASS with the configured names. *)
Definition example_login : FtpSession :=
  run [("USER", "user"); ("PASS", "secret")] example_session.

(** Logged in, a passive listener opened and a listing asked for: the
    session waits for the data connection. *)
Definition example_listing : FtpSession :=
  run [("PASV", ""); ("LIST", "")] example_login.

(** Logged in, with [/a] named as the file to rename. *)
Definition example_renaming : FtpSession := run [("RNFR", "/a")] example_login.

(** [t] has the login state and the command buffer of [s]; the rename
    path is left out. *)
Definition login_kept (s t : FtpSession) : Prop :=
  m_authorizedUser t = m_authorizedUser s
  /\ m_authorizedPass t = m_authorizedPass s
  /\ cfg_user (m_config t) = cfg_user (m_config s)
  /\ cfg_pass (m_config t) = cfg_pass (m_config s)
  /\ m_commandBuffer t = m_commandBuffer s.

(** [t] has the latches of [s], but for the configured user and password
    when [s] is logged in. *)
Definition config_guarded (s t : FtpSession) : Prop :=
  m_authorizedUser t = m_authorizedUser s
  /\ m_authorizedPass t = m_authorizedPass s
  /\ m_rename t = m_rename s
  /\ m_commandBuffer t = m_commandBuffer s
  /\ (authorized s = false ->
      cfg_user (m_config t) = cfg_user (m_config s)
      /\ cfg_pass (m_config t) = cfg_pass (m_config s)).

(** What a command can do to the login state, from [s] to [t]: nothing;
    or, being USER or PASS, set its latch from the argument; or, the
    session being logged in, rewrite the configured user and password. *)
Definition login_step (command args : string) (s t : FtpSession) : Prop :=
  login_kept s t
  \/ (compare "USER" command = 0%Z
      /\ m_authorizedUser t
         = (sempty (cfg_user (m_config s)) || String.eqb (cfg_user (m_config s)) args)
      /\ m_authorizedPass t = m_authorizedPass s
      /\ cfg_user (m_config t) = cfg_user (m_config s)
      /\ cfg_pass (m_config t) = cfg_pass (m_config s))
  \/ (compare "PASS" command = 0%Z
      /\ m_authorizedUser t = m_authorizedUser s
      /\ m_authorizedPass t
         = (if negb (sempty (cfg_user (m_config s))) && negb (m_authorizedUser s)
            then false
            else sempty (cfg_pass (m_config s))
                 || String.eqb (cfg_pass (m_config s)) args)
      /\ cfg_user (m_config t) = cfg_user (m_config s)
      /\ cfg_pass (m_config t) = cfg_pass (m_config s))
  \/ (authorized s = true
      /\ m_authorizedUser t = m_authorizedUser s
      /\ m_authorizedPass t = m_authorizedPass s).

(** The command is USER with the argument [u]. *)
Definition is_user (u : string) (c : string * string) : Prop :=
  compare "USER" (fst c) = 0%Z /\ snd c = u.

(** The command is PASS with the argument [p]. *)
Definition is_pass (p : string) (c : string * string) : Prop :=
  compare "PASS" (fst c) = 0%Z /\ snd c = p.

(** Among the commands there is a USER with [u]. *)
Definition user_seen (u : string) (commands : list (string * string)) : Prop :=
  exists before cu after, commands = before ++ cu :: after /\ is_user u cu.

(** Among the commands there is a USER with [u] and, later, a PASS with
    [p]. *)
Definition user_then_pass (u p : string) (commands : list (string * string)) : Prop :=
  exists before cu between cp after,
    commands = before ++ cu :: between ++ cp :: after
    /\ is_user u cu /\ is_pass p cp.

(** The command channel [fd] as a reply sees it: the socket in the command
    slot, the response buffer, and everything said so far. *)
Definition channel (fd : Socket) (s : FtpSession)
    : option Socket * IOBuffer * string :=
  (m_commandSocket s, m_responseBuffer s, command_output fd s).

(** The call writes to socket [fd]. *)
Definition is_write (fd : Socket) (c : Call) : bool :=
  match c with
  | SockWrite fd' _ => fd' =? fd
  | _ => false
  end.

(** Socket [fd] never fails a write: it takes some bytes or would
    block. *)
Definition writable (fd : Socket) (oracle : list Call -> Ret) : Prop :=
  forall data trace, data <> "" ->
    let r := oracle (SockWrite fd data :: trace) in
    (0 < rc r)%Z \/ ((rc r < 0)%Z /\ r_errno r = EWOULDBLOCK).

(** The free bytes of the response buffer. *)
Definition room (s : FtpSession) : nat := freeSize (m_responseBuffer s).

(** The members that steer the data connection and the transfer. *)
Definition control (s : FtpSession)
    : State * option Socket * option Socket * bool * bool * bool * bool * Z * Z * Z
      * string :=
  (m_state s, m_pasvSocket s, m_dataSocket s, m_pasv s, m_port s, m_recv s, m_send s,
   m_restartPosition s, m_fileSize s, m_filePosition s, m_cwd s).

(** Every byte is a decimal digit. *)
Fixpoint all_digits (p : string) : bool :=
  match p with
  | EmptyString => true
  | String c rest => isdigit c && all_digits rest
  end.

(** The number the digits denote, read after [acc]. *)
Fixpoint decimal (p : string) (acc : Z) : Z :=
  match p with
  | EmptyString => acc
  | String c rest => decimal rest (acc * 10 + digit_value c)%Z
  end.

(** The positions the file was told to seek to, newest first. *)
Fixpoint seeks_of (trace : list Call) : list Z :=
  match trace with
  | [] => []
  | FileSeek pos :: older => pos :: seeks_of older
  | _ :: older => seeks_of older
  end.

Definition seeks (s : FtpSession) : list Z := seeks_of (w_trace (world s)).

(** The call is not a seek. *)
Definition no_seek (c : Call) : bool :=
  match c with
  | FileSeek _ => false
  | _ => true
  end.

(** The restart position with the seeks made so far. *)
Definition restart (s : FtpSession) : Z * list Z := (m_restartPosition s, seeks s).

(** Since [before], the session made no seek, or one seek, to [n]. *)
Definition seeks_to (n : Z) (before : list Z) (s : FtpSession) : Prop :=
  seeks s = before \/ seeks s = n :: before.

(** The last byte is a decimal digit. *)
Fixpoint last_is_digit (s : string) : bool :=
  match s with
  | EmptyString => false
  | String c EmptyString => isdigit c
  | String _ rest => last_is_digit rest
  end.

(** The first byte is a decimal digit. *)
Definition leading_digit (s : string) : bool :=
  match s with
  | EmptyString => false
  | String c _ => isdigit c
  end.

(** The commas of a PORT argument. *)
Definition commas_of (args : string) : nat := scount (fun c => Ascii.eqb c COMMA) args.

(** The text [PORT] reads the port from: what follows the comma counted
    fourth, the later commas turned into dots. *)
Definition port_part (args : string) : option string :=
  match PORT_portString args 0%Z 0 None with
  | Some i => Some (c_str (substr_from i (fst (PORT_rewrite args 0%Z))))
  | None => None
  end.

(** [field] stands in [text] as a whole number: it is made of digits, and
    no digit comes right before or right after it. *)
Definition number_in (field text : string) : Prop :=
  exists pre post,
    text = pre +++ field +++ post
    /\ last_is_digit pre = false
    /\ all_digits field = true
    /\ leading_digit post = false.

(** A regular file of 1024 bytes, mode 0644, last modified on
    2024-01-15 at 12:00:00 UTC. *)
Definition example_file_stat : stat_t :=
  mkStat (Z.lor S_IFREG 420) 1 0 0 1024 1705320000.

Definition is_DirRead (c : Call) : bool :=
  match c with
  | DirRead => true
  | _ => false
  end.

(** A platform whose directories hold one file, [x], with that record;
    the data connection is accepted on socket 8. *)
Definition listing_oracle (trace : list Call) : Ret :=
  match trace with
  | DirRead :: older =>
    if existsb is_DirRead older
    then mkRet 0 0 EmptyString 0 example_stat (mkSockAddr "10.0.0.1" 0 2121) []
    else mkRet 1 0 "x" 0 example_stat (mkSockAddr "10.0.0.1" 0 2121) []
  | SysLStat _ :: _ =>
    mkRet 0 0 EmptyString 0 example_file_stat (mkSockAddr "10.0.0.1" 0 2121) []
  | SockAccept _ :: _ =>
    mkRet 8 0 EmptyString 0 example_stat (mkSockAddr "10.0.0.2" 167772162 40000) []
  | _ => example_oracle trace
  end.

Definition listing_session : FtpSession :=
  FtpSession_new example_config 3 4096 4096 4096
    (mkWorld listing_oracle [] 0 (fun _ => "Invalid argument")).

(** The session after login, PASV and MLSD, with the data connection
    accepted. *)
Definition listing_started : FtpSession :=
  snd (dataAccept
         (run [("USER", "user"); ("PASS", "secret"); ("PASV", ""); ("MLSD", "")]
            listing_session)).

(** The MLST facts a session has switched on. *)
Definition mlst_facts (s : FtpSession) : bool * bool * bool * bool * bool :=
  (m_mlstType s, m_mlstSize s, m_mlstModify s, m_mlstPerm s, m_mlstUnixMode s).

(** The entry reports events. *)
Definition has_events (i : PollInfo) : bool := negb (pi_revents i =? 0)%Z.

(** The socket of the entry is none of the session's. *)
Definition foreign (s : FtpSession) (i : PollInfo) : bool :=
  negb (is_socket (m_commandSocket s) (pi_socket i))
  && negb (is_socket (m_pasvSocket s) (pi_socket i))
  && negb (is_socket (m_dataSocket s) (pi_socket i)).

(** One tick of the reactor saw another session's socket 9 readable and
    nothing on socket 3. *)
Definition example_pollInfo : list PollInfo :=
  [mkPollInfo 3 (Z.lor POLLIN POLLPRI) 0; mkPollInfo 9 (Z.lor POLLIN POLLPRI) POLLIN].

(** The call opens the file or positions it. *)
Definition is_file_call (c : Call) : bool :=
  match c with
  | FileOpen _ _ | FileSeek _ => true
  | _ => false
  end.

Definition no_file_call (c : Call) : bool := negb (is_file_call c).

(** The opens and the seeks of the file a session has made, newest
    first. *)
Definition file_calls (s : FtpSession) : list Call :=
  filter is_file_call (w_trace (world s)).

(** What the platform of a session answers whenever it is asked: zlib
    streams start, [path] is found, [path] is found and is a directory,
    [path] opens in every mode. *)
Definition starts_zlib (s : FtpSession) : Prop :=
  forall kind level trace,
    rc (w_oracle (world s) (ZInit kind level :: trace)) = Z_OK.

Definition finds (s : FtpSession) (path : string) : Prop :=
  forall trace, rc (w_oracle (world s) (SysStat (c_str path) :: trace)) = 0%Z.

Definition finds_directory (s : FtpSession) (path : string) : Prop :=
  forall trace,
    rc (w_oracle (world s) (SysStat (c_str path) :: trace)) = 0%Z
    /\ S_ISDIR (st_mode (r_stat (w_oracle (world s)
                                   (SysStat (c_str path) :: trace)))) = true.

Definition opens (s : FtpSession) (path : string) : Prop :=
  forall mode trace,
    succeeded (w_oracle (world s) (FileOpen (c_str path) mode :: trace)) = true.

Definition opens_directory (s : FtpSession) (path : string) : Prop :=
  forall trace,
    succeeded (w_oracle (world s) (DirOpen (c_str path) :: trace)) = true.

(** [path] is found with the record [st], by [stat] and by [lstat]. *)
Definition stats (s : FtpSession) (path : string) (st : stat_t) : Prop :=
  forall trace,
    rc (w_oracle (world s) (SysStat (c_str path) :: trace)) = 0%Z
    /\ r_stat (w_oracle (world s) (SysStat (c_str path) :: trace)) = st.

Definition lstats (s : FtpSession) (path : string) (st : stat_t) : Prop :=
  forall trace,
    rc (w_oracle (world s) (SysLStat (c_str path) :: trace)) = 0%Z
    /\ r_stat (w_oracle (world s) (SysLStat (c_str path) :: trace)) = st.

(** Socket [fd] takes the whole of [bytes] whenever it is offered them. *)
Definition takes_all (s : FtpSession) (fd : Socket) (bytes : string) : Prop :=
  forall trace,
    rc (w_oracle (world s) (SockWrite fd bytes :: trace))
    = Z.of_nat (String.length bytes).

(** The bytes socket [fd] has taken from the session. *)
Definition socket_output (fd : Socket) (s : FtpSession) : string :=
  sent_on (w_oracle (world s)) fd (w_trace (world s)).

(** What a listing goes by. *)
Definition listing (s : FtpSession)
    : State * XferDirMode * bool * bool * bool * bool * IOBuffer * IOBuffer
      * option Socket * (bool * bool * bool * bool * bool) * bool * bool * string :=
  (m_state s, m_xferDirMode s, m_deflate s, m_zFlushed s, m_dir s, m_eof s,
   m_xferBuffer s, m_zStreamBuffer s, m_dataSocket s, mlst_facts s,
   m_pasv s, m_port s, m_lwd s).

(** [line] is the line of the entry [name] with the record [st] in an
    MLSD listing of session [s]: what [fillDirent] stores for it in stream
    mode, with the facts of [s], into the emptied transfer buffer. *)
Definition MLSD_line (s : FtpSession) (st : stat_t) (name : string)
    (type_ : option string) (line : string) : Prop :=
  forall u,
    m_xferDirMode u = MLSD_mode ->
    m_deflate u = false ->
    mlst_facts u = mlst_facts s ->
    m_xferBuffer u = buf_clear (m_xferBuffer s) ->
    fillDirent_line u st name type_ = inr line.

(** An MLSD listing in stream mode with its directory open and not yet
    exhausted and the data connection on [fd]; a round of it starts with
    nothing left to send. *)
Definition listing_open (fd : Socket) (s : FtpSession) : Prop :=
  m_xferDirMode s = MLSD_mode
  /\ m_deflate s = false
  /\ m_dir s = true
  /\ m_eof s = false
  /\ buf_empty (m_zStreamBuffer s) = true
  /\ m_dataSocket s = Some fd
  /\ m_zFlushed s = false.

Definition listing_ready (fd : Socket) (s : FtpSession) : Prop :=
  listing_open fd s /\ buf_empty (m_xferBuffer s) = true.

(** What a round of a listing leaves alone: the transfer in place, the
    command socket and the response buffer. *)
Definition bystanders (s : FtpSession)
    : option Transfer * option Socket * IOBuffer :=
  (m_transfer s, m_commandSocket s, m_responseBuffer s).

(** Socket [fd] takes the whole of whatever it is offered. *)
Definition takes_everything (s : FtpSession) (fd : Socket) : Prop :=
  forall bytes, takes_all s fd bytes.

(** The directory that is read holds the one entry [d]: the first read
    delivers it, the reads after it deliver nothing. *)
Definition holds_one (s : FtpSession) (d : string) : Prop :=
  forall trace,
    (existsb is_DirRead trace = false ->
     succeeded (w_oracle (world s) (DirRead :: trace)) = true
     /\ c_str (r_data (w_oracle (world s) (DirRead :: trace))) = d)
    /\ (existsb is_DirRead trace = true ->
        succeeded (w_oracle (world s) (DirRead :: trace)) = false).

(** [t] goes on with the listing that [s] is at: the same platform,
    directory, facts and buffer size, the bystanders untouched. *)
Definition listing_kept (fd : Socket) (s t : FtpSession) : Prop :=
  listing_open fd t
  /\ w_oracle (world t) = w_oracle (world s)
  /\ bystanders t = bystanders s
  /\ m_lwd t = m_lwd s
  /\ mlst_facts t = mlst_facts s
  /\ buf_clear (m_xferBuffer t) = buf_clear (m_xferBuffer s).

(* ================================================================== *)
(** ** What the further properties observe *)

(** The calls that reach the file system or the stored configuration:
    they name a path, move file data, or save settings. *)
Definition is_fs (c : Call) : bool :=
  match c with
  | SysStat _ | SysLStat _ | SysUnlink _ | SysMkdir _ _ | SysRmdir _
  | SysRename _ _ | SysChdir _
  | FileOpen _ _ | FileSetBufferSize | FileSeek _ | FileRead _ | FileWrite _
  | DirOpen _ | DirRead | GlobGlob _
  | ServerUpdateFreeSpace | ConfigSetPort _ | ConfigSave | MdnsSetHostname _ => true
  | _ => false
  end.

(** The file-system calls a session has made, newest first. *)
Definition fs_calls (s : FtpSession) : list Call := filter is_fs (w_trace (world s)).

(** A path in the form [resolvePath] gives: a slash, then components that
    are neither empty nor ["."] nor [".."], with one slash between two.
    The root is the path with no component. *)
Definition canonical_path (p : string) : Prop :=
  exists components,
    Forall plain_component components /\ p = String SLASH (joined components).

(** The two data-connection modes a session can be in: passive, with a
    listening socket, and active, with a peer address to connect to. *)
Definition modes (s : FtpSession) : bool * bool := (m_pasv s, m_port s).

(** Both modes at once: what the reactor asserts never to see. *)
Definition both_modes (s : FtpSession) : bool := m_pasv s && m_port s.


(** The entries of the table whose handler does not, or not always, ask
    for the login. *)
Definition works_before_login (name : string) : bool :=
  existsb (String.eqb name)
    ["ABOR"; "ALLO"; "FEAT"; "HELP"; "MODE"; "NOOP"; "OPTS"; "PASS"; "QUIT"; "SITE";
     "STAT"; "STOU"; "STRU"; "SYST"; "TYPE"; "USER"].

(** The places the fact loop of [OPTS MLST] looks at: the text itself and
    what follows each of its semicolons. *)
Fixpoint after_semicolons (p : string) : list string :=
  match p with
  | EmptyString => []
  | String c rest =>
    if Ascii.eqb c SEMI then rest :: after_semicolons rest else after_semicolons rest
  end.

Definition fact_starts (p : string) : list string := p :: after_semicolons p.

(** The fact [name] is asked for in the text [p]. *)
Definition asks_for (name p : string) : bool := existsb (fact_match name) (fact_starts p).

(** What [fillDirent] has stored so far lies within the free area of
    [size] bytes. *)
Definition fits (size : nat) (out : Filled) : Prop :=
  match out with
  | inl _ => True
  | inr o => String.length o <= size
  end.

(* ================================================================== *)
(** * Properties *)

#[local] Arguments Ascii.eqb : simpl never.
#[local] Arguments String.eqb : simpl never.

(** ** Strings *)

Lemma append_nil_r (s : string) : s +++ "" = s.
Proof. induction s; simpl; congruence. Qed.

Lemma append_assoc (a b c : string) : (a +++ b) +++ c = a +++ (b +++ c).
Proof. induction a; simpl; congruence. Qed.

Lemma length_append (a b : string) :
  String.length (a +++ b) = String.length a + String.length b.
Proof. induction a; simpl; congruence. Qed.


Lemma sempty_true (s : string) : sempty s = true <-> s = "".
Proof. destruct s; simpl; split; congruence. Qed.

Lemma sempty_false (s : string) : sempty s = false <-> s <> "".
Proof. destruct s; simpl; split; congruence. Qed.

(** ** The path codec *)

Section PathCodec.

Lemma encodePath_loop_plain (s : string) :
  encodePath_loop false s = smap lf_to_nul s.
Proof.
  induction s as [|c s IH]; simpl; [reflexivity|].
  unfold lf_to_nul at 1. destruct (Ascii.eqb c LF); simpl; now rewrite IH.
Qed.

Lemma smap_lf_free (s : string) :
  sexists (Ascii.eqb LF) s = false -> smap lf_to_nul s = s.
Proof.
  induction s as [|c s IH]; simpl; [reflexivity|].
  intros H. apply orb_false_iff in H as [Hc Hs].
  unfold lf_to_nul at 1. rewrite Ascii.eqb_sym, Hc. now rewrite IH.
Qed.

Lemma encodePath_plain (s : string) : encodePath s false = smap lf_to_nul s.
Proof.
  unfold encodePath. destruct (sexists (Ascii.eqb LF) s) eqn:E; simpl.
  - apply encodePath_loop_plain.
  - now rewrite smap_lf_free.
Qed.

Lemma decodePath_smap (s : string) :
  sexists (Ascii.eqb NUL) s = false -> decodePath (smap lf_to_nul s) = s.
Proof.
  unfold decodePath.
  induction s as [|c s IH]; simpl; [reflexivity|].
  intros H. apply orb_false_iff in H as [Hc Hs]. rewrite (IH Hs). f_equal.
  unfold lf_to_nul, nul_to_lf. destruct (Ascii.eqb c LF) eqn:E.
  - apply Ascii.eqb_eq in E. now subst c.
  - rewrite Ascii.eqb_sym in Hc. now rewrite Hc.
Qed.

(** C4.  A byte sequence without NUL survives [encodePath] (quotes off)
    followed by [decodePath]: the first turns every line feed into NUL
    and nothing else, the second every NUL into a line feed and nothing
    else. *)
Theorem decodePath_encodePath_roundtrip (s : string) :
  sexists (Ascii.eqb NUL) s = false ->
  decodePath (encodePath s false) = s
  /\ encodePath s false = smap lf_to_nul s
  /\ (forall b, decodePath b = smap nul_to_lf b).
Proof.
  intros H. split; [|split].
  - rewrite encodePath_plain. now apply decodePath_smap.
  - apply encodePath_plain.
  - reflexivity.
Qed.

End PathCodec.

Lemma decodePath_encodePath_roundtrip_witness :
  decodePath (encodePath (String "a" (String LF "b")) false) = String "a" (String LF "b")
  /\ encodePath (String "a" (String LF "b")) false
     = smap lf_to_nul (String "a" (String LF "b"))
  /\ (forall b, decodePath b = smap nul_to_lf b).
Proof.
  apply (decodePath_encodePath_roundtrip (String "a" (String LF "b"))).
  reflexivity.
Defined.

(** ** resolvePath *)

Section ResolvePath.

Lemma find_cut (c : ascii) (s : string) :
  forall pos n, find c s pos = Some n ->
    pos <= n < String.length s
    /\ sexists (Ascii.eqb c) (substr pos (n - pos) s) = false.
Proof.
  unfold substr.
  induction s as [|a s IH]; intros pos n H; simpl in H; [discriminate|].
  destruct pos as [|p].
  - destruct (Ascii.eqb a c) eqn:E.
    + inversion H; subst. simpl. split; [lia | reflexivity].
    + destruct (find c s 0) as [m|] eqn:F; simpl in H; [|discriminate].
      inversion H; subst. destruct (IH 0 m F) as [Hb Hs].
      rewrite Nat.sub_0_r in *. simpl. split; [lia|].
      rewrite Ascii.eqb_sym, E. exact Hs.
  - destruct (find c s p) as [m|] eqn:F; simpl in H; [|discriminate].
    inversion H; subst. destruct (IH p m F) as [Hb Hs].
    simpl. split; [lia | exact Hs].
Qed.

Lemma substring_nonempty (s : string) :
  forall pos len, 0 < len -> pos < String.length s -> substring pos len s <> "".
Proof.
  induction s as [|a s IH]; intros pos len Hl Hp; simpl in Hp; [lia|].
  destruct pos as [|p]; simpl.
  - destruct len; [lia | discriminate].
  - apply IH; lia.
Qed.

Lemma find_none_tail (c : ascii) (s : string) :
  forall pos, find c s pos = None -> sexists (Ascii.eqb c) (substr_from pos s) = false.
Proof.
  induction s as [|a s IH]; intros pos H.
  - destruct pos; reflexivity.
  - simpl in H. destruct pos as [|p].
    + destruct (Ascii.eqb a c) eqn:E; [discriminate|].
      destruct (find c s 0) eqn:F; simpl in H; [discriminate|].
      simpl. rewrite Ascii.eqb_sym, E. exact (IH 0 F).
    + destruct (find c s p) eqn:F; simpl in H; [discriminate|].
      simpl. exact (IH p F).
Qed.

Lemma substr_from_nonempty (s : string) :
  forall pos, pos < String.length s -> substr_from pos s <> "".
Proof.
  induction s as [|a s IH]; intros pos H; simpl in H; [lia|].
  destruct pos; simpl; [discriminate | apply IH; lia].
Qed.

(** The splitting loop stops at a position with no slash after it, and
    everything it collected is a component. *)
Lemma split_loop_spec (path_ : string) :
  forall fuel pos components,
    pos <= String.length path_ ->
    String.length path_ < fuel + pos ->
    Forall component components ->
    let r := split_loop fuel path_ pos components in
    Forall component (snd r)
    /\ fst r <= String.length path_
    /\ find SLASH path_ (fst r) = None.
Proof.
  induction fuel as [|fuel IH]; intros pos comps Hp Hf Hc; [lia|].
  simpl. destruct (find SLASH path_ pos) as [next|] eqn:F.
  - destruct (find_cut _ _ _ _ F) as [Hb Hs].
    apply IH; [lia | lia |].
    destruct (next =? pos) eqn:E; [exact Hc|].
    apply Nat.eqb_neq in E.
    apply Forall_app. split; [exact Hc|].
    constructor; [|constructor]. split; [|exact Hs].
    apply substring_nonempty; lia.
  - simpl. auto.
Qed.

Lemma split_components_spec (path_ : string) :
  begins_with_slash path_ = true -> Forall component (split_components path_).
Proof.
  intros Habs. unfold split_components.
  assert (Hlen : 1 <= String.length path_) by (destruct path_; simpl in *; [discriminate | lia]).
  pose proof (split_loop_spec path_ (String.length path_) 1 [] Hlen ltac:(lia)
                (Forall_nil _)) as H.
  destruct (split_loop (String.length path_) path_ 1 []) as [pos comps].
  simpl in H. destruct H as (Hc & Hp & Hn).
  destruct (pos =? String.length path_) eqn:E; [exact Hc|].
  apply Nat.eqb_neq in E.
  apply Forall_app. split; [exact Hc|].
  constructor; [|constructor]. split.
  - apply substr_from_nonempty. lia.
  - now apply find_none_tail.
Qed.

Lemma Forall_removelast {A : Type} (P : A -> Prop) (l : list A) :
  Forall P l -> Forall P (removelast l).
Proof.
  induction 1 as [|x l Hx Hl IH]; simpl; [constructor|].
  destruct l; [constructor | constructor; assumption].
Qed.

Lemma collapse_spec (rest : list string) :
  forall done, Forall plain_component done -> Forall component rest ->
    Forall plain_component (collapse done rest).
Proof.
  induction rest as [|c rest IH]; intros done Hd Hr; simpl; [exact Hd|].
  inversion Hr; subst.
  destruct (String.eqb c ".") eqn:E1; [now apply IH|].
  destruct (String.eqb c "..") eqn:E2.
  - apply IH; [now apply Forall_removelast | assumption].
  - apply IH; [|assumption].
    apply Forall_app. split; [assumption|].
    constructor; [|constructor].
    apply String.eqb_neq in E1, E2. split; [assumption | split; assumption].
Qed.

Lemma join_components_acc (components : list string) :
  forall outPath,
    join_components outPath components
    = outPath +++ join_components "" components.
Proof.
  induction components as [|c cs IH]; intros acc; simpl.
  - now rewrite append_nil_r.
  - rewrite IH. rewrite (IH (c +++ "/")). now rewrite !append_assoc.
Qed.

Lemma pop_back_append (a b : string) :
  b <> "" -> pop_back (a +++ b) = a +++ pop_back b.
Proof.
  intros Hb. induction a as [|x a IH]; simpl; [reflexivity|].
  rewrite IH. destruct (a +++ b) eqn:E; [|reflexivity].
  destruct a; simpl in E; [contradiction | discriminate].
Qed.

Lemma pop_back_joined (components : list string) :
  components <> [] ->
  pop_back (join_components "" components) = joined components.
Proof.
  induction components as [|c cs IH]; intros H; [contradiction|].
  simpl. rewrite join_components_acc.
  destruct cs as [|d cs].
  - simpl. rewrite append_nil_r. rewrite pop_back_append by discriminate.
    simpl. apply append_nil_r.
  - change (joined (c :: d :: cs)) with (c +++ "/" +++ joined (d :: cs)).
    assert (Hd : join_components "" (d :: cs) <> "").
    { simpl. rewrite join_components_acc. destruct d; discriminate. }
    rewrite append_assoc.
    rewrite pop_back_append by (simpl; discriminate).
    rewrite pop_back_append by exact Hd.
    rewrite IH by discriminate. reflexivity.
Qed.

(** What [resolvePath] returns once the parent was accepted. *)
Lemma resolvePath_lexical_joined (path_ : string) :
  resolvePath_lexical path_
  = "/" +++ joined (collapse [] (split_components path_)).
Proof.
  unfold resolvePath_lexical.
  destruct (collapse [] (split_components path_)) as [|c cs] eqn:E.
  - reflexivity.
  - rewrite join_components_acc.
    assert (Hlen : (1 <? String.length ("/" +++ join_components "" (c :: cs))) = true).
    { apply Nat.ltb_lt. simpl. rewrite join_components_acc, length_append.
      destruct c; simpl; lia. }
    rewrite Hlen. rewrite pop_back_append.
    + now rewrite pop_back_joined.
    + simpl. rewrite join_components_acc. destruct c; discriminate.
Qed.

Lemma split_on_component (c : string) :
  sexists (Ascii.eqb SLASH) c = false -> split_on SLASH c = [c].
Proof.
  induction c as [|a c IH]; simpl; intros H; [reflexivity|].
  apply orb_false_iff in H as [Ha Hc]. rewrite (IH Hc).
  rewrite Ascii.eqb_sym in Ha. now rewrite Ha.
Qed.

Lemma split_on_nonempty (s : string) : split_on SLASH s <> [].
Proof.
  induction s as [|a s IH]; simpl; [discriminate|].
  destruct (split_on SLASH s); [discriminate|].
  destruct (Ascii.eqb a SLASH); discriminate.
Qed.

Lemma split_on_prefix (c rest : string) :
  sexists (Ascii.eqb SLASH) c = false ->
  split_on SLASH (c +++ String SLASH rest) = c :: split_on SLASH rest.
Proof.
  induction c as [|a c IH]; intros H.
  - cbn [String.append split_on].
    destruct (split_on SLASH rest) eqn:E; [now apply split_on_nonempty in E|].
    now rewrite Ascii.eqb_refl.
  - cbn [sexists] in H. apply orb_false_iff in H as [Ha Hc].
    cbn [String.append split_on]. rewrite (IH Hc).
    rewrite Ascii.eqb_sym in Ha. now rewrite Ha.
Qed.

Lemma split_on_joined (components : list string) :
  components <> [] -> Forall component components ->
  split_on SLASH (joined components) = components.
Proof.
  induction components as [|c cs IH]; intros Hne H; [contradiction|].
  inversion H as [|? ? [_ Hc] Hcs]; subst.
  destruct cs as [|d cs].
  - simpl. now apply split_on_component.
  - change (joined (c :: d :: cs)) with (c +++ String SLASH (joined (d :: cs))).
    rewrite split_on_prefix by assumption. f_equal. apply IH; [discriminate | assumption].
Qed.

Lemma doubled_slash_component (c t : string) :
  sexists (Ascii.eqb SLASH) c = false ->
  doubled_slash (c +++ String SLASH t) = doubled_slash (String SLASH t).
Proof.
  induction c as [|a c IH]; intros H; [reflexivity|].
  simpl in H. apply orb_false_iff in H as [Ha Hc].
  rewrite Ascii.eqb_sym in Ha.
  change (String a c +++ String SLASH t) with (String a (c +++ String SLASH t)).
  rewrite <- (IH Hc).
  destruct (c +++ String SLASH t) eqn:E.
  - destruct c; discriminate.
  - simpl. now rewrite Ha.
Qed.

Lemma doubled_slash_plain (c : string) :
  sexists (Ascii.eqb SLASH) c = false -> doubled_slash c = false.
Proof.
  induction c as [|a c IH]; intros H; [reflexivity|].
  simpl in H. apply orb_false_iff in H as [Ha Hc].
  rewrite Ascii.eqb_sym in Ha. simpl. destruct c; [reflexivity|].
  rewrite Ha. simpl. now apply IH.
Qed.

Lemma doubled_slash_joined (components : list string) :
  components <> [] -> Forall component components ->
  doubled_slash (String SLASH (joined components)) = false.
Proof.
  induction components as [|c cs IH]; intros Hne H; [contradiction|].
  inversion H as [|? ? [Hc0 Hc] Hcs]; subst.
  assert (Hhead : forall t, doubled_slash (String SLASH (c +++ t)) = doubled_slash (c +++ t)).
  { intros t. destruct c as [|a c]; [contradiction|].
    simpl in Hc. apply orb_false_iff in Hc as [Ha _].
    rewrite Ascii.eqb_sym in Ha.
    change (String a c +++ t) with (String a (c +++ t)).
    cbn [doubled_slash]. rewrite Ha. now rewrite andb_false_r. }
  destruct cs as [|d cs].
  - simpl joined. rewrite <- (append_nil_r c), Hhead, append_nil_r.
    now apply doubled_slash_plain.
  - change (joined (c :: d :: cs)) with (c +++ String SLASH (joined (d :: cs))).
    rewrite Hhead.
    rewrite doubled_slash_component by assumption.
    apply IH; [discriminate | assumption].
Qed.

Lemma plain_components (l : list string) :
  Forall plain_component l ->
  Forall component l /\ ~ In "." l /\ ~ In ".." l /\ ~ In "" l.
Proof.
  induction 1 as [|c l [[Hne Hc] [Hd Hdd]] Hl (IH1 & IH2 & IH3 & IH4)].
  - repeat split; [constructor | | |]; intros [].
  - repeat split.
    + constructor; [split|]; assumption.
    + intros [E|E]; [now apply Hd | now apply IH2].
    + intros [E|E]; [now apply Hdd | now apply IH3].
    + intros [E|E]; [now apply Hne | now apply IH4].
Qed.

(** The shape of the lexically resolved path. *)
Lemma resolvePath_lexical_shape (path_ : string) :
  begins_with_slash path_ = true ->
  let out := resolvePath_lexical path_ in
  begins_with_slash out = true
  /\ ~ In "." (split_on SLASH out)
  /\ ~ In ".." (split_on SLASH out)
  /\ doubled_slash out = false.
Proof.
  intros Habs out. subst out. rewrite resolvePath_lexical_joined.
  pose proof (collapse_spec (split_components path_) [] (Forall_nil _)
                (split_components_spec path_ Habs)) as Hplain.
  destruct (plain_components _ Hplain) as (Hc & Hd & Hdd & _).
  destruct (collapse [] (split_components path_)) as [|c cs] eqn:E.
  - simpl. repeat split; try reflexivity; intros [H|[H|[]]]; discriminate.
  - change ("/" +++ joined (c :: cs)) with ("" +++ String SLASH (joined (c :: cs))).
    rewrite split_on_prefix by reflexivity.
    rewrite split_on_joined by (assumption || discriminate).
    repeat split.
    + intros [H|H]; [discriminate | now apply Hd].
    + intros [H|H]; [discriminate | now apply Hdd].
    + apply doubled_slash_joined; [discriminate | assumption].
Qed.

(** C3.  For an absolute path whose parent directory is accepted,
    [resolvePath] returns a string that begins with a slash, has no
    ["."] and no [".."] component and no two slashes in a row; a [".."]
    met with nothing before it removes nothing, so the result never
    leaves the root. *)
Theorem resolvePath_canonical (p : string) (s : FtpSession) :
  begins_with_slash p = true ->
  rc (answer (SysStat (c_str (dirName p))) s) = 0%Z ->
  S_ISDIR (st_mode (r_stat (answer (SysStat (c_str (dirName p))) s))) = true ->
  let out := fst (resolvePath p s) in
  begins_with_slash out = true
  /\ ~ In "." (split_on SLASH out)
  /\ ~ In ".." (split_on SLASH out)
  /\ doubled_slash out = false
  /\ (forall rest, collapse [] (".." :: rest) = collapse [] rest).
Proof.
  intros Habs Hrc Hdir out. subst out.
  unfold resolvePath. rewrite Hrc, Hdir. simpl fst.
  destruct (resolvePath_lexical_shape p Habs) as (H1 & H2 & H3 & H4).
  repeat split; assumption || reflexivity.
Qed.

End ResolvePath.

(** On the example platform [/a/./b/../c] resolves to [/a/c]. *)
Lemma resolvePath_canonical_witness :
  fst (resolvePath "/a/./b/../c" example_session) = "/a/c"
  /\ (let out := fst (resolvePath "/a/./b/../c" example_session) in
      begins_with_slash out = true
      /\ ~ In "." (split_on SLASH out)
      /\ ~ In ".." (split_on SLASH out)
      /\ doubled_slash out = false
      /\ (forall rest, collapse [] (".." :: rest) = collapse [] rest)).
Proof.
  split; [vm_compute; reflexivity|].
  apply (resolvePath_canonical "/a/./b/../c" example_session); vm_compute; reflexivity.
Defined.

(** ** Members a statement leaves alone *)

Create Rewrite HintDb latch.

Lemma latches_set_m_commandSocket v s : latches (set_m_commandSocket v s) = latches s.
Proof. reflexivity. Qed.
Lemma latches_set_m_pasvSocket v s : latches (set_m_pasvSocket v s) = latches s.
Proof. reflexivity. Qed.
Lemma latches_set_m_dataSocket v s : latches (set_m_dataSocket v s) = latches s.
Proof. reflexivity. Qed.
Lemma latches_set_m_pendingCloseSocket v s : latches (set_m_pendingCloseSocket v s) = latches s.
Proof. reflexivity. Qed.
Lemma latches_set_m_responseBuffer v s : latches (set_m_responseBuffer v s) = latches s.
Proof. reflexivity. Qed.
Lemma latches_set_m_xferBuffer v s : latches (set_m_xferBuffer v s) = latches s.
Proof. reflexivity. Qed.
Lemma latches_set_m_zStreamBuffer v s : latches (set_m_zStreamBuffer v s) = latches s.
Proof. reflexivity. Qed.
Lemma latches_set_m_zStream v s : latches (set_m_zStream v s) = latches s.
Proof. reflexivity. Qed.
Lemma latches_set_m_file v s : latches (set_m_file v s) = latches s.
Proof. reflexivity. Qed.
Lemma latches_set_m_dir v s : latches (set_m_dir v s) = latches s.
Proof. reflexivity. Qed.
Lemma latches_set_m_glob v s : latches (set_m_glob v s) = latches s.
Proof. reflexivity. Qed.
Lemma latches_set_m_state v s : latches (set_m_state v s) = latches s.
Proof. reflexivity. Qed.
Lemma latches_set_m_transfer v s : latches (set_m_transfer v s) = latches s.
Proof. reflexivity. Qed.
Lemma latches_set_m_xferDirMode v s : latches (set_m_xferDirMode v s) = latches s.
Proof. reflexivity. Qed.
Lemma latches_set_m_timestamp v s : latches (set_m_timestamp v s) = latches s.
Proof. reflexivity. Qed.
Lemma latches_set_m_cwd v s : latches (set_m_cwd v s) = latches s.
Proof. reflexivity. Qed.
Lemma latches_set_m_lwd v s : latches (set_m_lwd v s) = latches s.
Proof. reflexivity. Qed.
Lemma latches_set_m_workItem v s : latches (set_m_workItem v s) = latches s.
Proof. reflexivity. Qed.
Lemma latches_set_m_portAddr v s : latches (set_m_portAddr v s) = latches s.
Proof. reflexivity. Qed.
Lemma latches_set_m_restartPosition v s : latches (set_m_restartPosition v s) = latches s.
Proof. reflexivity. Qed.
Lemma latches_set_m_fileSize v s : latches (set_m_fileSize v s) = latches s.
Proof. reflexivity. Qed.
Lemma latches_set_m_filePosition v s : latches (set_m_filePosition v s) = latches s.
Proof. reflexivity. Qed.
Lemma latches_set_m_zStreamPosition v s : latches (set_m_zStreamPosition v s) = latches s.
Proof. reflexivity. Qed.
Lemma latches_set_m_pasv v s : latches (set_m_pasv v s) = latches s.
Proof. reflexivity. Qed.
Lemma latches_set_m_port v s : latches (set_m_port v s) = latches s.
Proof. reflexivity. Qed.
Lemma latches_set_m_recv v s : latches (set_m_recv v s) = latches s.
Proof. reflexivity. Qed.
Lemma latches_set_m_send v s : latches (set_m_send v s) = latches s.
Proof. reflexivity. Qed.
Lemma latches_set_m_urgent v s : latches (set_m_urgent v s) = latches s.
Proof. reflexivity. Qed.
Lemma latches_set_m_deflate v s : latches (set_m_deflate v s) = latches s.
Proof. reflexivity. Qed.
Lemma latches_set_m_zFlushed v s : latches (set_m_zFlushed v s) = latches s.
Proof. reflexivity. Qed.
Lemma latches_set_m_eof v s : latches (set_m_eof v s) = latches s.
Proof. reflexivity. Qed.
Lemma latches_set_m_mlstType v s : latches (set_m_mlstType v s) = latches s.
Proof. reflexivity. Qed.
Lemma latches_set_m_mlstSize v s : latches (set_m_mlstSize v s) = latches s.
Proof. reflexivity. Qed.
Lemma latches_set_m_mlstModify v s : latches (set_m_mlstModify v s) = latches s.
Proof. reflexivity. Qed.
Lemma latches_set_m_mlstPerm v s : latches (set_m_mlstPerm v s) = latches s.
Proof. reflexivity. Qed.
Lemma latches_set_m_mlstUnixMode v s : latches (set_m_mlstUnixMode v s) = latches s.
Proof. reflexivity. Qed.
Lemma latches_set_m_devZero v s : latches (set_m_devZero v s) = latches s.
Proof. reflexivity. Qed.

#[local] Hint Rewrite latches_set_m_commandSocket latches_set_m_pasvSocket latches_set_m_dataSocket latches_set_m_pendingCloseSocket latches_set_m_responseBuffer latches_set_m_xferBuffer latches_set_m_zStreamBuffer latches_set_m_zStream latches_set_m_file latches_set_m_dir latches_set_m_glob latches_set_m_state latches_set_m_transfer latches_set_m_xferDirMode latches_set_m_timestamp latches_set_m_cwd latches_set_m_lwd latches_set_m_workItem latches_set_m_portAddr latches_set_m_restartPosition latches_set_m_fileSize latches_set_m_filePosition latches_set_m_zStreamPosition latches_set_m_pasv latches_set_m_port latches_set_m_recv latches_set_m_send latches_set_m_urgent latches_set_m_deflate latches_set_m_zFlushed latches_set_m_eof latches_set_m_mlstType latches_set_m_mlstSize latches_set_m_mlstModify latches_set_m_mlstPerm latches_set_m_mlstUnixMode latches_set_m_devZero : latch.

(** A statement-by-statement walk through a function body, for a view [V]
    of the session: the value a [let] binds is first shown to keep the
    view and then forgotten, a branch is split, and what is left is handed
    to [leaf]. *)
Ltac walk_head x' :=
  lazymatch goal with
  | |- ?V (let x := _ in @?body x) = ?rhs =>
    change (V (body x') = rhs); cbv beta
  | |- ?V (snd (let x := _ in @?body x)) = ?rhs =>
    change (V (snd (body x')) = rhs); cbv beta
  end.

Ltac walk_let V v rhs go :=
  lazymatch type of v with
  | FtpSession =>
    let H := fresh "L" in
    assert (H : V v = rhs) by go;
    let x' := fresh "s" in
    set (x' := v) in *; clearbody x'; walk_head x'; go
  | (_ * FtpSession)%type =>
    let H := fresh "L" in
    assert (H : V (snd v) = rhs) by go;
    let x' := fresh "r" in
    set (x' := v) in *; clearbody x'; walk_head x'; go
  | _ =>
    let x' := fresh "v" in
    set (x' := v) in *; clearbody x'; walk_head x'; go
  end.

Ltac walk leaf :=
  lazymatch goal with
  | |- ?V (let x := ?v in _) = ?rhs => walk_let V v rhs ltac:(idtac; walk leaf)
  | |- ?V (snd (let x := ?v in _)) = ?rhs => walk_let V v rhs ltac:(idtac; walk leaf)
  | |- _ (match ?x with _ => _ end) = _ => destruct x; walk leaf
  | |- _ (snd (match ?x with _ => _ end)) = _ => destruct x; walk leaf
  | |- _ (snd (_, _)) = _ => cbn [snd]; walk leaf
  | |- _ (andThen _ _ _) = _ => unfold andThen at 1; walk leaf
  | |- _ => leaf
  end.

(** [forget t x] puts a variable [x] in the place of the state [t]
    everywhere; the proof goes on for every [x]. *)
Ltac forget t x :=
  repeat match goal with H : context [t] |- _ => revert H end;
  generalize t; intros x; intros.

Ltac latch_leaf :=
  unfold andThen; cbn [fst snd];
  repeat (progress autorewrite with latch);
  repeat match goal with
         | H : latches ?x = latches _ |- context [latches ?x] => rewrite H
         end;
  try reflexivity.

Ltac latch_go := walk latch_leaf.

Ltac latch := intros; latch_go.

Lemma latches_sys c s : latches (sys c s) = latches s.
Proof. reflexivity. Qed.

Lemma latches_assign_errno e s : latches (assign_errno e s) = latches s.
Proof. reflexivity. Qed.

Lemma latches_stamp s : latches (stamp s) = latches s.
Proof. reflexivity. Qed.

#[local] Hint Rewrite latches_sys latches_assign_errno latches_stamp : latch.

Lemma latches_closeCommand s : latches (closeCommand s) = latches s.
Proof. cbv delta [closeCommand closeSocket]; cbv beta. latch. Qed.

Lemma latches_closePasv s : latches (closePasv s) = latches s.
Proof. cbv delta [closePasv]; cbv beta. latch. Qed.

Lemma latches_closeData s : latches (closeData s) = latches s.
Proof. cbv delta [closeData closeSocket]; cbv beta. latch. Qed.

Lemma latches_assign_dataSocket v s : latches (assign_dataSocket v s) = latches s.
Proof. cbv delta [assign_dataSocket]; cbv beta. latch. Qed.

Lemma latches_file_close s : latches (file_close s) = latches s.
Proof. cbv delta [file_close]; cbv beta. latch. Qed.

Lemma latches_dir_close s : latches (dir_close s) = latches s.
Proof. cbv delta [dir_close]; cbv beta. latch. Qed.

Lemma latches_zStream_reset s : latches (zStream_reset s) = latches s.
Proof. cbv delta [zStream_reset]; cbv beta. latch. Qed.

#[local] Hint Rewrite latches_closeCommand latches_closePasv latches_closeData
  latches_assign_dataSocket latches_file_close latches_dir_close
  latches_zStream_reset : latch.

Lemma latches_setState st cp cd s : latches (setState st cp cd s) = latches s.
Proof. cbv delta [setState]; cbv beta. latch. Qed.

Lemma latches_response_write fd s : latches (response_write fd s) = latches s.
Proof. cbv delta [response_write]; cbv beta. latch. Qed.

#[local] Hint Rewrite latches_setState latches_response_write : latch.

Lemma latches_sendResponse r s : latches (sendResponse r s) = latches s.
Proof. cbv delta [sendResponse]; cbv beta. latch. Qed.

Lemma latches_sendResponse_view r s : latches (sendResponse_view r s) = latches s.
Proof. cbv delta [sendResponse_view]; cbv beta. latch. Qed.

Lemma latches_writeResponse s : latches (writeResponse s) = latches s.
Proof. cbv delta [writeResponse]; cbv beta. latch. Qed.

#[local] Hint Rewrite latches_sendResponse latches_sendResponse_view
  latches_writeResponse : latch.

Lemma latches_resolvePath p s : latches (snd (resolvePath p s)) = latches s.
Proof. cbv delta [resolvePath]; cbv beta. latch. Qed.

Lemma latches_buildResolvedPath c a s :
  latches (snd (buildResolvedPath c a s)) = latches s.
Proof. unfold buildResolvedPath. apply latches_resolvePath. Qed.

Lemma latches_tzStat p s : latches (tzStat p s) = latches s.
Proof. reflexivity. Qed.

Lemma latches_tzLStat p s : latches (tzLStat p s) = latches s.
Proof. reflexivity. Qed.

#[local] Hint Rewrite latches_resolvePath latches_buildResolvedPath latches_tzStat
  latches_tzLStat : latch.

Lemma latches_changeDir a s : latches (snd (changeDir a s)) = latches s.
Proof. cbv delta [changeDir]; cbv beta. latch. Qed.

Lemma latches_set_ioBuffer b s : latches (set_ioBuffer b s) = latches s.
Proof. cbv delta [set_ioBuffer]; cbv beta. latch. Qed.

#[local] Hint Rewrite latches_changeDir latches_set_ioBuffer : latch.

Lemma latches_fillDirent st p t s : latches (snd (fillDirent st p t s)) = latches s.
Proof. cbv delta [fillDirent]; cbv beta. latch. Qed.

#[local] Hint Rewrite latches_fillDirent : latch.

Lemma latches_fillDirent_path p t s : latches (snd (fillDirent_path p t s)) = latches s.
Proof. cbv delta [fillDirent_path]; cbv beta. latch. Qed.

Lemma latches_dataAccept s : latches (snd (dataAccept s)) = latches s.
Proof. cbv delta [dataAccept]; cbv beta. latch. Qed.

Lemma latches_dataConnect s : latches (snd (dataConnect s)) = latches s.
Proof. cbv delta [dataConnect]; cbv beta. latch. Qed.

Lemma latches_xfer_reset s : latches (xfer_reset s) = latches s.
Proof. cbv delta [xfer_reset]; cbv beta. latch. Qed.

Lemma latches_zStream_init k s : latches (zStream_init k s) = latches s.
Proof. cbv delta [zStream_init zStream_fresh]; cbv beta. latch. Qed.

Lemma latches_file_open p m s : latches (file_open p m s) = latches s.
Proof. cbv delta [file_open]; cbv beta. latch. Qed.

Lemma latches_file_seek p s : latches (file_seek p s) = latches s.
Proof. reflexivity. Qed.

Lemma latches_dir_open p s : latches (dir_open p s) = latches s.
Proof. cbv delta [dir_open]; cbv beta. latch. Qed.

#[local] Hint Rewrite latches_fillDirent_path latches_dataAccept latches_dataConnect
  latches_xfer_reset latches_zStream_init latches_file_open latches_file_seek
  latches_dir_open : latch.

Lemma latches_xferFile_connect m p s : latches (xferFile_connect m p s) = latches s.
Proof. cbv delta [xferFile_connect]; cbv beta. latch. Qed.

#[local] Hint Rewrite latches_xferFile_connect : latch.

Lemma latches_xferFile a m s : latches (xferFile a m s) = latches s.
Proof. cbv delta [xferFile]; cbv beta. latch. Qed.

Lemma latches_xferDir_fail c e s : latches (xferDir_fail c e s) = latches s.
Proof. cbv delta [xferDir_fail]; cbv beta. latch. Qed.

Lemma latches_xferDir_connect m s : latches (xferDir_connect m s) = latches s.
Proof. cbv delta [xferDir_connect]; cbv beta. latch. Qed.

#[local] Hint Rewrite latches_xferFile latches_xferDir_fail latches_xferDir_connect
  : latch.

Lemma latches_xferDir_with retry a m w s :
  (forall a' s', latches (retry a' s') = latches s') ->
  latches (xferDir_with retry a m w s) = latches s.
Proof.
  intros Hretry. cbv delta [xferDir_with]; cbv beta.
  latch; rewrite ?Hretry; latch_leaf.
Qed.

Lemma latches_xferDir a m w s : latches (xferDir a m w s) = latches s.
Proof.
  unfold xferDir. apply latches_xferDir_with.
  intros. apply latches_xferDir_with. reflexivity.
Qed.

Lemma latches_glob_clear s : latches (glob_clear s) = latches s.
Proof. cbv delta [glob_clear]; cbv beta. latch. Qed.

#[local] Hint Rewrite latches_xferDir latches_glob_clear : latch.

Lemma latches_glob_glob p s : latches (snd (glob_glob p s)) = latches s.
Proof. cbv delta [glob_glob]; cbv beta. latch. Qed.

Lemma latches_not_logged_in s : latches (not_logged_in s) = latches s.
Proof. cbv delta [not_logged_in]; cbv beta. latch. Qed.

#[local] Hint Rewrite latches_glob_glob latches_not_logged_in : latch.

Lemma latches_path_command a c f s : latches (path_command a c f s) = latches s.
Proof. cbv delta [path_command]; cbv beta. latch. Qed.

Lemma latches_OPTS_mlst_loop fuel :
  forall p s, latches (OPTS_mlst_loop fuel p s) = latches s.
Proof.
  induction fuel as [|fuel IH]; intros p s; simpl; [reflexivity|].
  destruct (sempty p); [reflexivity|].
  destruct (after_semicolon p); [rewrite IH|]; latch.
Qed.

Lemma latches_OPTS_level_loop fuel :
  forall p l s, latches (snd (OPTS_level_loop fuel p l s)) = latches s.
Proof.
  induction fuel as [|fuel IH]; intros p l s; simpl; [reflexivity|].
  destruct (sempty p); [reflexivity|].
  destruct (sempty (fst (nextWord p))); [reflexivity|].
  destruct (_ && _); [|latch].
  destruct (_ || _); [latch|].
  rewrite IH. reflexivity.
Qed.

#[local] Hint Rewrite latches_path_command latches_OPTS_mlst_loop
  latches_OPTS_level_loop : latch.

(** The handlers that write none of the latches. *)
Lemma latches_ABOR a s : latches (ABOR a s) = latches s.
Proof. cbv delta [ABOR]; cbv beta. latch. Qed.
Lemma latches_ALLO a s : latches (ALLO a s) = latches s.
Proof. cbv delta [ALLO]; cbv beta. latch. Qed.
Lemma latches_APPE a s : latches (APPE a s) = latches s.
Proof. cbv delta [APPE]; cbv beta. latch. Qed.
Lemma latches_CDUP a s : latches (CDUP a s) = latches s.
Proof. cbv delta [CDUP]; cbv beta. latch. Qed.
Lemma latches_CWD a s : latches (CWD a s) = latches s.
Proof. cbv delta [CWD]; cbv beta. latch. Qed.
Lemma latches_DELE a s : latches (DELE a s) = latches s.
Proof. cbv delta [DELE]; cbv beta. latch. Qed.
Lemma latches_FEAT a s : latches (FEAT a s) = latches s.
Proof. cbv delta [FEAT]; cbv beta. latch. Qed.
Lemma latches_HELP a s : latches (HELP a s) = latches s.
Proof. cbv delta [HELP]; cbv beta. latch. Qed.
Lemma latches_LIST a s : latches (LIST a s) = latches s.
Proof. cbv delta [LIST]; cbv beta. latch. Qed.
Lemma latches_MDTM a s : latches (MDTM a s) = latches s.
Proof. cbv delta [MDTM]; cbv beta. latch. Qed.
Lemma latches_MKD a s : latches (MKD a s) = latches s.
Proof. cbv delta [MKD]; cbv beta. latch. Qed.
Lemma latches_MLSD a s : latches (MLSD a s) = latches s.
Proof. cbv delta [MLSD]; cbv beta. latch. Qed.
Lemma latches_MLST a s : latches (MLST a s) = latches s.
Proof. cbv delta [MLST]; cbv beta. latch. Qed.
Lemma latches_MODE a s : latches (MODE a s) = latches s.
Proof. cbv delta [MODE]; cbv beta. latch. Qed.
Lemma latches_NLST a s : latches (NLST a s) = latches s.
Proof. cbv delta [NLST]; cbv beta. latch. Qed.
Lemma latches_NOOP a s : latches (NOOP a s) = latches s.
Proof. cbv delta [NOOP]; cbv beta. latch. Qed.
Lemma latches_OPTS a s : latches (OPTS a s) = latches s.
Proof. cbv delta [OPTS]; cbv beta. latch. Qed.
Lemma latches_PASV a s : latches (PASV a s) = latches s.
Proof. cbv delta [PASV]; cbv beta. latch. Qed.
Lemma latches_PORT a s : latches (PORT a s) = latches s.
Proof. cbv delta [PORT invalid_argument]; cbv beta. latch. Qed.
Lemma latches_PWD a s : latches (PWD a s) = latches s.
Proof. cbv delta [PWD]; cbv beta. latch. Qed.
Lemma latches_QUIT a s : latches (QUIT a s) = latches s.
Proof. cbv delta [QUIT]; cbv beta. latch. Qed.
Lemma latches_REST a s : latches (REST a s) = latches s.
Proof. cbv delta [REST]; cbv beta. latch. Qed.
Lemma latches_RETR a s : latches (RETR a s) = latches s.
Proof. cbv delta [RETR]; cbv beta. latch. Qed.
Lemma latches_RMD a s : latches (RMD a s) = latches s.
Proof. cbv delta [RMD]; cbv beta. latch. Qed.
Lemma latches_SIZE a s : latches (SIZE a s) = latches s.
Proof. cbv delta [SIZE]; cbv beta. latch. Qed.
Lemma latches_STAT a s : latches (STAT a s) = latches s.
Proof. cbv delta [STAT]; cbv beta. latch. Qed.
Lemma latches_STOR a s : latches (STOR a s) = latches s.
Proof. cbv delta [STOR]; cbv beta. latch. Qed.
Lemma latches_STOU a s : latches (STOU a s) = latches s.
Proof. cbv delta [STOU]; cbv beta. latch. Qed.
Lemma latches_STRU a s : latches (STRU a s) = latches s.
Proof. cbv delta [STRU]; cbv beta. latch. Qed.
Lemma latches_SYST a s : latches (SYST a s) = latches s.
Proof. cbv delta [SYST]; cbv beta. latch. Qed.
Lemma latches_TYPE a s : latches (TYPE a s) = latches s.
Proof. cbv delta [TYPE]; cbv beta. latch. Qed.

#[local] Hint Rewrite latches_ABOR latches_ALLO latches_APPE latches_CDUP latches_CWD
  latches_DELE latches_FEAT latches_HELP latches_LIST latches_MDTM latches_MKD
  latches_MLSD latches_MLST latches_MODE latches_NLST latches_NOOP latches_OPTS
  latches_PASV latches_PORT latches_PWD latches_QUIT latches_REST latches_RETR
  latches_RMD latches_SIZE latches_STAT latches_STOR latches_STOU latches_STRU
  latches_SYST latches_TYPE : latch.

(** ** Login *)

Lemma latches_fields s s' :
  latches s' = latches s ->
  m_authorizedUser s' = m_authorizedUser s
  /\ m_authorizedPass s' = m_authorizedPass s
  /\ cfg_user (m_config s') = cfg_user (m_config s)
  /\ cfg_pass (m_config s') = cfg_pass (m_config s)
  /\ m_rename s' = m_rename s
  /\ m_commandBuffer s' = m_commandBuffer s.
Proof. unfold latches. intros H. inversion H. repeat split; assumption. Qed.

Lemma latches_oracle s s' :
  latches s' = latches s -> w_oracle (world s') = w_oracle (world s).
Proof. unfold latches. intros H. now inversion H. Qed.

Lemma latches_strerror s s' :
  latches s' = latches s -> forall e, strerror e s' = strerror e s.
Proof. unfold latches, strerror. intros H e. inversion H. congruence. Qed.

Lemma authorized_latches s s' : latches s' = latches s -> authorized s' = authorized s.
Proof.
  intros H. apply latches_fields in H as (H1 & H2 & _). unfold authorized. congruence.
Qed.

Lemma USER_latches a s :
  latches (USER a s)
  = (sempty (cfg_user (m_config s)) || String.eqb (cfg_user (m_config s)) a,
     m_authorizedPass s, cfg_user (m_config s), cfg_pass (m_config s),
     m_rename s, m_commandBuffer s, w_oracle (world s), w_strerror (world s)).
Proof.
  cbv delta [USER]; cbv beta.
  pose proof (latches_setState COMMAND false false s) as L.
  set (s1 := setState COMMAND false false s) in *. clearbody s1. cbv zeta.
  unfold latches in L. inversion L as [[H1 H2 H3 H4 H5 H6 H7 H8]].
  change (cfg_user (m_config (set_m_authorizedUser false s1))) with (cfg_user (m_config s1)).
  change (cfg_pass (m_config (set_m_authorizedUser false s1))) with (cfg_pass (m_config s1)).
  rewrite H3, H4.
  destruct (sempty (cfg_user (m_config s)) || String.eqb (cfg_user (m_config s)) a);
    [destruct (sempty (cfg_pass (m_config s)))|];
    rewrite latches_sendResponse; unfold latches; cbn; congruence.
Qed.

Lemma PASS_latches a s :
  latches (PASS a s)
  = (m_authorizedUser s,
     (if negb (sempty (cfg_user (m_config s))) && negb (m_authorizedUser s)
      then false
      else sempty (cfg_pass (m_config s)) || String.eqb (cfg_pass (m_config s)) a),
     cfg_user (m_config s), cfg_pass (m_config s), m_rename s, m_commandBuffer s,
     w_oracle (world s), w_strerror (world s)).
Proof.
  cbv delta [PASS]; cbv beta.
  pose proof (latches_setState COMMAND false false s) as L.
  set (s1 := setState COMMAND false false s) in *. clearbody s1. cbv zeta.
  unfold latches in L. inversion L as [[H1 H2 H3 H4 H5 H6 H7 H8]].
  change (cfg_user (m_config (set_m_authorizedPass false s1))) with (cfg_user (m_config s1)).
  change (cfg_pass (m_config (set_m_authorizedPass false s1))) with (cfg_pass (m_config s1)).
  change (m_authorizedUser (set_m_authorizedPass false s1)) with (m_authorizedUser s1).
  rewrite H1, H3, H4.
  destruct (negb (sempty (cfg_user (m_config s))) && negb (m_authorizedUser s));
    [|destruct (sempty (cfg_pass (m_config s)) || String.eqb (cfg_pass (m_config s)) a)];
    rewrite latches_sendResponse; unfold latches; cbn; congruence.
Qed.

Lemma latches_set_m_config c s :
  latches (set_m_config c s)
  = (m_authorizedUser s, m_authorizedPass s, cfg_user c, cfg_pass c, m_rename s,
     m_commandBuffer s, w_oracle (world s), w_strerror (world s)).
Proof. reflexivity. Qed.

Lemma latches_set_m_rename p s :
  latches (set_m_rename p s)
  = (m_authorizedUser s, m_authorizedPass s, cfg_user (m_config s),
     cfg_pass (m_config s), p, m_commandBuffer s, w_oracle (world s),
     w_strerror (world s)).
Proof. reflexivity. Qed.

Lemma config_guarded_same s t : latches t = latches s -> config_guarded s t.
Proof.
  intros H. apply latches_fields in H as (? & ? & ? & ? & ? & ?).
  repeat split; assumption.
Qed.

Lemma config_guarded_set s u t c :
  latches u = latches s -> authorized u = true ->
  latches t = latches (set_m_config c u) -> config_guarded s t.
Proof.
  intros Hu Hauth Ht. rewrite latches_set_m_config in Ht.
  rewrite (authorized_latches _ _ Hu) in Hauth.
  apply latches_fields in Hu as (? & ? & ? & ? & ? & ?).
  unfold latches in Ht. inversion Ht.
  repeat split; try congruence; rewrite Hauth in *; discriminate.
Qed.

(** SITE writes the configuration, and only for a logged-in session. *)
Lemma SITE_latches a s : config_guarded s (SITE a s).
Proof.
  cbv delta [SITE]; cbv beta.
  pose proof (latches_setState COMMAND false false s) as L.
  set (s1 := setState COMMAND false false s) in *. clearbody s1. cbv zeta.
  destruct (compare a "HELP" =? 0)%Z;
    [abstract (apply config_guarded_same; latch_leaf)|].
  destruct (authorized s1) eqn:Hauth; cbv beta iota delta [negb];
    [|abstract (apply config_guarded_same; latch_leaf)].
  abstract
    (repeat match goal with
            | |- context [if ?b then _ else _] => destruct b
            end;
     first [ apply config_guarded_same; latch_leaf; fail
           | eapply (config_guarded_set s s1); [exact L | exact Hauth | latch_leaf] ]).
Qed.

Lemma login_kept_same s t : latches t = latches s -> login_kept s t.
Proof.
  intros H. apply latches_fields in H as (? & ? & ? & ? & ? & ?).
  repeat split; assumption.
Qed.

Lemma login_kept_rename s u t p :
  latches u = latches s -> latches t = latches (set_m_rename p u) -> login_kept s t.
Proof.
  intros Hu Ht. rewrite latches_set_m_rename in Ht.
  apply latches_fields in Hu as (? & ? & ? & ? & ? & ?).
  unfold latches in Ht. inversion Ht. repeat split; congruence.
Qed.

Ltac login_leaf L :=
  first [ apply login_kept_same; latch_leaf; fail
        | eapply login_kept_rename; [|latch_leaf]; latch_leaf; exact L ].

Lemma RNFR_login a s : login_kept s (RNFR a s).
Proof.
  cbv delta [RNFR]; cbv beta.
  pose proof (latches_setState COMMAND false false s) as L.
  set (s1 := setState COMMAND false false s) in *. clearbody s1. cbv zeta.
  abstract
    (repeat match goal with
            | |- context [if ?b then _ else _] => destruct b
            end; login_leaf L).
Qed.

Lemma RNTO_login a s : login_kept s (RNTO a s).
Proof.
  cbv delta [RNTO]; cbv beta.
  pose proof (latches_setState COMMAND false false s) as L.
  set (s1 := setState COMMAND false false s) in *. clearbody s1. cbv zeta.
  abstract
    (repeat match goal with
            | |- context [if ?b then _ else _] => destruct b
            end; login_leaf L).
Qed.

(** *** The dispatch table *)

Lemma find_handler_In c n h :
  find_handler c = Some (n, h) -> In (n, h) handlers /\ compare n c = 0%Z.
Proof.
  unfold find_handler.
  destruct (nth_error handlers _) as [[n' h']|] eqn:E; [|discriminate].
  cbn [fst]. destruct (compare n' c =? 0)%Z eqn:C; cbn [negb]; [|discriminate].
  intros H; inversion H; subst. split.
  - eapply nth_error_In; eassumption.
  - now apply Z.eqb_eq.
Qed.

(** Every handler but five keeps the latches. *)
Lemma handlers_latches :
  Forall (fun nh : string * Handler =>
            (forall a s, latches (snd nh a s) = latches s)
            \/ nh = ("USER", USER) \/ nh = ("PASS", PASS) \/ nh = ("SITE", SITE)
            \/ nh = ("RNFR", RNFR) \/ nh = ("RNTO", RNTO)) handlers.
Proof.
  unfold handlers.
  repeat (constructor;
          [ lazymatch goal with
            | |- _ \/ (_, ?h) = _ \/ _ =>
              lazymatch h with
              | USER => right; left; reflexivity
              | PASS => right; right; left; reflexivity
              | SITE => right; right; right; left; reflexivity
              | RNFR => right; right; right; right; left; reflexivity
              | RNTO => right; right; right; right; right; reflexivity
              | ABOR => left; exact latches_ABOR
              | ALLO => left; exact latches_ALLO
              | APPE => left; exact latches_APPE
              | CDUP => left; exact latches_CDUP
              | CWD => left; exact latches_CWD
              | DELE => left; exact latches_DELE
              | FEAT => left; exact latches_FEAT
              | HELP => left; exact latches_HELP
              | LIST => left; exact latches_LIST
              | MDTM => left; exact latches_MDTM
              | MKD => left; exact latches_MKD
              | MLSD => left; exact latches_MLSD
              | MLST => left; exact latches_MLST
              | MODE => left; exact latches_MODE
              | NLST => left; exact latches_NLST
              | NOOP => left; exact latches_NOOP
              | OPTS => left; exact latches_OPTS
              | PASV => left; exact latches_PASV
              | PORT => left; exact latches_PORT
              | PWD => left; exact latches_PWD
              | QUIT => left; exact latches_QUIT
              | REST => left; exact latches_REST
              | RETR => left; exact latches_RETR
              | RMD => left; exact latches_RMD
              | SIZE => left; exact latches_SIZE
              | STAT => left; exact latches_STAT
              | STOR => left; exact latches_STOR
              | STOU => left; exact latches_STOU
              | STRU => left; exact latches_STRU
              | SYST => left; exact latches_SYST
              | TYPE => left; exact latches_TYPE
              end
            end | ]).
  constructor.
Qed.

Lemma login_kept_trans s t u : login_kept s t -> login_kept t u -> login_kept s u.
Proof. unfold login_kept. intuition congruence. Qed.

Lemma login_step_from s s1 c a t :
  login_kept s s1 -> login_step c a s1 t -> login_step c a s t.
Proof.
  intros (K1 & K2 & K3 & K4 & K5) [H|[H|[H|H]]].
  - left. eapply login_kept_trans; [|exact H]. repeat split; assumption.
  - right; left. destruct H as (? & ? & ? & ? & ?). repeat split; congruence.
  - right; right; left. destruct H as (? & ? & E & ? & ?).
    rewrite <- K1 at 2. rewrite <- K3 at 1. rewrite <- K4 at 1 2.
    repeat split; congruence.
  - right; right; right. unfold authorized in *.
    destruct H as (? & ? & ?). repeat split; congruence.
Qed.

Lemma handler_login n h a s :
  In (n, h) handlers -> forall c, compare n c = 0%Z -> login_step c a s (h a s).
Proof.
  intros Hin c Hc.
  pose proof (proj1 (Forall_forall _ _) handlers_latches _ Hin) as H.
  cbn [snd] in H. destruct H as [H|[H|[H|[H|[H|H]]]]].
  - left. apply login_kept_same, H.
  - inversion H; subst. right; left.
    split; [assumption|].
    pose proof (USER_latches a s) as E. unfold latches in E. inversion E.
    repeat split; reflexivity.
  - inversion H; subst. right; right; left. split; [assumption|].
    pose proof (PASS_latches a s) as E. unfold latches in E. inversion E.
    repeat split; reflexivity.
  - inversion H; subst.
    destruct (SITE_latches a s) as (H1 & H2 & H3 & H4 & H5).
    destruct (authorized s) eqn:A.
    + right; right; right. repeat split; assumption.
    + left. destruct (H5 eq_refl). repeat split; assumption.
  - inversion H; subst. left. apply RNFR_login.
  - inversion H; subst. left. apply RNTO_login.
Qed.

Lemma latches_invalid_command c a s : latches (invalid_command c a s) = latches s.
Proof. unfold invalid_command. latch_leaf. Qed.

(** What one command line does to the login state. *)
Lemma dispatch_login command args s :
  login_step command args s (dispatch command args s).
Proof.
  unfold dispatch.
  destruct (find_handler command) as [[n h]|] eqn:F.
  - apply find_handler_In in F as [Hin Hc].
    assert (K : login_kept s (stamp s)) by (apply login_kept_same; reflexivity).
    destruct (negb (State_eqb (m_state (stamp s)) COMMAND)).
    + destruct (negb (allowed_during_transfer command)).
      * left. apply login_kept_same. latch_leaf.
      * eapply login_step_from; [exact K | now apply (handler_login n)].
    + eapply login_step_from; [|now apply (handler_login n)].
      destruct (negb _); repeat split; reflexivity.
  - left. apply login_kept_same. now rewrite latches_invalid_command.
Qed.

(** ** The command channel *)

Create Rewrite HintDb chan.

Lemma channel_set_m_config fd v s : channel fd (set_m_config v s) = channel fd s.
Proof. reflexivity. Qed.
Lemma channel_set_m_pasvSocket fd v s : channel fd (set_m_pasvSocket v s) = channel fd s.
Proof. reflexivity. Qed.
Lemma channel_set_m_dataSocket fd v s : channel fd (set_m_dataSocket v s) = channel fd s.
Proof. reflexivity. Qed.
Lemma channel_set_m_pendingCloseSocket fd v s : channel fd (set_m_pendingCloseSocket v s) = channel fd s.
Proof. reflexivity. Qed.
Lemma channel_set_m_commandBuffer fd v s : channel fd (set_m_commandBuffer v s) = channel fd s.
Proof. reflexivity. Qed.
Lemma channel_set_m_xferBuffer fd v s : channel fd (set_m_xferBuffer v s) = channel fd s.
Proof. reflexivity. Qed.
Lemma channel_set_m_zStreamBuffer fd v s : channel fd (set_m_zStreamBuffer v s) = channel fd s.
Proof. reflexivity. Qed.
Lemma channel_set_m_zStream fd v s : channel fd (set_m_zStream v s) = channel fd s.
Proof. reflexivity. Qed.
Lemma channel_set_m_file fd v s : channel fd (set_m_file v s) = channel fd s.
Proof. reflexivity. Qed.
Lemma channel_set_m_dir fd v s : channel fd (set_m_dir v s) = channel fd s.
Proof. reflexivity. Qed.
Lemma channel_set_m_glob fd v s : channel fd (set_m_glob v s) = channel fd s.
Proof. reflexivity. Qed.
Lemma channel_set_m_state fd v s : channel fd (set_m_state v s) = channel fd s.
Proof. reflexivity. Qed.
Lemma channel_set_m_transfer fd v s : channel fd (set_m_transfer v s) = channel fd s.
Proof. reflexivity. Qed.
Lemma channel_set_m_xferDirMode fd v s : channel fd (set_m_xferDirMode v s) = channel fd s.
Proof. reflexivity. Qed.
Lemma channel_set_m_timestamp fd v s : channel fd (set_m_timestamp v s) = channel fd s.
Proof. reflexivity. Qed.
Lemma channel_set_m_cwd fd v s : channel fd (set_m_cwd v s) = channel fd s.
Proof. reflexivity. Qed.
Lemma channel_set_m_lwd fd v s : channel fd (set_m_lwd v s) = channel fd s.
Proof. reflexivity. Qed.
Lemma channel_set_m_rename fd v s : channel fd (set_m_rename v s) = channel fd s.
Proof. reflexivity. Qed.
Lemma channel_set_m_workItem fd v s : channel fd (set_m_workItem v s) = channel fd s.
Proof. reflexivity. Qed.
Lemma channel_set_m_portAddr fd v s : channel fd (set_m_portAddr v s) = channel fd s.
Proof. reflexivity. Qed.
Lemma channel_set_m_restartPosition fd v s : channel fd (set_m_restartPosition v s) = channel fd s.
Proof. reflexivity. Qed.
Lemma channel_set_m_fileSize fd v s : channel fd (set_m_fileSize v s) = channel fd s.
Proof. reflexivity. Qed.
Lemma channel_set_m_filePosition fd v s : channel fd (set_m_filePosition v s) = channel fd s.
Proof. reflexivity. Qed.
Lemma channel_set_m_zStreamPosition fd v s : channel fd (set_m_zStreamPosition v s) = channel fd s.
Proof. reflexivity. Qed.
Lemma channel_set_m_authorizedUser fd v s : channel fd (set_m_authorizedUser v s) = channel fd s.
Proof. reflexivity. Qed.
Lemma channel_set_m_authorizedPass fd v s : channel fd (set_m_authorizedPass v s) = channel fd s.
Proof. reflexivity. Qed.
Lemma channel_set_m_pasv fd v s : channel fd (set_m_pasv v s) = channel fd s.
Proof. reflexivity. Qed.
Lemma channel_set_m_port fd v s : channel fd (set_m_port v s) = channel fd s.
Proof. reflexivity. Qed.
Lemma channel_set_m_recv fd v s : channel fd (set_m_recv v s) = channel fd s.
Proof. reflexivity. Qed.
Lemma channel_set_m_send fd v s : channel fd (set_m_send v s) = channel fd s.
Proof. reflexivity. Qed.
Lemma channel_set_m_urgent fd v s : channel fd (set_m_urgent v s) = channel fd s.
Proof. reflexivity. Qed.
Lemma channel_set_m_deflate fd v s : channel fd (set_m_deflate v s) = channel fd s.
Proof. reflexivity. Qed.
Lemma channel_set_m_zFlushed fd v s : channel fd (set_m_zFlushed v s) = channel fd s.
Proof. reflexivity. Qed.
Lemma channel_set_m_eof fd v s : channel fd (set_m_eof v s) = channel fd s.
Proof. reflexivity. Qed.
Lemma channel_set_m_mlstType fd v s : channel fd (set_m_mlstType v s) = channel fd s.
Proof. reflexivity. Qed.
Lemma channel_set_m_mlstSize fd v s : channel fd (set_m_mlstSize v s) = channel fd s.
Proof. reflexivity. Qed.
Lemma channel_set_m_mlstModify fd v s : channel fd (set_m_mlstModify v s) = channel fd s.
Proof. reflexivity. Qed.
Lemma channel_set_m_mlstPerm fd v s : channel fd (set_m_mlstPerm v s) = channel fd s.
Proof. reflexivity. Qed.
Lemma channel_set_m_mlstUnixMode fd v s : channel fd (set_m_mlstUnixMode v s) = channel fd s.
Proof. reflexivity. Qed.
Lemma channel_set_m_devZero fd v s : channel fd (set_m_devZero v s) = channel fd s.
Proof. reflexivity. Qed.

#[local] Hint Rewrite channel_set_m_config channel_set_m_pasvSocket channel_set_m_dataSocket channel_set_m_pendingCloseSocket channel_set_m_commandBuffer channel_set_m_xferBuffer channel_set_m_zStreamBuffer channel_set_m_zStream channel_set_m_file channel_set_m_dir channel_set_m_glob channel_set_m_state channel_set_m_transfer channel_set_m_xferDirMode channel_set_m_timestamp channel_set_m_cwd channel_set_m_lwd channel_set_m_rename channel_set_m_workItem channel_set_m_portAddr channel_set_m_restartPosition channel_set_m_fileSize channel_set_m_filePosition channel_set_m_zStreamPosition channel_set_m_authorizedUser channel_set_m_authorizedPass channel_set_m_pasv channel_set_m_port channel_set_m_recv channel_set_m_send channel_set_m_urgent channel_set_m_deflate channel_set_m_zFlushed channel_set_m_eof channel_set_m_mlstType channel_set_m_mlstSize channel_set_m_mlstModify channel_set_m_mlstPerm channel_set_m_mlstUnixMode channel_set_m_devZero : chan.

Lemma command_output_sys fd c s :
  is_write fd c = false -> command_output fd (sys c s) = command_output fd s.
Proof.
  intros H. unfold command_output, sys. cbn.
  destruct c; cbn in H |- *; rewrite ?append_nil_r; try reflexivity.
  rewrite H. cbn. now rewrite append_nil_r.
Qed.

Lemma channel_sys fd c s : is_write fd c = false -> channel fd (sys c s) = channel fd s.
Proof. intros H. unfold channel. now rewrite command_output_sys. Qed.

Lemma channel_assign_errno fd e s : channel fd (assign_errno e s) = channel fd s.
Proof. reflexivity. Qed.

#[local] Hint Rewrite channel_sys using reflexivity : chan.
#[local] Hint Rewrite channel_assign_errno : chan.

Ltac chan_leaf :=
  unfold andThen; cbn [fst snd];
  repeat (progress autorewrite with chan);
  repeat match goal with
         | H : channel ?fd ?x = channel _ _ |- context [channel ?fd ?x] => rewrite H
         end;
  try reflexivity.

Ltac chan := intros; walk chan_leaf.

Lemma channel_stamp fd s : channel fd (stamp s) = channel fd s.
Proof. unfold stamp. chan_leaf. Qed.

#[local] Hint Rewrite channel_stamp : chan.

Lemma channel_closePasv fd s : channel fd (closePasv s) = channel fd s.
Proof. cbv delta [closePasv]; cbv beta. chan. Qed.

Lemma channel_closeData fd s : channel fd (closeData s) = channel fd s.
Proof. cbv delta [closeData closeSocket]; cbv beta. chan. Qed.

Lemma channel_file_close fd s : channel fd (file_close s) = channel fd s.
Proof. cbv delta [file_close]; cbv beta. chan. Qed.

Lemma channel_dir_close fd s : channel fd (dir_close s) = channel fd s.
Proof. cbv delta [dir_close]; cbv beta. chan. Qed.

Lemma channel_zStream_reset fd s : channel fd (zStream_reset s) = channel fd s.
Proof. cbv delta [zStream_reset]; cbv beta. chan. Qed.

#[local] Hint Rewrite channel_closePasv channel_closeData channel_file_close
  channel_dir_close channel_zStream_reset : chan.

(** A transition leaves the command channel as it is. *)
Lemma channel_setState fd st cp cd s : channel fd (setState st cp cd s) = channel fd s.
Proof. cbv delta [setState]; cbv beta. chan. Qed.

#[local] Hint Rewrite channel_setState : chan.

Lemma channel_fields fd s s' :
  channel fd s' = channel fd s ->
  m_commandSocket s' = m_commandSocket s
  /\ room s' = room s
  /\ command_output fd s' = command_output fd s.
Proof.
  unfold channel, room. intros H. inversion H as [[H1 H2 H3]].
  rewrite H2. repeat split; reflexivity.
Qed.

Lemma substr_split (n : nat) (s : string) : substr 0 n s +++ substr_from n s = s.
Proof.
  unfold substr. revert n. induction s as [|c s IH]; intros [|n]; cbn; try reflexivity.
  now rewrite IH.
Qed.

Lemma substr_whole (n : nat) (s : string) : String.length s <= n -> substr 0 n s = s.
Proof.
  unfold substr. revert n. induction s as [|c s IH]; intros [|n] H; cbn in *;
    try reflexivity; try lia.
  rewrite IH; [reflexivity | lia].
Qed.

Lemma length_substr_from (n : nat) (s : string) :
  String.length (substr_from n s) = String.length s - n.
Proof.
  revert n. induction s as [|c s IH]; intros [|n]; cbn; try reflexivity. apply IH.
Qed.

(** The write of the response buffer moves bytes from the buffer to the
    wire and changes nothing of what was said. *)
Lemma command_output_response_write fd s :
  command_output fd (response_write fd s) = command_output fd s.
Proof.
  unfold response_write, response_write_rc, command_output, sys, answer, ask.
  destruct (0 <? rc _)%Z eqn:E; cbn; rewrite E, Nat.eqb_refl; cbn.
  - rewrite append_assoc. f_equal. apply substr_split.
  - now rewrite append_nil_r.
Qed.

Lemma command_output_set_m_timestamp fd v s :
  command_output fd (set_m_timestamp v s) = command_output fd s.
Proof. reflexivity. Qed.

Lemma command_output_set_responseBuffer fd b s :
  usedArea b = usedArea (m_responseBuffer s) ->
  command_output fd (set_m_responseBuffer b s) = command_output fd s.
Proof. unfold command_output. cbn. intros ->. reflexivity. Qed.

(** A reply on an open, writable command channel with room for it: the
    channel stays open, the reply is appended to what was said, and the
    room shrinks by its length at most. *)
Lemma sendResponse_spec fd r s :
  m_commandSocket s = Some fd ->
  writable fd (w_oracle (world s)) ->
  r <> "" ->
  String.length r < room s ->
  m_commandSocket (sendResponse r s) = Some fd
  /\ room s - String.length r <= room (sendResponse r s)
  /\ command_output fd (sendResponse r s) = command_output fd s +++ r.
Proof.
  intros Hfd Hw Hr Hroom. unfold sendResponse. rewrite Hfd.
  fold (room s).
  destruct (room s <? String.length r) eqn:E; [apply Nat.ltb_lt in E; lia|].
  unfold snprintf_bytes.
  destruct (String.length r <? room s) eqn:E2; [|apply Nat.ltb_ge in E2; lia].
  cbv zeta.
  set (s1 := set_m_responseBuffer (markUsed r (m_responseBuffer s)) s).
  assert (Hout1 : command_output fd s1 = command_output fd s +++ r).
  { unfold command_output, s1. cbn. now rewrite append_assoc. }
  assert (Hfd1 : m_commandSocket s1 = Some fd) by exact Hfd.
  assert (Hused : usedArea (m_responseBuffer s1) <> "").
  { unfold s1. cbn. destruct (buf_used (m_responseBuffer s)); [exact Hr | discriminate]. }
  assert (Hroom1 : room s1 = room s - String.length r).
  { unfold room, s1, freeSize. cbn. rewrite length_append. lia. }
  pose proof (command_output_response_write fd s1) as Hout2.
  assert (Hfd2 : m_commandSocket (response_write fd s1) = Some fd).
  { unfold response_write. destruct (0 <? _)%Z; exact Hfd. }
  assert (Herr : errno (response_write fd s1)
                 = r_errno (answer (SockWrite fd (usedArea (m_responseBuffer s1))) s1)).
  { unfold response_write. destruct (0 <? _)%Z; reflexivity. }
  assert (Hbuf : m_responseBuffer (response_write fd s1)
                 = if (0 <? response_write_rc fd s1)%Z
                   then markFree (Z.to_nat (response_write_rc fd s1)) (m_responseBuffer s1)
                   else m_responseBuffer s1).
  { unfold response_write. destruct (0 <? _)%Z; reflexivity. }
  pose proof (Hw (usedArea (m_responseBuffer s1)) (w_trace (world s1)) Hused) as Hcase.
  cbv zeta in Hcase.
  change (w_oracle (world s) (SockWrite fd (usedArea (m_responseBuffer s1))
                                :: w_trace (world s1)))
    with (answer (SockWrite fd (usedArea (m_responseBuffer s1))) s1) in Hcase.
  unfold response_write_rc in *.
  set (a := answer (SockWrite fd (usedArea (m_responseBuffer s1))) s1) in *.
  set (s2 := response_write fd s1) in *. clearbody s2.
  destruct Hcase as [Hpos|[Hneg Hwb]].
  - assert (E3 : (rc a <=? 0)%Z = false) by (apply Z.leb_gt; lia).
    rewrite E3. split; [exact Hfd2|]. split.
    + unfold room at 2. cbn. rewrite Hbuf.
      assert (E4 : (0 <? rc a)%Z = true) by (apply Z.ltb_lt; lia).
      rewrite E4. unfold freeSize, coalesce, markFree. cbn.
      rewrite length_substr_from, length_append.
      unfold room, freeSize. lia.
    + rewrite command_output_set_responseBuffer by reflexivity.
      unfold stamp. rewrite command_output_set_m_timestamp.
      rewrite command_output_sys by reflexivity. congruence.
  - assert (E3 : (rc a <=? 0)%Z = true) by (apply Z.leb_le; lia).
    assert (E4 : (rc a =? 0)%Z = false) by (apply Z.eqb_neq; lia).
    rewrite E3, E4, Herr, Hwb, Z.eqb_refl. cbn [negb orb].
    split; [exact Hfd2|]. split; [|congruence].
    unfold room at 2. rewrite Hbuf.
    assert (E5 : (0 <? rc a)%Z = false) by (apply Z.ltb_ge; lia).
    rewrite E5. fold (room s1). lia.
Qed.

(** ** State transitions *)

Create Rewrite HintDb ctl.

Lemma control_sys c s : control (sys c s) = control s.
Proof. reflexivity. Qed.

Lemma control_assign_errno e s : control (assign_errno e s) = control s.
Proof. reflexivity. Qed.

Lemma control_stamp s : control (stamp s) = control s.
Proof. reflexivity. Qed.

Lemma control_set_m_responseBuffer v s : control (set_m_responseBuffer v s) = control s.
Proof. reflexivity. Qed.

Lemma control_set_m_commandSocket v s : control (set_m_commandSocket v s) = control s.
Proof. reflexivity. Qed.

Lemma control_set_m_pendingCloseSocket v s :
  control (set_m_pendingCloseSocket v s) = control s.
Proof. reflexivity. Qed.

Lemma control_set_m_timestamp v s : control (set_m_timestamp v s) = control s.
Proof. reflexivity. Qed.

Lemma control_set_m_rename v s : control (set_m_rename v s) = control s.
Proof. reflexivity. Qed.

Lemma control_set_m_authorizedUser v s : control (set_m_authorizedUser v s) = control s.
Proof. reflexivity. Qed.

Lemma control_set_m_authorizedPass v s : control (set_m_authorizedPass v s) = control s.
Proof. reflexivity. Qed.

#[local] Hint Rewrite control_sys control_assign_errno control_stamp
  control_set_m_responseBuffer control_set_m_commandSocket
  control_set_m_pendingCloseSocket control_set_m_timestamp control_set_m_rename
  control_set_m_authorizedUser control_set_m_authorizedPass : ctl.

Ltac ctl_leaf :=
  unfold andThen; cbn [fst snd];
  repeat (progress autorewrite with ctl);
  repeat match goal with
         | H : control ?x = control _ |- context [control ?x] => rewrite H
         end;
  try reflexivity.

Ltac ctl := intros; walk ctl_leaf.

Lemma control_closeCommand s : control (closeCommand s) = control s.
Proof. cbv delta [closeCommand closeSocket]; cbv beta. ctl. Qed.

Lemma control_file_close s : control (file_close s) = control s.
Proof. cbv delta [file_close]; cbv beta. ctl. Qed.

Lemma control_dir_close s : control (dir_close s) = control s.
Proof. cbv delta [dir_close]; cbv beta. ctl. Qed.

Lemma control_zStream_reset s : control (zStream_reset s) = control s.
Proof. cbv delta [zStream_reset]; cbv beta. ctl. Qed.

Lemma control_response_write fd s : control (response_write fd s) = control s.
Proof. cbv delta [response_write]; cbv beta. ctl. Qed.

#[local] Hint Rewrite control_closeCommand control_file_close control_dir_close
  control_zStream_reset control_response_write : ctl.

(** A reply changes nothing of the control members. *)
Lemma control_sendResponse r s : control (sendResponse r s) = control s.
Proof. cbv delta [sendResponse]; cbv beta. ctl. Qed.

Lemma control_sendResponse_view r s : control (sendResponse_view r s) = control s.
Proof. cbv delta [sendResponse_view]; cbv beta. ctl. Qed.

#[local] Hint Rewrite control_sendResponse control_sendResponse_view : ctl.

Lemma control_closePasv s :
  control (closePasv s)
  = (m_state s, None, m_dataSocket s, m_pasv s, m_port s, m_recv s, m_send s,
     m_restartPosition s, m_fileSize s, m_filePosition s, m_cwd s).
Proof. unfold closePasv. destruct (m_pasvSocket s) eqn:E; unfold control; cbn; now rewrite ?E. Qed.

Lemma control_closeData s :
  control (closeData s)
  = (m_state s, m_pasvSocket s, None, m_pasv s, m_port s, false, false,
     m_restartPosition s, m_fileSize s, m_filePosition s, m_cwd s).
Proof.
  unfold closeData, closeSocket.
  destruct (m_dataSocket s) eqn:E; [destruct (_ =? _)|]; unfold control; cbn;
    now rewrite ?E.
Qed.

(** What a transition leaves in the control members: the new state, the
    sockets it was told to close gone, the transfer flags cleared with the
    data socket, and on the way back to COMMAND the restart position, the
    file size and the file position zeroed. *)
Lemma control_setState st cp cd s :
  control (setState st cp cd s)
  = (st,
     (if cp then None else m_pasvSocket s),
     (if cd then None else m_dataSocket s),
     m_pasv s, m_port s,
     (if cd then false else m_recv s),
     (if cd then false else m_send s),
     match st with COMMAND => 0%Z | _ => m_restartPosition s end,
     match st with COMMAND => 0%Z | _ => m_fileSize s end,
     match st with COMMAND => 0%Z | _ => m_filePosition s end,
     m_cwd s).
Proof.
  unfold setState.
  set (s1 := stamp (set_m_state st s)).
  assert (H1 : control s1
               = (st, m_pasvSocket s, m_dataSocket s, m_pasv s, m_port s, m_recv s,
                  m_send s, m_restartPosition s, m_fileSize s, m_filePosition s,
                  m_cwd s)) by reflexivity.
  clearbody s1. cbv zeta.
  set (s2 := if cp then closePasv s1 else s1).
  assert (H2 : control s2
               = (st, (if cp then None else m_pasvSocket s), m_dataSocket s, m_pasv s,
                  m_port s, m_recv s, m_send s, m_restartPosition s, m_fileSize s,
                  m_filePosition s, m_cwd s)).
  { unfold s2. destruct cp; [rewrite control_closePasv|exact H1].
    unfold control in H1. inversion H1. reflexivity. }
  clearbody s2. clear H1 s1.
  set (s3 := if cd then closeData s2 else s2).
  assert (H3 : control s3
               = (st, (if cp then None else m_pasvSocket s),
                  (if cd then None else m_dataSocket s), m_pasv s, m_port s,
                  (if cd then false else m_recv s), (if cd then false else m_send s),
                  m_restartPosition s, m_fileSize s, m_filePosition s, m_cwd s)).
  { unfold s3. destruct cd; [rewrite control_closeData|exact H2].
    unfold control in H2. inversion H2. reflexivity. }
  clearbody s3. clear H2 s2.
  destruct st; [|exact H3|exact H3].
  rewrite control_zStream_reset, control_dir_close, control_file_close.
  unfold control in H3 |- *. inversion H3. reflexivity.
Qed.

Lemma control_fields s :
  control s
  = (m_state s, m_pasvSocket s, m_dataSocket s, m_pasv s, m_port s, m_recv s, m_send s,
     m_restartPosition s, m_fileSize s, m_filePosition s, m_cwd s).
Proof. reflexivity. Qed.

Lemma control_inv s a b c d e f g h i j k :
  control s = (a, b, c, d, e, f, g, h, i, j, k) ->
  m_state s = a /\ m_pasvSocket s = b /\ m_dataSocket s = c /\ m_pasv s = d
  /\ m_port s = e /\ m_recv s = f /\ m_send s = g /\ m_restartPosition s = h
  /\ m_fileSize s = i /\ m_filePosition s = j /\ m_cwd s = k.
Proof. unfold control. intros H. inversion H. repeat split. Qed.

(** ** Replies on a healthy command channel *)

(** One reply on a command channel that takes writes and has room for
    it: the reply is appended to what the session has said, at most its
    length is taken from the room, and nothing else that the properties
    observe moves. *)
Lemma reply_spec fd r s :
  m_commandSocket s = Some fd ->
  writable fd (w_oracle (world s)) ->
  r <> "" ->
  String.length r < room s ->
  m_commandSocket (sendResponse r s) = Some fd
  /\ writable fd (w_oracle (world (sendResponse r s)))
  /\ room s - String.length r <= room (sendResponse r s)
  /\ command_output fd (sendResponse r s) = command_output fd s +++ r
  /\ control (sendResponse r s) = control s
  /\ latches (sendResponse r s) = latches s.
Proof.
  intros Hfd Hw Hr Hroom.
  destruct (sendResponse_spec fd r s Hfd Hw Hr Hroom) as (A & B & C).
  repeat split; try assumption.
  - rewrite (latches_oracle _ _ (latches_sendResponse r s)). exact Hw.
  - apply control_sendResponse.
  - apply latches_sendResponse.
Qed.

Lemma example_writable fd : writable fd example_oracle.
Proof.
  intros data trace Hd. left. cbn.
  destruct data as [|c data]; [contradiction|]. cbn [String.length]. lia.
Qed.

Lemma control_state s s' : control s' = control s -> m_state s' = m_state s.
Proof. unfold control. intros H. now inversion H. Qed.

(** ** ABOR *)

(** The handler of ABOR on a session in DATA_CONNECT or DATA_TRANSFER, on
    a command channel that takes writes and has room for the two
    replies. *)
Lemma ABOR_handler_in_transfer (args : string) (fd : Socket) (s : FtpSession) :
  m_state s = DATA_CONNECT \/ m_state s = DATA_TRANSFER ->
  m_commandSocket s = Some fd ->
  writable fd (w_oracle (world s)) ->
  String.length ("225 Aborted" +++ CRLF)
  + String.length ("425 Transfer aborted" +++ CRLF) < room s ->
  command_output fd (ABOR args s)
  = command_output fd s +++ ("225 Aborted" +++ CRLF)
    +++ ("425 Transfer aborted" +++ CRLF)
  /\ m_state (ABOR args s) = COMMAND
  /\ m_commandSocket (ABOR args s) = Some fd
  /\ m_pasvSocket (ABOR args s) = None
  /\ m_dataSocket (ABOR args s) = None.
Proof.
  intros Hst Hfd Hw Hroom.
  assert (Hc : State_eqb (m_state s) COMMAND = false)
    by (destruct Hst as [-> | ->]; reflexivity).
  unfold ABOR. rewrite Hc. unfold andThen.
  set (r1 := "225 Aborted" +++ CRLF) in *.
  set (r2 := "425 Transfer aborted" +++ CRLF) in *.
  assert (N1 : r1 <> "") by discriminate.
  assert (N2 : String.length r1 < room s) by lia.
  destruct (reply_spec fd r1 s Hfd Hw N1 N2) as (A1 & W1 & R1 & O1 & _).
  assert (N3 : r2 <> "") by discriminate.
  assert (N4 : String.length r2 < room (sendResponse r1 s)) by lia.
  destruct (reply_spec fd r2 (sendResponse r1 s) A1 W1 N3 N4) as (A2 & _ & _ & O2 & _).
  set (s2 := sendResponse r2 (sendResponse r1 s)) in *.
  destruct (channel_fields fd _ _ (channel_setState fd COMMAND true true s2))
    as (K1 & _ & K3).
  destruct (control_inv _ _ _ _ _ _ _ _ _ _ _ _ (control_setState COMMAND true true s2))
    as (F1 & F2 & F3 & _).
  split; [|split; [exact F1|split; [congruence|split; [exact F2|exact F3]]]].
  rewrite K3, O2, O1. apply append_assoc.
Qed.

(** ** The handler table *)

Section Lookup.

Lemma tolower_idem (c : ascii) : tolower (tolower c) = tolower c.
Proof. destruct c as [[] [] [] [] [] [] [] []]; vm_compute; reflexivity. Qed.

Lemma length_smap f s : String.length (smap f s) = String.length s.
Proof. induction s as [|c s IH]; cbn; [reflexivity | now rewrite IH]. Qed.

(** [compare] folds the case of its operands, so lowering the right one
    changes nothing. *)
Lemma compare_loop_lower_r (a b : string) :
  compare_loop a (smap tolower b) = compare_loop a b.
Proof.
  revert b. induction a as [|x a IH]; intros [|y b]; cbn [compare_loop smap];
    try reflexivity.
  - cbn [String.length]. now rewrite length_smap.
  - rewrite tolower_idem. destruct (Ascii.eqb (tolower x) (tolower y)); [apply IH | reflexivity].
Qed.

Lemma compare_loop_lower_l (a b : string) :
  compare_loop (smap tolower a) b = compare_loop a b.
Proof.
  revert b. induction a as [|x a IH]; intros [|y b]; cbn [compare_loop smap];
    try reflexivity.
  - cbn [String.length]. now rewrite length_smap.
  - rewrite tolower_idem. destruct (Ascii.eqb (tolower x) (tolower y)); [apply IH | reflexivity].
Qed.

Lemma nat_of_ascii_inj (a b : ascii) : nat_of_ascii a = nat_of_ascii b -> a = b.
Proof.
  intros H. rewrite <- (ascii_nat_embedding a), <- (ascii_nat_embedding b).
  now rewrite H.
Qed.

(** Operands that compare equal are equal once lowered. *)
Lemma compare_loop_zero (a b : string) :
  compare_loop a b = 0%Z -> smap tolower a = smap tolower b.
Proof.
  revert b. induction a as [|x a IH]; intros [|y b]; cbn [compare_loop smap String.length];
    intros H; try reflexivity; try lia.
  destruct (Ascii.eqb (tolower x) (tolower y)) eqn:E.
  - apply Ascii.eqb_eq in E. rewrite E. f_equal. now apply IH.
  - apply Ascii.eqb_neq in E. exfalso. apply E. apply nat_of_ascii_inj. lia.
Qed.

Lemma compare_loop_refl (a : string) : compare_loop a a = 0%Z.
Proof.
  induction a as [|c a IH]; cbn [compare_loop]; [lia|].
  cbv zeta. now rewrite Ascii.eqb_refl.
Qed.

Lemma compare_loop_lowered (a b : string) :
  smap tolower a = smap tolower b -> compare_loop a b = 0%Z.
Proof.
  intros H. rewrite <- compare_loop_lower_l, <- compare_loop_lower_r, H.
  apply compare_loop_refl.
Qed.

Lemma compare_plain_l (a b : string) : isCString a = false -> compare a b = compare_loop a b.
Proof. intros H. unfold compare. now rewrite H. Qed.

Lemma compare_plain_r (a b : string) : isCString b = false -> compare a b = compare_loop a b.
Proof. intros H. unfold compare. now rewrite H, andb_false_r. Qed.

(** The binary search asks its predicate about entries of the table
    only. *)
Lemma lower_bound_ext {A : Type} (c1 c2 : A -> bool) (v : list A) :
  Forall (fun x => c1 x = c2 x) v ->
  forall fuel first len,
    lower_bound c1 v first len fuel = lower_bound c2 v first len fuel.
Proof.
  intros Hv. induction fuel as [|fuel IH]; intros first len; cbn [lower_bound];
    [reflexivity|].
  destruct (len =? 0); [reflexivity|]. cbv zeta.
  destruct (nth_error v (first + len / 2)) as [m|] eqn:E; [|reflexivity].
  rewrite Forall_forall in Hv. rewrite (Hv m (nth_error_In _ _ E)).
  destruct (c2 m); apply IH.
Qed.

(** No name in the table holds a NUL. *)
Lemma handlers_plain : Forall (fun h => isCString (fst h) = false) handlers.
Proof. unfold handlers. repeat (constructor; [reflexivity|]). constructor. Qed.

(** The position the search ends at. *)
Lemma find_handler_at (command : string) :
  find_handler command
  = match nth_error handlers
            (lower_bound (fun h => (compare_loop (fst h) (smap tolower command) <? 0)%Z)
               handlers 0 (List.length handlers) (List.length handlers)) with
    | Some h =>
      if negb (compare_loop (fst h) (smap tolower command) =? 0)%Z then None else Some h
    | None => None
    end.
Proof.
  unfold find_handler. cbv zeta.
  rewrite (lower_bound_ext
             (fun h => (compare (fst h) command <? 0)%Z)
             (fun h => (compare_loop (fst h) (smap tolower command) <? 0)%Z)).
  - destruct (nth_error handlers _) as [h|] eqn:E; [|reflexivity].
    pose proof handlers_plain as P. rewrite Forall_forall in P.
    rewrite (compare_plain_l _ _ (P h (nth_error_In _ _ E))).
    now rewrite compare_loop_lower_r.
  - pose proof handlers_plain as P. rewrite Forall_forall in P |- *.
    intros h Hh. rewrite (compare_plain_l _ _ (P h Hh)).
    now rewrite compare_loop_lower_r.
Qed.

(** The lookup folds the case of the command. *)
Lemma find_handler_lower (command : string) :
  find_handler (smap tolower command) = find_handler command.
Proof.
  rewrite (find_handler_at command), (find_handler_at (smap tolower command)).
  assert (E : smap tolower (smap tolower command) = smap tolower command).
  { induction command as [|c r IH]; cbn; [reflexivity|]. now rewrite tolower_idem, IH. }
  now rewrite E.
Qed.

Lemma find_handler_same (a b : string) :
  compare a b = 0%Z -> isCString b = false -> find_handler a = find_handler b.
Proof.
  intros H Hb. rewrite (compare_plain_r _ _ Hb) in H.
  apply compare_loop_zero in H.
  rewrite <- (find_handler_lower a), <- (find_handler_lower b). now rewrite H.
Qed.

End Lookup.

Ltac lookup :=
  rewrite find_handler_at;
  match goal with
  | |- context [lower_bound ?c ?v ?a ?b ?d] =>
    let i := eval vm_compute in (lower_bound c v a b d) in
    replace (lower_bound c v a b d) with i by (vm_compute; reflexivity)
  end;
  reflexivity.

Lemma find_handler_ABOR : find_handler "ABOR" = Some ("ABOR", ABOR).
Proof. lookup. Qed.

Lemma find_handler_NOOP : find_handler "NOOP" = Some ("NOOP", NOOP).
Proof. lookup. Qed.

Lemma find_handler_PWD : find_handler "PWD" = Some ("PWD", PWD).
Proof. lookup. Qed.

Lemma find_handler_QUIT : find_handler "QUIT" = Some ("QUIT", QUIT).
Proof. lookup. Qed.

Lemma find_handler_STAT : find_handler "STAT" = Some ("STAT", STAT).
Proof. lookup. Qed.

Lemma find_handler_XPWD : find_handler "XPWD" = Some ("XPWD", PWD).
Proof. lookup. Qed.

Lemma find_handler_RNTO : find_handler "RNTO" = Some ("RNTO", RNTO).
Proof. lookup. Qed.

Lemma find_handler_RNFR : find_handler "RNFR" = Some ("RNFR", RNFR).
Proof. lookup. Qed.

Lemma find_handler_REST : find_handler "REST" = Some ("REST", REST).
Proof. lookup. Qed.

Lemma find_handler_PORT : find_handler "PORT" = Some ("PORT", PORT).
Proof. lookup. Qed.

Lemma find_handler_FOO : find_handler "FOO" = None.
Proof. lookup. Qed.


(** ** Commands during a transfer *)

(** A queued reply: appended to what was said, its length taken from the
    room. *)
Lemma sendResponse_view_spec fd r s :
  m_commandSocket s = Some fd ->
  String.length r <= room s ->
  m_commandSocket (sendResponse_view r s) = Some fd
  /\ room (sendResponse_view r s) = room s - String.length r
  /\ command_output fd (sendResponse_view r s) = command_output fd s +++ r.
Proof.
  intros Hfd Hroom. unfold sendResponse_view. rewrite Hfd. fold (room s).
  destruct (room s <? String.length r) eqn:E; [apply Nat.ltb_lt in E; lia|].
  split; [exact Hfd|]. split.
  - unfold room, freeSize. cbn. rewrite length_append. lia.
  - unfold command_output. cbn. now rewrite append_assoc.
Qed.

Lemma m_commandSocket_closeCommand s : m_commandSocket (closeCommand s) = None.
Proof.
  unfold closeCommand, closeSocket.
  destruct (m_commandSocket s) eqn:E; [destruct (_ =? _)|]; cbn; auto.
Qed.


Lemma stamp_channel fd s :
  m_commandSocket (stamp s) = m_commandSocket s
  /\ room (stamp s) = room s
  /\ command_output fd (stamp s) = command_output fd s
  /\ w_oracle (world (stamp s)) = w_oracle (world s).
Proof.
  destruct (channel_fields fd _ _ (channel_stamp fd s)) as (A & B & C).
  split; [exact A|]. split; [exact B|]. split; [exact C|]. reflexivity.
Qed.




(** ** ABOR received during a transfer *)

(** C1 (as the code has it).  A command line whose verb is ABOR, in any
    letter case, received in DATA_CONNECT or DATA_TRANSFER on a command
    channel that takes writes and has room for the two replies, passes
    the lookup of [readCommand] and its check of the state; the session says
    [225 Aborted] and then [425 Transfer aborted] on the command channel,
    and is left in COMMAND with the command socket still in place and the
    passive and data sockets given up. *)
Theorem ABOR_during_transfer (command args : string) (fd : Socket) (s : FtpSession) :
  compare command "ABOR" = 0%Z ->
  m_state s = DATA_CONNECT \/ m_state s = DATA_TRANSFER ->
  m_commandSocket s = Some fd ->
  writable fd (w_oracle (world s)) ->
  String.length ("225 Aborted" +++ CRLF)
  + String.length ("425 Transfer aborted" +++ CRLF) < room s ->
  command_output fd (dispatch command args s)
  = command_output fd s +++ ("225 Aborted" +++ CRLF)
    +++ ("425 Transfer aborted" +++ CRLF)
  /\ m_state (dispatch command args s) = COMMAND
  /\ m_commandSocket (dispatch command args s) = Some fd
  /\ m_pasvSocket (dispatch command args s) = None
  /\ m_dataSocket (dispatch command args s) = None.
Proof.
  intros E Hst Hfd Hw Hroom.
  assert (Hc : State_eqb (m_state (stamp s)) COMMAND = false)
    by (change (m_state (stamp s)) with (m_state s);
        destruct Hst as [-> | ->]; reflexivity).
  assert (Hal : allowed_during_transfer command = true).
  { unfold allowed_during_transfer. apply Z.eqb_eq in E. rewrite E. reflexivity. }
  assert (Hd : dispatch command args s = ABOR args (stamp s)).
  { unfold dispatch. cbv zeta.
    rewrite (find_handler_same _ _ E eq_refl), find_handler_ABOR, Hc, Hal.
    reflexivity. }
  destruct (stamp_channel fd s) as (T1 & T2 & T3 & T4).
  rewrite Hd, <- T3.
  apply ABOR_handler_in_transfer.
  - change (m_state (stamp s)) with (m_state s). exact Hst.
  - congruence.
  - rewrite T4. exact Hw.
  - rewrite T2. exact Hroom.
Qed.

(** The same on a session that logged in, opened a passive listener and
    asked for a listing: it waits in DATA_CONNECT when [abor] arrives. *)
Lemma ABOR_during_transfer_witness :
  m_state example_listing = DATA_CONNECT
  /\ command_output 3 (dispatch "abor" "" example_listing)
     = command_output 3 example_listing +++ ("225 Aborted" +++ CRLF)
       +++ ("425 Transfer aborted" +++ CRLF)
  /\ m_state (dispatch "abor" "" example_listing) = COMMAND
  /\ m_commandSocket (dispatch "abor" "" example_listing) = Some 3
  /\ m_pasvSocket (dispatch "abor" "" example_listing) = None
  /\ m_dataSocket (dispatch "abor" "" example_listing) = None.
Proof.
  split; [vm_compute; reflexivity|].
  apply (ABOR_during_transfer "abor" "" 3 example_listing).
  - vm_compute. reflexivity.
  - left. vm_compute. reflexivity.
  - vm_compute. reflexivity.
  - apply example_writable.
  - vm_compute. lia.
Defined.

(** C1 (as the specification has it) fails: on that session an ABOR
    that is received is not answered with [426 Transfer aborted]. *)
Lemma ABOR_reply_is_not_426 :
  m_state example_listing = DATA_CONNECT
  /\ m_commandSocket example_listing = Some 3
  /\ command_output 3 (dispatch "ABOR" "" example_listing)
     <> command_output 3 example_listing +++ ("225 Aborted" +++ CRLF)
        +++ ("426 Transfer aborted" +++ CRLF).
Proof.
  split; [vm_compute; reflexivity|]. split; [vm_compute; reflexivity|].
  vm_compute. discriminate.
Qed.

(** ** Logging in *)

Section Login.

Variables u p : string.

(** What holds of a session after [commands] as long as no USER with [u]
    was followed by a PASS with [p]. *)
Let login_pending (commands : list (string * string)) (s : FtpSession) : Prop :=
  cfg_user (m_config s) = u
  /\ cfg_pass (m_config s) = p
  /\ m_authorizedPass s = false
  /\ (m_authorizedUser s = true -> user_seen u commands).

Lemma user_seen_more commands c : user_seen u commands -> user_seen u (commands ++ [c]).
Proof.
  intros (before & cu & after & E & H). exists before, cu, (after ++ [c]).
  split; [|exact H]. rewrite E, <- app_assoc. reflexivity.
Qed.

Lemma user_then_pass_more commands c :
  user_then_pass u p commands -> user_then_pass u p (commands ++ [c]).
Proof.
  intros (before & cu & between & cp & after & E & H).
  exists before, cu, between, cp, (after ++ [c]).
  split; [|exact H]. rewrite E, <- app_assoc. cbn [app]. rewrite <- app_assoc.
  reflexivity.
Qed.

Lemma user_then_pass_seen commands : user_then_pass u p commands -> user_seen u commands.
Proof.
  intros (before & cu & between & cp & after & E & H & _).
  now exists before, cu, (between ++ cp :: after).
Qed.

Lemma user_seen_last commands command :
  compare "USER" command = 0%Z -> user_seen u (commands ++ [(command, u)]).
Proof. intros H. exists commands, (command, u), []. repeat split. exact H. Qed.

Lemma user_then_pass_last commands command :
  compare "PASS" command = 0%Z ->
  user_seen u commands -> user_then_pass u p (commands ++ [(command, p)]).
Proof.
  intros H (before & cu & after & E & Hu).
  exists before, cu, after, (command, p), []. split; [|split; [exact Hu|]].
  - rewrite E, <- app_assoc. reflexivity.
  - split; [exact H | reflexivity].
Qed.

(** One command keeps the alternative: the login was completed, or it is
    pending. *)
Lemma login_pending_step commands command args s t :
  u <> "" -> p <> "" ->
  login_step command args s t ->
  user_then_pass u p commands \/ login_pending commands s ->
  user_then_pass u p (commands ++ [(command, args)])
  \/ login_pending (commands ++ [(command, args)]) t.
Proof.
  intros Hu Hp Hstep [Hdone | (Cu & Cp & Ap & Au)];
    [left; now apply user_then_pass_more|].
  assert (Eu : sempty u = false) by now apply sempty_false.
  destruct Hstep as [(K1 & K2 & K3 & K4 & _)
                    |[(Hc & K1 & K2 & K3 & K4)
                    |[(Hc & K1 & K2 & K3 & K4)
                    |(Ha & _)]]].
  - right. unfold login_pending. rewrite K1, K2, K3, K4.
    repeat split; try assumption. intros H. apply user_seen_more. now apply Au.
  - right. unfold login_pending. rewrite K1, K2, K3, K4, Cu, Eu. cbn [orb].
    repeat split; try assumption.
    intros H. apply String.eqb_eq in H. subst args. now apply user_seen_last.
  - rewrite Cu, Cp, Eu in K2. cbn [negb andb] in K2.
    destruct (m_authorizedUser s) eqn:A.
    + cbn [negb] in K2. destruct (String.eqb p args) eqn:E.
      * left. apply String.eqb_eq in E. subst args.
        apply user_then_pass_last; [exact Hc | now apply Au].
      * right. unfold login_pending. rewrite K1, K2, K3, K4, orb_false_r.
        split; [exact Cu|]. split; [exact Cp|]. split.
        -- destruct (sempty p) eqn:Ep; [|reflexivity].
           apply sempty_true in Ep. contradiction.
        -- intros _. apply user_seen_more. now apply Au.
    + right. unfold login_pending. rewrite K1, K2, K3, K4.
      repeat split; try assumption. discriminate.
  - unfold authorized in Ha. rewrite Ap, andb_false_r in Ha. discriminate.
Qed.

Lemma run_snoc commands c s :
  run (commands ++ [c]) s = dispatch (fst c) (snd c) (run commands s).
Proof. unfold run. now rewrite fold_left_app. Qed.

(** A fresh session has both latches down when a user and a password
    are configured. *)
Lemma FtpSession_new_latches config fd cb rb xb w :
  cfg_user config <> "" -> cfg_pass config <> "" ->
  m_authorizedUser (FtpSession_new config fd cb rb xb w) = false
  /\ m_authorizedPass (FtpSession_new config fd cb rb xb w) = false
  /\ m_config (FtpSession_new config fd cb rb xb w) = config.
Proof.
  intros Hu Hp. unfold FtpSession_new. cbv zeta.
  cbn [m_config]. rewrite (proj2 (sempty_false _) Hu).
  cbn [m_config]. rewrite (proj2 (sempty_false _) Hp).
  match goal with |- context [sendResponse ?r ?x] =>
    destruct (latches_fields _ _ (latches_sendResponse r x)) as (L1 & L2 & _);
    assert (L3 : m_config (sendResponse r x) = m_config x)
      by (unfold sendResponse, closeCommand, closeSocket, response_write, stamp;
          repeat match goal with
                 | |- context [match ?b with _ => _ end] => destruct b
                 end; reflexivity)
  end.
  rewrite L1, L2, L3. repeat split.
Qed.

Lemma login_pending_run s0 commands :
  cfg_user (m_config s0) = u -> cfg_pass (m_config s0) = p -> u <> "" -> p <> "" ->
  m_authorizedUser s0 = false -> m_authorizedPass s0 = false ->
  user_then_pass u p commands \/ login_pending commands (run commands s0).
Proof.
  intros Cu Cp Hu Hp Au Ap. induction commands as [|c commands IH] using rev_ind.
  - right. repeat split; try assumption. cbn. congruence.
  - rewrite run_snoc. destruct c as [command args]. cbn [fst snd].
    eapply login_pending_step; [exact Hu | exact Hp | apply dispatch_login | exact IH].
Qed.

Lemma login_pending_unauthorized commands s :
  login_pending commands s -> authorized s = false.
Proof. intros (_ & _ & Ap & _). unfold authorized. rewrite Ap. apply andb_false_r. Qed.

End Login.

(** PASS while the user latch is down: refused with 430, and the
    session is not authorized afterwards. *)
Lemma PASS_before_USER args fd s :
  cfg_user (m_config s) <> "" ->
  m_authorizedUser s = false ->
  m_commandSocket s = Some fd ->
  writable fd (w_oracle (world s)) ->
  String.length ("430 User not authorized" +++ CRLF) < room s ->
  command_output fd (PASS args s)
  = command_output fd s +++ "430 User not authorized" +++ CRLF
  /\ authorized (PASS args s) = false.
Proof.
  intros Hu Au Hfd Hw Hroom. split.
  - cbv delta [PASS]; cbv beta.
    pose proof (latches_setState COMMAND false false s) as L.
    destruct (channel_fields fd _ _ (channel_setState fd COMMAND false false s))
      as (K1 & K2 & K3).
    pose proof (latches_oracle _ _ L) as Lo.
    destruct (latches_fields _ _ L) as (L1 & _ & L3 & _).
    forget (setState COMMAND false false s) s1. cbv zeta.
    change (cfg_user (m_config (set_m_authorizedPass false s1)))
      with (cfg_user (m_config s1)).
    change (m_authorizedUser (set_m_authorizedPass false s1)) with (m_authorizedUser s1).
    rewrite L1, L3, Au, (proj2 (sempty_false _) Hu). cbn [negb andb].
    set (r := "430 User not authorized" +++ CRLF) in *.
    assert (N1 : r <> "") by discriminate.
    destruct (reply_spec fd r (set_m_authorizedPass false s1)) as (_ & _ & _ & O & _).
    + exact (eq_trans K1 Hfd).
    + change (writable fd (w_oracle (world s1))). rewrite Lo. exact Hw.
    + exact N1.
    + change (String.length r < room s1). rewrite K2. exact Hroom.
    + rewrite O. change (command_output fd (set_m_authorizedPass false s1))
        with (command_output fd s1). now rewrite K3.
  - pose proof (PASS_latches args s) as L. unfold latches in L.
    inversion L as [[H1 H2 H3 H4 H5 H6 H7 H8]].
    unfold authorized. rewrite H1, Au. reflexivity.
Qed.

(** C5.  With a user and a password configured, a session that starts
    with both latches down, as a fresh one does, is authorized after a
    sequence of commands only if the sequence holds a USER with the
    configured user and, later, a PASS with the configured password; and
    after a sequence that holds no USER with the configured user, a PASS is
    refused with 430 and leaves the session unauthorized. *)
Theorem authorized_only_after_USER_then_PASS (s0 : FtpSession) :
  cfg_user (m_config s0) <> "" ->
  cfg_pass (m_config s0) <> "" ->
  m_authorizedUser s0 = false ->
  m_authorizedPass s0 = false ->
  (forall commands,
     authorized (run commands s0) = true ->
     user_then_pass (cfg_user (m_config s0)) (cfg_pass (m_config s0)) commands)
  /\ (forall commands args fd,
        ~ user_seen (cfg_user (m_config s0)) commands ->
        m_commandSocket (run commands s0) = Some fd ->
        writable fd (w_oracle (world (run commands s0))) ->
        String.length ("430 User not authorized" +++ CRLF) < room (run commands s0) ->
        command_output fd (PASS args (run commands s0))
        = command_output fd (run commands s0) +++ "430 User not authorized" +++ CRLF
        /\ authorized (PASS args (run commands s0)) = false)
  /\ (forall config fd cb rb xb w,
        cfg_user config <> "" -> cfg_pass config <> "" ->
        m_authorizedUser (FtpSession_new config fd cb rb xb w) = false
        /\ m_authorizedPass (FtpSession_new config fd cb rb xb w) = false
        /\ m_config (FtpSession_new config fd cb rb xb w) = config).
Proof.
  intros Hu Hp Au Ap. split; [|split].
  - intros commands Ha.
    destruct (login_pending_run (cfg_user (m_config s0)) (cfg_pass (m_config s0))
                s0 commands eq_refl eq_refl Hu Hp Au Ap) as [H|H];
      [exact H|].
    apply login_pending_unauthorized in H. congruence.
  - intros commands args fd Hns Hfd Hw Hroom.
    destruct (login_pending_run (cfg_user (m_config s0)) (cfg_pass (m_config s0))
                s0 commands eq_refl eq_refl Hu Hp Au Ap) as [H|H].
    + exfalso. apply Hns. now apply (user_then_pass_seen _ (cfg_pass (m_config s0))).
    + destruct H as (Cu & _ & _ & Au').
      apply PASS_before_USER; try assumption.
      * rewrite Cu. exact Hu.
      * destruct (m_authorizedUser (run commands s0));
          [exfalso; now apply Hns, Au' | reflexivity].
  - intros. now apply FtpSession_new_latches.
Qed.

(** On the example platform: USER then PASS logs in, and a PASS sent to
    the fresh session is refused. *)
Lemma authorized_only_after_USER_then_PASS_witness :
  authorized (run [("USER", "user"); ("PASS", "secret")] example_session) = true
  /\ user_then_pass (cfg_user (m_config example_session))
       (cfg_pass (m_config example_session)) [("USER", "user"); ("PASS", "secret")]
  /\ command_output 3 (PASS "secret" (run [] example_session))
     = command_output 3 (run [] example_session) +++ "430 User not authorized" +++ CRLF
  /\ authorized (PASS "secret" (run [] example_session)) = false.
Proof.
  destruct (authorized_only_after_USER_then_PASS example_session) as (A & B & _).
  - vm_compute. discriminate.
  - vm_compute. discriminate.
  - vm_compute. reflexivity.
  - vm_compute. reflexivity.
  - split; [vm_compute; reflexivity|]. split.
    + apply A. vm_compute. reflexivity.
    + apply (B [] "secret" 3).
      * intros (before & cu & after & E & _). destruct before; discriminate E.
      * vm_compute. reflexivity.
      * apply example_writable.
      * vm_compute. lia.
Defined.

(** ** REST *)

Section RestParse.

Lemma isdigit_value (c : ascii) : isdigit c = true -> (0 <= digit_value c <= 9)%Z.
Proof.
  unfold isdigit, digit_value. cbv zeta. intros H.
  apply andb_true_iff in H as [H1 H2].
  apply Nat.leb_le in H1. apply Nat.leb_le in H2. lia.
Qed.

Lemma decimal_ge (p : string) (acc : Z) :
  all_digits p = true -> (0 <= acc)%Z -> (acc <= decimal p acc)%Z.
Proof.
  revert acc. induction p as [|c p IH]; intros acc H Hacc; cbn [decimal]; [lia|].
  cbn [all_digits] in H. apply andb_true_iff in H as [Hc Hp].
  pose proof (isdigit_value c Hc). specialize (IH (acc * 10 + digit_value c)%Z Hp).
  lia.
Qed.

Lemma UINT64_MAX_value : UINT64_MAX = 18446744073709551615%Z.
Proof. reflexivity. Qed.

Lemma wrap64_small (z : Z) : (0 <= z <= UINT64_MAX)%Z -> wrap64 z = z.
Proof.
  rewrite UINT64_MAX_value. intros H. unfold wrap64. apply Z.mod_small.
  change (2 ^ 64)%Z with 18446744073709551616%Z. lia.
Qed.

(** The digit loop accepts the strings of decimal digits whose value fits
    in 64 bits, and returns that value. *)
Lemma REST_parse_spec (p : string) (pos : Z) :
  (0 <= pos <= UINT64_MAX)%Z ->
  REST_parse p pos
  = if all_digits p && (decimal p pos <=? UINT64_MAX)%Z
    then Some (decimal p pos) else None.
Proof.
  revert pos. induction p as [|c p IH]; intros pos Hpos; cbn [REST_parse all_digits decimal].
  - cbn [andb]. destruct (Z.leb_spec pos UINT64_MAX); [reflexivity | lia].
  - destruct (isdigit c) eqn:Hc; cbn [negb orb andb]; [|reflexivity].
    pose proof (isdigit_value c Hc) as Hd.
    assert (Hq : (UINT64_MAX / 10 = 1844674407370955161)%Z) by reflexivity.
    rewrite Hq. rewrite UINT64_MAX_value in *.
    destruct (Z.ltb_spec 1844674407370955161 pos) as [Hbig|Hsmall].
    + destruct (all_digits p) eqn:Hp; [|reflexivity]. cbn [andb].
      pose proof (decimal_ge p (pos * 10 + digit_value c)%Z Hp ltac:(lia)).
      destruct (Z.leb_spec (decimal p (pos * 10 + digit_value c)) 18446744073709551615);
        [lia | reflexivity].
    + cbv zeta. rewrite (wrap64_small (pos * 10)) by (rewrite UINT64_MAX_value; lia).
      destruct (Z.ltb_spec (18446744073709551615 - digit_value c) (pos * 10)) as [Hov|Hfit].
      * destruct (all_digits p) eqn:Hp; [|reflexivity]. cbn [andb].
        pose proof (decimal_ge p (pos * 10 + digit_value c)%Z Hp ltac:(lia)).
        destruct (Z.leb_spec (decimal p (pos * 10 + digit_value c)) 18446744073709551615);
          [lia | reflexivity].
      * rewrite (wrap64_small (pos * 10 + digit_value c))
          by (rewrite UINT64_MAX_value; lia).
        rewrite IH by lia. reflexivity.
Qed.

End RestParse.

(** ** Seeks *)

Create Rewrite HintDb sk.
Create Rewrite HintDb rs.

Lemma seeks_set_m_config v s : seeks (set_m_config v s) = seeks s.
Proof. reflexivity. Qed.
Lemma seeks_set_m_commandSocket v s : seeks (set_m_commandSocket v s) = seeks s.
Proof. reflexivity. Qed.
Lemma seeks_set_m_pasvSocket v s : seeks (set_m_pasvSocket v s) = seeks s.
Proof. reflexivity. Qed.
Lemma seeks_set_m_dataSocket v s : seeks (set_m_dataSocket v s) = seeks s.
Proof. reflexivity. Qed.
Lemma seeks_set_m_pendingCloseSocket v s : seeks (set_m_pendingCloseSocket v s) = seeks s.
Proof. reflexivity. Qed.
Lemma seeks_set_m_commandBuffer v s : seeks (set_m_commandBuffer v s) = seeks s.
Proof. reflexivity. Qed.
Lemma seeks_set_m_responseBuffer v s : seeks (set_m_responseBuffer v s) = seeks s.
Proof. reflexivity. Qed.
Lemma seeks_set_m_xferBuffer v s : seeks (set_m_xferBuffer v s) = seeks s.
Proof. reflexivity. Qed.
Lemma seeks_set_m_zStreamBuffer v s : seeks (set_m_zStreamBuffer v s) = seeks s.
Proof. reflexivity. Qed.
Lemma seeks_set_m_zStream v s : seeks (set_m_zStream v s) = seeks s.
Proof. reflexivity. Qed.
Lemma seeks_set_m_file v s : seeks (set_m_file v s) = seeks s.
Proof. reflexivity. Qed.
Lemma seeks_set_m_dir v s : seeks (set_m_dir v s) = seeks s.
Proof. reflexivity. Qed.
Lemma seeks_set_m_glob v s : seeks (set_m_glob v s) = seeks s.
Proof. reflexivity. Qed.
Lemma seeks_set_m_state v s : seeks (set_m_state v s) = seeks s.
Proof. reflexivity. Qed.
Lemma seeks_set_m_transfer v s : seeks (set_m_transfer v s) = seeks s.
Proof. reflexivity. Qed.
Lemma seeks_set_m_xferDirMode v s : seeks (set_m_xferDirMode v s) = seeks s.
Proof. reflexivity. Qed.
Lemma seeks_set_m_timestamp v s : seeks (set_m_timestamp v s) = seeks s.
Proof. reflexivity. Qed.
Lemma seeks_set_m_cwd v s : seeks (set_m_cwd v s) = seeks s.
Proof. reflexivity. Qed.
Lemma seeks_set_m_lwd v s : seeks (set_m_lwd v s) = seeks s.
Proof. reflexivity. Qed.
Lemma seeks_set_m_rename v s : seeks (set_m_rename v s) = seeks s.
Proof. reflexivity. Qed.
Lemma seeks_set_m_workItem v s : seeks (set_m_workItem v s) = seeks s.
Proof. reflexivity. Qed.
Lemma seeks_set_m_portAddr v s : seeks (set_m_portAddr v s) = seeks s.
Proof. reflexivity. Qed.
Lemma seeks_set_m_restartPosition v s : seeks (set_m_restartPosition v s) = seeks s.
Proof. reflexivity. Qed.
Lemma seeks_set_m_fileSize v s : seeks (set_m_fileSize v s) = seeks s.
Proof. reflexivity. Qed.
Lemma seeks_set_m_filePosition v s : seeks (set_m_filePosition v s) = seeks s.
Proof. reflexivity. Qed.
Lemma seeks_set_m_zStreamPosition v s : seeks (set_m_zStreamPosition v s) = seeks s.
Proof. reflexivity. Qed.
Lemma seeks_set_m_authorizedUser v s : seeks (set_m_authorizedUser v s) = seeks s.
Proof. reflexivity. Qed.
Lemma seeks_set_m_authorizedPass v s : seeks (set_m_authorizedPass v s) = seeks s.
Proof. reflexivity. Qed.
Lemma seeks_set_m_pasv v s : seeks (set_m_pasv v s) = seeks s.
Proof. reflexivity. Qed.
Lemma seeks_set_m_port v s : seeks (set_m_port v s) = seeks s.
Proof. reflexivity. Qed.
Lemma seeks_set_m_recv v s : seeks (set_m_recv v s) = seeks s.
Proof. reflexivity. Qed.
Lemma seeks_set_m_send v s : seeks (set_m_send v s) = seeks s.
Proof. reflexivity. Qed.
Lemma seeks_set_m_urgent v s : seeks (set_m_urgent v s) = seeks s.
Proof. reflexivity. Qed.
Lemma seeks_set_m_deflate v s : seeks (set_m_deflate v s) = seeks s.
Proof. reflexivity. Qed.
Lemma seeks_set_m_zFlushed v s : seeks (set_m_zFlushed v s) = seeks s.
Proof. reflexivity. Qed.
Lemma seeks_set_m_eof v s : seeks (set_m_eof v s) = seeks s.
Proof. reflexivity. Qed.
Lemma seeks_set_m_mlstType v s : seeks (set_m_mlstType v s) = seeks s.
Proof. reflexivity. Qed.
Lemma seeks_set_m_mlstSize v s : seeks (set_m_mlstSize v s) = seeks s.
Proof. reflexivity. Qed.
Lemma seeks_set_m_mlstModify v s : seeks (set_m_mlstModify v s) = seeks s.
Proof. reflexivity. Qed.
Lemma seeks_set_m_mlstPerm v s : seeks (set_m_mlstPerm v s) = seeks s.
Proof. reflexivity. Qed.
Lemma seeks_set_m_mlstUnixMode v s : seeks (set_m_mlstUnixMode v s) = seeks s.
Proof. reflexivity. Qed.
Lemma seeks_set_m_devZero v s : seeks (set_m_devZero v s) = seeks s.
Proof. reflexivity. Qed.

#[local] Hint Rewrite seeks_set_m_config seeks_set_m_commandSocket seeks_set_m_pasvSocket seeks_set_m_dataSocket seeks_set_m_pendingCloseSocket seeks_set_m_commandBuffer seeks_set_m_responseBuffer seeks_set_m_xferBuffer seeks_set_m_zStreamBuffer seeks_set_m_zStream seeks_set_m_file seeks_set_m_dir seeks_set_m_glob seeks_set_m_state seeks_set_m_transfer seeks_set_m_xferDirMode seeks_set_m_timestamp seeks_set_m_cwd seeks_set_m_lwd seeks_set_m_rename seeks_set_m_workItem seeks_set_m_portAddr seeks_set_m_restartPosition seeks_set_m_fileSize seeks_set_m_filePosition seeks_set_m_zStreamPosition seeks_set_m_authorizedUser seeks_set_m_authorizedPass seeks_set_m_pasv seeks_set_m_port seeks_set_m_recv seeks_set_m_send seeks_set_m_urgent seeks_set_m_deflate seeks_set_m_zFlushed seeks_set_m_eof seeks_set_m_mlstType seeks_set_m_mlstSize seeks_set_m_mlstModify seeks_set_m_mlstPerm seeks_set_m_mlstUnixMode seeks_set_m_devZero : sk.

Lemma restart_set_m_config v s : restart (set_m_config v s) = restart s.
Proof. reflexivity. Qed.
Lemma restart_set_m_commandSocket v s : restart (set_m_commandSocket v s) = restart s.
Proof. reflexivity. Qed.
Lemma restart_set_m_pasvSocket v s : restart (set_m_pasvSocket v s) = restart s.
Proof. reflexivity. Qed.
Lemma restart_set_m_dataSocket v s : restart (set_m_dataSocket v s) = restart s.
Proof. reflexivity. Qed.
Lemma restart_set_m_pendingCloseSocket v s : restart (set_m_pendingCloseSocket v s) = restart s.
Proof. reflexivity. Qed.
Lemma restart_set_m_commandBuffer v s : restart (set_m_commandBuffer v s) = restart s.
Proof. reflexivity. Qed.
Lemma restart_set_m_responseBuffer v s : restart (set_m_responseBuffer v s) = restart s.
Proof. reflexivity. Qed.
Lemma restart_set_m_xferBuffer v s : restart (set_m_xferBuffer v s) = restart s.
Proof. reflexivity. Qed.
Lemma restart_set_m_zStreamBuffer v s : restart (set_m_zStreamBuffer v s) = restart s.
Proof. reflexivity. Qed.
Lemma restart_set_m_zStream v s : restart (set_m_zStream v s) = restart s.
Proof. reflexivity. Qed.
Lemma restart_set_m_file v s : restart (set_m_file v s) = restart s.
Proof. reflexivity. Qed.
Lemma restart_set_m_dir v s : restart (set_m_dir v s) = restart s.
Proof. reflexivity. Qed.
Lemma restart_set_m_glob v s : restart (set_m_glob v s) = restart s.
Proof. reflexivity. Qed.
Lemma restart_set_m_state v s : restart (set_m_state v s) = restart s.
Proof. reflexivity. Qed.
Lemma restart_set_m_transfer v s : restart (set_m_transfer v s) = restart s.
Proof. reflexivity. Qed.
Lemma restart_set_m_xferDirMode v s : restart (set_m_xferDirMode v s) = restart s.
Proof. reflexivity. Qed.
Lemma restart_set_m_timestamp v s : restart (set_m_timestamp v s) = restart s.
Proof. reflexivity. Qed.
Lemma restart_set_m_cwd v s : restart (set_m_cwd v s) = restart s.
Proof. reflexivity. Qed.
Lemma restart_set_m_lwd v s : restart (set_m_lwd v s) = restart s.
Proof. reflexivity. Qed.
Lemma restart_set_m_rename v s : restart (set_m_rename v s) = restart s.
Proof. reflexivity. Qed.
Lemma restart_set_m_workItem v s : restart (set_m_workItem v s) = restart s.
Proof. reflexivity. Qed.
Lemma restart_set_m_portAddr v s : restart (set_m_portAddr v s) = restart s.
Proof. reflexivity. Qed.
Lemma restart_set_m_fileSize v s : restart (set_m_fileSize v s) = restart s.
Proof. reflexivity. Qed.
Lemma restart_set_m_filePosition v s : restart (set_m_filePosition v s) = restart s.
Proof. reflexivity. Qed.
Lemma restart_set_m_zStreamPosition v s : restart (set_m_zStreamPosition v s) = restart s.
Proof. reflexivity. Qed.
Lemma restart_set_m_authorizedUser v s : restart (set_m_authorizedUser v s) = restart s.
Proof. reflexivity. Qed.
Lemma restart_set_m_authorizedPass v s : restart (set_m_authorizedPass v s) = restart s.
Proof. reflexivity. Qed.
Lemma restart_set_m_pasv v s : restart (set_m_pasv v s) = restart s.
Proof. reflexivity. Qed.
Lemma restart_set_m_port v s : restart (set_m_port v s) = restart s.
Proof. reflexivity. Qed.
Lemma restart_set_m_recv v s : restart (set_m_recv v s) = restart s.
Proof. reflexivity. Qed.
Lemma restart_set_m_send v s : restart (set_m_send v s) = restart s.
Proof. reflexivity. Qed.
Lemma restart_set_m_urgent v s : restart (set_m_urgent v s) = restart s.
Proof. reflexivity. Qed.
Lemma restart_set_m_deflate v s : restart (set_m_deflate v s) = restart s.
Proof. reflexivity. Qed.
Lemma restart_set_m_zFlushed v s : restart (set_m_zFlushed v s) = restart s.
Proof. reflexivity. Qed.
Lemma restart_set_m_eof v s : restart (set_m_eof v s) = restart s.
Proof. reflexivity. Qed.
Lemma restart_set_m_mlstType v s : restart (set_m_mlstType v s) = restart s.
Proof. reflexivity. Qed.
Lemma restart_set_m_mlstSize v s : restart (set_m_mlstSize v s) = restart s.
Proof. reflexivity. Qed.
Lemma restart_set_m_mlstModify v s : restart (set_m_mlstModify v s) = restart s.
Proof. reflexivity. Qed.
Lemma restart_set_m_mlstPerm v s : restart (set_m_mlstPerm v s) = restart s.
Proof. reflexivity. Qed.
Lemma restart_set_m_mlstUnixMode v s : restart (set_m_mlstUnixMode v s) = restart s.
Proof. reflexivity. Qed.
Lemma restart_set_m_devZero v s : restart (set_m_devZero v s) = restart s.
Proof. reflexivity. Qed.

#[local] Hint Rewrite restart_set_m_config restart_set_m_commandSocket restart_set_m_pasvSocket restart_set_m_dataSocket restart_set_m_pendingCloseSocket restart_set_m_commandBuffer restart_set_m_responseBuffer restart_set_m_xferBuffer restart_set_m_zStreamBuffer restart_set_m_zStream restart_set_m_file restart_set_m_dir restart_set_m_glob restart_set_m_state restart_set_m_transfer restart_set_m_xferDirMode restart_set_m_timestamp restart_set_m_cwd restart_set_m_lwd restart_set_m_rename restart_set_m_workItem restart_set_m_portAddr restart_set_m_fileSize restart_set_m_filePosition restart_set_m_zStreamPosition restart_set_m_authorizedUser restart_set_m_authorizedPass restart_set_m_pasv restart_set_m_port restart_set_m_recv restart_set_m_send restart_set_m_urgent restart_set_m_deflate restart_set_m_zFlushed restart_set_m_eof restart_set_m_mlstType restart_set_m_mlstSize restart_set_m_mlstModify restart_set_m_mlstPerm restart_set_m_mlstUnixMode restart_set_m_devZero : rs.


Lemma seeks_sys c s : no_seek c = true -> seeks (sys c s) = seeks s.
Proof. intros H. destruct c; try discriminate H; reflexivity. Qed.

Lemma restart_sys c s : no_seek c = true -> restart (sys c s) = restart s.
Proof. intros H. unfold restart. now rewrite seeks_sys. Qed.

Lemma seeks_assign_errno e s : seeks (assign_errno e s) = seeks s.
Proof. reflexivity. Qed.

Lemma restart_assign_errno e s : restart (assign_errno e s) = restart s.
Proof. reflexivity. Qed.

#[local] Hint Rewrite seeks_sys using reflexivity : sk.
#[local] Hint Rewrite restart_sys using reflexivity : rs.
#[local] Hint Rewrite seeks_assign_errno : sk.
#[local] Hint Rewrite restart_assign_errno : rs.

(** [walkz] is [walk] with the values that are not states put in their
    places, so that the calls stay readable. *)
Ltac simpl_value v := eval cbn [negb andb orb] in v.

Ltac walkz_let V v rhs go :=
  lazymatch type of v with
  | FtpSession =>
    let H := fresh "L" in
    assert (H : V v = rhs) by go;
    let x' := fresh "s" in
    forget v x'; walk_head x'; go
  | (_ * FtpSession)%type =>
    let H := fresh "L" in
    assert (H : V (snd v) = rhs) by go;
    let x' := fresh "r" in
    forget v x'; walk_head x'; go
  | _ =>
    let v' := simpl_value v in
    walk_head v'; rewrite ?andb_false_r; cbv iota; go
  end.

Ltac walkz leaf :=
  lazymatch goal with
  | |- ?V (let x := ?v in _) = ?rhs => walkz_let V v rhs ltac:(idtac; walkz leaf)
  | |- ?V (snd (let x := ?v in _)) = ?rhs => walkz_let V v rhs ltac:(idtac; walkz leaf)
  | |- _ (match ?x with _ => _ end) = _ => destruct x; walkz leaf
  | |- _ (snd (match ?x with _ => _ end)) = _ => destruct x; walkz leaf
  | |- _ (snd (_, _)) = _ => cbn [snd]; walkz leaf
  | |- _ (andThen _ _ _) = _ => unfold andThen at 1; walkz leaf
  | |- _ => leaf
  end.

Ltac sk_leaf :=
  unfold andThen; cbn [fst snd];
  repeat (progress autorewrite with sk);
  repeat match goal with
         | H : seeks ?x = _ |- context [seeks ?x] => rewrite H
         end;
  try reflexivity.

Ltac sk := intros; walkz sk_leaf.

Ltac rs_leaf :=
  unfold andThen; cbn [fst snd];
  repeat (progress autorewrite with rs);
  repeat match goal with
         | H : restart ?x = _ |- context [restart ?x] => rewrite H
         end;
  try reflexivity.

Ltac rs := intros; walkz rs_leaf.

Lemma seeks_stamp s : seeks (stamp s) = seeks s.
Proof. cbv delta [stamp]; cbv beta. sk. Qed.
#[local] Hint Rewrite seeks_stamp : sk.

Lemma restart_stamp s : restart (stamp s) = restart s.
Proof. cbv delta [stamp]; cbv beta. rs. Qed.
#[local] Hint Rewrite restart_stamp : rs.

Lemma seeks_closeCommand s : seeks (closeCommand s) = seeks s.
Proof. cbv delta [closeCommand closeSocket]; cbv beta. sk. Qed.
#[local] Hint Rewrite seeks_closeCommand : sk.

Lemma restart_closeCommand s : restart (closeCommand s) = restart s.
Proof. cbv delta [closeCommand closeSocket]; cbv beta. rs. Qed.
#[local] Hint Rewrite restart_closeCommand : rs.

Lemma seeks_response_write fd s : seeks (response_write fd s) = seeks s.
Proof. cbv delta [response_write]; cbv beta. sk. Qed.
#[local] Hint Rewrite seeks_response_write : sk.

Lemma restart_response_write fd s : restart (response_write fd s) = restart s.
Proof. cbv delta [response_write]; cbv beta. rs. Qed.
#[local] Hint Rewrite restart_response_write : rs.

Lemma seeks_sendResponse r s : seeks (sendResponse r s) = seeks s.
Proof. cbv delta [sendResponse]; cbv beta. sk. Qed.
#[local] Hint Rewrite seeks_sendResponse : sk.

Lemma restart_sendResponse r s : restart (sendResponse r s) = restart s.
Proof. cbv delta [sendResponse]; cbv beta. rs. Qed.
#[local] Hint Rewrite restart_sendResponse : rs.

Lemma seeks_file_close s : seeks (file_close s) = seeks s.
Proof. cbv delta [file_close]; cbv beta. sk. Qed.
#[local] Hint Rewrite seeks_file_close : sk.

Lemma restart_file_close s : restart (file_close s) = restart s.
Proof. cbv delta [file_close]; cbv beta. rs. Qed.
#[local] Hint Rewrite restart_file_close : rs.

Lemma seeks_dir_close s : seeks (dir_close s) = seeks s.
Proof. cbv delta [dir_close]; cbv beta. sk. Qed.
#[local] Hint Rewrite seeks_dir_close : sk.

Lemma restart_dir_close s : restart (dir_close s) = restart s.
Proof. cbv delta [dir_close]; cbv beta. rs. Qed.
#[local] Hint Rewrite restart_dir_close : rs.

Lemma seeks_zStream_reset s : seeks (zStream_reset s) = seeks s.
Proof. cbv delta [zStream_reset]; cbv beta. sk. Qed.
#[local] Hint Rewrite seeks_zStream_reset : sk.

Lemma restart_zStream_reset s : restart (zStream_reset s) = restart s.
Proof. cbv delta [zStream_reset]; cbv beta. rs. Qed.
#[local] Hint Rewrite restart_zStream_reset : rs.

Lemma seeks_resolvePath p s : seeks (snd (resolvePath p s)) = seeks s.
Proof. cbv delta [resolvePath]; cbv beta. sk. Qed.
#[local] Hint Rewrite seeks_resolvePath : sk.

Lemma restart_resolvePath p s : restart (snd (resolvePath p s)) = restart s.
Proof. cbv delta [resolvePath]; cbv beta. rs. Qed.
#[local] Hint Rewrite restart_resolvePath : rs.

Lemma seeks_buildResolvedPath c a s : seeks (snd (buildResolvedPath c a s)) = seeks s.
Proof. cbv delta [buildResolvedPath]; cbv beta. sk. Qed.
#[local] Hint Rewrite seeks_buildResolvedPath : sk.

Lemma restart_buildResolvedPath c a s : restart (snd (buildResolvedPath c a s)) = restart s.
Proof. cbv delta [buildResolvedPath]; cbv beta. rs. Qed.
#[local] Hint Rewrite restart_buildResolvedPath : rs.

Lemma seeks_tzStat p s : seeks (tzStat p s) = seeks s.
Proof. cbv delta [tzStat]; cbv beta. sk. Qed.
#[local] Hint Rewrite seeks_tzStat : sk.

Lemma restart_tzStat p s : restart (tzStat p s) = restart s.
Proof. cbv delta [tzStat]; cbv beta. rs. Qed.
#[local] Hint Rewrite restart_tzStat : rs.

Lemma seeks_xfer_reset s : seeks (xfer_reset s) = seeks s.
Proof. cbv delta [xfer_reset]; cbv beta. sk. Qed.
#[local] Hint Rewrite seeks_xfer_reset : sk.

Lemma restart_xfer_reset s : restart (xfer_reset s) = restart s.
Proof. cbv delta [xfer_reset]; cbv beta. rs. Qed.
#[local] Hint Rewrite restart_xfer_reset : rs.

Lemma seeks_zStream_init k s : seeks (zStream_init k s) = seeks s.
Proof. cbv delta [zStream_init zStream_fresh zStream_init_call]; cbv beta. sk. Qed.
#[local] Hint Rewrite seeks_zStream_init : sk.

Lemma restart_zStream_init k s : restart (zStream_init k s) = restart s.
Proof. cbv delta [zStream_init zStream_fresh zStream_init_call]; cbv beta. rs. Qed.
#[local] Hint Rewrite restart_zStream_init : rs.

Lemma seeks_file_open p m s : seeks (file_open p m s) = seeks s.
Proof. cbv delta [file_open]; cbv beta. sk. Qed.
#[local] Hint Rewrite seeks_file_open : sk.

Lemma restart_file_open p m s : restart (file_open p m s) = restart s.
Proof. cbv delta [file_open]; cbv beta. rs. Qed.
#[local] Hint Rewrite restart_file_open : rs.

Lemma seeks_closePasv s : seeks (closePasv s) = seeks s.
Proof. cbv delta [closePasv]; cbv beta. sk. Qed.
#[local] Hint Rewrite seeks_closePasv : sk.

Lemma seeks_closeData s : seeks (closeData s) = seeks s.
Proof. cbv delta [closeData closeSocket]; cbv beta. sk. Qed.
#[local] Hint Rewrite seeks_closeData : sk.

Lemma seeks_assign_dataSocket v s : seeks (assign_dataSocket v s) = seeks s.
Proof. cbv delta [assign_dataSocket]; cbv beta. sk. Qed.
#[local] Hint Rewrite seeks_assign_dataSocket : sk.

Lemma seeks_setState st cp cd s : seeks (setState st cp cd s) = seeks s.
Proof. cbv delta [setState]; cbv beta. sk. Qed.
#[local] Hint Rewrite seeks_setState : sk.

Lemma seeks_dataConnect s : seeks (snd (dataConnect s)) = seeks s.
Proof. cbv delta [dataConnect]; cbv beta. sk. Qed.
#[local] Hint Rewrite seeks_dataConnect : sk.

Lemma seeks_xferFile_connect m p s : seeks (xferFile_connect m p s) = seeks s.
Proof. cbv delta [xferFile_connect]; cbv beta. sk. Qed.
#[local] Hint Rewrite seeks_xferFile_connect : sk.

Lemma seeks_file_seek pos s : seeks (file_seek pos s) = pos :: seeks s.
Proof. reflexivity. Qed.

Lemma restart_inv s n l : restart s = (n, l) -> m_restartPosition s = n /\ seeks s = l.
Proof. unfold restart. intros H. now inversion H. Qed.

(** APPE opens its file for appending and never seeks. *)
Lemma seeks_xferFile_APPE a s : seeks (xferFile a APPE_mode s) = seeks s.
Proof. cbv delta [xferFile]; cbv beta iota. sk. Qed.

(** The walk for [seeks_to]: up to the seek the restart position and the
    seeks are as they were, after it nothing seeks again. *)
Ltac spine_head x' :=
  lazymatch goal with
  | |- ?P (let x := _ in @?body x) => change (P (body x')); cbv beta
  end.

Ltac seek_now :=
  rewrite seeks_file_seek;
  match goal with
  | R : restart ?x = (_, _) |- _ :: seeks ?x = _ =>
    destruct (restart_inv _ _ _ R) as [-> ->]; reflexivity
  end.

Ltac spine_leaf :=
  unfold seeks_to, andThen;
  repeat (progress autorewrite with sk);
  first [ left;
          match goal with
          | R : restart ?x = (_, _) |- seeks ?x = _ => exact (proj2 (restart_inv _ _ _ R))
          end
        | right;
          match goal with
          | S : seeks ?x = _ |- seeks ?x = _ => exact S
          end ].

Ltac spine :=
  lazymatch goal with
  | |- seeks_to ?n ?l (let x := ?v in _) =>
    lazymatch type of v with
    | FtpSession =>
      lazymatch v with
      | (if ?c then _ else _) => destruct c eqn:?; cbv iota; spine
      | _ =>
        first [ assert (restart v = (n, l)) by (walkz rs_leaf)
              | assert (seeks v = n :: l) by seek_now ];
        let x' := fresh "s" in
        forget v x'; spine_head x'; spine
      end
    | (_ * FtpSession)%type =>
      assert (restart (snd v) = (n, l)) by (walkz rs_leaf);
      let x' := fresh "r" in
      forget v x'; spine_head x'; spine
    | _ =>
      let v' := simpl_value v in
      spine_head v'; rewrite ?andb_false_r; cbv iota; spine
    end
  | |- seeks_to _ _ (if ?c then _ else _) => destruct c eqn:?; spine
  | |- seeks_to _ _ (match ?x with _ => _ end) => destruct x eqn:?; spine
  | |- _ => spine_leaf
  end.

(** RETR and STOR seek at most once, to the restart position. *)
Lemma seeks_xferFile_RETR a n l s :
  restart s = (n, l) -> seeks_to n l (xferFile a RETR_mode s).
Proof. intros R. cbv delta [xferFile]; cbv beta iota. spine. Qed.

Lemma seeks_xferFile_STOR a n l s :
  restart s = (n, l) -> seeks_to n l (xferFile a STOR_mode s).
Proof. intros R. cbv delta [xferFile]; cbv beta iota. spine. Qed.

(** ** Opening and positioning the file *)

Create Rewrite HintDb fc.

Lemma file_calls_set_m_config v s : file_calls (set_m_config v s) = file_calls s.
Proof. reflexivity. Qed.
#[local] Hint Rewrite file_calls_set_m_config : fc.
Lemma file_calls_set_m_commandSocket v s : file_calls (set_m_commandSocket v s) = file_calls s.
Proof. reflexivity. Qed.
#[local] Hint Rewrite file_calls_set_m_commandSocket : fc.
Lemma file_calls_set_m_pasvSocket v s : file_calls (set_m_pasvSocket v s) = file_calls s.
Proof. reflexivity. Qed.
#[local] Hint Rewrite file_calls_set_m_pasvSocket : fc.
Lemma file_calls_set_m_dataSocket v s : file_calls (set_m_dataSocket v s) = file_calls s.
Proof. reflexivity. Qed.
#[local] Hint Rewrite file_calls_set_m_dataSocket : fc.
Lemma file_calls_set_m_pendingCloseSocket v s : file_calls (set_m_pendingCloseSocket v s) = file_calls s.
Proof. reflexivity. Qed.
#[local] Hint Rewrite file_calls_set_m_pendingCloseSocket : fc.
Lemma file_calls_set_m_commandBuffer v s : file_calls (set_m_commandBuffer v s) = file_calls s.
Proof. reflexivity. Qed.
#[local] Hint Rewrite file_calls_set_m_commandBuffer : fc.
Lemma file_calls_set_m_responseBuffer v s : file_calls (set_m_responseBuffer v s) = file_calls s.
Proof. reflexivity. Qed.
#[local] Hint Rewrite file_calls_set_m_responseBuffer : fc.
Lemma file_calls_set_m_xferBuffer v s : file_calls (set_m_xferBuffer v s) = file_calls s.
Proof. reflexivity. Qed.
#[local] Hint Rewrite file_calls_set_m_xferBuffer : fc.
Lemma file_calls_set_m_zStreamBuffer v s : file_calls (set_m_zStreamBuffer v s) = file_calls s.
Proof. reflexivity. Qed.
#[local] Hint Rewrite file_calls_set_m_zStreamBuffer : fc.
Lemma file_calls_set_m_zStream v s : file_calls (set_m_zStream v s) = file_calls s.
Proof. reflexivity. Qed.
#[local] Hint Rewrite file_calls_set_m_zStream : fc.
Lemma file_calls_set_m_file v s : file_calls (set_m_file v s) = file_calls s.
Proof. reflexivity. Qed.
#[local] Hint Rewrite file_calls_set_m_file : fc.
Lemma file_calls_set_m_dir v s : file_calls (set_m_dir v s) = file_calls s.
Proof. reflexivity. Qed.
#[local] Hint Rewrite file_calls_set_m_dir : fc.
Lemma file_calls_set_m_glob v s : file_calls (set_m_glob v s) = file_calls s.
Proof. reflexivity. Qed.
#[local] Hint Rewrite file_calls_set_m_glob : fc.
Lemma file_calls_set_m_state v s : file_calls (set_m_state v s) = file_calls s.
Proof. reflexivity. Qed.
#[local] Hint Rewrite file_calls_set_m_state : fc.
Lemma file_calls_set_m_transfer v s : file_calls (set_m_transfer v s) = file_calls s.
Proof. reflexivity. Qed.
#[local] Hint Rewrite file_calls_set_m_transfer : fc.
Lemma file_calls_set_m_xferDirMode v s : file_calls (set_m_xferDirMode v s) = file_calls s.
Proof. reflexivity. Qed.
#[local] Hint Rewrite file_calls_set_m_xferDirMode : fc.
Lemma file_calls_set_m_timestamp v s : file_calls (set_m_timestamp v s) = file_calls s.
Proof. reflexivity. Qed.
#[local] Hint Rewrite file_calls_set_m_timestamp : fc.
Lemma file_calls_set_m_cwd v s : file_calls (set_m_cwd v s) = file_calls s.
Proof. reflexivity. Qed.
#[local] Hint Rewrite file_calls_set_m_cwd : fc.
Lemma file_calls_set_m_lwd v s : file_calls (set_m_lwd v s) = file_calls s.
Proof. reflexivity. Qed.
#[local] Hint Rewrite file_calls_set_m_lwd : fc.
Lemma file_calls_set_m_rename v s : file_calls (set_m_rename v s) = file_calls s.
Proof. reflexivity. Qed.
#[local] Hint Rewrite file_calls_set_m_rename : fc.
Lemma file_calls_set_m_workItem v s : file_calls (set_m_workItem v s) = file_calls s.
Proof. reflexivity. Qed.
#[local] Hint Rewrite file_calls_set_m_workItem : fc.
Lemma file_calls_set_m_portAddr v s : file_calls (set_m_portAddr v s) = file_calls s.
Proof. reflexivity. Qed.
#[local] Hint Rewrite file_calls_set_m_portAddr : fc.
Lemma file_calls_set_m_restartPosition v s : file_calls (set_m_restartPosition v s) = file_calls s.
Proof. reflexivity. Qed.
#[local] Hint Rewrite file_calls_set_m_restartPosition : fc.
Lemma file_calls_set_m_fileSize v s : file_calls (set_m_fileSize v s) = file_calls s.
Proof. reflexivity. Qed.
#[local] Hint Rewrite file_calls_set_m_fileSize : fc.
Lemma file_calls_set_m_filePosition v s : file_calls (set_m_filePosition v s) = file_calls s.
Proof. reflexivity. Qed.
#[local] Hint Rewrite file_calls_set_m_filePosition : fc.
Lemma file_calls_set_m_zStreamPosition v s : file_calls (set_m_zStreamPosition v s) = file_calls s.
Proof. reflexivity. Qed.
#[local] Hint Rewrite file_calls_set_m_zStreamPosition : fc.
Lemma file_calls_set_m_authorizedUser v s : file_calls (set_m_authorizedUser v s) = file_calls s.
Proof. reflexivity. Qed.
#[local] Hint Rewrite file_calls_set_m_authorizedUser : fc.
Lemma file_calls_set_m_authorizedPass v s : file_calls (set_m_authorizedPass v s) = file_calls s.
Proof. reflexivity. Qed.
#[local] Hint Rewrite file_calls_set_m_authorizedPass : fc.
Lemma file_calls_set_m_pasv v s : file_calls (set_m_pasv v s) = file_calls s.
Proof. reflexivity. Qed.
#[local] Hint Rewrite file_calls_set_m_pasv : fc.
Lemma file_calls_set_m_port v s : file_calls (set_m_port v s) = file_calls s.
Proof. reflexivity. Qed.
#[local] Hint Rewrite file_calls_set_m_port : fc.
Lemma file_calls_set_m_recv v s : file_calls (set_m_recv v s) = file_calls s.
Proof. reflexivity. Qed.
#[local] Hint Rewrite file_calls_set_m_recv : fc.
Lemma file_calls_set_m_send v s : file_calls (set_m_send v s) = file_calls s.
Proof. reflexivity. Qed.
#[local] Hint Rewrite file_calls_set_m_send : fc.
Lemma file_calls_set_m_urgent v s : file_calls (set_m_urgent v s) = file_calls s.
Proof. reflexivity. Qed.
#[local] Hint Rewrite file_calls_set_m_urgent : fc.
Lemma file_calls_set_m_deflate v s : file_calls (set_m_deflate v s) = file_calls s.
Proof. reflexivity. Qed.
#[local] Hint Rewrite file_calls_set_m_deflate : fc.
Lemma file_calls_set_m_zFlushed v s : file_calls (set_m_zFlushed v s) = file_calls s.
Proof. reflexivity. Qed.
#[local] Hint Rewrite file_calls_set_m_zFlushed : fc.
Lemma file_calls_set_m_eof v s : file_calls (set_m_eof v s) = file_calls s.
Proof. reflexivity. Qed.
#[local] Hint Rewrite file_calls_set_m_eof : fc.
Lemma file_calls_set_m_mlstType v s : file_calls (set_m_mlstType v s) = file_calls s.
Proof. reflexivity. Qed.
#[local] Hint Rewrite file_calls_set_m_mlstType : fc.
Lemma file_calls_set_m_mlstSize v s : file_calls (set_m_mlstSize v s) = file_calls s.
Proof. reflexivity. Qed.
#[local] Hint Rewrite file_calls_set_m_mlstSize : fc.
Lemma file_calls_set_m_mlstModify v s : file_calls (set_m_mlstModify v s) = file_calls s.
Proof. reflexivity. Qed.
#[local] Hint Rewrite file_calls_set_m_mlstModify : fc.
Lemma file_calls_set_m_mlstPerm v s : file_calls (set_m_mlstPerm v s) = file_calls s.
Proof. reflexivity. Qed.
#[local] Hint Rewrite file_calls_set_m_mlstPerm : fc.
Lemma file_calls_set_m_mlstUnixMode v s : file_calls (set_m_mlstUnixMode v s) = file_calls s.
Proof. reflexivity. Qed.
#[local] Hint Rewrite file_calls_set_m_mlstUnixMode : fc.
Lemma file_calls_set_m_devZero v s : file_calls (set_m_devZero v s) = file_calls s.
Proof. reflexivity. Qed.
#[local] Hint Rewrite file_calls_set_m_devZero : fc.
Lemma file_calls_sys c s : no_file_call c = true -> file_calls (sys c s) = file_calls s.
Proof. intros H. unfold file_calls, sys. cbn. destruct c; try discriminate H; reflexivity. Qed.
#[local] Hint Rewrite file_calls_sys using reflexivity : fc.

Ltac fc_leaf :=
  unfold andThen; cbn [fst snd];
  repeat (progress autorewrite with fc);
  repeat match goal with
         | H : file_calls ?x = _ |- context [file_calls ?x] => rewrite H
         end;
  try reflexivity.

Ltac fcw := intros; walkz fc_leaf.

Lemma file_calls_assign_errno e s : file_calls (assign_errno e s) = file_calls s.
Proof. reflexivity. Qed.
#[local] Hint Rewrite file_calls_assign_errno : fc.
Lemma file_calls_stamp s : file_calls (stamp s) = file_calls s.
Proof. cbv delta [stamp]; cbv beta. fcw. Qed.
#[local] Hint Rewrite file_calls_stamp : fc.
Lemma file_calls_closeCommand s : file_calls (closeCommand s) = file_calls s.
Proof. cbv delta [closeCommand closeSocket]; cbv beta. fcw. Qed.
#[local] Hint Rewrite file_calls_closeCommand : fc.
Lemma file_calls_response_write fd s : file_calls (response_write fd s) = file_calls s.
Proof. cbv delta [response_write]; cbv beta. fcw. Qed.
#[local] Hint Rewrite file_calls_response_write : fc.
Lemma file_calls_sendResponse r s : file_calls (sendResponse r s) = file_calls s.
Proof. cbv delta [sendResponse]; cbv beta. fcw. Qed.
#[local] Hint Rewrite file_calls_sendResponse : fc.
Lemma file_calls_file_close s : file_calls (file_close s) = file_calls s.
Proof. cbv delta [file_close]; cbv beta. fcw. Qed.
#[local] Hint Rewrite file_calls_file_close : fc.
Lemma file_calls_dir_close s : file_calls (dir_close s) = file_calls s.
Proof. cbv delta [dir_close]; cbv beta. fcw. Qed.
#[local] Hint Rewrite file_calls_dir_close : fc.
Lemma file_calls_zStream_reset s : file_calls (zStream_reset s) = file_calls s.
Proof. cbv delta [zStream_reset]; cbv beta. fcw. Qed.
#[local] Hint Rewrite file_calls_zStream_reset : fc.
Lemma file_calls_resolvePath p s : file_calls (snd (resolvePath p s)) = file_calls s.
Proof. cbv delta [resolvePath]; cbv beta. fcw. Qed.
#[local] Hint Rewrite file_calls_resolvePath : fc.
Lemma file_calls_buildResolvedPath c a s : file_calls (snd (buildResolvedPath c a s)) = file_calls s.
Proof. cbv delta [buildResolvedPath]; cbv beta. fcw. Qed.
#[local] Hint Rewrite file_calls_buildResolvedPath : fc.
Lemma file_calls_tzStat p s : file_calls (tzStat p s) = file_calls s.
Proof. cbv delta [tzStat]; cbv beta. fcw. Qed.
#[local] Hint Rewrite file_calls_tzStat : fc.
Lemma file_calls_xfer_reset s : file_calls (xfer_reset s) = file_calls s.
Proof. cbv delta [xfer_reset]; cbv beta. fcw. Qed.
#[local] Hint Rewrite file_calls_xfer_reset : fc.
Lemma file_calls_zStream_init k s : file_calls (zStream_init k s) = file_calls s.
Proof. cbv delta [zStream_init zStream_fresh zStream_init_call]; cbv beta. fcw. Qed.
#[local] Hint Rewrite file_calls_zStream_init : fc.
Lemma file_calls_closePasv s : file_calls (closePasv s) = file_calls s.
Proof. cbv delta [closePasv]; cbv beta. fcw. Qed.
#[local] Hint Rewrite file_calls_closePasv : fc.
Lemma file_calls_closeData s : file_calls (closeData s) = file_calls s.
Proof. cbv delta [closeData closeSocket]; cbv beta. fcw. Qed.
#[local] Hint Rewrite file_calls_closeData : fc.
Lemma file_calls_assign_dataSocket v s : file_calls (assign_dataSocket v s) = file_calls s.
Proof. cbv delta [assign_dataSocket]; cbv beta. fcw. Qed.
#[local] Hint Rewrite file_calls_assign_dataSocket : fc.
Lemma file_calls_setState st cp cd s : file_calls (setState st cp cd s) = file_calls s.
Proof. cbv delta [setState]; cbv beta. fcw. Qed.
#[local] Hint Rewrite file_calls_setState : fc.
Lemma file_calls_dataConnect s : file_calls (snd (dataConnect s)) = file_calls s.
Proof. cbv delta [dataConnect]; cbv beta. fcw. Qed.
#[local] Hint Rewrite file_calls_dataConnect : fc.
Lemma file_calls_xferFile_connect m p s : file_calls (xferFile_connect m p s) = file_calls s.
Proof. cbv delta [xferFile_connect]; cbv beta. fcw. Qed.
#[local] Hint Rewrite file_calls_xferFile_connect : fc.

Lemma file_calls_file_open p m s :
  file_calls (file_open p m s) = FileOpen p m :: file_calls s.
Proof. unfold file_open. cbv zeta. now destruct (file_open_ok p m s). Qed.

Lemma file_calls_file_seek pos s :
  file_calls (file_seek pos s) = FileSeek pos :: file_calls s.
Proof. reflexivity. Qed.

(** Where the parent directory is found, [resolvePath] gives the lexical
    form of the path. *)
Lemma resolvePath_found p s :
  finds_directory s (dirName p) ->
  fst (resolvePath p s) = resolvePath_lexical p.
Proof.
  intros H. unfold resolvePath, answer, ask. cbv zeta.
  destruct (H (w_trace (world s))) as [-> ->]. reflexivity.
Qed.

(** The platform and the restart position a step leaves as they were. *)
Lemma oracle_zStream_init k s :
  w_oracle (world (zStream_fresh k s)) = w_oracle (world s).
Proof. exact (latches_oracle _ _ (latches_zStream_init k s)). Qed.

(** Stepping through [xferFile]: [into x] names the state a [let] binds,
    [inline] puts a value in its place. *)
Ltac into x :=
  lazymatch goal with
  | |- _ (let y := ?v in _) = _ => forget v x; walk_head x
  end.

Ltac inline :=
  lazymatch goal with
  | |- _ (let y := ?v in _) = _ => walk_head v
  end.

Lemma zStream_init_cwd k s : m_cwd (zStream_init k s) = m_cwd s.
Proof.
  change (m_cwd (zStream_reset s) = m_cwd s).
  pose proof (control_zStream_reset s) as H. unfold control in H.
  now inversion H.
Qed.

(** The calls [xferFile] makes on the file, where the zlib stream starts,
    the parent directory of the path is found, the file is there (for
    RETR) and opens: RETR opens for reading and STOR for writing, both
    seek to the restart position when it is not zero, and APPE opens for
    appending and does not seek. *)
Lemma file_calls_xferFile (a : string) (mode_ : XferFileMode) (path : string)
    (t : FtpSession) :
  path = resolvePath_lexical (buildPath (m_cwd t) a) ->
  path <> "/devZero" ->
  starts_zlib t ->
  finds_directory t (dirName (buildPath (m_cwd t) a)) ->
  opens t path ->
  (mode_ = RETR_mode -> finds t path) ->
  file_calls (xferFile a mode_ t)
  = match mode_ with
    | RETR_mode =>
      (if (m_restartPosition t =? 0)%Z then []
       else [FileSeek (m_restartPosition t)])
      ++ FileOpen (c_str path) "rb" :: file_calls t
    | STOR_mode =>
      (if (m_restartPosition t =? 0)%Z then [FileOpen (c_str path) "wb"]
       else [FileSeek (m_restartPosition t); FileOpen (c_str path) "r+b"])
      ++ file_calls t
    | APPE_mode => FileOpen (c_str path) "ab" :: file_calls t
    end.
Proof.
  intros Hp Hdz Hz Hpar Hop Hst.
  assert (He : sempty path = false)
    by (rewrite Hp, resolvePath_lexical_joined; reflexivity).
  apply String.eqb_neq in Hdz.
  cbv delta [xferFile]; cbv beta.
  assert (O : w_oracle (world (xfer_reset t)) = w_oracle (world t)) by reflexivity.
  assert (R : m_restartPosition (xfer_reset t) = m_restartPosition t) by reflexivity.
  assert (K : file_calls (xfer_reset t) = file_calls t) by reflexivity.
  assert (C : m_cwd (xfer_reset t) = m_cwd t) by reflexivity.
  into s1. inline.
  set (k := match mode_ with RETR_mode => ZDeflate | _ => ZInflate end).
  assert (I : (if m_deflate s1 then zStream_init_rc k s1 else Z_OK) = Z_OK).
  { destruct (m_deflate s1); [|reflexivity].
    unfold zStream_init_rc, answer, ask. rewrite oracle_zStream_init, O. apply Hz. }
  rewrite I. clear I. inline. inline.
  assert (O2 : w_oracle (world (if m_deflate s1 then zStream_init k s1 else s1))
               = w_oracle (world t)).
  { destruct (m_deflate s1); [|exact O].
    rewrite (latches_oracle _ _ (latches_zStream_init k s1)). exact O. }
  assert (R2 : m_restartPosition (if m_deflate s1 then zStream_init k s1 else s1)
               = m_restartPosition t).
  { destruct (m_deflate s1); [|exact R].
    rewrite (proj1 (restart_inv _ _ _ (restart_zStream_init k s1))). exact R. }
  assert (K2 : file_calls (if m_deflate s1 then zStream_init k s1 else s1)
               = file_calls t).
  { destruct (m_deflate s1); [|exact K]. rewrite file_calls_zStream_init. exact K. }
  assert (C2 : m_cwd (if m_deflate s1 then zStream_init k s1 else s1) = m_cwd t).
  { destruct (m_deflate s1); [|exact C]. rewrite zStream_init_cwd. exact C. }
  clear O R K C. into s2.
  change (negb (Z_OK =? Z_OK)%Z) with false. cbv iota.
  rewrite C2.
  assert (P : fst (buildResolvedPath (m_cwd t) a s2) = path).
  { rewrite Hp. unfold buildResolvedPath. apply resolvePath_found.
    unfold finds_directory. rewrite O2. exact Hpar. }
  assert (O3 : w_oracle (world (snd (buildResolvedPath (m_cwd t) a s2)))
               = w_oracle (world t)).
  { rewrite (latches_oracle _ _ (latches_buildResolvedPath (m_cwd t) a s2)). exact O2. }
  assert (R3 : m_restartPosition (snd (buildResolvedPath (m_cwd t) a s2))
               = m_restartPosition t).
  { rewrite (proj1 (restart_inv _ _ _ (restart_buildResolvedPath (m_cwd t) a s2))).
    exact R2. }
  assert (K3 : file_calls (snd (buildResolvedPath (m_cwd t) a s2)) = file_calls t).
  { rewrite file_calls_buildResolvedPath. exact K2. }
  clear O2 R2 K2 C2 Hpar. into r. inline. rewrite P. clear P. into s3.
  rewrite He, Hdz. cbv iota.
  destruct mode_; cbv iota.
  - (* RETR *)
    assert (T : tzStat_rc (c_str path) s3 = 0%Z).
    { unfold tzStat_rc, answer, ask. rewrite O3. now apply Hst. }
    rewrite T. clear T. inline. inline.
    change (negb (0 =? 0)%Z) with false. cbv iota.
    assert (O4 : w_oracle (world (tzStat (c_str path) s3)) = w_oracle (world t))
      by exact O3.
    assert (R4 : m_restartPosition (tzStat (c_str path) s3) = m_restartPosition t)
      by exact R3.
    assert (K4 : file_calls (tzStat (c_str path) s3) = file_calls t) by exact K3.
    clear O3 R3 K3. into s4.
    assert (F : file_open_ok (c_str path) "rb" s4 = true).
    { unfold file_open_ok, answer, ask. rewrite O4. apply Hop. }
    rewrite F. clear F. inline.
    assert (R5 : m_restartPosition (file_open (c_str path) "rb" s4)
                 = m_restartPosition t).
    { rewrite (proj1 (restart_inv _ _ _ (restart_file_open (c_str path) "rb" s4))).
      exact R4. }
    assert (K5 : file_calls (file_open (c_str path) "rb" s4)
                 = FileOpen (c_str path) "rb" :: file_calls t).
    { rewrite file_calls_file_open, K4. reflexivity. }
    clear O4 R4 K4. into s5. change (negb true) with false. cbv iota.
    inline. inline.
    change (m_restartPosition
              (sys FileSetBufferSize
                 (set_m_fileSize (wrap64 (st_size (tzStat_st (c_str path) s3))) s5)))
      with (m_restartPosition s5).
    rewrite R5. inline.
    assert (K6 : file_calls
                   (if negb (m_restartPosition t =? 0)%Z
                    then file_seek (m_restartPosition t)
                           (sys FileSetBufferSize
                              (set_m_fileSize
                                 (wrap64 (st_size (tzStat_st (c_str path) s3))) s5))
                    else sys FileSetBufferSize
                           (set_m_fileSize
                              (wrap64 (st_size (tzStat_st (c_str path) s3))) s5))
                 = (if (m_restartPosition t =? 0)%Z then []
                    else [FileSeek (m_restartPosition t)])
                   ++ FileOpen (c_str path) "rb" :: file_calls t).
    { destruct (m_restartPosition t =? 0)%Z; cbn [negb app].
      - exact K5.
      - rewrite file_calls_file_seek. f_equal. exact K5. }
    into s6.
    match goal with |- file_calls (if ?c then _ else _) = _ => destruct c end.
    + rewrite file_calls_sendResponse. exact K6.
    + rewrite file_calls_xferFile_connect. exact K6.
  - (* STOR *)
    inline. cbv iota. rewrite R3.
    set (m := if negb (m_restartPosition t =? 0)%Z then "r+b" else "wb").
    inline.
    assert (F : file_open_ok (c_str path) m s3 = true).
    { unfold file_open_ok, answer, ask. rewrite O3. apply Hop. }
    rewrite F. clear F. inline.
    assert (R5 : m_restartPosition (file_open (c_str path) m s3) = m_restartPosition t).
    { rewrite (proj1 (restart_inv _ _ _ (restart_file_open (c_str path) m s3))).
      exact R3. }
    assert (K5 : file_calls (file_open (c_str path) m s3)
                 = FileOpen (c_str path) m :: file_calls t).
    { rewrite file_calls_file_open, K3. reflexivity. }
    clear O3 R3 K3. into s5. change (negb true) with false. cbv iota.
    inline. inline.
    change (m_restartPosition (sys FileSetBufferSize (sys ServerUpdateFreeSpace s5)))
      with (m_restartPosition s5).
    rewrite R5. change (negb false) with true. rewrite andb_true_r.
    inline. inline.
    assert (K6 : file_calls
                   (if negb (m_restartPosition t =? 0)%Z
                    then file_seek (m_restartPosition t)
                           (sys FileSetBufferSize (sys ServerUpdateFreeSpace s5))
                    else sys FileSetBufferSize (sys ServerUpdateFreeSpace s5))
                 = (if (m_restartPosition t =? 0)%Z then [FileOpen (c_str path) "wb"]
                    else [FileSeek (m_restartPosition t); FileOpen (c_str path) "r+b"])
                   ++ file_calls t).
    { unfold m in K5. destruct (m_restartPosition t =? 0)%Z; cbn [negb app] in *.
      - exact K5.
      - rewrite file_calls_file_seek. f_equal. exact K5. }
    into s6.
    match goal with |- file_calls (if ?c then _ else _) = _ => destruct c end.
    + rewrite file_calls_sendResponse. exact K6.
    + rewrite file_calls_xferFile_connect. exact K6.
  - (* APPE *)
    inline. cbv iota. inline.
    assert (F : file_open_ok (c_str path) "ab" s3 = true).
    { unfold file_open_ok, answer, ask. rewrite O3. apply Hop. }
    rewrite F. clear F. inline.
    assert (K5 : file_calls (file_open (c_str path) "ab" s3)
                 = FileOpen (c_str path) "ab" :: file_calls t).
    { rewrite file_calls_file_open, K3. reflexivity. }
    clear O3 R3 K3. into s5. change (negb true) with false. cbv iota.
    inline. inline. rewrite andb_false_r. inline. inline. cbv iota. inline.
    change (negb (0 =? 0)%Z) with false. cbv iota.
    rewrite file_calls_xferFile_connect. exact K5.
Qed.

(** ** The state a handler starts from *)

(** What [setState] leaves of the login, the command channel and the
    platform, and what it does to the control members. *)
Lemma setState_spec fd st cp cd s :
  authorized (setState st cp cd s) = authorized s
  /\ m_rename (setState st cp cd s) = m_rename s
  /\ m_commandSocket (setState st cp cd s) = m_commandSocket s
  /\ room (setState st cp cd s) = room s
  /\ command_output fd (setState st cp cd s) = command_output fd s
  /\ w_oracle (world (setState st cp cd s)) = w_oracle (world s)
  /\ w_strerror (world (setState st cp cd s)) = w_strerror (world s)
  /\ control (setState st cp cd s)
     = (st,
        (if cp then None else m_pasvSocket s),
        (if cd then None else m_dataSocket s),
        m_pasv s, m_port s,
        (if cd then false else m_recv s),
        (if cd then false else m_send s),
        match st with COMMAND => 0%Z | _ => m_restartPosition s end,
        match st with COMMAND => 0%Z | _ => m_fileSize s end,
        match st with COMMAND => 0%Z | _ => m_filePosition s end,
        m_cwd s).
Proof.
  pose proof (latches_setState st cp cd s) as L.
  destruct (latches_fields _ _ L) as (L1 & L2 & _ & _ & L5 & _).
  destruct (channel_fields fd _ _ (channel_setState fd st cp cd s)) as (K1 & K2 & K3).
  unfold latches in L.
  split; [unfold authorized; now rewrite L1, L2|].
  split; [exact L5|]. split; [exact K1|]. split; [exact K2|]. split; [exact K3|].
  split; [exact (latches_oracle _ _ (latches_setState st cp cd s))|].
  split; [|apply control_setState].
  clear -L. injection L. intros. assumption.
Qed.

(** ** REST *)

(** C7 (as the code has it).  REST first returns the session to COMMAND,
    which puts the restart position to zero.  Logged in, on a command
    channel that takes writes and has room for the reply, it accepts the
    arguments made of decimal digits whose value fits in 64 bits, stores
    the value and says 350; any other argument is answered with 504 and
    leaves the restart position at zero, whatever it was before.  Every
    return to COMMAND puts the position to zero.  RETR, STOR and APPE are
    [xferFile].  Where the zlib stream starts, the parent directory of
    the path is found and the file opens, STOR opens the file for
    writing, APPE for appending and RETR, where the file is found, for
    reading; RETR and STOR then seek the opened file to the restart
    position when it is not zero, and APPE does not seek.  Whatever the
    platform answers, RETR and STOR seek at most once, to the restart
    position, and APPE never seeks. *)
Theorem REST_restart_position (args : string) (fd : Socket) (s : FtpSession) :
  authorized s = true ->
  m_commandSocket s = Some fd ->
  writable fd (w_oracle (world s)) ->
  (forall e, String.length ("504 " +++ w_strerror (world s) e +++ CRLF) < room s) ->
  String.length ("350 OK" +++ CRLF) < room s ->
  REST_parse args 0
  = (if all_digits args && (decimal args 0 <=? UINT64_MAX)%Z
     then Some (decimal args 0) else None)
  /\ m_state (REST args s) = COMMAND
  /\ m_restartPosition (REST args s)
     = (if all_digits args && (decimal args 0 <=? UINT64_MAX)%Z
        then decimal args 0 else 0%Z)
  /\ command_output fd (REST args s)
     = command_output fd s
       +++ (if all_digits args && (decimal args 0 <=? UINT64_MAX)%Z
            then "350 OK" +++ CRLF
            else "504 "
                 +++ w_strerror (world s) (errno (setState COMMAND false false s))
                 +++ CRLF)
  /\ (forall cp cd t, m_restartPosition (setState COMMAND cp cd t) = 0%Z)
  /\ (forall a t,
        authorized t = true ->
        RETR a t = xferFile a RETR_mode t
        /\ STOR a t = xferFile a STOR_mode t
        /\ APPE a t = xferFile a APPE_mode t)
  /\ (forall a t path,
        path = resolvePath_lexical (buildPath (m_cwd t) a) ->
        path <> "/devZero" ->
        starts_zlib t ->
        finds_directory t (dirName (buildPath (m_cwd t) a)) ->
        opens t path ->
        (finds t path ->
         file_calls (xferFile a RETR_mode t)
         = (if (m_restartPosition t =? 0)%Z then []
            else [FileSeek (m_restartPosition t)])
           ++ FileOpen (c_str path) "rb" :: file_calls t)
        /\ file_calls (xferFile a STOR_mode t)
           = (if (m_restartPosition t =? 0)%Z then [FileOpen (c_str path) "wb"]
              else [FileSeek (m_restartPosition t); FileOpen (c_str path) "r+b"])
             ++ file_calls t
        /\ file_calls (xferFile a APPE_mode t)
           = FileOpen (c_str path) "ab" :: file_calls t)
  /\ (forall a t,
        seeks_to (m_restartPosition t) (seeks t) (xferFile a RETR_mode t)
        /\ seeks_to (m_restartPosition t) (seeks t) (xferFile a STOR_mode t)
        /\ seeks (xferFile a APPE_mode t) = seeks t).
Proof.
  intros Ha Hfd Hw H504 H350.
  pose proof (REST_parse_spec args 0 ltac:(rewrite UINT64_MAX_value; lia)) as Hp.
  split; [exact Hp|].
  assert (Hrest :
    forall cp cd t, m_restartPosition (setState COMMAND cp cd t) = 0%Z).
  { intros cp cd t.
    destruct (control_inv _ _ _ _ _ _ _ _ _ _ _ _ (control_setState COMMAND cp cd t))
      as (_ & _ & _ & _ & _ & _ & _ & F & _).
    exact F. }
  assert (Hmain :
    m_state (REST args s) = COMMAND
    /\ m_restartPosition (REST args s)
       = match REST_parse args 0 with Some pos => pos | None => 0%Z end
    /\ command_output fd (REST args s)
       = command_output fd s
         +++ match REST_parse args 0 with
             | Some _ => "350 OK" +++ CRLF
             | None => "504 "
                       +++ w_strerror (world s) (errno (setState COMMAND false false s))
                       +++ CRLF
             end).
  { remember (errno (setState COMMAND false false s)) as e0 eqn:E0.
    cbv delta [REST]; cbv beta.
    destruct (setState_spec fd COMMAND false false s)
      as (A & _ & S1 & S2 & S3 & S4 & S5 & S6).
    destruct (control_inv _ _ _ _ _ _ _ _ _ _ _ _ S6) as (C1 & _ & _ & _ & _ & _ & _ & C8 & _).
    clear S6. forget (setState COMMAND false false s) s1. cbv zeta.
    rewrite A, Ha. cbn [negb].
    destruct (REST_parse args 0) as [pos|].
    - assert (N : "350 OK" +++ CRLF <> "") by discriminate.
      destruct (reply_spec fd ("350 OK" +++ CRLF) (set_m_restartPosition pos s1))
        as (_ & _ & _ & O & Cc & _); try assumption.
      + exact (eq_trans S1 Hfd).
      + change (writable fd (w_oracle (world s1))). rewrite S4. exact Hw.
      + change (String.length ("350 OK" +++ CRLF) < room s1). rewrite S2. exact H350.
      + destruct (control_inv _ _ _ _ _ _ _ _ _ _ _ _ Cc)
          as (D1 & _ & _ & _ & _ & _ & _ & D8 & _).
        split; [rewrite D1; exact C1|]. split; [exact D8|].
        rewrite O. change (command_output fd (set_m_restartPosition pos s1))
          with (command_output fd s1). now rewrite S3.
    - unfold strerror. rewrite S5, <- E0.
      assert (N : "504 " +++ w_strerror (world s) e0 +++ CRLF <> "") by discriminate.
      destruct (reply_spec fd ("504 " +++ w_strerror (world s) e0 +++ CRLF) s1)
        as (_ & _ & _ & O & Cc & _); try assumption.
      + exact (eq_trans S1 Hfd).
      + rewrite S4. exact Hw.
      + rewrite S2. apply H504.
      + destruct (control_inv _ _ _ _ _ _ _ _ _ _ _ _ Cc)
          as (D1 & _ & _ & _ & _ & _ & _ & D8 & _).
        split; [rewrite D1; exact C1|]. split; [rewrite D8; exact C8|].
        rewrite O. now rewrite S3. }
  destruct Hmain as (M1 & M2 & M3). rewrite Hp in M2, M3.
  split; [exact M1|]. split.
  { rewrite M2. now destruct (all_digits args && _). }
  split.
  { rewrite M3. now destruct (all_digits args && _). }
  split; [exact Hrest|]. split.
  - intros a t Ht. unfold RETR, STOR, APPE. rewrite Ht. repeat split.
  - split.
    + intros a t path Hpath Hdz Hz Hdir Hop. split; [|split].
      * intros Hf.
        now apply (file_calls_xferFile a RETR_mode path t).
      * apply (file_calls_xferFile a STOR_mode path t); try assumption.
        discriminate.
      * apply (file_calls_xferFile a APPE_mode path t); try assumption.
        discriminate.
    + intros a t. split; [|split].
      * now apply seeks_xferFile_RETR.
      * now apply seeks_xferFile_STOR.
      * apply seeks_xferFile_APPE.
Qed.

(** Logged in on the example platform: [REST 100] is accepted, and from
    there RETR and STOR of [x] open [/x] and seek to 100, while APPE
    opens it for appending and makes no seek. *)
Lemma REST_restart_position_witness :
  m_restartPosition (REST "100" example_login) = 100%Z
  /\ command_output 3 (REST "100" example_login)
     = command_output 3 example_login +++ "350 OK" +++ CRLF
  /\ file_calls (xferFile "x" RETR_mode (REST "100" example_login))
     = [FileSeek 100; FileOpen "/x" "rb"]
  /\ file_calls (xferFile "x" STOR_mode (REST "100" example_login))
     = [FileSeek 100; FileOpen "/x" "r+b"]
  /\ file_calls (xferFile "x" APPE_mode (REST "100" example_login))
     = [FileOpen "/x" "ab"]
  /\ seeks (xferFile "x" APPE_mode (REST "100" example_login)) = [].
Proof.
  destruct (REST_restart_position "100" 3 example_login)
    as (_ & _ & P & O & _ & _ & F & K).
  - vm_compute. reflexivity.
  - vm_compute. reflexivity.
  - apply example_writable.
  - intros e. vm_compute. lia.
  - vm_compute. lia.
  - split; [exact P|]. split; [exact O|].
    destruct (F "x" (REST "100" example_login) "/x") as (F1 & F2 & F3).
    + vm_compute. reflexivity.
    + discriminate.
    + intros kind level trace. vm_compute. reflexivity.
    + intros trace. vm_compute. split; reflexivity.
    + intros mode trace. vm_compute. reflexivity.
    + split; [rewrite F1; [vm_compute; reflexivity|]|].
      * intros trace. vm_compute. reflexivity.
      * split; [rewrite F2; vm_compute; reflexivity|].
        split; [rewrite F3; vm_compute; reflexivity|].
        destruct (K "x" (REST "100" example_login)) as (_ & _ & E). rewrite E.
        vm_compute. reflexivity.
Defined.

(** C7 (as the specification has it) fails twice.  A REST that is
    refused does not leave the restart position as it was: after
    [REST 100] a [REST abc] is answered with 504 and the position is 0.
    And APPE does not seek: after [PASV] and [REST 100], [RETR x] seeks
    to 100 and [APPE x] makes no seek. *)
Lemma REST_failure_resets_and_APPE_skips_seek :
  m_restartPosition (REST "100" example_login) = 100%Z
  /\ m_restartPosition (REST "abc" (REST "100" example_login)) = 0%Z
  /\ m_restartPosition (REST "abc" (REST "100" example_login))
     <> m_restartPosition (REST "100" example_login)
  /\ seeks (run [("PASV", ""); ("REST", "100"); ("RETR", "x")] example_login) = [100%Z]
  /\ seeks (run [("PASV", ""); ("REST", "100"); ("APPE", "x")] example_login) = [].
Proof.
  split; [vm_compute; reflexivity|]. split; [vm_compute; reflexivity|].
  split; [vm_compute; discriminate|]. split; vm_compute; reflexivity.
Qed.

(** ** The rename path *)

(** Every handler of the table but RNFR and RNTO leaves the rename path
    alone. *)
Lemma handler_keeps_rename n h a s :
  In (n, h) handlers -> n <> "RNFR" -> n <> "RNTO" -> m_rename (h a s) = m_rename s.
Proof.
  intros Hin N1 N2.
  pose proof (proj1 (Forall_forall _ _) handlers_latches _ Hin) as H.
  cbn [snd] in H. destruct H as [H|[H|[H|[H|[H|H]]]]].
  - now destruct (latches_fields _ _ (H a s)) as (_ & _ & _ & _ & R & _).
  - inversion H; subst.
    pose proof (USER_latches a s) as E. unfold latches in E. now inversion E.
  - inversion H; subst.
    pose proof (PASS_latches a s) as E. unfold latches in E. now inversion E.
  - inversion H; subst. now destruct (SITE_latches a s) as (_ & _ & R & _).
  - inversion H; subst. contradiction.
  - inversion H; subst. contradiction.
Qed.

(** RNTO with no rename path stored. *)
Lemma RNTO_without_RNFR args fd s :
  authorized s = true ->
  m_rename s = "" ->
  m_commandSocket s = Some fd ->
  writable fd (w_oracle (world s)) ->
  String.length ("503 Bad sequence of commands" +++ CRLF) < room s ->
  command_output fd (RNTO args s)
  = command_output fd s +++ "503 Bad sequence of commands" +++ CRLF
  /\ m_rename (RNTO args s) = "".
Proof.
  intros Ha Hr Hfd Hw Hroom. cbv delta [RNTO]; cbv beta.
  destruct (setState_spec fd COMMAND false false s)
    as (A & R & S1 & S2 & S3 & S4 & _).
  forget (setState COMMAND false false s) s1. cbv zeta.
  rewrite A, Ha, R, Hr. cbn [negb sempty].
  destruct (reply_spec fd ("503 Bad sequence of commands" +++ CRLF) s1)
    as (_ & _ & _ & O & _ & L); try assumption.
  - congruence.
  - rewrite S4. exact Hw.
  - discriminate.
  - rewrite S2. exact Hroom.
  - split; [rewrite O; now rewrite S3|].
    destruct (latches_fields _ _ L) as (_ & _ & _ & _ & R' & _). congruence.
Qed.

(** RNTO before the login. *)
Lemma RNTO_unauthorized args fd s :
  authorized s = false ->
  m_commandSocket s = Some fd ->
  writable fd (w_oracle (world s)) ->
  String.length ("530 Not logged in" +++ CRLF) < room s ->
  command_output fd (RNTO args s) = command_output fd s +++ "530 Not logged in" +++ CRLF.
Proof.
  intros Ha Hfd Hw Hroom. cbv delta [RNTO]; cbv beta.
  destruct (setState_spec fd COMMAND false false s)
    as (A & R & S1 & S2 & S3 & S4 & _).
  forget (setState COMMAND false false s) s1. cbv zeta.
  rewrite A, Ha. cbn [negb]. unfold not_logged_in.
  destruct (reply_spec fd ("530 Not logged in" +++ CRLF) s1)
    as (_ & _ & _ & O & _); try assumption.
  - congruence.
  - rewrite S4. exact Hw.
  - discriminate.
  - rewrite S2. exact Hroom.
  - rewrite O. now rewrite S3.
Qed.

(** C8 (as the code has it, against its own comment).  In COMMAND state
    a command of the table other than RNTO has the rename path cleared
    before its handler runs, so that after any such command but RNFR the
    path is empty; RNTO itself runs on the path as it stands; a logged-in
    RNTO that finds no path says 503, and an RNTO before the login says
    530.  But a command that is not in the table is answered with 502
    before the clearing is reached: it leaves the rename path as it was
    and the session in COMMAND, and the RNTO that follows it runs on the
    path that RNFR stored. *)
Theorem rename_path_staging (command args : string) (fd : Socket) (s : FtpSession) :
  m_state s = COMMAND ->
  (forall name handler,
     find_handler command = Some (name, handler) ->
     compare command "RNTO" <> 0%Z ->
     dispatch command args s = handler args (set_m_rename "" (stamp s))
     /\ (name <> "RNFR" -> m_rename (dispatch command args s) = ""))
  /\ (compare command "RNTO" = 0%Z -> dispatch command args s = RNTO args (stamp s))
  /\ (find_handler command = None ->
      m_rename (dispatch command args s) = m_rename s
      /\ m_state (dispatch command args s) = COMMAND
      /\ (forall to,
            dispatch "RNTO" to (dispatch command args s)
            = RNTO to (stamp (dispatch command args s)))
      /\ (m_commandSocket s = Some fd ->
          String.length
            ("502 Invalid command " +++ str1 DQUOTE +++ encodePath command false
             +++ (if sempty args then "" else " " +++ encodePath args false)
             +++ str1 DQUOTE +++ CRLF) <= room s ->
          command_output fd (dispatch command args s)
          = command_output fd s
            +++ "502 Invalid command " +++ str1 DQUOTE +++ encodePath command false
            +++ (if sempty args then "" else " " +++ encodePath args false)
            +++ str1 DQUOTE +++ CRLF))
  /\ (authorized s = true ->
      m_rename s = "" ->
      m_commandSocket s = Some fd ->
      writable fd (w_oracle (world s)) ->
      String.length ("503 Bad sequence of commands" +++ CRLF) < room s ->
      command_output fd (RNTO args s)
      = command_output fd s +++ "503 Bad sequence of commands" +++ CRLF
      /\ m_rename (RNTO args s) = "")
  /\ (authorized s = false ->
      m_commandSocket s = Some fd ->
      writable fd (w_oracle (world s)) ->
      String.length ("530 Not logged in" +++ CRLF) < room s ->
      command_output fd (RNTO args s)
      = command_output fd s +++ "530 Not logged in" +++ CRLF).
Proof.
  intros Hst.
  assert (Hc : State_eqb (m_state (stamp s)) COMMAND = true)
    by (change (m_state (stamp s)) with (m_state s); now rewrite Hst).
  split; [|split; [|split; [|split]]].
  - intros name handler E Hn.
    assert (Hb : (compare command "RNTO" =? 0)%Z = false) by now apply Z.eqb_neq.
    assert (Hd : dispatch command args s = handler args (set_m_rename "" (stamp s))).
    { unfold dispatch. cbv zeta. rewrite E, Hc, Hb. reflexivity. }
    split; [exact Hd|]. intros Hr. rewrite Hd.
    destruct (find_handler_In _ _ _ E) as [Hin Hcmp].
    apply (handler_keeps_rename name); [exact Hin | exact Hr |].
    intros ->. apply Hn.
    rewrite (compare_plain_l _ _ (eq_refl : isCString "RNTO" = false)) in Hcmp.
    rewrite (compare_plain_r _ _ (eq_refl : isCString "RNTO" = false)).
    apply compare_loop_zero in Hcmp.
    apply compare_loop_lowered. now symmetry.
  - intros Hn.
    pose proof (find_handler_same _ _ Hn eq_refl) as E. rewrite find_handler_RNTO in E.
    unfold dispatch. cbv zeta. rewrite E, Hc.
    apply Z.eqb_eq in Hn. rewrite Hn. reflexivity.
  - intros E.
    assert (Hd : dispatch command args s = invalid_command command args (stamp s))
      by (unfold dispatch; cbv zeta; rewrite E; reflexivity).
    assert (Hs : m_state (dispatch command args s) = COMMAND).
    { rewrite Hd. unfold invalid_command.
      rewrite (control_state _ _ (eq_trans (control_sendResponse_view _ _)
                                          (control_stamp s))).
      exact Hst. }
    split; [|split; [exact Hs|split]].
    + rewrite Hd.
      destruct (latches_fields _ _ (latches_invalid_command command args (stamp s)))
        as (_ & _ & _ & _ & R & _).
      exact R.
    + intros to. forget (dispatch command args s) x.
      unfold dispatch. cbv zeta. rewrite find_handler_RNTO.
      change (m_state (stamp x)) with (m_state x). rewrite Hs. reflexivity.
    + intros Hfd Hroom. rewrite Hd. unfold invalid_command.
      destruct (stamp_channel fd s) as (T1 & T2 & T3 & _).
      destruct (sendResponse_view_spec fd
                  ("502 Invalid command " +++ str1 DQUOTE +++ encodePath command false
                   +++ (if sempty args then "" else " " +++ encodePath args false)
                   +++ str1 DQUOTE +++ CRLF) (stamp s)) as (_ & _ & O).
      * congruence.
      * rewrite T2. exact Hroom.
      * rewrite O, T3. reflexivity.
  - apply RNTO_without_RNFR.
  - apply RNTO_unauthorized.
Qed.

(** After [RNFR /a] on the example platform.  NOOP clears the path, and
    RNTO in small letters is RNTO.  FOO, which is no command, keeps the
    path; the RNTO after it does not follow RNFR immediately, yet it
    renames the file and says 250. *)
Lemma rename_path_staging_witness :
  m_state example_renaming = COMMAND
  /\ m_rename example_renaming = "/a"
  /\ m_rename (dispatch "NOOP" "" example_renaming) = ""
  /\ dispatch "rnto" "/b" example_renaming = RNTO "/b" (stamp example_renaming)
  /\ find_handler "FOO" = None
  /\ m_rename (dispatch "FOO" "" example_renaming) = "/a"
  /\ command_output 3 (dispatch "FOO" "" example_renaming)
     = command_output 3 example_renaming
       +++ "502 Invalid command " +++ str1 DQUOTE +++ "FOO" +++ str1 DQUOTE +++ CRLF
  /\ command_output 3 (run [("FOO", ""); ("RNTO", "/b")] example_renaming)
     = command_output 3 (run [("FOO", "")] example_renaming) +++ "250 OK" +++ CRLF
  /\ In (SysRename "/a" "/b")
       (w_trace (world (run [("FOO", ""); ("RNTO", "/b")] example_renaming))).
Proof.
  split; [vm_compute; reflexivity|]. split; [vm_compute; reflexivity|]. split.
  { destruct (rename_path_staging "NOOP" "" 3 example_renaming) as (A & _);
      [vm_compute; reflexivity|].
    destruct (A "NOOP" NOOP find_handler_NOOP) as (_ & B);
      [vm_compute; discriminate|].
    apply B. discriminate. }
  split.
  { destruct (rename_path_staging "rnto" "/b" 3 example_renaming) as (_ & B & _);
      [vm_compute; reflexivity|].
    apply B. vm_compute. reflexivity. }
  split; [exact find_handler_FOO|].
  destruct (rename_path_staging "FOO" "" 3 example_renaming) as (_ & _ & C & _);
    [vm_compute; reflexivity|].
  destruct (C find_handler_FOO) as (C1 & _ & _ & C4).
  split; [rewrite C1; vm_compute; reflexivity|]. split.
  { apply C4; [vm_compute; reflexivity | vm_compute; lia]. }
  split; [vm_compute; reflexivity|]. vm_compute. tauto.
Defined.

(** ** PORT *)

Section PortParse.

Lemma wrap_int_small (z : Z) : (- 2 ^ 31 <= z <= INT_MAX)%Z -> wrap_int z = z.
Proof.
  unfold wrap_int, INT_MAX. intros H.
  rewrite Z.mod_small; lia.
Qed.

Lemma wrap_unsigned_small (z : Z) : (0 <= z < 2 ^ 32)%Z -> wrap_unsigned z = z.
Proof. intros H. unfold wrap_unsigned. now apply Z.mod_small. Qed.

Lemma scount_le_length p s : scount p s <= String.length s.
Proof. induction s as [|c s IH]; cbn; [lia|]. destruct (p c); lia. Qed.

(** The comma counter of the first loop, as long as it does not wrap. *)
Lemma PORT_rewrite_commas (args : string) (commas : Z) :
  (0 <= commas)%Z ->
  (commas + Z.of_nat (String.length args) < 2 ^ 32)%Z ->
  snd (PORT_rewrite args commas) = (commas + Z.of_nat (commas_of args))%Z.
Proof.
  unfold commas_of. revert commas.
  induction args as [|c args IH]; intros commas H0 H; cbn [PORT_rewrite scount].
  - cbn. lia.
  - cbn [String.length] in H. destruct (Ascii.eqb c COMMA); cbv zeta; cbn [snd].
    + rewrite wrap_unsigned_small by lia. rewrite IH by lia. lia.
    + rewrite IH by lia. lia.
Qed.

(** A run of digits is read into [val]. *)
Lemma PORT_parse_digits (field rest : string) :
  all_digits field = true ->
  forall first val port,
    (0 <= val)%Z -> (decimal field val <= INT_MAX)%Z ->
    PORT_parse (field +++ rest) first val port
    = PORT_parse rest (first && sempty field) (decimal field val) port.
Proof.
  induction field as [|c field IH]; intros Hd first val port H0 Hmax.
  - cbn. now rewrite andb_true_r.
  - cbn [all_digits] in Hd. apply andb_true_iff in Hd as [Hc Hf].
    cbn [String.append PORT_parse decimal sempty] in *. rewrite Hc. cbn [negb].
    pose proof (isdigit_value c Hc) as Hv.
    pose proof (decimal_ge field (val * 10 + digit_value c)%Z Hf ltac:(lia)) as Hge.
    rewrite (wrap_int_small (val * 10)) by (unfold INT_MAX in *; lia).
    rewrite (wrap_int_small (val * 10 + digit_value c)) by (unfold INT_MAX in *; lia).
    rewrite IH by (assumption || lia). now rewrite andb_false_r.
Qed.

(** A number above 255 in the port text: the loop stops with an error,
    or ends with [val] above 255. *)
Lemma PORT_parse_field (field post : string) :
  all_digits field = true ->
  (255 < decimal field 0 <= INT_MAX)%Z ->
  leading_digit post = false ->
  forall pre first val port,
    last_is_digit pre = false ->
    (pre = "" -> val = 0%Z) ->
    match PORT_parse (pre +++ field +++ post) first val port with
    | None => True
    | Some (v, _) => (255 < v)%Z
    end.
Proof.
  intros Hd Hbig Hpost. induction pre as [|c pre IH]; intros first val port Hpre H0.
  - rewrite (H0 eq_refl). cbn [String.append].
    rewrite PORT_parse_digits by (assumption || lia).
    destruct post as [|d post]; cbn [PORT_parse]; [lia|].
    cbn [leading_digit] in Hpost. rewrite Hpost. cbn [negb].
    destruct (Z.ltb_spec 255 (decimal field 0)); [|lia].
    now rewrite !orb_true_r.
  - cbn [String.append PORT_parse].
    assert (Hpre' : last_is_digit pre = false)
      by (destruct pre; [reflexivity | exact Hpre]).
    destruct (isdigit c) eqn:Hc; cbn [negb].
    + apply IH; [exact Hpre'|]. intros ->. cbn in Hpre. congruence.
    + destruct (first || negb (Ascii.eqb c DOT) || (255 <? val)%Z); [exact I|].
      apply IH; [exact Hpre' | reflexivity].
Qed.

End PortParse.

Lemma invalid_argument_spec fd s :
  m_commandSocket s = Some fd ->
  writable fd (w_oracle (world s)) ->
  String.length ("501 " +++ w_strerror (world s) EINVAL +++ CRLF) < room s ->
  command_output fd (invalid_argument s)
  = command_output fd s +++ "501 " +++ w_strerror (world s) EINVAL +++ CRLF
  /\ m_pasv (invalid_argument s) = m_pasv s
  /\ m_port (invalid_argument s) = m_port s.
Proof.
  intros Hfd Hw Hroom. unfold invalid_argument, strerror.
  destruct (reply_spec fd ("501 " +++ w_strerror (world s) EINVAL +++ CRLF) s)
    as (_ & _ & _ & O & C & _); try assumption; [discriminate|].
  destruct (control_inv _ _ _ _ _ _ _ _ _ _ _ _ C) as (_ & _ & _ & C4 & C5 & _).
  repeat split; assumption.
Qed.

(** PORT before the login. *)
Lemma PORT_unauthorized args fd s :
  authorized s = false ->
  m_commandSocket s = Some fd ->
  writable fd (w_oracle (world s)) ->
  String.length ("530 Not logged in" +++ CRLF) < room s ->
  command_output fd (PORT args s) = command_output fd s +++ "530 Not logged in" +++ CRLF
  /\ m_pasv (PORT args s) = m_pasv s
  /\ m_port (PORT args s) = m_port s.
Proof.
  intros Ha Hfd Hw Hroom. unfold PORT. rewrite Ha. cbn [negb].
  unfold andThen, not_logged_in.
  destruct (setState_spec fd COMMAND false false s)
    as (_ & _ & S1 & S2 & S3 & S4 & _ & S6).
  destruct (control_inv _ _ _ _ _ _ _ _ _ _ _ _ S6) as (_ & _ & _ & C4 & C5 & _).
  clear S6. forget (setState COMMAND false false s) s1.
  destruct (reply_spec fd ("530 Not logged in" +++ CRLF) s1)
    as (_ & _ & _ & O & C & _).
  - congruence.
  - rewrite S4. exact Hw.
  - discriminate.
  - rewrite S2. exact Hroom.
  - destruct (control_inv _ _ _ _ _ _ _ _ _ _ _ _ C) as (_ & _ & _ & D4 & D5 & _).
    split; [rewrite O; now rewrite S3|]. split; congruence.
Qed.

(** A logged-in PORT whose argument has not five commas, or has a number
    above 255 in its port text. *)
Lemma PORT_invalid args fd s :
  authorized s = true ->
  m_commandSocket s = Some fd ->
  writable fd (w_oracle (world s)) ->
  String.length ("501 " +++ w_strerror (world s) EINVAL +++ CRLF) < room s ->
  (Z.of_nat (String.length args) < 2 ^ 32)%Z ->
  commas_of args <> 5
  \/ (exists text field,
        port_part args = Some text /\ number_in field text
        /\ (255 < decimal field 0 <= INT_MAX)%Z) ->
  command_output fd (PORT args s)
  = command_output fd s +++ "501 " +++ w_strerror (world s) EINVAL +++ CRLF
  /\ m_pasv (PORT args s) = false
  /\ m_port (PORT args s) = false.
Proof.
  intros Ha Hfd Hw Hroom Hlen Hbad. cbv delta [PORT]; cbv beta. rewrite Ha. cbn [negb].
  destruct (setState_spec fd COMMAND true true s)
    as (_ & _ & S1 & S2 & S3 & S4 & S5 & _).
  forget (setState COMMAND true true s) s1. cbv zeta.
  set (s2 := set_m_port false (set_m_pasv false s1)).
  assert (Hexit : forall sx,
            m_commandSocket sx = m_commandSocket s2 ->
            room sx = room s2 ->
            command_output fd sx = command_output fd s2 ->
            w_oracle (world sx) = w_oracle (world s2) ->
            w_strerror (world sx) = w_strerror (world s2) ->
            m_pasv sx = false -> m_port sx = false ->
            command_output fd (invalid_argument sx)
            = command_output fd s +++ "501 " +++ w_strerror (world s) EINVAL +++ CRLF
            /\ m_pasv (invalid_argument sx) = false
            /\ m_port (invalid_argument sx) = false).
  { intros sx X1 X2 X3 X4 X5 X6 X7.
    destruct (invalid_argument_spec fd sx) as (O & P1 & P2).
    - rewrite X1. exact (eq_trans S1 Hfd).
    - rewrite X4. change (writable fd (w_oracle (world s1))). rewrite S4. exact Hw.
    - rewrite X5, X2. change (w_strerror (world s2)) with (w_strerror (world s1)).
      change (room s2) with (room s1). rewrite S5, S2. exact Hroom.
    - rewrite O, X3, X5. change (w_strerror (world s2)) with (w_strerror (world s1)).
      change (command_output fd s2) with (command_output fd s1).
      rewrite S3, S5. repeat split; congruence. }
  assert (Hcount : snd (PORT_rewrite args 0) = Z.of_nat (commas_of args)).
  { rewrite PORT_rewrite_commas by lia. lia. }
  rewrite Hcount.
  destruct (Z.of_nat (commas_of args) =? 5)%Z eqn:E5; cbn [negb].
  2:{ apply Hexit; reflexivity. }
  destruct Hbad as [Hn | (text & field & Hpp & (pre & post & Ht & Hpre & Hf & Hpost) & Hbig)].
  { apply Z.eqb_eq in E5. lia. }
  set (c := SysInetAton (c_str (fst (PORT_rewrite args 0)))).
  destruct (succeeded (answer c s2)); cbn [negb].
  2:{ apply Hexit; try reflexivity. apply (command_output_sys fd c s2). reflexivity. }
  unfold port_part in Hpp.
  destruct (PORT_portString args 0 0 None) as [i|]; [|discriminate].
  injection Hpp as Hpp. rewrite Hpp, Ht.
  pose proof (PORT_parse_field field post Hf Hbig Hpost pre true 0%Z 0%Z Hpre
                (fun _ => eq_refl)) as Hparse.
  destruct (PORT_parse (pre +++ field +++ post) true 0 0) as [[v q]|].
  - destruct (Z.ltb_spec 255 v); [|lia]. cbn [orb].
    apply Hexit; try reflexivity. apply (command_output_sys fd c s2). reflexivity.
  - apply Hexit; try reflexivity. apply (command_output_sys fd c s2). reflexivity.
Qed.

(** C9 (as the code has it).  On a command channel that takes writes and
    has room for the reply: a logged-in PORT whose argument, shorter than
    2^32 bytes, has not exactly five commas, or has in its port text a
    whole number above 255 that an [int] holds, is answered with 501 and
    leaves both the passive and the active flag down; a PORT before the
    login is answered with 530 and leaves the two flags as they were. *)
Theorem PORT_rejects (args : string) (fd : Socket) (s : FtpSession) :
  m_commandSocket s = Some fd ->
  writable fd (w_oracle (world s)) ->
  String.length ("501 " +++ w_strerror (world s) EINVAL +++ CRLF) < room s ->
  String.length ("530 Not logged in" +++ CRLF) < room s ->
  (authorized s = true ->
   (Z.of_nat (String.length args) < 2 ^ 32)%Z ->
   commas_of args <> 5
   \/ (exists text field,
         port_part args = Some text /\ number_in field text
         /\ (255 < decimal field 0 <= INT_MAX)%Z) ->
   command_output fd (PORT args s)
   = command_output fd s +++ "501 " +++ w_strerror (world s) EINVAL +++ CRLF
   /\ m_pasv (PORT args s) = false
   /\ m_port (PORT args s) = false)
  /\ (authorized s = false ->
      command_output fd (PORT args s)
      = command_output fd s +++ "530 Not logged in" +++ CRLF
      /\ m_pasv (PORT args s) = m_pasv s
      /\ m_port (PORT args s) = m_port s).
Proof.
  intros Hfd Hw H501 H530. split.
  - intros Ha Hlen Hbad. now apply PORT_invalid.
  - intros Ha. now apply PORT_unauthorized.
Qed.

(** Logged in on the example platform, a port field of 300. *)
Lemma PORT_rejects_witness :
  port_part "10,0,0,2,300,1" = Some "300.1"
  /\ command_output 3 (PORT "10,0,0,2,300,1" example_login)
     = command_output 3 example_login
       +++ "501 " +++ w_strerror (world example_login) EINVAL +++ CRLF
  /\ m_pasv (PORT "10,0,0,2,300,1" example_login) = false
  /\ m_port (PORT "10,0,0,2,300,1" example_login) = false.
Proof.
  split; [vm_compute; reflexivity|].
  destruct (PORT_rejects "10,0,0,2,300,1" 3 example_login) as (A & _).
  - vm_compute. reflexivity.
  - apply example_writable.
  - vm_compute. lia.
  - vm_compute. lia.
  - apply A.
    + vm_compute. reflexivity.
    + vm_compute. reflexivity.
    + right. exists "300.1", "300". split; [vm_compute; reflexivity|]. split.
      * exists "", ".1". repeat split.
      * vm_compute. split; [reflexivity | discriminate].
Defined.

(** C9 (as the specification has it) fails: before the login a PORT with
    two commas is answered with 530, not 501. *)
Lemma PORT_before_login_says_530 :
  authorized example_session = false
  /\ commas_of "1,2,3" = 2
  /\ command_output 3 (PORT "1,2,3" example_session)
     = command_output 3 example_session +++ "530 Not logged in" +++ CRLF
  /\ command_output 3 (PORT "1,2,3" example_session)
     <> command_output 3 example_session
        +++ "501 " +++ w_strerror (world example_session) EINVAL +++ CRLF.
Proof.
  split; [vm_compute; reflexivity|]. split; [vm_compute; reflexivity|].
  split; [vm_compute; reflexivity|]. vm_compute. discriminate.
Qed.

(** The bound on the number matters: [val] is an [int], and a field that
    wraps it to a small value is taken for that value. *)
Example PORT_field_wraps :
  command_output 3 (PORT "10,0,0,2,4294967297,1" example_login)
  = command_output 3 example_login +++ "200 OK" +++ CRLF
  /\ m_port (PORT "10,0,0,2,4294967297,1" example_login) = true.
Proof. split; vm_compute; reflexivity. Qed.

(** ** The MLSD line *)

(** A reply leaves the MLST facts as they are. *)
Lemma mlst_facts_sendResponse r s : mlst_facts (sendResponse r s) = mlst_facts s.
Proof.
  unfold sendResponse, closeCommand, closeSocket, response_write, stamp.
  repeat match goal with
         | |- context [match ?b with _ => _ end] => destruct b
         end; reflexivity.
Qed.

(** A fresh session has every fact switched on but UNIX.mode. *)
Lemma mlst_facts_new config fd cb rb xb w :
  mlst_facts (FtpSession_new config fd cb rb xb w) = (true, true, true, true, false).
Proof.
  unfold FtpSession_new. cbv zeta. rewrite mlst_facts_sendResponse.
  repeat match goal with
         | |- context [if ?b then _ else _] => destruct b
         end; reflexivity.
Qed.

(** In MLSD mode, with the facts Type, Size, Modify and Perm switched on
    and room for 80 bytes, the line stored for a regular file [x] of 1024
    bytes, mode 0644, last modified on 2024-01-15 at 12:00:00 UTC. *)
Lemma fillDirent_line_file (s : FtpSession) (st : stat_t) :
  m_xferDirMode s = MLSD_mode ->
  m_mlstType s = true ->
  m_mlstSize s = true ->
  m_mlstModify s = true ->
  m_mlstPerm s = true ->
  st_mode st = Z.lor S_IFREG 420 ->
  st_size st = 1024%Z ->
  st_mtime st = 1705320000%Z ->
  80 <= freeSize (ioBuffer s) ->
  fillDirent_line s st "x" None
  = inr ("Type=file;Size=1024;Modify=20240115120000;Perm=adfrw;"
         +++ (if m_mlstUnixMode s then "UNIX.mode=0644;" else "")
         +++ " x" +++ CRLF).
Proof.
  intros Hmode Ht Hs Hm Hp Hst Hsz Hmt Hroom.
  unfold fillDirent_line, fill_facts. rewrite Hmode, Ht, Hs, Hm, Hp, Hst, Hsz, Hmt.
  replace (freeSize (ioBuffer s)) with (80 + (freeSize (ioBuffer s) - 80)) by lia.
  generalize (freeSize (ioBuffer s) - 80) as k. intros k.
  generalize (errno s) as e. intros e.
  unfold byte_before.
  generalize (answer StaleByte s) as stale. intros stale.
  generalize (ioBuffer s) as buf. intros buf.
  destruct (m_mlstUnixMode s); vm_compute; reflexivity.
Qed.

(** ** The idle timeout *)

(** An entry of another session does nothing to this one. *)
Lemma poll_entry_foreign fuel i s : foreign s i = true -> poll_entry fuel i s = Some s.
Proof.
  unfold foreign, poll_entry. intros H.
  apply andb_true_iff in H as [H H3]. apply andb_true_iff in H as [H1 H2].
  apply negb_true_iff in H1, H2, H3. cbv zeta. rewrite H1, H2, H3. reflexivity.
Qed.

(** Over entries that are all foreign where they report events, the
    inner loop leaves the session alone and sets [handled] as soon as
    one of them reports events. *)
Lemma poll_entries_foreign fuel pollInfo :
  forall handled s,
    (forall i, In i pollInfo -> has_events i = true -> foreign s i = true) ->
    poll_entries fuel pollInfo handled s
    = Some (handled || existsb has_events pollInfo, s).
Proof.
  induction pollInfo as [|i rest IH]; intros handled s H; cbn [poll_entries existsb].
  - now rewrite orb_false_r.
  - unfold has_events at 1. destruct (pi_revents i =? 0)%Z eqn:E; cbn [negb orb].
    + apply IH. intros j Hj. apply H. now right.
    + rewrite poll_entry_foreign
        by (apply H; [now left | unfold has_events; now rewrite E]).
      rewrite IH by (intros j Hj; apply H; now right).
      now rewrite orb_true_r.
Qed.

(** The three closes of the timeout leave no socket. *)
Lemma timeout_closes_all s :
  m_commandSocket ((closeCommand ;; closePasv ;; closeData) s) = None
  /\ m_pasvSocket ((closeCommand ;; closePasv ;; closeData) s) = None
  /\ m_dataSocket ((closeCommand ;; closePasv ;; closeData) s) = None.
Proof.
  unfold andThen.
  pose proof (m_commandSocket_closeCommand s) as C.
  forget (closeCommand s) s1.
  destruct (channel_fields 0 _ _ (channel_closePasv 0 s1)) as (P1 & _).
  destruct (control_inv _ _ _ _ _ _ _ _ _ _ _ _ (control_closePasv s1)) as (_ & P2 & _).
  forget (closePasv s1) s2.
  destruct (channel_fields 0 _ _ (channel_closeData 0 s2)) as (D1 & _).
  destruct (control_inv _ _ _ _ _ _ _ _ _ _ _ _ (control_closeData s2)) as (_ & D2 & D3 & _).
  repeat split; congruence.
Qed.

(** C10 (as the code has it).  For a session idle for IDLE_TIMEOUT
    seconds or more that has no event on a socket of its own, a tick of
    the reactor closes the command, passive and data socket when no entry
    of the poll set reports events at all; when some entry does, which is
    then another session's, the tick leaves the session as it is. *)
Theorem poll_session_idle (fuel : nat) (now : Z) (pollInfo : list PollInfo)
    (s : FtpSession) :
  (IDLE_TIMEOUT <= now - m_timestamp s)%Z ->
  (forall i, In i pollInfo -> has_events i = true -> foreign s i = true) ->
  (existsb has_events pollInfo = false ->
   exists t,
     poll_session fuel now pollInfo s = Some t
     /\ m_commandSocket t = None /\ m_pasvSocket t = None /\ m_dataSocket t = None)
  /\ (existsb has_events pollInfo = true -> poll_session fuel now pollInfo s = Some s).
Proof.
  intros Hidle Hforeign. unfold poll_session.
  rewrite (poll_entries_foreign fuel pollInfo false s Hforeign). cbn [orb].
  apply Z.leb_le in Hidle. rewrite Hidle. split; intros E; rewrite E; cbn [negb andb].
  - eexists. split; [reflexivity|]. apply timeout_closes_all.
  - reflexivity.
Qed.

(** The logged-in example session, last active at 1000, in a tick at 2000
    that saw only another session's socket readable: it stays open. *)
Lemma poll_session_idle_witness :
  m_timestamp example_login = 1000%Z
  /\ existsb has_events example_pollInfo = true
  /\ poll_session 1 2000 example_pollInfo example_login = Some example_login
  /\ m_commandSocket example_login = Some 3.
Proof.
  split; [vm_compute; reflexivity|]. split; [vm_compute; reflexivity|]. split.
  - apply (poll_session_idle 1 2000 example_pollInfo example_login).
    + vm_compute. discriminate.
    + intros i [<- | [<- | []]] H; vm_compute in H |- *; congruence.
    + vm_compute. reflexivity.
  - vm_compute. reflexivity.
Defined.

(** * Further properties of the session code *)

(** ** parseCommand *)

Lemma parseCommand_from_spec (buffer_ : string) :
  forall p,
    match parseCommand_from buffer_ p with
    | None => sexists (Ascii.eqb LF) buffer_ = false
    | Some (delim, next) =>
      exists line rest,
        delim = p + String.length line
        /\ sexists (Ascii.eqb LF) line = false
        /\ ((buffer_ = line +++ str1 LF +++ rest /\ next = delim + 1)
            \/ (buffer_ = line +++ CRLF +++ rest /\ next = delim + 2))
    end.
Proof.
  induction buffer_ as [|c rest IH]; intros p; [reflexivity|].
  cbn [parseCommand_from sexists].
  destruct rest as [|d rest'].
  - destruct (Ascii.eqb_spec c LF) as [->|Hc].
    + exists "", "". cbn. repeat split; auto.
    + rewrite Ascii.eqb_sym. apply Ascii.eqb_neq in Hc. now rewrite Hc.
  - destruct (Ascii.eqb c CR && Ascii.eqb d LF) eqn:E.
    + apply andb_true_iff in E as [Ec Ed].
      apply Ascii.eqb_eq in Ec, Ed. subst c d.
      exists "", rest'. cbn. repeat split; auto.
    + destruct (Ascii.eqb_spec c LF) as [->|Hc].
      * exists "", (String d rest'). cbn. repeat split; auto.
      * specialize (IH (S p)).
        assert (Hc' : Ascii.eqb LF c = false)
          by (rewrite Ascii.eqb_sym; now apply Ascii.eqb_neq).
        destruct (parseCommand_from (String d rest') (S p)) as [[delim next]|].
        -- destruct IH as (line & tail & Hd & Hl & Hb).
           exists (String c line), tail. cbn [String.length sexists String.append].
           rewrite Hc', Hl. split; [lia|]. split; [reflexivity|].
           destruct Hb as [[Hb Hn]|[Hb Hn]]; [left | right];
             (split; [now rewrite Hb | exact Hn]).
        -- rewrite Hc'. exact IH.
Qed.

(** X1.  [parseCommand] finds the first line of the buffer: it answers
    nothing exactly when the buffer holds no line feed; otherwise the
    delimiter position is the length of a line without line feed, which
    the buffer starts with, followed by LF or by CR LF, and the next
    position is the one after that delimiter. *)
Theorem parseCommand_first_line (buffer_ : string) :
  match parseCommand buffer_ with
  | None => sexists (Ascii.eqb LF) buffer_ = false
  | Some (delim, next) =>
    exists line rest,
      delim = String.length line
      /\ sexists (Ascii.eqb LF) line = false
      /\ ((buffer_ = line +++ str1 LF +++ rest /\ next = delim + 1)
          \/ (buffer_ = line +++ CRLF +++ rest /\ next = delim + 2))
  end.
Proof.
  unfold parseCommand. pose proof (parseCommand_from_spec buffer_ 0) as H.
  destruct (parseCommand_from buffer_ 0) as [[delim next]|]; [|exact H].
  destruct H as (line & rest & Hd & H). exists line, rest. split; [lia | exact H].
Qed.

(** ** encodePath *)

Lemma encodePath_loop_no_lf (q : bool) (s : string) :
  sexists (Ascii.eqb LF) (encodePath_loop q s) = false.
Proof.
  induction s as [|c s IH]; [reflexivity|]. cbn [encodePath_loop].
  destruct (Ascii.eqb_spec c LF) as [->|Hc]; [exact IH|].
  assert (Hc' : Ascii.eqb LF c = false)
    by (rewrite Ascii.eqb_sym; now apply Ascii.eqb_neq).
  destruct (q && Ascii.eqb c DQUOTE); cbn [sexists]; rewrite ?Hc', IH; reflexivity.
Qed.

Lemma encodePath_loop_length (q : bool) (s : string) :
  String.length (encodePath_loop q s)
  = String.length s + (if q then scount (Ascii.eqb DQUOTE) s else 0).
Proof.
  induction s as [|c s IH]; [now destruct q|]. cbn [encodePath_loop String.length scount].
  destruct (Ascii.eqb_spec c LF) as [->|Hc].
  - cbn [String.length]. rewrite IH.
    change (Ascii.eqb DQUOTE LF) with false. destruct q; cbn; lia.
  - destruct q; cbn [andb].
    + rewrite (Ascii.eqb_sym DQUOTE c).
      destruct (Ascii.eqb c DQUOTE); cbn [String.length]; rewrite IH; cbn; lia.
    + cbn [String.length]. rewrite IH. lia.
Qed.

Lemma encodePath_loop_quotes (s : string) :
  scount (Ascii.eqb DQUOTE) (encodePath_loop true s)
  = 2 * scount (Ascii.eqb DQUOTE) s.
Proof.
  induction s as [|c s IH]; [reflexivity|]. cbn [encodePath_loop scount andb].
  destruct (Ascii.eqb_spec c LF) as [->|Hc].
  - cbn [scount]. rewrite IH.
    change (Ascii.eqb DQUOTE LF) with false. change (Ascii.eqb DQUOTE NUL) with false.
    cbn. lia.
  - rewrite (Ascii.eqb_sym DQUOTE c).
    destruct (Ascii.eqb_spec c DQUOTE) as [->|Hq]; cbn [scount].
    + rewrite ?Ascii.eqb_refl, IH. cbn. lia.
    + rewrite (Ascii.eqb_sym DQUOTE c). apply Ascii.eqb_neq in Hq. rewrite Hq, IH. lia.
Qed.

Lemma encodePath_loop_same (q : bool) (s : string) :
  sexists (Ascii.eqb LF) s = false ->
  (if q then scount (Ascii.eqb DQUOTE) s else 0) = 0 ->
  encodePath_loop q s = s.
Proof.
  induction s as [|c s IH]; [reflexivity|]. cbn [sexists scount encodePath_loop].
  intros Hlf Hq. apply orb_false_iff in Hlf as [Hc Hs].
  rewrite Ascii.eqb_sym, Hc.
  destruct q; cbn [andb].
  - rewrite (Ascii.eqb_sym c DQUOTE).
    destruct (Ascii.eqb DQUOTE c); [cbn in Hq; lia|].
    rewrite IH by (assumption || (cbn in Hq; exact Hq)). reflexivity.
  - rewrite IH by (assumption || reflexivity). reflexivity.
Qed.

(** The early return of [encodePath] gives what the loop would give. *)
Lemma encodePath_is_loop (s : string) (q : bool) :
  encodePath s q = encodePath_loop q s.
Proof.
  unfold encodePath. cbv zeta.
  destruct (sexists (Ascii.eqb LF) s) eqn:Hlf; cbn [negb andb]; [reflexivity|].
  destruct ((if q then scount (Ascii.eqb DQUOTE) s else 0) =? 0) eqn:Hq;
    [|reflexivity].
  apply Nat.eqb_eq in Hq. symmetry. now apply encodePath_loop_same.
Qed.

Lemma encodePath_loop_append (q : bool) (a b : string) :
  encodePath_loop q (a +++ b) = encodePath_loop q a +++ encodePath_loop q b.
Proof.
  induction a as [|c a IH]; [reflexivity|]. cbn [String.append encodePath_loop].
  destruct (Ascii.eqb c LF); [cbn [String.append]; now rewrite IH|].
  destruct (q && Ascii.eqb c DQUOTE); cbn [String.append]; now rewrite IH.
Qed.

(** X2.  [encodePath] works byte by byte and in place: what it makes of
    two texts joined is what it makes of the first followed by what it
    makes of the second; a line feed becomes one NUL; with [quotes_] a
    double quote becomes two double quotes; every other byte, and without
    [quotes_] the double quote too, stays as it is.  So the result never
    holds a line feed, and a path cannot break a reply into two lines;
    its length is that of the input plus, with [quotes_], one for every
    double quote, and with [quotes_] it holds twice the double quotes of
    the input. *)
Theorem encodePath_output (s : string) (quotes_ : bool) :
  (forall a b,
      encodePath (a +++ b) quotes_ = encodePath a quotes_ +++ encodePath b quotes_)
  /\ encodePath (str1 LF) quotes_ = str1 NUL
  /\ encodePath (str1 DQUOTE) true = String DQUOTE (str1 DQUOTE)
  /\ (forall c, c <> LF -> quotes_ = false \/ c <> DQUOTE ->
                encodePath (str1 c) quotes_ = str1 c)
  /\ sexists (Ascii.eqb LF) (encodePath s quotes_) = false
  /\ String.length (encodePath s quotes_)
     = String.length s + (if quotes_ then scount (Ascii.eqb DQUOTE) s else 0)
  /\ (quotes_ = true ->
      scount (Ascii.eqb DQUOTE) (encodePath s quotes_)
      = 2 * scount (Ascii.eqb DQUOTE) s).
Proof.
  split.
  { intros a b. rewrite !encodePath_is_loop. apply encodePath_loop_append. }
  split; [now destruct quotes_|]. split; [reflexivity|]. split.
  { intros c Hc Hq. rewrite encodePath_is_loop. unfold str1. cbn [encodePath_loop].
    apply Ascii.eqb_neq in Hc. rewrite Hc.
    destruct Hq as [-> | Hq]; [reflexivity|].
    apply Ascii.eqb_neq in Hq. rewrite Hq, andb_false_r. reflexivity. }
  rewrite encodePath_is_loop.
  split; [apply encodePath_loop_no_lf|]. split; [apply encodePath_loop_length|].
  intros ->. apply encodePath_loop_quotes.
Qed.

(** ** compare *)

Lemma compare_loop_swap (a b : string) : compare_loop b a = (- compare_loop a b)%Z.
Proof.
  revert b. induction a as [|x a IH]; intros [|y b]; cbn [compare_loop String.length];
    try lia.
  cbv zeta. rewrite (Ascii.eqb_sym (tolower y) (tolower x)).
  destruct (Ascii.eqb (tolower x) (tolower y)); [apply IH | lia].
Qed.

(** X3.  [compare] on two views of which one at least holds no NUL: the
    result is zero exactly when the two are equal once their letters are
    lowered, and swapping the operands negates it. *)
Theorem compare_case_insensitive (a b : string) :
  isCString a = false \/ isCString b = false ->
  (compare a b = 0%Z <-> smap tolower a = smap tolower b)
  /\ compare b a = (- compare a b)%Z.
Proof.
  intros H.
  assert (E1 : compare a b = compare_loop a b)
    by (destruct H; [now apply compare_plain_l | now apply compare_plain_r]).
  assert (E2 : compare b a = compare_loop b a)
    by (destruct H; [now apply compare_plain_r | now apply compare_plain_l]).
  rewrite E1, E2. split; [split|].
  - apply compare_loop_zero.
  - apply compare_loop_lowered.
  - apply compare_loop_swap.
Qed.

Lemma compare_case_insensitive_witness :
  (compare "Stat" "STAT" = 0%Z <-> smap tolower "Stat" = smap tolower "STAT")
  /\ compare "STAT" "Stat" = (- compare "Stat" "STAT")%Z.
Proof. apply (compare_case_insensitive "Stat" "STAT"). left. reflexivity. Defined.

(** ** buildPath *)

Lemma coalesce_slashes_shape (s : string) :
  forall prev,
    doubled_slash (coalesce_slashes prev s) = false
    /\ (prev = Some SLASH -> begins_with_slash (coalesce_slashes prev s) = false).
Proof.
  induction s as [|c s IH]; intros prev; [split; reflexivity|].
  cbn [coalesce_slashes].
  assert (Hkeep :
    doubled_slash (String c (coalesce_slashes (Some c) s)) = false).
  { destruct (IH (Some c)) as [Hd Hb].
    destruct (coalesce_slashes (Some c) s) as [|d r] eqn:E; [reflexivity|].
    cbn [doubled_slash]. cbn [doubled_slash] in Hd. rewrite Hd, orb_false_r.
    destruct (Ascii.eqb_spec c SLASH) as [->|Hc]; [|reflexivity].
    specialize (Hb eq_refl). cbn [begins_with_slash] in Hb. now rewrite Hb. }
  destruct prev as [q|].
  - destruct (Ascii.eqb c SLASH && Ascii.eqb q SLASH) eqn:E.
    + apply IH.
    + split; [exact Hkeep|]. intros Hq. injection Hq as ->.
      cbn [begins_with_slash]. rewrite Ascii.eqb_refl, andb_true_r in E. exact E.
  - split; [exact Hkeep | discriminate].
Qed.

Lemma coalesce_slashes_head (c : ascii) (s : string) :
  coalesce_slashes None (String c s) = String c (coalesce_slashes (Some c) s).
Proof. reflexivity. Qed.

(** X5.  What [buildPath] returns never has two slashes in a row; it is
    absolute whenever the working directory is; and an absolute argument
    is taken by itself, whatever the working directory. *)
Theorem buildPath_shape (cwd_ args_ : string) :
  doubled_slash (buildPath cwd_ args_) = false
  /\ (begins_with_slash cwd_ = true -> begins_with_slash (buildPath cwd_ args_) = true)
  /\ (begins_with_slash args_ = true ->
      buildPath cwd_ args_ = coalesce_slashes None args_).
Proof.
  split; [unfold buildPath; cbv zeta; apply coalesce_slashes_shape|]. split.
  - intros Hc. unfold buildPath. cbv zeta.
    destruct args_ as [|a args'].
    + destruct cwd_ as [|c cwd']; [discriminate|]. exact Hc.
    + destruct (Ascii.eqb a SLASH) eqn:E.
      * cbn [coalesce_slashes begins_with_slash]. exact E.
      * destruct cwd_ as [|c cwd']; [discriminate|]. exact Hc.
  - intros Ha. unfold buildPath. cbv zeta.
    destruct args_ as [|a args']; [discriminate|].
    cbn [begins_with_slash] in Ha. now rewrite Ha.
Qed.

(** ** The handler table *)

(** Each name of the table finds its own entry: the table is sorted the
    way the binary search needs it. *)
Lemma handlers_found : Forall (fun nh => find_handler (fst nh) = Some nh) handlers.
Proof.
  unfold handlers.
  repeat (constructor; [cbn [fst]; lookup|]). constructor.
Qed.

(** X4.  The lookup of [readCommand] is exact: a command finds an entry of
    the table exactly when that entry's name is the command up to the case
    of its letters, so each of the 41 names reaches its own handler, and
    nothing else reaches one. *)
Theorem find_handler_exact (command name : string) (handler : Handler) :
  find_handler command = Some (name, handler)
  <-> In (name, handler) handlers /\ compare name command = 0%Z.
Proof.
  split.
  - apply find_handler_In.
  - intros [Hin Hcmp].
    pose proof (proj1 (Forall_forall _ _) handlers_plain _ Hin) as Hn.
    pose proof (proj1 (Forall_forall _ _) handlers_found _ Hin) as Hf.
    cbn [fst] in Hn, Hf. rewrite <- Hf.
    apply find_handler_same; [|exact Hn].
    rewrite (compare_plain_r _ _ Hn), compare_loop_swap.
    rewrite (compare_plain_l _ _ Hn) in Hcmp. rewrite Hcmp. reflexivity.
Qed.

(** ** Before the login *)

Create Rewrite HintDb fs.

Lemma fs_calls_set_m_config v s : fs_calls (set_m_config v s) = fs_calls s.
Proof. reflexivity. Qed.
Lemma fs_calls_set_m_commandSocket v s : fs_calls (set_m_commandSocket v s) = fs_calls s.
Proof. reflexivity. Qed.
Lemma fs_calls_set_m_pasvSocket v s : fs_calls (set_m_pasvSocket v s) = fs_calls s.
Proof. reflexivity. Qed.
Lemma fs_calls_set_m_dataSocket v s : fs_calls (set_m_dataSocket v s) = fs_calls s.
Proof. reflexivity. Qed.
Lemma fs_calls_set_m_pendingCloseSocket v s : fs_calls (set_m_pendingCloseSocket v s) = fs_calls s.
Proof. reflexivity. Qed.
Lemma fs_calls_set_m_commandBuffer v s : fs_calls (set_m_commandBuffer v s) = fs_calls s.
Proof. reflexivity. Qed.
Lemma fs_calls_set_m_responseBuffer v s : fs_calls (set_m_responseBuffer v s) = fs_calls s.
Proof. reflexivity. Qed.
Lemma fs_calls_set_m_xferBuffer v s : fs_calls (set_m_xferBuffer v s) = fs_calls s.
Proof. reflexivity. Qed.
Lemma fs_calls_set_m_zStreamBuffer v s : fs_calls (set_m_zStreamBuffer v s) = fs_calls s.
Proof. reflexivity. Qed.
Lemma fs_calls_set_m_zStream v s : fs_calls (set_m_zStream v s) = fs_calls s.
Proof. reflexivity. Qed.
Lemma fs_calls_set_m_file v s : fs_calls (set_m_file v s) = fs_calls s.
Proof. reflexivity. Qed.
Lemma fs_calls_set_m_dir v s : fs_calls (set_m_dir v s) = fs_calls s.
Proof. reflexivity. Qed.
Lemma fs_calls_set_m_glob v s : fs_calls (set_m_glob v s) = fs_calls s.
Proof. reflexivity. Qed.
Lemma fs_calls_set_m_state v s : fs_calls (set_m_state v s) = fs_calls s.
Proof. reflexivity. Qed.
Lemma fs_calls_set_m_transfer v s : fs_calls (set_m_transfer v s) = fs_calls s.
Proof. reflexivity. Qed.
Lemma fs_calls_set_m_xferDirMode v s : fs_calls (set_m_xferDirMode v s) = fs_calls s.
Proof. reflexivity. Qed.
Lemma fs_calls_set_m_timestamp v s : fs_calls (set_m_timestamp v s) = fs_calls s.
Proof. reflexivity. Qed.
Lemma fs_calls_set_m_cwd v s : fs_calls (set_m_cwd v s) = fs_calls s.
Proof. reflexivity. Qed.
Lemma fs_calls_set_m_lwd v s : fs_calls (set_m_lwd v s) = fs_calls s.
Proof. reflexivity. Qed.
Lemma fs_calls_set_m_rename v s : fs_calls (set_m_rename v s) = fs_calls s.
Proof. reflexivity. Qed.
Lemma fs_calls_set_m_workItem v s : fs_calls (set_m_workItem v s) = fs_calls s.
Proof. reflexivity. Qed.
Lemma fs_calls_set_m_portAddr v s : fs_calls (set_m_portAddr v s) = fs_calls s.
Proof. reflexivity. Qed.
Lemma fs_calls_set_m_restartPosition v s : fs_calls (set_m_restartPosition v s) = fs_calls s.
Proof. reflexivity. Qed.
Lemma fs_calls_set_m_fileSize v s : fs_calls (set_m_fileSize v s) = fs_calls s.
Proof. reflexivity. Qed.
Lemma fs_calls_set_m_filePosition v s : fs_calls (set_m_filePosition v s) = fs_calls s.
Proof. reflexivity. Qed.
Lemma fs_calls_set_m_zStreamPosition v s : fs_calls (set_m_zStreamPosition v s) = fs_calls s.
Proof. reflexivity. Qed.
Lemma fs_calls_set_m_authorizedUser v s : fs_calls (set_m_authorizedUser v s) = fs_calls s.
Proof. reflexivity. Qed.
Lemma fs_calls_set_m_authorizedPass v s : fs_calls (set_m_authorizedPass v s) = fs_calls s.
Proof. reflexivity. Qed.
Lemma fs_calls_set_m_pasv v s : fs_calls (set_m_pasv v s) = fs_calls s.
Proof. reflexivity. Qed.
Lemma fs_calls_set_m_port v s : fs_calls (set_m_port v s) = fs_calls s.
Proof. reflexivity. Qed.
Lemma fs_calls_set_m_recv v s : fs_calls (set_m_recv v s) = fs_calls s.
Proof. reflexivity. Qed.
Lemma fs_calls_set_m_send v s : fs_calls (set_m_send v s) = fs_calls s.
Proof. reflexivity. Qed.
Lemma fs_calls_set_m_urgent v s : fs_calls (set_m_urgent v s) = fs_calls s.
Proof. reflexivity. Qed.
Lemma fs_calls_set_m_deflate v s : fs_calls (set_m_deflate v s) = fs_calls s.
Proof. reflexivity. Qed.
Lemma fs_calls_set_m_zFlushed v s : fs_calls (set_m_zFlushed v s) = fs_calls s.
Proof. reflexivity. Qed.
Lemma fs_calls_set_m_eof v s : fs_calls (set_m_eof v s) = fs_calls s.
Proof. reflexivity. Qed.
Lemma fs_calls_set_m_mlstType v s : fs_calls (set_m_mlstType v s) = fs_calls s.
Proof. reflexivity. Qed.
Lemma fs_calls_set_m_mlstSize v s : fs_calls (set_m_mlstSize v s) = fs_calls s.
Proof. reflexivity. Qed.
Lemma fs_calls_set_m_mlstModify v s : fs_calls (set_m_mlstModify v s) = fs_calls s.
Proof. reflexivity. Qed.
Lemma fs_calls_set_m_mlstPerm v s : fs_calls (set_m_mlstPerm v s) = fs_calls s.
Proof. reflexivity. Qed.
Lemma fs_calls_set_m_mlstUnixMode v s : fs_calls (set_m_mlstUnixMode v s) = fs_calls s.
Proof. reflexivity. Qed.
Lemma fs_calls_set_m_devZero v s : fs_calls (set_m_devZero v s) = fs_calls s.
Proof. reflexivity. Qed.

#[local] Hint Rewrite fs_calls_set_m_config fs_calls_set_m_commandSocket fs_calls_set_m_pasvSocket fs_calls_set_m_dataSocket fs_calls_set_m_pendingCloseSocket fs_calls_set_m_commandBuffer fs_calls_set_m_responseBuffer fs_calls_set_m_xferBuffer fs_calls_set_m_zStreamBuffer fs_calls_set_m_zStream fs_calls_set_m_file fs_calls_set_m_dir fs_calls_set_m_glob fs_calls_set_m_state fs_calls_set_m_transfer fs_calls_set_m_xferDirMode fs_calls_set_m_timestamp fs_calls_set_m_cwd fs_calls_set_m_lwd fs_calls_set_m_rename fs_calls_set_m_workItem fs_calls_set_m_portAddr fs_calls_set_m_restartPosition fs_calls_set_m_fileSize fs_calls_set_m_filePosition fs_calls_set_m_zStreamPosition fs_calls_set_m_authorizedUser fs_calls_set_m_authorizedPass fs_calls_set_m_pasv fs_calls_set_m_port fs_calls_set_m_recv fs_calls_set_m_send fs_calls_set_m_urgent fs_calls_set_m_deflate fs_calls_set_m_zFlushed fs_calls_set_m_eof fs_calls_set_m_mlstType fs_calls_set_m_mlstSize fs_calls_set_m_mlstModify fs_calls_set_m_mlstPerm fs_calls_set_m_mlstUnixMode fs_calls_set_m_devZero : fs.


Lemma fs_calls_sys c s : is_fs c = false -> fs_calls (sys c s) = fs_calls s.
Proof. intros H. unfold fs_calls, sys. cbn. now rewrite H. Qed.

Lemma fs_calls_assign_errno e s : fs_calls (assign_errno e s) = fs_calls s.
Proof. reflexivity. Qed.

#[local] Hint Rewrite fs_calls_sys using reflexivity : fs.
#[local] Hint Rewrite fs_calls_assign_errno : fs.

Ltac fs_leaf :=
  unfold andThen; cbn [fst snd];
  repeat (progress autorewrite with fs);
  repeat match goal with
         | H : fs_calls ?x = _ |- context [fs_calls ?x] => rewrite H
         end;
  try reflexivity.

Ltac fs := intros; walkz fs_leaf.

Lemma fs_calls_stamp s : fs_calls (stamp s) = fs_calls s.
Proof. cbv delta [stamp]; cbv beta. fs. Qed.
#[local] Hint Rewrite fs_calls_stamp : fs.

Lemma fs_calls_closeCommand s : fs_calls (closeCommand s) = fs_calls s.
Proof. cbv delta [closeCommand closeSocket]; cbv beta. fs. Qed.
#[local] Hint Rewrite fs_calls_closeCommand : fs.

Lemma fs_calls_closePasv s : fs_calls (closePasv s) = fs_calls s.
Proof. cbv delta [closePasv]; cbv beta. fs. Qed.
#[local] Hint Rewrite fs_calls_closePasv : fs.

Lemma fs_calls_closeData s : fs_calls (closeData s) = fs_calls s.
Proof. cbv delta [closeData closeSocket]; cbv beta. fs. Qed.
#[local] Hint Rewrite fs_calls_closeData : fs.

Lemma fs_calls_file_close s : fs_calls (file_close s) = fs_calls s.
Proof. cbv delta [file_close]; cbv beta. fs. Qed.
#[local] Hint Rewrite fs_calls_file_close : fs.

Lemma fs_calls_dir_close s : fs_calls (dir_close s) = fs_calls s.
Proof. cbv delta [dir_close]; cbv beta. fs. Qed.
#[local] Hint Rewrite fs_calls_dir_close : fs.

Lemma fs_calls_zStream_reset s : fs_calls (zStream_reset s) = fs_calls s.
Proof. cbv delta [zStream_reset]; cbv beta. fs. Qed.
#[local] Hint Rewrite fs_calls_zStream_reset : fs.

Lemma fs_calls_setState st cp cd s : fs_calls (setState st cp cd s) = fs_calls s.
Proof. cbv delta [setState]; cbv beta. fs. Qed.
#[local] Hint Rewrite fs_calls_setState : fs.

Lemma fs_calls_response_write fd s : fs_calls (response_write fd s) = fs_calls s.
Proof. cbv delta [response_write]; cbv beta. fs. Qed.
#[local] Hint Rewrite fs_calls_response_write : fs.

Lemma fs_calls_sendResponse r s : fs_calls (sendResponse r s) = fs_calls s.
Proof. cbv delta [sendResponse]; cbv beta. fs. Qed.
#[local] Hint Rewrite fs_calls_sendResponse : fs.

Lemma fs_calls_sendResponse_view r s : fs_calls (sendResponse_view r s) = fs_calls s.
Proof. cbv delta [sendResponse_view]; cbv beta. fs. Qed.
#[local] Hint Rewrite fs_calls_sendResponse_view : fs.

Lemma fs_calls_not_logged_in s : fs_calls (not_logged_in s) = fs_calls s.
Proof. cbv delta [not_logged_in]; cbv beta. fs. Qed.
#[local] Hint Rewrite fs_calls_not_logged_in : fs.

Lemma fs_calls_invalid_command c a s : fs_calls (invalid_command c a s) = fs_calls s.
Proof. cbv delta [invalid_command]; cbv beta. fs. Qed.
#[local] Hint Rewrite fs_calls_invalid_command : fs.


Lemma fs_calls_OPTS_mlst_loop fuel :
  forall p s, fs_calls (OPTS_mlst_loop fuel p s) = fs_calls s.
Proof.
  induction fuel as [|fuel IH]; intros p s; simpl; [reflexivity|].
  destruct (sempty p); [reflexivity|].
  destruct (after_semicolon p); [rewrite IH|];
    repeat match goal with
           | |- context [if ?b then _ else _] => destruct b
           end; reflexivity.
Qed.

Lemma fs_calls_OPTS_level_loop fuel :
  forall p l s, fs_calls (snd (OPTS_level_loop fuel p l s)) = fs_calls s.
Proof.
  induction fuel as [|fuel IH]; intros p l s; simpl; [reflexivity|].
  destruct (sempty p); [reflexivity|].
  destruct (sempty (fst (nextWord p))); [reflexivity|].
  destruct (_ && _); [|fs_leaf].
  destruct (_ || _); [fs_leaf|].
  rewrite IH. reflexivity.
Qed.

#[local] Hint Rewrite fs_calls_OPTS_mlst_loop fs_calls_OPTS_level_loop : fs.

Lemma fs_calls_ABOR a s : fs_calls (ABOR a s) = fs_calls s.
Proof. cbv delta [ABOR]; cbv beta. fs. Qed.

Lemma fs_calls_ALLO a s : fs_calls (ALLO a s) = fs_calls s.
Proof. cbv delta [ALLO]; cbv beta. fs. Qed.

Lemma fs_calls_FEAT a s : fs_calls (FEAT a s) = fs_calls s.
Proof. cbv delta [FEAT]; cbv beta. fs. Qed.

Lemma fs_calls_HELP a s : fs_calls (HELP a s) = fs_calls s.
Proof. cbv delta [HELP]; cbv beta. fs. Qed.

Lemma fs_calls_MODE a s : fs_calls (MODE a s) = fs_calls s.
Proof. cbv delta [MODE]; cbv beta. fs. Qed.

Lemma fs_calls_NOOP a s : fs_calls (NOOP a s) = fs_calls s.
Proof. cbv delta [NOOP]; cbv beta. fs. Qed.

Lemma fs_calls_OPTS a s : fs_calls (OPTS a s) = fs_calls s.
Proof. cbv delta [OPTS]; cbv beta. fs. Qed.

Lemma fs_calls_QUIT a s : fs_calls (QUIT a s) = fs_calls s.
Proof. cbv delta [QUIT]; cbv beta. fs. Qed.

Lemma fs_calls_STOU a s : fs_calls (STOU a s) = fs_calls s.
Proof. cbv delta [STOU]; cbv beta. fs. Qed.

Lemma fs_calls_STRU a s : fs_calls (STRU a s) = fs_calls s.
Proof. cbv delta [STRU]; cbv beta. fs. Qed.

Lemma fs_calls_SYST a s : fs_calls (SYST a s) = fs_calls s.
Proof. cbv delta [SYST]; cbv beta. fs. Qed.

Lemma fs_calls_TYPE a s : fs_calls (TYPE a s) = fs_calls s.
Proof. cbv delta [TYPE]; cbv beta. fs. Qed.

Lemma fs_calls_USER a s : fs_calls (USER a s) = fs_calls s.
Proof. cbv delta [USER]; cbv beta. fs. Qed.

Lemma fs_calls_PASS a s : fs_calls (PASS a s) = fs_calls s.
Proof. cbv delta [PASS]; cbv beta. fs. Qed.

Lemma authorized_setState st cp cd s : authorized (setState st cp cd s) = authorized s.
Proof.
  destruct (latches_fields _ _ (latches_setState st cp cd s)) as (L1 & L2 & _).
  unfold authorized. now rewrite L1, L2.
Qed.

(** A handler that asks for the login first: unfolded, the test decided,
    what is left is the refusal. *)
Ltac refused H :=
  intros Ha; cbv beta delta [H] zeta;
  rewrite ?authorized_setState, Ha; cbn [negb]; cbv iota;
  repeat match goal with
         | |- context [if ?b then _ else _] => destruct b
         end;
  fs_leaf.

Lemma fs_calls_APPE a s : authorized s = false -> fs_calls (APPE a s) = fs_calls s.
Proof. refused APPE. Qed.

Lemma fs_calls_CDUP a s : authorized s = false -> fs_calls (CDUP a s) = fs_calls s.
Proof. refused CDUP. Qed.

Lemma fs_calls_CWD a s : authorized s = false -> fs_calls (CWD a s) = fs_calls s.
Proof. refused CWD. Qed.

Lemma fs_calls_LIST a s : authorized s = false -> fs_calls (LIST a s) = fs_calls s.
Proof. refused LIST. Qed.

Lemma fs_calls_MDTM a s : authorized s = false -> fs_calls (MDTM a s) = fs_calls s.
Proof. refused MDTM. Qed.

Lemma fs_calls_MLSD a s : authorized s = false -> fs_calls (MLSD a s) = fs_calls s.
Proof. refused MLSD. Qed.

Lemma fs_calls_MLST a s : authorized s = false -> fs_calls (MLST a s) = fs_calls s.
Proof. refused MLST. Qed.

Lemma fs_calls_NLST a s : authorized s = false -> fs_calls (NLST a s) = fs_calls s.
Proof. refused NLST. Qed.

Lemma fs_calls_PASV a s : authorized s = false -> fs_calls (PASV a s) = fs_calls s.
Proof. refused PASV. Qed.

Lemma fs_calls_PORT a s : authorized s = false -> fs_calls (PORT a s) = fs_calls s.
Proof. refused PORT. Qed.

Lemma fs_calls_PWD a s : authorized s = false -> fs_calls (PWD a s) = fs_calls s.
Proof. refused PWD. Qed.

Lemma fs_calls_REST a s : authorized s = false -> fs_calls (REST a s) = fs_calls s.
Proof. refused REST. Qed.

Lemma fs_calls_RETR a s : authorized s = false -> fs_calls (RETR a s) = fs_calls s.
Proof. refused RETR. Qed.

Lemma fs_calls_RNFR a s : authorized s = false -> fs_calls (RNFR a s) = fs_calls s.
Proof. refused RNFR. Qed.

Lemma fs_calls_RNTO a s : authorized s = false -> fs_calls (RNTO a s) = fs_calls s.
Proof. refused RNTO. Qed.

Lemma fs_calls_SITE a s : authorized s = false -> fs_calls (SITE a s) = fs_calls s.
Proof. refused SITE. Qed.

Lemma fs_calls_SIZE a s : authorized s = false -> fs_calls (SIZE a s) = fs_calls s.
Proof. refused SIZE. Qed.

Lemma fs_calls_STOR a s : authorized s = false -> fs_calls (STOR a s) = fs_calls s.
Proof. refused STOR. Qed.

Lemma fs_calls_path_command a c f s :
  authorized s = false -> fs_calls (path_command a c f s) = fs_calls s.
Proof. refused path_command. Qed.

Lemma fs_calls_STAT a s : authorized s = false -> fs_calls (STAT a s) = fs_calls s.
Proof.
  intros Ha. cbv beta delta [STAT] zeta. rewrite Ha. cbn [negb].
  destruct (m_state s); [destruct (String.length a =? 0)| |]; fs_leaf.
Qed.

(** No handler of the table reaches the file system before the login. *)
Lemma handlers_refuse :
  Forall (fun nh : string * Handler =>
            forall a s, authorized s = false -> fs_calls (snd nh a s) = fs_calls s)
         handlers.
Proof.
  unfold handlers.
  repeat (constructor;
          [ cbn [snd];
            lazymatch goal with
            | |- forall a s, _ -> fs_calls (?h a s) = _ =>
              lazymatch h with
              | ABOR => intros a s _; exact (fs_calls_ABOR a s)
              | ALLO => intros a s _; exact (fs_calls_ALLO a s)
              | FEAT => intros a s _; exact (fs_calls_FEAT a s)
              | HELP => intros a s _; exact (fs_calls_HELP a s)
              | MODE => intros a s _; exact (fs_calls_MODE a s)
              | NOOP => intros a s _; exact (fs_calls_NOOP a s)
              | OPTS => intros a s _; exact (fs_calls_OPTS a s)
              | QUIT => intros a s _; exact (fs_calls_QUIT a s)
              | STOU => intros a s _; exact (fs_calls_STOU a s)
              | STRU => intros a s _; exact (fs_calls_STRU a s)
              | SYST => intros a s _; exact (fs_calls_SYST a s)
              | TYPE => intros a s _; exact (fs_calls_TYPE a s)
              | USER => intros a s _; exact (fs_calls_USER a s)
              | PASS => intros a s _; exact (fs_calls_PASS a s)
              | APPE => exact fs_calls_APPE
              | CDUP => exact fs_calls_CDUP
              | CWD => exact fs_calls_CWD
              | DELE => intros a s; exact (fs_calls_path_command _ _ _ s)
              | MKD => intros a s; exact (fs_calls_path_command _ _ _ s)
              | RMD => intros a s; exact (fs_calls_path_command _ _ _ s)
              | LIST => exact fs_calls_LIST
              | MDTM => exact fs_calls_MDTM
              | MLSD => exact fs_calls_MLSD
              | MLST => exact fs_calls_MLST
              | NLST => exact fs_calls_NLST
              | PASV => exact fs_calls_PASV
              | PORT => exact fs_calls_PORT
              | PWD => exact fs_calls_PWD
              | REST => exact fs_calls_REST
              | RETR => exact fs_calls_RETR
              | RNFR => exact fs_calls_RNFR
              | RNTO => exact fs_calls_RNTO
              | SITE => exact fs_calls_SITE
              | SIZE => exact fs_calls_SIZE
              | STAT => exact fs_calls_STAT
              | STOR => exact fs_calls_STOR
              end
            end | ]).
  constructor.
Qed.

(** X6.  Before the login no command reaches the file system or the
    stored configuration: whatever the command line, a session that is
    not authorized makes no stat, unlink, mkdir, rmdir, rename or chdir,
    opens, reads and writes no file or directory, expands no pattern and
    saves no setting while it is dispatched. *)
Theorem no_file_access_before_login (command args : string) (s : FtpSession) :
  authorized s = false ->
  fs_calls (dispatch command args s) = fs_calls s.
Proof.
  intros Ha. unfold dispatch. cbv zeta.
  assert (Hs : fs_calls (stamp s) = fs_calls s) by apply fs_calls_stamp.
  assert (Has : authorized (stamp s) = false) by exact Ha.
  destruct (find_handler command) as [[name handler]|] eqn:E.
  - destruct (find_handler_In _ _ _ E) as [Hin _].
    pose proof (proj1 (Forall_forall _ _) handlers_refuse _ Hin) as Hh. cbn [snd] in Hh.
    destruct (negb (State_eqb (m_state (stamp s)) COMMAND)).
    + destruct (negb (allowed_during_transfer command)).
      * unfold andThen.
        now rewrite fs_calls_closeCommand, fs_calls_setState, fs_calls_sendResponse.
      * now rewrite Hh.
    + destruct (negb (compare command "RNTO" =? 0)%Z).
      * rewrite Hh; [exact Hs | exact Ha].
      * now rewrite Hh.
  - now rewrite fs_calls_invalid_command.
Qed.

(** A fresh session asked for a file: nothing is looked up. *)
Lemma no_file_access_before_login_witness :
  fs_calls (dispatch "RETR" "/a" example_session) = fs_calls example_session
  /\ fs_calls example_session = [].
Proof.
  split; [|vm_compute; reflexivity].
  apply (no_file_access_before_login "RETR" "/a" example_session).
  vm_compute. reflexivity.
Defined.

(** ** The working directory *)

Create Rewrite HintDb cwdb.

Lemma cwd_set_m_config v s : m_cwd (set_m_config v s) = m_cwd s.
Proof. reflexivity. Qed.
Lemma cwd_set_m_commandSocket v s : m_cwd (set_m_commandSocket v s) = m_cwd s.
Proof. reflexivity. Qed.
Lemma cwd_set_m_pasvSocket v s : m_cwd (set_m_pasvSocket v s) = m_cwd s.
Proof. reflexivity. Qed.
Lemma cwd_set_m_dataSocket v s : m_cwd (set_m_dataSocket v s) = m_cwd s.
Proof. reflexivity. Qed.
Lemma cwd_set_m_pendingCloseSocket v s : m_cwd (set_m_pendingCloseSocket v s) = m_cwd s.
Proof. reflexivity. Qed.
Lemma cwd_set_m_commandBuffer v s : m_cwd (set_m_commandBuffer v s) = m_cwd s.
Proof. reflexivity. Qed.
Lemma cwd_set_m_responseBuffer v s : m_cwd (set_m_responseBuffer v s) = m_cwd s.
Proof. reflexivity. Qed.
Lemma cwd_set_m_xferBuffer v s : m_cwd (set_m_xferBuffer v s) = m_cwd s.
Proof. reflexivity. Qed.
Lemma cwd_set_m_zStreamBuffer v s : m_cwd (set_m_zStreamBuffer v s) = m_cwd s.
Proof. reflexivity. Qed.
Lemma cwd_set_m_zStream v s : m_cwd (set_m_zStream v s) = m_cwd s.
Proof. reflexivity. Qed.
Lemma cwd_set_m_file v s : m_cwd (set_m_file v s) = m_cwd s.
Proof. reflexivity. Qed.
Lemma cwd_set_m_dir v s : m_cwd (set_m_dir v s) = m_cwd s.
Proof. reflexivity. Qed.
Lemma cwd_set_m_glob v s : m_cwd (set_m_glob v s) = m_cwd s.
Proof. reflexivity. Qed.
Lemma cwd_set_m_state v s : m_cwd (set_m_state v s) = m_cwd s.
Proof. reflexivity. Qed.
Lemma cwd_set_m_transfer v s : m_cwd (set_m_transfer v s) = m_cwd s.
Proof. reflexivity. Qed.
Lemma cwd_set_m_xferDirMode v s : m_cwd (set_m_xferDirMode v s) = m_cwd s.
Proof. reflexivity. Qed.
Lemma cwd_set_m_timestamp v s : m_cwd (set_m_timestamp v s) = m_cwd s.
Proof. reflexivity. Qed.
Lemma cwd_set_m_lwd v s : m_cwd (set_m_lwd v s) = m_cwd s.
Proof. reflexivity. Qed.
Lemma cwd_set_m_rename v s : m_cwd (set_m_rename v s) = m_cwd s.
Proof. reflexivity. Qed.
Lemma cwd_set_m_workItem v s : m_cwd (set_m_workItem v s) = m_cwd s.
Proof. reflexivity. Qed.
Lemma cwd_set_m_portAddr v s : m_cwd (set_m_portAddr v s) = m_cwd s.
Proof. reflexivity. Qed.
Lemma cwd_set_m_restartPosition v s : m_cwd (set_m_restartPosition v s) = m_cwd s.
Proof. reflexivity. Qed.
Lemma cwd_set_m_fileSize v s : m_cwd (set_m_fileSize v s) = m_cwd s.
Proof. reflexivity. Qed.
Lemma cwd_set_m_filePosition v s : m_cwd (set_m_filePosition v s) = m_cwd s.
Proof. reflexivity. Qed.
Lemma cwd_set_m_zStreamPosition v s : m_cwd (set_m_zStreamPosition v s) = m_cwd s.
Proof. reflexivity. Qed.
Lemma cwd_set_m_authorizedUser v s : m_cwd (set_m_authorizedUser v s) = m_cwd s.
Proof. reflexivity. Qed.
Lemma cwd_set_m_authorizedPass v s : m_cwd (set_m_authorizedPass v s) = m_cwd s.
Proof. reflexivity. Qed.
Lemma cwd_set_m_pasv v s : m_cwd (set_m_pasv v s) = m_cwd s.
Proof. reflexivity. Qed.
Lemma cwd_set_m_port v s : m_cwd (set_m_port v s) = m_cwd s.
Proof. reflexivity. Qed.
Lemma cwd_set_m_recv v s : m_cwd (set_m_recv v s) = m_cwd s.
Proof. reflexivity. Qed.
Lemma cwd_set_m_send v s : m_cwd (set_m_send v s) = m_cwd s.
Proof. reflexivity. Qed.
Lemma cwd_set_m_urgent v s : m_cwd (set_m_urgent v s) = m_cwd s.
Proof. reflexivity. Qed.
Lemma cwd_set_m_deflate v s : m_cwd (set_m_deflate v s) = m_cwd s.
Proof. reflexivity. Qed.
Lemma cwd_set_m_zFlushed v s : m_cwd (set_m_zFlushed v s) = m_cwd s.
Proof. reflexivity. Qed.
Lemma cwd_set_m_eof v s : m_cwd (set_m_eof v s) = m_cwd s.
Proof. reflexivity. Qed.
Lemma cwd_set_m_mlstType v s : m_cwd (set_m_mlstType v s) = m_cwd s.
Proof. reflexivity. Qed.
Lemma cwd_set_m_mlstSize v s : m_cwd (set_m_mlstSize v s) = m_cwd s.
Proof. reflexivity. Qed.
Lemma cwd_set_m_mlstModify v s : m_cwd (set_m_mlstModify v s) = m_cwd s.
Proof. reflexivity. Qed.
Lemma cwd_set_m_mlstPerm v s : m_cwd (set_m_mlstPerm v s) = m_cwd s.
Proof. reflexivity. Qed.
Lemma cwd_set_m_mlstUnixMode v s : m_cwd (set_m_mlstUnixMode v s) = m_cwd s.
Proof. reflexivity. Qed.
Lemma cwd_set_m_devZero v s : m_cwd (set_m_devZero v s) = m_cwd s.
Proof. reflexivity. Qed.
Lemma cwd_set_world v s : m_cwd (set_world v s) = m_cwd s.
Proof. reflexivity. Qed.

#[local] Hint Rewrite cwd_set_m_config cwd_set_m_commandSocket cwd_set_m_pasvSocket cwd_set_m_dataSocket cwd_set_m_pendingCloseSocket cwd_set_m_commandBuffer cwd_set_m_responseBuffer cwd_set_m_xferBuffer cwd_set_m_zStreamBuffer cwd_set_m_zStream cwd_set_m_file cwd_set_m_dir cwd_set_m_glob cwd_set_m_state cwd_set_m_transfer cwd_set_m_xferDirMode cwd_set_m_timestamp cwd_set_m_lwd cwd_set_m_rename cwd_set_m_workItem cwd_set_m_portAddr cwd_set_m_restartPosition cwd_set_m_fileSize cwd_set_m_filePosition cwd_set_m_zStreamPosition cwd_set_m_authorizedUser cwd_set_m_authorizedPass cwd_set_m_pasv cwd_set_m_port cwd_set_m_recv cwd_set_m_send cwd_set_m_urgent cwd_set_m_deflate cwd_set_m_zFlushed cwd_set_m_eof cwd_set_m_mlstType cwd_set_m_mlstSize cwd_set_m_mlstModify cwd_set_m_mlstPerm cwd_set_m_mlstUnixMode cwd_set_m_devZero cwd_set_world : cwdb.

Ltac cwdb_leaf :=
  unfold andThen; cbn [fst snd];
  repeat (progress autorewrite with cwdb);
  repeat match goal with
         | H : m_cwd ?x = _ |- context [m_cwd ?x] => rewrite H
         end;
  try reflexivity.

Ltac cwdb_walk := intros; walk cwdb_leaf.

Lemma cwd_sys c s : m_cwd (sys c s) = m_cwd s.
Proof. reflexivity. Qed.

Lemma cwd_assign_errno e s : m_cwd (assign_errno e s) = m_cwd s.
Proof. reflexivity. Qed.

Lemma cwd_stamp s : m_cwd (stamp s) = m_cwd s.
Proof. reflexivity. Qed.

#[local] Hint Rewrite cwd_sys cwd_assign_errno cwd_stamp : cwdb.

Lemma cwd_closeCommand s : m_cwd (closeCommand s) = m_cwd s.
Proof. cbv delta [closeCommand closeSocket]; cbv beta. cwdb_walk. Qed.

Lemma cwd_closePasv s : m_cwd (closePasv s) = m_cwd s.
Proof. cbv delta [closePasv]; cbv beta. cwdb_walk. Qed.

Lemma cwd_closeData s : m_cwd (closeData s) = m_cwd s.
Proof. cbv delta [closeData closeSocket]; cbv beta. cwdb_walk. Qed.

Lemma cwd_assign_dataSocket v s : m_cwd (assign_dataSocket v s) = m_cwd s.
Proof. cbv delta [assign_dataSocket]; cbv beta. cwdb_walk. Qed.

Lemma cwd_file_close s : m_cwd (file_close s) = m_cwd s.
Proof. cbv delta [file_close]; cbv beta. cwdb_walk. Qed.

Lemma cwd_dir_close s : m_cwd (dir_close s) = m_cwd s.
Proof. cbv delta [dir_close]; cbv beta. cwdb_walk. Qed.

Lemma cwd_zStream_reset s : m_cwd (zStream_reset s) = m_cwd s.
Proof. cbv delta [zStream_reset]; cbv beta. cwdb_walk. Qed.

#[local] Hint Rewrite cwd_closeCommand cwd_closePasv cwd_closeData
  cwd_assign_dataSocket cwd_file_close cwd_dir_close
  cwd_zStream_reset : cwdb.

Lemma cwd_setState st cp cd s : m_cwd (setState st cp cd s) = m_cwd s.
Proof. cbv delta [setState]; cbv beta. cwdb_walk. Qed.

Lemma cwd_response_write fd s : m_cwd (response_write fd s) = m_cwd s.
Proof. cbv delta [response_write]; cbv beta. cwdb_walk. Qed.

#[local] Hint Rewrite cwd_setState cwd_response_write : cwdb.

Lemma cwd_sendResponse r s : m_cwd (sendResponse r s) = m_cwd s.
Proof. cbv delta [sendResponse]; cbv beta. cwdb_walk. Qed.

Lemma cwd_sendResponse_view r s : m_cwd (sendResponse_view r s) = m_cwd s.
Proof. cbv delta [sendResponse_view]; cbv beta. cwdb_walk. Qed.

Lemma cwd_writeResponse s : m_cwd (writeResponse s) = m_cwd s.
Proof. cbv delta [writeResponse]; cbv beta. cwdb_walk. Qed.

#[local] Hint Rewrite cwd_sendResponse cwd_sendResponse_view
  cwd_writeResponse : cwdb.

Lemma cwd_resolvePath p s : m_cwd (snd (resolvePath p s)) = m_cwd s.
Proof. cbv delta [resolvePath]; cbv beta. cwdb_walk. Qed.

Lemma cwd_buildResolvedPath c a s :
  m_cwd (snd (buildResolvedPath c a s)) = m_cwd s.
Proof. unfold buildResolvedPath. apply cwd_resolvePath. Qed.

Lemma cwd_tzStat p s : m_cwd (tzStat p s) = m_cwd s.
Proof. reflexivity. Qed.

Lemma cwd_tzLStat p s : m_cwd (tzLStat p s) = m_cwd s.
Proof. reflexivity. Qed.

#[local] Hint Rewrite cwd_resolvePath cwd_buildResolvedPath cwd_tzStat
  cwd_tzLStat : cwdb.


Lemma cwd_set_ioBuffer b s : m_cwd (set_ioBuffer b s) = m_cwd s.
Proof. cbv delta [set_ioBuffer]; cbv beta. cwdb_walk. Qed.

#[local] Hint Rewrite  cwd_set_ioBuffer : cwdb.

Lemma cwd_fillDirent st p t s : m_cwd (snd (fillDirent st p t s)) = m_cwd s.
Proof. cbv delta [fillDirent]; cbv beta. cwdb_walk. Qed.

#[local] Hint Rewrite cwd_fillDirent : cwdb.

Lemma cwd_fillDirent_path p t s : m_cwd (snd (fillDirent_path p t s)) = m_cwd s.
Proof. cbv delta [fillDirent_path]; cbv beta. cwdb_walk. Qed.

Lemma cwd_dataAccept s : m_cwd (snd (dataAccept s)) = m_cwd s.
Proof. cbv delta [dataAccept]; cbv beta. cwdb_walk. Qed.

Lemma cwd_dataConnect s : m_cwd (snd (dataConnect s)) = m_cwd s.
Proof. cbv delta [dataConnect]; cbv beta. cwdb_walk. Qed.

Lemma cwd_xfer_reset s : m_cwd (xfer_reset s) = m_cwd s.
Proof. cbv delta [xfer_reset]; cbv beta. cwdb_walk. Qed.

Lemma cwd_zStream_init k s : m_cwd (zStream_init k s) = m_cwd s.
Proof. cbv delta [zStream_init zStream_fresh]; cbv beta. cwdb_walk. Qed.

Lemma cwd_file_open p m s : m_cwd (file_open p m s) = m_cwd s.
Proof. cbv delta [file_open]; cbv beta. cwdb_walk. Qed.

Lemma cwd_file_seek p s : m_cwd (file_seek p s) = m_cwd s.
Proof. reflexivity. Qed.

Lemma cwd_dir_open p s : m_cwd (dir_open p s) = m_cwd s.
Proof. cbv delta [dir_open]; cbv beta. cwdb_walk. Qed.

#[local] Hint Rewrite cwd_fillDirent_path cwd_dataAccept cwd_dataConnect
  cwd_xfer_reset cwd_zStream_init cwd_file_open cwd_file_seek
  cwd_dir_open : cwdb.

Lemma cwd_xferFile_connect m p s : m_cwd (xferFile_connect m p s) = m_cwd s.
Proof. cbv delta [xferFile_connect]; cbv beta. cwdb_walk. Qed.

#[local] Hint Rewrite cwd_xferFile_connect : cwdb.

Lemma cwd_xferFile a m s : m_cwd (xferFile a m s) = m_cwd s.
Proof. cbv delta [xferFile]; cbv beta. cwdb_walk. Qed.

Lemma cwd_xferDir_fail c e s : m_cwd (xferDir_fail c e s) = m_cwd s.
Proof. cbv delta [xferDir_fail]; cbv beta. cwdb_walk. Qed.

Lemma cwd_xferDir_connect m s : m_cwd (xferDir_connect m s) = m_cwd s.
Proof. cbv delta [xferDir_connect]; cbv beta. cwdb_walk. Qed.

#[local] Hint Rewrite cwd_xferFile cwd_xferDir_fail cwd_xferDir_connect
  : cwdb.

Lemma cwd_xferDir_with retry a m w s :
  (forall a' s', m_cwd (retry a' s') = m_cwd s') ->
  m_cwd (xferDir_with retry a m w s) = m_cwd s.
Proof.
  intros Hretry. cbv delta [xferDir_with]; cbv beta.
  cwdb_walk; rewrite ?Hretry; cwdb_leaf.
Qed.

Lemma cwd_xferDir a m w s : m_cwd (xferDir a m w s) = m_cwd s.
Proof.
  unfold xferDir. apply cwd_xferDir_with.
  intros. apply cwd_xferDir_with. reflexivity.
Qed.

Lemma cwd_glob_clear s : m_cwd (glob_clear s) = m_cwd s.
Proof. cbv delta [glob_clear]; cbv beta. cwdb_walk. Qed.

#[local] Hint Rewrite cwd_xferDir cwd_glob_clear : cwdb.

Lemma cwd_glob_glob p s : m_cwd (snd (glob_glob p s)) = m_cwd s.
Proof. cbv delta [glob_glob]; cbv beta. cwdb_walk. Qed.

Lemma cwd_not_logged_in s : m_cwd (not_logged_in s) = m_cwd s.
Proof. cbv delta [not_logged_in]; cbv beta. cwdb_walk. Qed.

#[local] Hint Rewrite cwd_glob_glob cwd_not_logged_in : cwdb.

Lemma cwd_path_command a c f s : m_cwd (path_command a c f s) = m_cwd s.
Proof. cbv delta [path_command]; cbv beta. cwdb_walk. Qed.

Lemma cwd_OPTS_mlst_loop fuel :
  forall p s, m_cwd (OPTS_mlst_loop fuel p s) = m_cwd s.
Proof.
  induction fuel as [|fuel IH]; intros p s; simpl; [reflexivity|].
  destruct (sempty p); [reflexivity|].
  destruct (after_semicolon p); [rewrite IH|]; cwdb_walk.
Qed.

Lemma cwd_OPTS_level_loop fuel :
  forall p l s, m_cwd (snd (OPTS_level_loop fuel p l s)) = m_cwd s.
Proof.
  induction fuel as [|fuel IH]; intros p l s; simpl; [reflexivity|].
  destruct (sempty p); [reflexivity|].
  destruct (sempty (fst (nextWord p))); [reflexivity|].
  destruct (_ && _); [|cwdb_walk].
  destruct (_ || _); [cwdb_walk|].
  rewrite IH. reflexivity.
Qed.

#[local] Hint Rewrite cwd_path_command cwd_OPTS_mlst_loop
  cwd_OPTS_level_loop : cwdb.

(** The handlers that write none of the m_cwd. *)
Lemma cwd_ABOR a s : m_cwd (ABOR a s) = m_cwd s.
Proof. cbv delta [ABOR]; cbv beta. cwdb_walk. Qed.
Lemma cwd_ALLO a s : m_cwd (ALLO a s) = m_cwd s.
Proof. cbv delta [ALLO]; cbv beta. cwdb_walk. Qed.
Lemma cwd_APPE a s : m_cwd (APPE a s) = m_cwd s.
Proof. cbv delta [APPE]; cbv beta. cwdb_walk. Qed.
Lemma cwd_DELE a s : m_cwd (DELE a s) = m_cwd s.
Proof. cbv delta [DELE]; cbv beta. cwdb_walk. Qed.
Lemma cwd_FEAT a s : m_cwd (FEAT a s) = m_cwd s.
Proof. cbv delta [FEAT]; cbv beta. cwdb_walk. Qed.
Lemma cwd_HELP a s : m_cwd (HELP a s) = m_cwd s.
Proof. cbv delta [HELP]; cbv beta. cwdb_walk. Qed.
Lemma cwd_LIST a s : m_cwd (LIST a s) = m_cwd s.
Proof. cbv delta [LIST]; cbv beta. cwdb_walk. Qed.
Lemma cwd_MDTM a s : m_cwd (MDTM a s) = m_cwd s.
Proof. cbv delta [MDTM]; cbv beta. cwdb_walk. Qed.
Lemma cwd_MKD a s : m_cwd (MKD a s) = m_cwd s.
Proof. cbv delta [MKD]; cbv beta. cwdb_walk. Qed.
Lemma cwd_MLSD a s : m_cwd (MLSD a s) = m_cwd s.
Proof. cbv delta [MLSD]; cbv beta. cwdb_walk. Qed.
Lemma cwd_MLST a s : m_cwd (MLST a s) = m_cwd s.
Proof. cbv delta [MLST]; cbv beta. cwdb_walk. Qed.
Lemma cwd_MODE a s : m_cwd (MODE a s) = m_cwd s.
Proof. cbv delta [MODE]; cbv beta. cwdb_walk. Qed.
Lemma cwd_NLST a s : m_cwd (NLST a s) = m_cwd s.
Proof. cbv delta [NLST]; cbv beta. cwdb_walk. Qed.
Lemma cwd_NOOP a s : m_cwd (NOOP a s) = m_cwd s.
Proof. cbv delta [NOOP]; cbv beta. cwdb_walk. Qed.
Lemma cwd_OPTS a s : m_cwd (OPTS a s) = m_cwd s.
Proof. cbv delta [OPTS]; cbv beta. cwdb_walk. Qed.
Lemma cwd_PASV a s : m_cwd (PASV a s) = m_cwd s.
Proof. cbv delta [PASV]; cbv beta. cwdb_walk. Qed.
Lemma cwd_PORT a s : m_cwd (PORT a s) = m_cwd s.
Proof. cbv delta [PORT invalid_argument]; cbv beta. cwdb_walk. Qed.
Lemma cwd_PWD a s : m_cwd (PWD a s) = m_cwd s.
Proof. cbv delta [PWD]; cbv beta. cwdb_walk. Qed.
Lemma cwd_QUIT a s : m_cwd (QUIT a s) = m_cwd s.
Proof. cbv delta [QUIT]; cbv beta. cwdb_walk. Qed.
Lemma cwd_REST a s : m_cwd (REST a s) = m_cwd s.
Proof. cbv delta [REST]; cbv beta. cwdb_walk. Qed.
Lemma cwd_RETR a s : m_cwd (RETR a s) = m_cwd s.
Proof. cbv delta [RETR]; cbv beta. cwdb_walk. Qed.
Lemma cwd_RMD a s : m_cwd (RMD a s) = m_cwd s.
Proof. cbv delta [RMD]; cbv beta. cwdb_walk. Qed.
Lemma cwd_SIZE a s : m_cwd (SIZE a s) = m_cwd s.
Proof. cbv delta [SIZE]; cbv beta. cwdb_walk. Qed.
Lemma cwd_STAT a s : m_cwd (STAT a s) = m_cwd s.
Proof. cbv delta [STAT]; cbv beta. cwdb_walk. Qed.
Lemma cwd_STOR a s : m_cwd (STOR a s) = m_cwd s.
Proof. cbv delta [STOR]; cbv beta. cwdb_walk. Qed.
Lemma cwd_STOU a s : m_cwd (STOU a s) = m_cwd s.
Proof. cbv delta [STOU]; cbv beta. cwdb_walk. Qed.
Lemma cwd_STRU a s : m_cwd (STRU a s) = m_cwd s.
Proof. cbv delta [STRU]; cbv beta. cwdb_walk. Qed.
Lemma cwd_SYST a s : m_cwd (SYST a s) = m_cwd s.
Proof. cbv delta [SYST]; cbv beta. cwdb_walk. Qed.
Lemma cwd_TYPE a s : m_cwd (TYPE a s) = m_cwd s.
Proof. cbv delta [TYPE]; cbv beta. cwdb_walk. Qed.

#[local] Hint Rewrite cwd_ABOR cwd_ALLO cwd_APPE  
  cwd_DELE cwd_FEAT cwd_HELP cwd_LIST cwd_MDTM cwd_MKD
  cwd_MLSD cwd_MLST cwd_MODE cwd_NLST cwd_NOOP cwd_OPTS
  cwd_PASV cwd_PORT cwd_PWD cwd_QUIT cwd_REST cwd_RETR
  cwd_RMD cwd_SIZE cwd_STAT cwd_STOR cwd_STOU cwd_STRU
  cwd_SYST cwd_TYPE : cwdb.

Lemma cwd_USER a s : m_cwd (USER a s) = m_cwd s.
Proof. cbv delta [USER]; cbv beta. cwdb_walk. Qed.
Lemma cwd_PASS a s : m_cwd (PASS a s) = m_cwd s.
Proof. cbv delta [PASS]; cbv beta. cwdb_walk. Qed.
Lemma cwd_SITE a s : m_cwd (SITE a s) = m_cwd s.
Proof. cbv delta [SITE]; cbv beta. cwdb_walk. Qed.
Lemma cwd_RNFR a s : m_cwd (RNFR a s) = m_cwd s.
Proof. cbv delta [RNFR]; cbv beta. cwdb_walk. Qed.
Lemma cwd_RNTO a s : m_cwd (RNTO a s) = m_cwd s.
Proof. cbv delta [RNTO]; cbv beta. cwdb_walk. Qed.

(** *** The working directory stays canonical *)

Lemma joined_snoc (init : list string) (l : string) :
  joined (init ++ [l])
  = match init with [] => l | _ => joined init +++ String SLASH l end.
Proof.
  induction init as [|c init IH]; [reflexivity|].
  cbn [app]. destruct init as [|d init].
  - reflexivity.
  - change (joined (c :: (d :: init) ++ [l]))
      with (c +++ "/" +++ joined ((d :: init) ++ [l])).
    rewrite IH. change (joined (c :: d :: init)) with (c +++ "/" +++ joined (d :: init)).
    now rewrite !append_assoc.
Qed.

Lemma rfind_none (c : ascii) (s : string) :
  sexists (Ascii.eqb c) s = false -> rfind c s = None.
Proof.
  induction s as [|a s IH]; [reflexivity|]. cbn [sexists rfind]. intros H.
  apply orb_false_iff in H as [Ha Hs]. rewrite (IH Hs), Ascii.eqb_sym, Ha. reflexivity.
Qed.

Lemma rfind_last (c : ascii) (a l : string) :
  sexists (Ascii.eqb c) l = false ->
  rfind c (a +++ String c l) = Some (String.length a).
Proof.
  intros Hl. induction a as [|x a IH].
  - cbn [String.append rfind String.length]. now rewrite (rfind_none c l Hl), Ascii.eqb_refl.
  - cbn [String.append rfind String.length]. now rewrite IH.
Qed.

Lemma substr_prefix (a b : string) : substr 0 (String.length a) (a +++ b) = a.
Proof.
  unfold substr. induction a as [|x a IH]; cbn.
  - now destruct b.
  - now rewrite IH.
Qed.

Lemma canonical_root : canonical_path "/".
Proof. exists []. split; [constructor | reflexivity]. Qed.

(** The parent of a canonical path, as [changeDir] cuts it. *)
Lemma canonical_parent (p : string) :
  canonical_path p ->
  match find_last_of SLASH p with
  | Some 0 => True
  | Some pos => canonical_path (substr 0 pos p)
  | None => False
  end.
Proof.
  intros (cs & Hcs & ->). unfold find_last_of.
  destruct cs as [|c cs'] using rev_ind; [reflexivity|]. clear IHcs'.
  apply Forall_app in Hcs as [Hinit Hlast]. inversion Hlast as [|? ? [[_ Hc] _] _]; subst.
  rewrite joined_snoc. destruct cs' as [|d cs''].
  - change (String SLASH c) with ("" +++ String SLASH c).
    now rewrite (rfind_last SLASH "" c Hc).
  - change (String SLASH (joined (d :: cs'') +++ String SLASH c))
      with (String SLASH (joined (d :: cs'')) +++ String SLASH c).
    rewrite (rfind_last SLASH _ c Hc). cbn [String.length].
    change (S (String.length (joined (d :: cs''))))
      with (String.length (String SLASH (joined (d :: cs'')))).
    rewrite substr_prefix. exists (d :: cs''). split; [exact Hinit | reflexivity].
Qed.

Lemma buildPath_absolute (cwd_ args_ : string) :
  begins_with_slash cwd_ = true -> begins_with_slash (buildPath cwd_ args_) = true.
Proof.
  intros Hc. unfold buildPath. cbv zeta.
  destruct args_ as [|a args'].
  - destruct cwd_ as [|c cwd']; [discriminate|]. exact Hc.
  - destruct (Ascii.eqb a SLASH) eqn:E.
    + cbn [coalesce_slashes begins_with_slash]. exact E.
    + destruct cwd_ as [|c cwd']; [discriminate|]. exact Hc.
Qed.

Lemma canonical_absolute (p : string) : canonical_path p -> begins_with_slash p = true.
Proof. intros (cs & _ & ->). cbn. apply Ascii.eqb_refl. Qed.

(** What [resolvePath] returns is empty or canonical. *)
Lemma resolvePath_result (p : string) (s : FtpSession) :
  begins_with_slash p = true ->
  fst (resolvePath p s) = "" \/ canonical_path (fst (resolvePath p s)).
Proof.
  intros Hp. unfold resolvePath. cbv zeta.
  destruct (negb _); [now left|]. destruct (negb _); [now left|].
  right. cbn [fst]. rewrite resolvePath_lexical_joined.
  exists (collapse [] (split_components p)). split; [|reflexivity].
  apply collapse_spec; [constructor | now apply split_components_spec].
Qed.

Lemma changeDir_canonical (args_ : string) (s : FtpSession) :
  canonical_path (m_cwd s) -> canonical_path (m_cwd (snd (changeDir args_ s))).
Proof.
  intros Hc. unfold changeDir.
  destruct (String.eqb args_ "..").
  - pose proof (canonical_parent _ Hc) as Hp.
    destruct (find_last_of SLASH (m_cwd s)) as [[|pos]|]; cbn [snd].
    + apply canonical_root.
    + exact Hp.
    + exact Hc.
  - cbv zeta.
    pose proof (resolvePath_result (buildPath (m_cwd s) args_) s
                  (buildPath_absolute _ _ (canonical_absolute _ Hc))) as Hr.
    pose proof (cwd_buildResolvedPath (m_cwd s) args_ s) as Hk.
    unfold buildResolvedPath in *.
    destruct (resolvePath (buildPath (m_cwd s) args_) s) as [path s1].
    cbn [fst snd] in *.
    destruct (sempty path) eqn:E; cbn [snd]; [now rewrite Hk|].
    destruct Hr as [->|Hr]; [discriminate|].
    destruct (negb _); cbn [snd]; [unfold tzStat; cbn; now rewrite Hk|].
    destruct (negb _); cbn [snd]; [unfold tzStat; cbn; now rewrite Hk|].
    exact Hr.
Qed.

Lemma CWD_canonical a s : canonical_path (m_cwd s) -> canonical_path (m_cwd (CWD a s)).
Proof.
  intros Hc. cbv delta [CWD]; cbv beta.
  pose proof (cwd_setState COMMAND false false s) as K.
  forget (setState COMMAND false false s) s1. cbv zeta.
  destruct (negb (authorized s1)); [rewrite cwd_not_logged_in; now rewrite K|].
  rewrite <- K in Hc. pose proof (changeDir_canonical a s1 Hc) as H.
  destruct (negb (fst (changeDir a s1))); now rewrite cwd_sendResponse.
Qed.

Lemma CDUP_canonical a s : canonical_path (m_cwd s) -> canonical_path (m_cwd (CDUP a s)).
Proof.
  intros Hc. cbv delta [CDUP]; cbv beta.
  pose proof (cwd_setState COMMAND false false s) as K.
  forget (setState COMMAND false false s) s1. cbv zeta.
  destruct (negb (authorized s1)); [rewrite cwd_not_logged_in; now rewrite K|].
  rewrite <- K in Hc. pose proof (changeDir_canonical ".." s1 Hc) as H.
  destruct (negb (fst (changeDir ".." s1))); now rewrite cwd_sendResponse.
Qed.

Lemma cwd_invalid_command c a s : m_cwd (invalid_command c a s) = m_cwd s.
Proof. unfold invalid_command. apply cwd_sendResponse_view. Qed.

(** Every handler of the table keeps the working directory canonical. *)
Lemma handlers_canonical :
  Forall (fun nh : string * Handler =>
            forall a s, canonical_path (m_cwd s) -> canonical_path (m_cwd (snd nh a s)))
         handlers.
Proof.
  unfold handlers.
  repeat (constructor;
          [ cbn [snd];
            lazymatch goal with
            | |- forall a s, _ -> canonical_path (m_cwd (?h a s)) =>
              lazymatch h with
              | CWD => exact CWD_canonical
              | CDUP => exact CDUP_canonical
              | ABOR => intros a s H; rewrite cwd_ABOR; exact H
              | ALLO => intros a s H; rewrite cwd_ALLO; exact H
              | APPE => intros a s H; rewrite cwd_APPE; exact H
              | DELE => intros a s H; rewrite cwd_DELE; exact H
              | FEAT => intros a s H; rewrite cwd_FEAT; exact H
              | HELP => intros a s H; rewrite cwd_HELP; exact H
              | LIST => intros a s H; rewrite cwd_LIST; exact H
              | MDTM => intros a s H; rewrite cwd_MDTM; exact H
              | MKD => intros a s H; rewrite cwd_MKD; exact H
              | MLSD => intros a s H; rewrite cwd_MLSD; exact H
              | MLST => intros a s H; rewrite cwd_MLST; exact H
              | MODE => intros a s H; rewrite cwd_MODE; exact H
              | NLST => intros a s H; rewrite cwd_NLST; exact H
              | NOOP => intros a s H; rewrite cwd_NOOP; exact H
              | OPTS => intros a s H; rewrite cwd_OPTS; exact H
              | PASS => intros a s H; rewrite cwd_PASS; exact H
              | PASV => intros a s H; rewrite cwd_PASV; exact H
              | PORT => intros a s H; rewrite cwd_PORT; exact H
              | PWD => intros a s H; rewrite cwd_PWD; exact H
              | QUIT => intros a s H; rewrite cwd_QUIT; exact H
              | REST => intros a s H; rewrite cwd_REST; exact H
              | RETR => intros a s H; rewrite cwd_RETR; exact H
              | RMD => intros a s H; rewrite cwd_RMD; exact H
              | RNFR => intros a s H; rewrite cwd_RNFR; exact H
              | RNTO => intros a s H; rewrite cwd_RNTO; exact H
              | SITE => intros a s H; rewrite cwd_SITE; exact H
              | SIZE => intros a s H; rewrite cwd_SIZE; exact H
              | STAT => intros a s H; rewrite cwd_STAT; exact H
              | STOR => intros a s H; rewrite cwd_STOR; exact H
              | STOU => intros a s H; rewrite cwd_STOU; exact H
              | STRU => intros a s H; rewrite cwd_STRU; exact H
              | SYST => intros a s H; rewrite cwd_SYST; exact H
              | TYPE => intros a s H; rewrite cwd_TYPE; exact H
              | USER => intros a s H; rewrite cwd_USER; exact H
              end
            end | ]).
  constructor.
Qed.

Lemma dispatch_canonical command args s :
  canonical_path (m_cwd s) -> canonical_path (m_cwd (dispatch command args s)).
Proof.
  intros Hc. unfold dispatch. cbv zeta.
  destruct (find_handler command) as [[name handler]|] eqn:E.
  - destruct (find_handler_In _ _ _ E) as [Hin _].
    pose proof (proj1 (Forall_forall _ _) handlers_canonical _ Hin) as Hh.
    cbn [snd] in Hh.
    destruct (negb (State_eqb (m_state (stamp s)) COMMAND)).
    + destruct (negb (allowed_during_transfer command)).
      * unfold andThen.
        rewrite cwd_closeCommand, cwd_setState, cwd_sendResponse, cwd_stamp. exact Hc.
      * apply Hh. rewrite cwd_stamp. exact Hc.
    + apply Hh.
      destruct (negb _); rewrite ?cwd_set_m_rename, cwd_stamp; exact Hc.
  - rewrite cwd_invalid_command. exact Hc.
Qed.

Lemma canonical_shape (p : string) :
  canonical_path p ->
  begins_with_slash p = true
  /\ ~ In "." (split_on SLASH p)
  /\ ~ In ".." (split_on SLASH p)
  /\ doubled_slash p = false.
Proof.
  intros (cs & Hplain & ->).
  destruct (plain_components _ Hplain) as (Hc & Hd & Hdd & _).
  split; [cbn; apply Ascii.eqb_refl|].
  destruct cs as [|c cs].
  - cbn. repeat split; try reflexivity; intros [H|[H|[]]]; discriminate.
  - change (String SLASH (joined (c :: cs))) with ("" +++ String SLASH (joined (c :: cs))).
    rewrite split_on_prefix by reflexivity.
    rewrite split_on_joined by (assumption || discriminate).
    repeat split.
    + intros [H|H]; [discriminate | now apply Hd].
    + intros [H|H]; [discriminate | now apply Hdd].
    + apply doubled_slash_joined; [discriminate | assumption].
Qed.

(** A fresh session is in the root directory. *)
Lemma cwd_new config fd cb rb xb w :
  m_cwd (FtpSession_new config fd cb rb xb w) = "/".
Proof.
  unfold FtpSession_new. cbv zeta. rewrite cwd_sendResponse, cwd_sys.
  repeat match goal with
         | |- context [if ?b then _ else _] => destruct b
         end; reflexivity.
Qed.

Lemma fold_left_cons {A B : Type} (f : A -> B -> A) (c : B) (cs : list B) (a : A) :
  fold_left f (c :: cs) a = fold_left f cs (f a c).
Proof. reflexivity. Qed.

Lemma run_canonical (commands : list (string * string)) (s : FtpSession) :
  canonical_path (m_cwd s) -> canonical_path (m_cwd (run commands s)).
Proof.
  revert s. unfold run.
  induction commands as [|c commands IH]; intros s Hc; [exact Hc|].
  rewrite fold_left_cons. apply IH. apply dispatch_canonical. exact Hc.
Qed.

(** X7.  The working directory stays canonical: a session whose working
    directory is a slash followed by components that are neither empty
    nor [.] nor [..], as that of a fresh session is, has such a working
    directory after any sequence of commands; it begins with a slash and
    has no [.] or [..] component and no two slashes in a row. *)
Theorem working_directory_canonical (commands : list (string * string))
    (s : FtpSession) :
  canonical_path (m_cwd s) ->
  canonical_path (m_cwd (run commands s))
  /\ begins_with_slash (m_cwd (run commands s)) = true
  /\ ~ In "." (split_on SLASH (m_cwd (run commands s)))
  /\ ~ In ".." (split_on SLASH (m_cwd (run commands s)))
  /\ doubled_slash (m_cwd (run commands s)) = false
  /\ (forall config fd cb rb xb w, m_cwd (FtpSession_new config fd cb rb xb w) = "/").
Proof.
  intros Hc.
  pose proof (run_canonical commands s Hc) as H.
  split; [exact H|].
  destruct (canonical_shape _ H) as (H1 & H2 & H3 & H4).
  split; [exact H1|]. split; [exact H2|]. split; [exact H3|]. split; [exact H4|].
  exact cwd_new.
Qed.

(** Logged in on the example platform, after a walk through the tree. *)
Lemma working_directory_canonical_witness :
  m_cwd (run [("CWD", "/a/./b//c"); ("CDUP", ""); ("CWD", "../../../x")] example_login)
  = "/x"
  /\ canonical_path
       (m_cwd (run [("CWD", "/a/./b//c"); ("CDUP", ""); ("CWD", "../../../x")]
                 example_login)).
Proof.
  split; [vm_compute; reflexivity|].
  refine (proj1 (working_directory_canonical
                   [("CWD", "/a/./b//c"); ("CDUP", ""); ("CWD", "../../../x")]
                   example_login _)).
  exists []. split; [constructor | vm_compute; reflexivity].
Defined.

(** ** The data-connection modes are kept *)

Create Rewrite HintDb mo.

Lemma modes_set_m_config v s : modes (set_m_config v s) = modes s.
Proof. reflexivity. Qed.
Lemma modes_set_m_commandSocket v s : modes (set_m_commandSocket v s) = modes s.
Proof. reflexivity. Qed.
Lemma modes_set_m_pasvSocket v s : modes (set_m_pasvSocket v s) = modes s.
Proof. reflexivity. Qed.
Lemma modes_set_m_dataSocket v s : modes (set_m_dataSocket v s) = modes s.
Proof. reflexivity. Qed.
Lemma modes_set_m_pendingCloseSocket v s : modes (set_m_pendingCloseSocket v s) = modes s.
Proof. reflexivity. Qed.
Lemma modes_set_m_commandBuffer v s : modes (set_m_commandBuffer v s) = modes s.
Proof. reflexivity. Qed.
Lemma modes_set_m_responseBuffer v s : modes (set_m_responseBuffer v s) = modes s.
Proof. reflexivity. Qed.
Lemma modes_set_m_xferBuffer v s : modes (set_m_xferBuffer v s) = modes s.
Proof. reflexivity. Qed.
Lemma modes_set_m_zStreamBuffer v s : modes (set_m_zStreamBuffer v s) = modes s.
Proof. reflexivity. Qed.
Lemma modes_set_m_zStream v s : modes (set_m_zStream v s) = modes s.
Proof. reflexivity. Qed.
Lemma modes_set_m_file v s : modes (set_m_file v s) = modes s.
Proof. reflexivity. Qed.
Lemma modes_set_m_dir v s : modes (set_m_dir v s) = modes s.
Proof. reflexivity. Qed.
Lemma modes_set_m_glob v s : modes (set_m_glob v s) = modes s.
Proof. reflexivity. Qed.
Lemma modes_set_m_state v s : modes (set_m_state v s) = modes s.
Proof. reflexivity. Qed.
Lemma modes_set_m_transfer v s : modes (set_m_transfer v s) = modes s.
Proof. reflexivity. Qed.
Lemma modes_set_m_xferDirMode v s : modes (set_m_xferDirMode v s) = modes s.
Proof. reflexivity. Qed.
Lemma modes_set_m_timestamp v s : modes (set_m_timestamp v s) = modes s.
Proof. reflexivity. Qed.
Lemma modes_set_m_cwd v s : modes (set_m_cwd v s) = modes s.
Proof. reflexivity. Qed.
Lemma modes_set_m_lwd v s : modes (set_m_lwd v s) = modes s.
Proof. reflexivity. Qed.
Lemma modes_set_m_rename v s : modes (set_m_rename v s) = modes s.
Proof. reflexivity. Qed.
Lemma modes_set_m_workItem v s : modes (set_m_workItem v s) = modes s.
Proof. reflexivity. Qed.
Lemma modes_set_m_portAddr v s : modes (set_m_portAddr v s) = modes s.
Proof. reflexivity. Qed.
Lemma modes_set_m_restartPosition v s : modes (set_m_restartPosition v s) = modes s.
Proof. reflexivity. Qed.
Lemma modes_set_m_fileSize v s : modes (set_m_fileSize v s) = modes s.
Proof. reflexivity. Qed.
Lemma modes_set_m_filePosition v s : modes (set_m_filePosition v s) = modes s.
Proof. reflexivity. Qed.
Lemma modes_set_m_zStreamPosition v s : modes (set_m_zStreamPosition v s) = modes s.
Proof. reflexivity. Qed.
Lemma modes_set_m_authorizedUser v s : modes (set_m_authorizedUser v s) = modes s.
Proof. reflexivity. Qed.
Lemma modes_set_m_authorizedPass v s : modes (set_m_authorizedPass v s) = modes s.
Proof. reflexivity. Qed.
Lemma modes_set_m_recv v s : modes (set_m_recv v s) = modes s.
Proof. reflexivity. Qed.
Lemma modes_set_m_send v s : modes (set_m_send v s) = modes s.
Proof. reflexivity. Qed.
Lemma modes_set_m_urgent v s : modes (set_m_urgent v s) = modes s.
Proof. reflexivity. Qed.
Lemma modes_set_m_deflate v s : modes (set_m_deflate v s) = modes s.
Proof. reflexivity. Qed.
Lemma modes_set_m_zFlushed v s : modes (set_m_zFlushed v s) = modes s.
Proof. reflexivity. Qed.
Lemma modes_set_m_eof v s : modes (set_m_eof v s) = modes s.
Proof. reflexivity. Qed.
Lemma modes_set_m_mlstType v s : modes (set_m_mlstType v s) = modes s.
Proof. reflexivity. Qed.
Lemma modes_set_m_mlstSize v s : modes (set_m_mlstSize v s) = modes s.
Proof. reflexivity. Qed.
Lemma modes_set_m_mlstModify v s : modes (set_m_mlstModify v s) = modes s.
Proof. reflexivity. Qed.
Lemma modes_set_m_mlstPerm v s : modes (set_m_mlstPerm v s) = modes s.
Proof. reflexivity. Qed.
Lemma modes_set_m_mlstUnixMode v s : modes (set_m_mlstUnixMode v s) = modes s.
Proof. reflexivity. Qed.
Lemma modes_set_m_devZero v s : modes (set_m_devZero v s) = modes s.
Proof. reflexivity. Qed.
Lemma modes_set_world v s : modes (set_world v s) = modes s.
Proof. reflexivity. Qed.

#[local] Hint Rewrite modes_set_m_config modes_set_m_commandSocket modes_set_m_pasvSocket modes_set_m_dataSocket modes_set_m_pendingCloseSocket modes_set_m_commandBuffer modes_set_m_responseBuffer modes_set_m_xferBuffer modes_set_m_zStreamBuffer modes_set_m_zStream modes_set_m_file modes_set_m_dir modes_set_m_glob modes_set_m_state modes_set_m_transfer modes_set_m_xferDirMode modes_set_m_timestamp modes_set_m_cwd modes_set_m_lwd modes_set_m_rename modes_set_m_workItem modes_set_m_portAddr modes_set_m_restartPosition modes_set_m_fileSize modes_set_m_filePosition modes_set_m_zStreamPosition modes_set_m_authorizedUser modes_set_m_authorizedPass modes_set_m_recv modes_set_m_send modes_set_m_urgent modes_set_m_deflate modes_set_m_zFlushed modes_set_m_eof modes_set_m_mlstType modes_set_m_mlstSize modes_set_m_mlstModify modes_set_m_mlstPerm modes_set_m_mlstUnixMode modes_set_m_devZero modes_set_world : mo.

Ltac mo_leaf :=
  unfold andThen; cbn [fst snd];
  repeat (progress autorewrite with mo);
  repeat match goal with
         | H : modes ?x = _ |- context [modes ?x] => rewrite H
         end;
  try reflexivity.

Ltac mo_walk := intros; walk mo_leaf.

Lemma modes_sys c s : modes (sys c s) = modes s.
Proof. reflexivity. Qed.

Lemma modes_assign_errno e s : modes (assign_errno e s) = modes s.
Proof. reflexivity. Qed.

Lemma modes_stamp s : modes (stamp s) = modes s.
Proof. reflexivity. Qed.

#[local] Hint Rewrite modes_sys modes_assign_errno modes_stamp : mo.

Lemma modes_closeCommand s : modes (closeCommand s) = modes s.
Proof. cbv delta [closeCommand closeSocket]; cbv beta. mo_walk. Qed.

Lemma modes_closePasv s : modes (closePasv s) = modes s.
Proof. cbv delta [closePasv]; cbv beta. mo_walk. Qed.

Lemma modes_closeData s : modes (closeData s) = modes s.
Proof. cbv delta [closeData closeSocket]; cbv beta. mo_walk. Qed.

Lemma modes_assign_dataSocket v s : modes (assign_dataSocket v s) = modes s.
Proof. cbv delta [assign_dataSocket]; cbv beta. mo_walk. Qed.

Lemma modes_file_close s : modes (file_close s) = modes s.
Proof. cbv delta [file_close]; cbv beta. mo_walk. Qed.

Lemma modes_dir_close s : modes (dir_close s) = modes s.
Proof. cbv delta [dir_close]; cbv beta. mo_walk. Qed.

Lemma modes_zStream_reset s : modes (zStream_reset s) = modes s.
Proof. cbv delta [zStream_reset]; cbv beta. mo_walk. Qed.

#[local] Hint Rewrite modes_closeCommand modes_closePasv modes_closeData
  modes_assign_dataSocket modes_file_close modes_dir_close
  modes_zStream_reset : mo.

Lemma modes_setState st cp cd s : modes (setState st cp cd s) = modes s.
Proof. cbv delta [setState]; cbv beta. mo_walk. Qed.

Lemma modes_response_write fd s : modes (response_write fd s) = modes s.
Proof. cbv delta [response_write]; cbv beta. mo_walk. Qed.

#[local] Hint Rewrite modes_setState modes_response_write : mo.

Lemma modes_sendResponse r s : modes (sendResponse r s) = modes s.
Proof. cbv delta [sendResponse]; cbv beta. mo_walk. Qed.

Lemma modes_sendResponse_view r s : modes (sendResponse_view r s) = modes s.
Proof. cbv delta [sendResponse_view]; cbv beta. mo_walk. Qed.

Lemma modes_writeResponse s : modes (writeResponse s) = modes s.
Proof. cbv delta [writeResponse]; cbv beta. mo_walk. Qed.

#[local] Hint Rewrite modes_sendResponse modes_sendResponse_view
  modes_writeResponse : mo.

Lemma modes_resolvePath p s : modes (snd (resolvePath p s)) = modes s.
Proof. cbv delta [resolvePath]; cbv beta. mo_walk. Qed.

Lemma modes_buildResolvedPath c a s :
  modes (snd (buildResolvedPath c a s)) = modes s.
Proof. unfold buildResolvedPath. apply modes_resolvePath. Qed.

Lemma modes_tzStat p s : modes (tzStat p s) = modes s.
Proof. reflexivity. Qed.

Lemma modes_tzLStat p s : modes (tzLStat p s) = modes s.
Proof. reflexivity. Qed.

#[local] Hint Rewrite modes_resolvePath modes_buildResolvedPath modes_tzStat
  modes_tzLStat : mo.

Lemma modes_changeDir a s : modes (snd (changeDir a s)) = modes s.
Proof. cbv delta [changeDir]; cbv beta. mo_walk. Qed.

Lemma modes_set_ioBuffer b s : modes (set_ioBuffer b s) = modes s.
Proof. cbv delta [set_ioBuffer]; cbv beta. mo_walk. Qed.

#[local] Hint Rewrite modes_changeDir modes_set_ioBuffer : mo.

Lemma modes_fillDirent st p t s : modes (snd (fillDirent st p t s)) = modes s.
Proof. cbv delta [fillDirent]; cbv beta. mo_walk. Qed.

#[local] Hint Rewrite modes_fillDirent : mo.

Lemma modes_fillDirent_path p t s : modes (snd (fillDirent_path p t s)) = modes s.
Proof. cbv delta [fillDirent_path]; cbv beta. mo_walk. Qed.



Lemma modes_xfer_reset s : modes (xfer_reset s) = modes s.
Proof. cbv delta [xfer_reset]; cbv beta. mo_walk. Qed.

Lemma modes_zStream_init k s : modes (zStream_init k s) = modes s.
Proof. cbv delta [zStream_init zStream_fresh]; cbv beta. mo_walk. Qed.

Lemma modes_file_open p m s : modes (file_open p m s) = modes s.
Proof. cbv delta [file_open]; cbv beta. mo_walk. Qed.

Lemma modes_file_seek p s : modes (file_seek p s) = modes s.
Proof. reflexivity. Qed.

Lemma modes_dir_open p s : modes (dir_open p s) = modes s.
Proof. cbv delta [dir_open]; cbv beta. mo_walk. Qed.

#[local] Hint Rewrite modes_fillDirent_path  
  modes_xfer_reset modes_zStream_init modes_file_open modes_file_seek
  modes_dir_open : mo.




Lemma modes_xferDir_fail c e s : modes (xferDir_fail c e s) = modes s.
Proof. cbv delta [xferDir_fail]; cbv beta. mo_walk. Qed.


#[local] Hint Rewrite  modes_xferDir_fail 
  : mo.



Lemma modes_glob_clear s : modes (glob_clear s) = modes s.
Proof. cbv delta [glob_clear]; cbv beta. mo_walk. Qed.

#[local] Hint Rewrite  modes_glob_clear : mo.

Lemma modes_glob_glob p s : modes (snd (glob_glob p s)) = modes s.
Proof. cbv delta [glob_glob]; cbv beta. mo_walk. Qed.

Lemma modes_not_logged_in s : modes (not_logged_in s) = modes s.
Proof. cbv delta [not_logged_in]; cbv beta. mo_walk. Qed.

#[local] Hint Rewrite modes_glob_glob modes_not_logged_in : mo.

Lemma modes_path_command a c f s : modes (path_command a c f s) = modes s.
Proof. cbv delta [path_command]; cbv beta. mo_walk. Qed.

Lemma modes_OPTS_mlst_loop fuel :
  forall p s, modes (OPTS_mlst_loop fuel p s) = modes s.
Proof.
  induction fuel as [|fuel IH]; intros p s; simpl; [reflexivity|].
  destruct (sempty p); [reflexivity|].
  destruct (after_semicolon p); [rewrite IH|]; mo_walk.
Qed.

Lemma modes_OPTS_level_loop fuel :
  forall p l s, modes (snd (OPTS_level_loop fuel p l s)) = modes s.
Proof.
  induction fuel as [|fuel IH]; intros p l s; simpl; [reflexivity|].
  destruct (sempty p); [reflexivity|].
  destruct (sempty (fst (nextWord p))); [reflexivity|].
  destruct (_ && _); [|mo_walk].
  destruct (_ || _); [mo_walk|].
  rewrite IH. reflexivity.
Qed.

#[local] Hint Rewrite modes_path_command modes_OPTS_mlst_loop
  modes_OPTS_level_loop : mo.

(** The handlers that write none of the modes. *)
Lemma modes_ABOR a s : modes (ABOR a s) = modes s.
Proof. cbv delta [ABOR]; cbv beta. mo_walk. Qed.
Lemma modes_ALLO a s : modes (ALLO a s) = modes s.
Proof. cbv delta [ALLO]; cbv beta. mo_walk. Qed.
Lemma modes_CDUP a s : modes (CDUP a s) = modes s.
Proof. cbv delta [CDUP]; cbv beta. mo_walk. Qed.
Lemma modes_CWD a s : modes (CWD a s) = modes s.
Proof. cbv delta [CWD]; cbv beta. mo_walk. Qed.
Lemma modes_DELE a s : modes (DELE a s) = modes s.
Proof. cbv delta [DELE]; cbv beta. mo_walk. Qed.
Lemma modes_FEAT a s : modes (FEAT a s) = modes s.
Proof. cbv delta [FEAT]; cbv beta. mo_walk. Qed.
Lemma modes_HELP a s : modes (HELP a s) = modes s.
Proof. cbv delta [HELP]; cbv beta. mo_walk. Qed.
Lemma modes_MDTM a s : modes (MDTM a s) = modes s.
Proof. cbv delta [MDTM]; cbv beta. mo_walk. Qed.
Lemma modes_MKD a s : modes (MKD a s) = modes s.
Proof. cbv delta [MKD]; cbv beta. mo_walk. Qed.
Lemma modes_MODE a s : modes (MODE a s) = modes s.
Proof. cbv delta [MODE]; cbv beta. mo_walk. Qed.
Lemma modes_NOOP a s : modes (NOOP a s) = modes s.
Proof. cbv delta [NOOP]; cbv beta. mo_walk. Qed.
Lemma modes_OPTS a s : modes (OPTS a s) = modes s.
Proof. cbv delta [OPTS]; cbv beta. mo_walk. Qed.
Lemma modes_PWD a s : modes (PWD a s) = modes s.
Proof. cbv delta [PWD]; cbv beta. mo_walk. Qed.
Lemma modes_QUIT a s : modes (QUIT a s) = modes s.
Proof. cbv delta [QUIT]; cbv beta. mo_walk. Qed.
Lemma modes_REST a s : modes (REST a s) = modes s.
Proof. cbv delta [REST]; cbv beta. mo_walk. Qed.
Lemma modes_RMD a s : modes (RMD a s) = modes s.
Proof. cbv delta [RMD]; cbv beta. mo_walk. Qed.
Lemma modes_SIZE a s : modes (SIZE a s) = modes s.
Proof. cbv delta [SIZE]; cbv beta. mo_walk. Qed.
Lemma modes_STOU a s : modes (STOU a s) = modes s.
Proof. cbv delta [STOU]; cbv beta. mo_walk. Qed.
Lemma modes_STRU a s : modes (STRU a s) = modes s.
Proof. cbv delta [STRU]; cbv beta. mo_walk. Qed.
Lemma modes_SYST a s : modes (SYST a s) = modes s.
Proof. cbv delta [SYST]; cbv beta. mo_walk. Qed.
Lemma modes_TYPE a s : modes (TYPE a s) = modes s.
Proof. cbv delta [TYPE]; cbv beta. mo_walk. Qed.

#[local] Hint Rewrite modes_ABOR modes_ALLO  modes_CDUP modes_CWD
  modes_DELE modes_FEAT modes_HELP  modes_MDTM modes_MKD
    modes_MODE  modes_NOOP modes_OPTS
    modes_PWD modes_QUIT modes_REST 
  modes_RMD modes_SIZE   modes_STOU modes_STRU
  modes_SYST modes_TYPE : mo.

Lemma modes_USER a s : modes (USER a s) = modes s.
Proof. cbv delta [USER]; cbv beta. mo_walk. Qed.
Lemma modes_PASS a s : modes (PASS a s) = modes s.
Proof. cbv delta [PASS]; cbv beta. mo_walk. Qed.
Lemma modes_SITE a s : modes (SITE a s) = modes s.
Proof. cbv delta [SITE]; cbv beta. mo_walk. Qed.
Lemma modes_RNFR a s : modes (RNFR a s) = modes s.
Proof. cbv delta [RNFR]; cbv beta. mo_walk. Qed.
Lemma modes_RNTO a s : modes (RNTO a s) = modes s.
Proof. cbv delta [RNTO]; cbv beta. mo_walk. Qed.

(** ** Passive and active mode exclude each other *)

Lemma both_modes_view s : both_modes s = fst (modes s) && snd (modes s).
Proof. reflexivity. Qed.

Lemma pasv_view s : m_pasv s = fst (modes s).
Proof. reflexivity. Qed.

Lemma port_view s : m_port s = snd (modes s).
Proof. reflexivity. Qed.

Lemma modes_set_m_pasv v s : modes (set_m_pasv v s) = (v, snd (modes s)).
Proof. reflexivity. Qed.

Lemma modes_set_m_port v s : modes (set_m_port v s) = (fst (modes s), v).
Proof. reflexivity. Qed.

#[local] Hint Rewrite modes_set_m_pasv modes_set_m_port : mo.

Lemma modes_invalid_argument s : modes (invalid_argument s) = modes s.
Proof. unfold invalid_argument. apply modes_sendResponse. Qed.

Lemma modes_invalid_command c a s : modes (invalid_command c a s) = modes s.
Proof. unfold invalid_command. apply modes_sendResponse_view. Qed.

#[local] Hint Rewrite modes_invalid_argument : mo.

(** Connecting to the peer leaves active mode. *)
Lemma modes_dataConnect s : modes (snd (dataConnect s)) = (fst (modes s), false).
Proof. cbv delta [dataConnect]; cbv beta. mo_walk. Qed.

(** Accepting the peer leaves passive mode, when the session was in it. *)
Lemma modes_dataAccept s :
  modes (snd (dataAccept s)) = (false, snd (modes s)).
Proof.
  cbv delta [dataAccept]; cbv beta.
  destruct (m_pasv s) eqn:E; cbn [negb]; cbv iota.
  - mo_walk.
  - cbn [snd]. mo_leaf. unfold modes. now rewrite E.
Qed.

#[local] Hint Rewrite modes_dataConnect modes_dataAccept : mo.

(** The leaf of a walk for a flag or for both: everything is read off
    [modes]. *)
Ltac flags_leaf pre :=
  unfold andThen; cbn [fst snd];
  pre;
  rewrite ?both_modes_view, ?pasv_view, ?port_view in *;
  repeat (progress autorewrite with mo);
  cbn [fst snd]; rewrite ?andb_false_r;
  try assumption; try reflexivity.

Ltac flags pre := intros; walkz ltac:(idtac; flags_leaf pre).

Lemma both_modes_xferFile_connect m p s :
  both_modes s = false -> both_modes (xferFile_connect m p s) = false.
Proof. cbv delta [xferFile_connect]; cbv beta. flags idtac. Qed.

Lemma both_modes_xferFile a m s :
  both_modes s = false -> both_modes (xferFile a m s) = false.
Proof.
  cbv delta [xferFile]; cbv beta iota.
  flags ltac:(try apply both_modes_xferFile_connect).
Qed.

Lemma both_modes_xferDir_connect m s :
  both_modes s = false -> both_modes (xferDir_connect m s) = false.
Proof. cbv delta [xferDir_connect]; cbv beta. flags idtac. Qed.

Lemma both_modes_xferDir_with retry a m w s :
  (forall a' s', both_modes s' = false -> both_modes (retry a' s') = false) ->
  both_modes s = false -> both_modes (xferDir_with retry a m w s) = false.
Proof.
  intros Hretry. cbv delta [xferDir_with]; cbv beta.
  flags ltac:(try apply Hretry; try apply both_modes_xferDir_connect).
Qed.

Lemma both_modes_xferDir a m w s :
  both_modes s = false -> both_modes (xferDir a m w s) = false.
Proof.
  unfold xferDir. apply both_modes_xferDir_with.
  intros a' s'. apply both_modes_xferDir_with. intros _ s'' H. exact H.
Qed.

(** The transfer commands. *)
Ltac transfer_pre :=
  lazymatch goal with
  | |- both_modes (xferFile _ _ _) = false => apply both_modes_xferFile
  | |- both_modes (xferDir _ _ _ _) = false => apply both_modes_xferDir
  | |- _ => idtac
  end.

Lemma both_modes_APPE a s : both_modes s = false -> both_modes (APPE a s) = false.
Proof.
  cbv delta [APPE]; cbv beta.
  flags ltac:(idtac; transfer_pre).
Qed.

Lemma both_modes_LIST a s : both_modes s = false -> both_modes (LIST a s) = false.
Proof.
  cbv delta [LIST]; cbv beta.
  flags ltac:(idtac; transfer_pre).
Qed.

Lemma both_modes_MLSD a s : both_modes s = false -> both_modes (MLSD a s) = false.
Proof.
  cbv delta [MLSD]; cbv beta.
  flags ltac:(idtac; transfer_pre).
Qed.

Lemma both_modes_MLST a s : both_modes s = false -> both_modes (MLST a s) = false.
Proof.
  cbv delta [MLST]; cbv beta.
  flags ltac:(idtac; transfer_pre).
Qed.

Lemma both_modes_NLST a s : both_modes s = false -> both_modes (NLST a s) = false.
Proof.
  cbv delta [NLST]; cbv beta.
  flags ltac:(idtac; transfer_pre).
Qed.

Lemma both_modes_RETR a s : both_modes s = false -> both_modes (RETR a s) = false.
Proof.
  cbv delta [RETR]; cbv beta.
  flags ltac:(idtac; transfer_pre).
Qed.

Lemma both_modes_STOR a s : both_modes s = false -> both_modes (STOR a s) = false.
Proof.
  cbv delta [STOR]; cbv beta.
  flags ltac:(idtac; transfer_pre).
Qed.

Lemma both_modes_STAT a s : both_modes s = false -> both_modes (STAT a s) = false.
Proof.
  cbv delta [STAT]; cbv beta.
  flags ltac:(idtac; transfer_pre).
Qed.

Lemma port_off s : m_port s = false -> both_modes s = false.
Proof. unfold both_modes. intros ->. apply andb_false_r. Qed.

Lemma pasv_off s : m_pasv s = false -> both_modes s = false.
Proof. unfold both_modes. intros ->. reflexivity. Qed.

(** One statement of a body is run and its result named. *)
Ltac skip_let :=
  lazymatch goal with
  | |- ?V (let x := ?v in @?body x) = ?rhs =>
    let x' := fresh "s" in
    change (V (body v) = rhs); cbv beta; generalize v; intros x'
  end.

(** [PASV] leaves both modes, then enters passive mode at most. *)
Lemma both_modes_PASV a s : both_modes s = false -> both_modes (PASV a s) = false.
Proof.
  intros H. cbv delta [PASV]; cbv beta.
  destruct (negb (authorized s)); [flags_leaf idtac|].
  clear H. skip_let. skip_let.
  apply port_off. flags idtac.
Qed.

(** [PORT] leaves both modes, then enters active mode at most. *)
Lemma both_modes_PORT a s : both_modes s = false -> both_modes (PORT a s) = false.
Proof.
  intros H. cbv delta [PORT]; cbv beta.
  destruct (negb (authorized s)); [flags_leaf idtac|].
  clear H. skip_let.
  apply pasv_off. flags idtac.
Qed.

(** Every handler of the table keeps the two modes apart. *)
Lemma handlers_exclusive :
  Forall (fun nh : string * Handler =>
            forall a s, both_modes s = false -> both_modes (snd nh a s) = false)
         handlers.
Proof.
  unfold handlers.
  repeat (constructor;
          [ cbn [snd];
            lazymatch goal with
            | |- forall a s, _ -> both_modes (?h a s) = false =>
              lazymatch h with
              | APPE => exact both_modes_APPE
              | LIST => exact both_modes_LIST
              | MLSD => exact both_modes_MLSD
              | MLST => exact both_modes_MLST
              | NLST => exact both_modes_NLST
              | RETR => exact both_modes_RETR
              | STOR => exact both_modes_STOR
              | STAT => exact both_modes_STAT
              | PASV => exact both_modes_PASV
              | PORT => exact both_modes_PORT
              | ABOR => intros a s H; rewrite both_modes_view, modes_ABOR; exact H
              | ALLO => intros a s H; rewrite both_modes_view, modes_ALLO; exact H
              | CDUP => intros a s H; rewrite both_modes_view, modes_CDUP; exact H
              | CWD => intros a s H; rewrite both_modes_view, modes_CWD; exact H
              | DELE => intros a s H; rewrite both_modes_view, modes_DELE; exact H
              | FEAT => intros a s H; rewrite both_modes_view, modes_FEAT; exact H
              | HELP => intros a s H; rewrite both_modes_view, modes_HELP; exact H
              | MDTM => intros a s H; rewrite both_modes_view, modes_MDTM; exact H
              | MKD => intros a s H; rewrite both_modes_view, modes_MKD; exact H
              | MODE => intros a s H; rewrite both_modes_view, modes_MODE; exact H
              | NOOP => intros a s H; rewrite both_modes_view, modes_NOOP; exact H
              | OPTS => intros a s H; rewrite both_modes_view, modes_OPTS; exact H
              | PASS => intros a s H; rewrite both_modes_view, modes_PASS; exact H
              | PWD => intros a s H; rewrite both_modes_view, modes_PWD; exact H
              | QUIT => intros a s H; rewrite both_modes_view, modes_QUIT; exact H
              | REST => intros a s H; rewrite both_modes_view, modes_REST; exact H
              | RMD => intros a s H; rewrite both_modes_view, modes_RMD; exact H
              | RNFR => intros a s H; rewrite both_modes_view, modes_RNFR; exact H
              | RNTO => intros a s H; rewrite both_modes_view, modes_RNTO; exact H
              | SITE => intros a s H; rewrite both_modes_view, modes_SITE; exact H
              | SIZE => intros a s H; rewrite both_modes_view, modes_SIZE; exact H
              | STOU => intros a s H; rewrite both_modes_view, modes_STOU; exact H
              | STRU => intros a s H; rewrite both_modes_view, modes_STRU; exact H
              | SYST => intros a s H; rewrite both_modes_view, modes_SYST; exact H
              | TYPE => intros a s H; rewrite both_modes_view, modes_TYPE; exact H
              | USER => intros a s H; rewrite both_modes_view, modes_USER; exact H
              end
            end | ]).
  constructor.
Qed.

Lemma dispatch_exclusive command args s :
  both_modes s = false -> both_modes (dispatch command args s) = false.
Proof.
  intros Hc. unfold dispatch. cbv zeta.
  destruct (find_handler command) as [[name handler]|] eqn:E.
  - destruct (find_handler_In _ _ _ E) as [Hin _].
    pose proof (proj1 (Forall_forall _ _) handlers_exclusive _ Hin) as Hh.
    cbn [snd] in Hh.
    destruct (negb (State_eqb (m_state (stamp s)) COMMAND)).
    + destruct (negb (allowed_during_transfer command)).
      * unfold andThen.
        rewrite both_modes_view, modes_closeCommand, modes_setState,
          modes_sendResponse, modes_stamp.
        exact Hc.
      * apply Hh. rewrite both_modes_view, modes_stamp. exact Hc.
    + apply Hh.
      destruct (negb _); rewrite both_modes_view, ?modes_set_m_rename, modes_stamp;
        exact Hc.
  - rewrite both_modes_view, modes_invalid_command. exact Hc.
Qed.

Lemma run_exclusive (commands : list (string * string)) (s : FtpSession) :
  both_modes s = false -> both_modes (run commands s) = false.
Proof.
  revert s. unfold run.
  induction commands as [|c commands IH]; intros s Hc; [exact Hc|].
  rewrite fold_left_cons. apply IH. apply dispatch_exclusive. exact Hc.
Qed.

(** A fresh session is in neither mode. *)
Lemma modes_new config fd cb rb xb w :
  modes (FtpSession_new config fd cb rb xb w) = (false, false).
Proof.
  unfold FtpSession_new. cbv zeta. rewrite modes_sendResponse, modes_sys.
  repeat match goal with
         | |- context [if ?b then _ else _] => destruct b
         end; reflexivity.
Qed.

(** X8.  Passive and active mode exclude each other: a session that is
    not in both modes at once, as a fresh session is not, is not in both
    after any sequence of commands, nor after the data connection is then
    accepted or made.  This is what the reactor asserts when it polls the
    listening socket. *)
Theorem passive_and_active_exclude (commands : list (string * string))
    (s : FtpSession) :
  both_modes s = false ->
  both_modes (run commands s) = false
  /\ both_modes (snd (dataAccept (run commands s))) = false
  /\ both_modes (snd (dataConnect (run commands s))) = false
  /\ (forall config fd cb rb xb w,
        both_modes (FtpSession_new config fd cb rb xb w) = false).
Proof.
  intros H. pose proof (run_exclusive commands s H) as R.
  split; [exact R|].
  split; [rewrite both_modes_view, modes_dataAccept; reflexivity|].
  split; [rewrite both_modes_view, modes_dataConnect; apply andb_false_r|].
  intros. rewrite both_modes_view, modes_new. reflexivity.
Qed.

(** Logged in on the example platform: active mode is asked for, then
    passive mode, which is the one the session ends in. *)
Lemma passive_and_active_exclude_witness :
  modes (run [("PORT", "10,0,0,2,4,1"); ("PASV", "")] example_login) = (true, false)
  /\ modes (run [("PORT", "10,0,0,2,4,1")] example_login) = (false, true)
  /\ both_modes (run [("PORT", "10,0,0,2,4,1"); ("PASV", "")] example_login) = false.
Proof.
  split; [vm_compute; reflexivity|].
  split; [vm_compute; reflexivity|].
  refine (proj1 (passive_and_active_exclude
                   [("PORT", "10,0,0,2,4,1"); ("PASV", "")] example_login _)).
  vm_compute. reflexivity.
Defined.

(** ** The command line and the parent directory *)

Lemma decodePath_no_nul (raw : string) :
  sexists (Ascii.eqb NUL) (decodePath raw) = false.
Proof.
  unfold decodePath. induction raw as [|c raw IH]; [reflexivity|].
  cbn [smap sexists]. rewrite IH, orb_false_r. unfold nul_to_lf.
  destruct (Ascii.eqb c NUL) eqn:E; [reflexivity|].
  now rewrite Ascii.eqb_sym.
Qed.

Lemma split_verb_spec (line : string) :
  sexists isspace (fst (split_verb line)) = false
  /\ ((sexists isspace line = false
       /\ fst (split_verb line) = line /\ snd (split_verb line) = "")
      \/ exists c, isspace c = true
                   /\ line = fst (split_verb line) +++ String c (snd (split_verb line))).
Proof.
  induction line as [|c line (IH1 & IH2)].
  - split; [reflexivity|]. left. repeat split.
  - cbn [split_verb]. destruct (isspace c) eqn:E; cbn [fst snd].
    + split; [reflexivity|]. right. exists c. split; [exact E | reflexivity].
    + split; [cbn [sexists]; now rewrite E|].
      destruct IH2 as [(H1 & H2 & H3)|(d & Hd & Hl)].
      * left. cbn [sexists]. rewrite E, H1, H2, H3. repeat split.
      * right. exists d. split; [exact Hd|].
        cbn [String.append]. now rewrite <- Hl.
Qed.

(** X9.  How a command line is cut: in the line [readCommand] decodes
    there is no NUL; the command is the text before its first white
    space and holds none, the arguments are everything after that one
    character; a line without white space is the command, with empty
    arguments. *)
Theorem command_line_split (raw : string) :
  sexists (Ascii.eqb NUL) (decodePath raw) = false
  /\ sexists isspace (fst (split_verb (decodePath raw))) = false
  /\ ((sexists isspace (decodePath raw) = false
       /\ fst (split_verb (decodePath raw)) = decodePath raw
       /\ snd (split_verb (decodePath raw)) = "")
      \/ exists c, isspace c = true
                   /\ decodePath raw
                      = fst (split_verb (decodePath raw))
                        +++ String c (snd (split_verb (decodePath raw)))).
Proof.
  split; [apply decodePath_no_nul|]. apply split_verb_spec.
Qed.

(** X10.  The parent directory: [dirName] cuts a path at its last slash,
    and gives the root when nothing is left before it; a path without a
    slash is its own parent, the empty path has the root. *)
Theorem dirName_parent :
  (forall a l, sexists (Ascii.eqb SLASH) l = false ->
               dirName (a +++ String SLASH l) = if sempty a then "/" else a)
  /\ (forall p, sexists (Ascii.eqb SLASH) p = false ->
                dirName p = if sempty p then "/" else p).
Proof.
  split.
  - intros a l Hl. unfold dirName. cbv zeta.
    rewrite (rfind_last SLASH a l Hl), substr_prefix. reflexivity.
  - intros p Hp. unfold dirName. cbv zeta.
    now rewrite (rfind_none SLASH p Hp).
Qed.

(** ** USER and PASS on any session *)

Lemma authorized_USER a s :
  authorized (USER a s)
  = (sempty (cfg_user (m_config s)) || String.eqb (cfg_user (m_config s)) a)
    && m_authorizedPass s.
Proof.
  pose proof (USER_latches a s) as L. unfold latches in L.
  unfold authorized. injection L as -> -> _ _ _ _ _ _. reflexivity.
Qed.

Lemma authorized_PASS a s :
  authorized (PASS a s)
  = m_authorizedUser s
    && (sempty (cfg_pass (m_config s)) || String.eqb (cfg_pass (m_config s)) a).
Proof.
  pose proof (PASS_latches a s) as L. unfold latches in L.
  unfold authorized. injection L as -> -> _ _ _ _ _ _.
  destruct (m_authorizedUser s); [|reflexivity].
  now rewrite andb_false_r.
Qed.

(** X11.  What USER and PASS make of any session, in terms of the
    configured name and password.  After USER the session is logged in
    exactly when the name is the configured one, or none is configured,
    and the password latch was up: USER never lowers that latch, so a
    session logged in stays so after the right USER and is logged out by
    a wrong one.  After PASS it is logged in exactly when the user latch
    was up and the password is the configured one, or none is configured.
    After USER followed by PASS the two arguments alone decide. *)
Theorem USER_and_PASS_decide_the_login (u p : string) (s : FtpSession) :
  authorized (USER u s)
  = (sempty (cfg_user (m_config s)) || String.eqb (cfg_user (m_config s)) u)
    && m_authorizedPass s
  /\ authorized (PASS p s)
     = m_authorizedUser s
       && (sempty (cfg_pass (m_config s)) || String.eqb (cfg_pass (m_config s)) p)
  /\ authorized (PASS p (USER u s))
     = (sempty (cfg_user (m_config s)) || String.eqb (cfg_user (m_config s)) u)
       && (sempty (cfg_pass (m_config s)) || String.eqb (cfg_pass (m_config s)) p).
Proof.
  split; [apply authorized_USER|]. split; [apply authorized_PASS|].
  rewrite authorized_PASS.
  pose proof (USER_latches u s) as L. unfold latches in L.
  injection L as -> _ _ -> _ _ _ _. reflexivity.
Qed.

(** ** PORT with a well-formed argument *)

Section PortAccept.




















End PortAccept.




(** ** Commands that ask for the login *)

(** A handler that asks for the login first: unfolded, the test decided,
    what is left is the refusal itself. *)
Ltac refuses H :=
  intros Ha; cbv beta delta [H path_command] zeta; unfold andThen;
  rewrite ?authorized_setState, Ha; reflexivity.

Lemma refuses_APPE a s :
  authorized s = false -> APPE a s = not_logged_in (setState COMMAND false false s).
Proof. refuses APPE. Qed.

Lemma refuses_CDUP a s :
  authorized s = false -> CDUP a s = not_logged_in (setState COMMAND false false s).
Proof. refuses CDUP. Qed.

Lemma refuses_CWD a s :
  authorized s = false -> CWD a s = not_logged_in (setState COMMAND false false s).
Proof. refuses CWD. Qed.

Lemma refuses_DELE a s :
  authorized s = false -> DELE a s = not_logged_in (setState COMMAND false false s).
Proof. refuses DELE. Qed.

Lemma refuses_LIST a s :
  authorized s = false -> LIST a s = not_logged_in (setState COMMAND false false s).
Proof. refuses LIST. Qed.

Lemma refuses_MDTM a s :
  authorized s = false -> MDTM a s = not_logged_in (setState COMMAND false false s).
Proof. refuses MDTM. Qed.

Lemma refuses_MKD a s :
  authorized s = false -> MKD a s = not_logged_in (setState COMMAND false false s).
Proof. refuses MKD. Qed.

Lemma refuses_MLSD a s :
  authorized s = false -> MLSD a s = not_logged_in (setState COMMAND false false s).
Proof. refuses MLSD. Qed.

Lemma refuses_MLST a s :
  authorized s = false -> MLST a s = not_logged_in (setState COMMAND false false s).
Proof. refuses MLST. Qed.

Lemma refuses_NLST a s :
  authorized s = false -> NLST a s = not_logged_in (setState COMMAND false false s).
Proof. refuses NLST. Qed.

Lemma refuses_PASV a s :
  authorized s = false -> PASV a s = not_logged_in (setState COMMAND false false s).
Proof. refuses PASV. Qed.

Lemma refuses_PORT a s :
  authorized s = false -> PORT a s = not_logged_in (setState COMMAND false false s).
Proof. refuses PORT. Qed.

Lemma refuses_REST a s :
  authorized s = false -> REST a s = not_logged_in (setState COMMAND false false s).
Proof. refuses REST. Qed.

Lemma refuses_RETR a s :
  authorized s = false -> RETR a s = not_logged_in (setState COMMAND false false s).
Proof. refuses RETR. Qed.

Lemma refuses_RMD a s :
  authorized s = false -> RMD a s = not_logged_in (setState COMMAND false false s).
Proof. refuses RMD. Qed.

Lemma refuses_RNFR a s :
  authorized s = false -> RNFR a s = not_logged_in (setState COMMAND false false s).
Proof. refuses RNFR. Qed.

Lemma refuses_RNTO a s :
  authorized s = false -> RNTO a s = not_logged_in (setState COMMAND false false s).
Proof. refuses RNTO. Qed.

Lemma refuses_SIZE a s :
  authorized s = false -> SIZE a s = not_logged_in (setState COMMAND false false s).
Proof. refuses SIZE. Qed.

Lemma refuses_STOR a s :
  authorized s = false -> STOR a s = not_logged_in (setState COMMAND false false s).
Proof. refuses STOR. Qed.

Lemma refuses_PWD a s : authorized s = false -> PWD a s = not_logged_in s.
Proof. refuses PWD. Qed.

(** Every handler of the table but the sixteen that work before the login
    is, on a session not logged in, the refusal. *)
Lemma handlers_refusing :
  Forall (fun nh : string * Handler =>
            works_before_login (fst nh) = false ->
            forall a s, authorized s = false ->
                        snd nh a s = not_logged_in (setState COMMAND false false s)
                        \/ snd nh a s = not_logged_in s)
         handlers.
Proof.
  unfold handlers.
  repeat (constructor;
          [ cbn [fst snd];
            lazymatch goal with
            | |- _ -> forall a s, _ -> ?h a s = _ \/ _ =>
              lazymatch h with
              | PWD => intros _ a s Ha; right; exact (refuses_PWD a s Ha)
              | APPE => intros _ a s Ha; left; exact (refuses_APPE a s Ha)
              | CDUP => intros _ a s Ha; left; exact (refuses_CDUP a s Ha)
              | CWD => intros _ a s Ha; left; exact (refuses_CWD a s Ha)
              | DELE => intros _ a s Ha; left; exact (refuses_DELE a s Ha)
              | LIST => intros _ a s Ha; left; exact (refuses_LIST a s Ha)
              | MDTM => intros _ a s Ha; left; exact (refuses_MDTM a s Ha)
              | MKD => intros _ a s Ha; left; exact (refuses_MKD a s Ha)
              | MLSD => intros _ a s Ha; left; exact (refuses_MLSD a s Ha)
              | MLST => intros _ a s Ha; left; exact (refuses_MLST a s Ha)
              | NLST => intros _ a s Ha; left; exact (refuses_NLST a s Ha)
              | PASV => intros _ a s Ha; left; exact (refuses_PASV a s Ha)
              | PORT => intros _ a s Ha; left; exact (refuses_PORT a s Ha)
              | REST => intros _ a s Ha; left; exact (refuses_REST a s Ha)
              | RETR => intros _ a s Ha; left; exact (refuses_RETR a s Ha)
              | RMD => intros _ a s Ha; left; exact (refuses_RMD a s Ha)
              | RNFR => intros _ a s Ha; left; exact (refuses_RNFR a s Ha)
              | RNTO => intros _ a s Ha; left; exact (refuses_RNTO a s Ha)
              | SIZE => intros _ a s Ha; left; exact (refuses_SIZE a s Ha)
              | STOR => intros _ a s Ha; left; exact (refuses_STOR a s Ha)
              | ABOR => intros W; vm_compute in W; discriminate W
              | ALLO => intros W; vm_compute in W; discriminate W
              | FEAT => intros W; vm_compute in W; discriminate W
              | HELP => intros W; vm_compute in W; discriminate W
              | MODE => intros W; vm_compute in W; discriminate W
              | NOOP => intros W; vm_compute in W; discriminate W
              | OPTS => intros W; vm_compute in W; discriminate W
              | PASS => intros W; vm_compute in W; discriminate W
              | QUIT => intros W; vm_compute in W; discriminate W
              | SITE => intros W; vm_compute in W; discriminate W
              | STAT => intros W; vm_compute in W; discriminate W
              | STOU => intros W; vm_compute in W; discriminate W
              | STRU => intros W; vm_compute in W; discriminate W
              | SYST => intros W; vm_compute in W; discriminate W
              | TYPE => intros W; vm_compute in W; discriminate W
              | USER => intros W; vm_compute in W; discriminate W
              end
            end | ]).
  constructor.
Qed.

(** The refusal, said on the command channel. *)
Lemma not_logged_in_spec fd s :
  authorized s = false ->
  m_commandSocket s = Some fd ->
  writable fd (w_oracle (world s)) ->
  String.length ("530 Not logged in" +++ CRLF) < room s ->
  command_output fd (not_logged_in s)
  = command_output fd s +++ "530 Not logged in" +++ CRLF
  /\ authorized (not_logged_in s) = false.
Proof.
  intros Ha Hfd Hw Hroom. unfold not_logged_in.
  destruct (reply_spec fd ("530 Not logged in" +++ CRLF) s)
    as (_ & _ & _ & O & _ & L); try assumption; [discriminate|].
  split; [exact O|]. now rewrite (authorized_latches _ _ L).
Qed.

Lemma not_logged_in_reset_spec fd s :
  authorized s = false ->
  m_commandSocket s = Some fd ->
  writable fd (w_oracle (world s)) ->
  String.length ("530 Not logged in" +++ CRLF) < room s ->
  command_output fd (not_logged_in (setState COMMAND false false s))
  = command_output fd s +++ "530 Not logged in" +++ CRLF
  /\ authorized (not_logged_in (setState COMMAND false false s)) = false.
Proof.
  intros Ha Hfd Hw Hroom.
  destruct (setState_spec fd COMMAND false false s)
    as (A & _ & S1 & S2 & S3 & S4 & _).
  forget (setState COMMAND false false s) s1.
  destruct (not_logged_in_spec fd s1) as (O & B).
  - congruence.
  - congruence.
  - rewrite S4. exact Hw.
  - rewrite S2. exact Hroom.
  - split; [rewrite O; now rewrite S3 | exact B].
Qed.

(** X13.  The login is asked for.  On a session that is not logged in
    and waits for a command, with a command channel that takes writes and
    has room for the reply, every command of the table but ABOR, ALLO,
    FEAT, HELP, MODE, NOOP, OPTS, PASS, QUIT, SITE, STAT, STOU, STRU,
    SYST, TYPE and USER is answered with 530 and nothing else, and the
    session stays logged out. *)
Theorem login_is_asked_for (command args name : string) (handler : Handler)
    (fd : Socket) (s : FtpSession) :
  find_handler command = Some (name, handler) ->
  works_before_login name = false ->
  authorized s = false ->
  m_state s = COMMAND ->
  m_commandSocket s = Some fd ->
  writable fd (w_oracle (world s)) ->
  String.length ("530 Not logged in" +++ CRLF) < room s ->
  command_output fd (dispatch command args s)
  = command_output fd s +++ "530 Not logged in" +++ CRLF
  /\ authorized (dispatch command args s) = false.
Proof.
  intros F W Ha Hst Hfd Hw Hroom. unfold dispatch. cbv zeta. rewrite F.
  rewrite (control_state _ _ (control_stamp s)), Hst. cbn [State_eqb negb].
  destruct (find_handler_In _ _ _ F) as [Hin _].
  pose proof (proj1 (Forall_forall _ _) handlers_refusing _ Hin W) as Hh.
  cbn [snd] in Hh.
  destruct (channel_fields fd s (stamp s) (channel_stamp fd s)) as (T1 & T2 & T3).
  assert (X : forall x,
             authorized x = false ->
             m_commandSocket x = m_commandSocket (stamp s) ->
             w_oracle (world x) = w_oracle (world (stamp s)) ->
             room x = room (stamp s) ->
             command_output fd x = command_output fd (stamp s) ->
             command_output fd (handler args x)
             = command_output fd s +++ "530 Not logged in" +++ CRLF
             /\ authorized (handler args x) = false).
  { intros x X1 X2 X3 X4 X5.
    assert (Hx : m_commandSocket x = Some fd) by congruence.
    assert (Hwx : writable fd (w_oracle (world x)))
      by (rewrite X3; exact Hw).
    assert (Hrx : String.length ("530 Not logged in" +++ CRLF) < room x)
      by (rewrite X4, T2; exact Hroom).
    destruct (Hh args x X1) as [E|E]; rewrite E.
    - destruct (not_logged_in_reset_spec fd x X1 Hx Hwx Hrx) as (O & B).
      split; [rewrite O; congruence | exact B].
    - destruct (not_logged_in_spec fd x X1 Hx Hwx Hrx) as (O & B).
      split; [rewrite O; congruence | exact B]. }
  destruct (negb (compare command "RNTO" =? 0)%Z); apply X; try reflexivity; exact Ha.
Qed.

(** A fresh session on the example platform asked for the working
    directory. *)
Lemma login_is_asked_for_witness :
  command_output 3 (dispatch "xpwd" "" example_session)
  = command_output 3 example_session +++ "530 Not logged in" +++ CRLF
  /\ authorized (dispatch "xpwd" "" example_session) = false.
Proof.
  apply (login_is_asked_for "xpwd" "" "XPWD" PWD 3 example_session);
    try (vm_compute; reflexivity).
  - apply example_writable.
  - vm_compute. lia.
Defined.

(** ** OPTS MLST *)

Section FactLoop.

Lemma after_semicolon_starts (p : string) :
  match after_semicolon p with
  | Some p' => after_semicolons p = p' :: after_semicolons p'
               /\ String.length p' < String.length p
  | None => after_semicolons p = []
  end.
Proof.
  induction p as [|c p IH]; [reflexivity|].
  cbn [after_semicolon after_semicolons String.length].
  destruct (Ascii.eqb c SEMI).
  - split; [reflexivity | lia].
  - destruct (after_semicolon p) as [p'|]; [|exact IH].
    destruct IH as [E L]. split; [exact E | lia].
Qed.

(** A fact name matches only a text that begins with its first letter, in
    either case. *)
Lemma fact_match_head (x : ascii) (name p : string) :
  fact_match (String x name) p = true ->
  exists y p', p = String y p' /\ tolower x = tolower y.
Proof.
  unfold fact_match. cbn [String.length strncasecmp_eq].
  destruct p as [|y p']; [discriminate|]. intros H.
  apply andb_true_iff in H as [H _]. apply Ascii.eqb_eq in H.
  now exists y, p'.
Qed.

Lemma fact_match_apart (x y : ascii) (n m p : string) :
  tolower x <> tolower y ->
  fact_match (String x n) p = true -> fact_match (String y m) p = false.
Proof.
  intros Hxy Hx. destruct (fact_match (String y m) p) eqn:Hy; [|reflexivity].
  destruct (fact_match_head _ _ _ Hx) as (a & p1 & -> & Ea).
  destruct (fact_match_head _ _ _ Hy) as (b & p2 & Eb & Eb').
  injection Eb as <- <-. congruence.
Qed.

(** One round of the loop adds the fact its text begins with. *)
Lemma fact_round (p : string) (s : FtpSession) :
  mlst_facts
    (if fact_match "Type;" p then set_m_mlstType true s
     else if fact_match "Size;" p then set_m_mlstSize true s
     else if fact_match "Modify;" p then set_m_mlstModify true s
     else if fact_match "Perm;" p then set_m_mlstPerm true s
     else if fact_match "UNIX.mode;" p then set_m_mlstUnixMode true s
     else s)
  = (m_mlstType s || fact_match "Type;" p, m_mlstSize s || fact_match "Size;" p,
     m_mlstModify s || fact_match "Modify;" p, m_mlstPerm s || fact_match "Perm;" p,
     m_mlstUnixMode s || fact_match "UNIX.mode;" p).
Proof.
  destruct (fact_match "Type;" p) eqn:T.
  { rewrite (fact_match_apart "T" "S" _ "ize;" p ltac:(discriminate) T),
      (fact_match_apart "T" "M" _ "odify;" p ltac:(discriminate) T),
      (fact_match_apart "T" "P" _ "erm;" p ltac:(discriminate) T),
      (fact_match_apart "T" "U" _ "NIX.mode;" p ltac:(discriminate) T).
    unfold mlst_facts. cbn. now rewrite !orb_false_r, orb_true_r. }
  destruct (fact_match "Size;" p) eqn:S.
  { rewrite (fact_match_apart "S" "M" _ "odify;" p ltac:(discriminate) S),
      (fact_match_apart "S" "P" _ "erm;" p ltac:(discriminate) S),
      (fact_match_apart "S" "U" _ "NIX.mode;" p ltac:(discriminate) S).
    unfold mlst_facts. cbn. now rewrite !orb_false_r, orb_true_r. }
  destruct (fact_match "Modify;" p) eqn:M.
  { rewrite (fact_match_apart "M" "P" _ "erm;" p ltac:(discriminate) M),
      (fact_match_apart "M" "U" _ "NIX.mode;" p ltac:(discriminate) M).
    unfold mlst_facts. cbn. now rewrite !orb_false_r, orb_true_r. }
  destruct (fact_match "Perm;" p) eqn:P.
  { rewrite (fact_match_apart "P" "U" _ "NIX.mode;" p ltac:(discriminate) P).
    unfold mlst_facts. cbn. now rewrite !orb_false_r, orb_true_r. }
  destruct (fact_match "UNIX.mode;" p) eqn:U;
    unfold mlst_facts; cbn; now rewrite !orb_false_r, ?orb_true_r.
Qed.

Lemma mlst_facts_inv s a b c d e :
  mlst_facts s = (a, b, c, d, e) ->
  m_mlstType s = a /\ m_mlstSize s = b /\ m_mlstModify s = c /\ m_mlstPerm s = d
  /\ m_mlstUnixMode s = e.
Proof. unfold mlst_facts. intros H. injection H as -> -> -> -> ->. repeat split. Qed.

(** The loop adds the facts asked for to the ones switched on. *)
Lemma OPTS_mlst_loop_facts (fuel : nat) (p : string) (s : FtpSession) :
  String.length p < fuel ->
  mlst_facts (OPTS_mlst_loop fuel p s)
  = (m_mlstType s || asks_for "Type;" p, m_mlstSize s || asks_for "Size;" p,
     m_mlstModify s || asks_for "Modify;" p, m_mlstPerm s || asks_for "Perm;" p,
     m_mlstUnixMode s || asks_for "UNIX.mode;" p).
Proof.
  unfold asks_for, fact_starts.
  revert p s. induction fuel as [|fuel IH]; intros p s Hlen; [lia|].
  cbn [OPTS_mlst_loop existsb].
  destruct p as [|c p0]; [cbn; now rewrite !orb_false_r|].
  cbn [sempty]. set (p := String c p0) in *.
  pose proof (fact_round p s) as R. cbv zeta.
  match goal with
  | R : mlst_facts ?t = _ |- _ =>
    destruct (mlst_facts_inv _ _ _ _ _ _ R) as (R1 & R2 & R3 & R4 & R5);
      forget t s1
  end.
  pose proof (after_semicolon_starts p) as A.
  destruct (after_semicolon p) as [p'|].
  - destruct A as [E L]. rewrite E. rewrite IH by lia. cbn [existsb].
    rewrite R1, R2, R3, R4, R5. now rewrite <- !orb_assoc.
  - rewrite A. cbn [existsb]. unfold mlst_facts.
    rewrite R1, R2, R3, R4, R5. now rewrite !orb_false_r.
Qed.

End FactLoop.

Lemma channel_OPTS_mlst_loop fd fuel :
  forall p s, channel fd (OPTS_mlst_loop fuel p s) = channel fd s.
Proof.
  induction fuel as [|fuel IH]; intros p s; simpl; [reflexivity|].
  destruct (sempty p); [reflexivity|].
  destruct (after_semicolon p); [rewrite IH|]; chan.
Qed.

Lemma mlst_facts_reset s : mlst_facts (setState COMMAND false false s) = mlst_facts s.
Proof.
  unfold setState. cbv beta iota zeta.
  unfold zStream_reset, dir_close, file_close, stamp.
  repeat match goal with
         | |- context [match ?b with _ => _ end] => destruct b
         end; reflexivity.
Qed.

(** A text that begins like [MLST ] is none of the UTF8 options. *)
Lemma compare_heads (y z : ascii) (rest name : string) :
  tolower y <> tolower z ->
  isCString (String z name) = false ->
  (compare (String y rest) (String z name) =? 0)%Z = false.
Proof.
  intros Hyz Hc. rewrite (compare_plain_r _ _ Hc).
  destruct (Z.eqb_spec (compare_loop (String y rest) (String z name)) 0) as [E|];
    [|reflexivity].
  apply compare_loop_zero in E. cbn [smap] in E. injection E as E _. contradiction.
Qed.

Lemma mlst_prefix_head (args : string) :
  strncasecmp_eq args "MLST " 5 = true ->
  exists y rest, args = String y rest /\ tolower y = "m"%char.
Proof.
  destruct args as [|y rest]; cbn [strncasecmp_eq]; [discriminate|].
  intros H. apply andb_true_iff in H as [H _]. apply Ascii.eqb_eq in H.
  exists y, rest. split; [reflexivity | exact H].
Qed.

(** X14.  OPTS MLST selects the facts of later MLSD and MLST lines.  Its
    argument, which holds no NUL, begins with [MLST ] in any letter case;
    in the text after that, the loop looks at the start and at what
    follows each semicolon.  A fact is switched on exactly when its name
    with the semicolon, in any letter case, stands at one of these places,
    and switched off otherwise; text that is no fact name is passed over.
    On a command channel that takes writes and has room for it, the reply
    is 200 with the names of the facts now on, in the order Type, Size,
    Modify, Perm, UNIX.mode. *)
Theorem OPTS_MLST_selects (args : string) (fd : Socket) (s : FtpSession) :
  strncasecmp_eq args "MLST " 5 = true ->
  sexists (Ascii.eqb NUL) args = false ->
  mlst_facts (OPTS args s)
  = (asks_for "Type;" (substr_from 5 args), asks_for "Size;" (substr_from 5 args),
     asks_for "Modify;" (substr_from 5 args), asks_for "Perm;" (substr_from 5 args),
     asks_for "UNIX.mode;" (substr_from 5 args))
  /\ (m_commandSocket s = Some fd ->
      writable fd (w_oracle (world s)) ->
      String.length
        ("200 MLST OPTS"
         +++ (if asks_for "Type;" (substr_from 5 args)
                 || asks_for "Size;" (substr_from 5 args)
                 || asks_for "Modify;" (substr_from 5 args)
                 || asks_for "Perm;" (substr_from 5 args)
                 || asks_for "UNIX.mode;" (substr_from 5 args) then " " else "")
         +++ fact_name (asks_for "Type;" (substr_from 5 args)) "Type;"
         +++ fact_name (asks_for "Size;" (substr_from 5 args)) "Size;"
         +++ fact_name (asks_for "Modify;" (substr_from 5 args)) "Modify;"
         +++ fact_name (asks_for "Perm;" (substr_from 5 args)) "Perm;"
         +++ fact_name (asks_for "UNIX.mode;" (substr_from 5 args)) "UNIX.mode;"
         +++ CRLF) < room s ->
      command_output fd (OPTS args s)
      = command_output fd s
        +++ "200 MLST OPTS"
        +++ (if asks_for "Type;" (substr_from 5 args)
                || asks_for "Size;" (substr_from 5 args)
                || asks_for "Modify;" (substr_from 5 args)
                || asks_for "Perm;" (substr_from 5 args)
                || asks_for "UNIX.mode;" (substr_from 5 args) then " " else "")
        +++ fact_name (asks_for "Type;" (substr_from 5 args)) "Type;"
        +++ fact_name (asks_for "Size;" (substr_from 5 args)) "Size;"
        +++ fact_name (asks_for "Modify;" (substr_from 5 args)) "Modify;"
        +++ fact_name (asks_for "Perm;" (substr_from 5 args)) "Perm;"
        +++ fact_name (asks_for "UNIX.mode;" (substr_from 5 args)) "UNIX.mode;"
        +++ CRLF).
Proof.
  intros Hp _.
  destruct (mlst_prefix_head args Hp) as (y & rest & Eargs & Hy).
  assert (U1 : (compare args "UTF8" =? 0)%Z = false)
    by (rewrite Eargs; apply compare_heads; [rewrite Hy; discriminate | reflexivity]).
  assert (U2 : (compare args "UTF8 ON" =? 0)%Z = false)
    by (rewrite Eargs; apply compare_heads; [rewrite Hy; discriminate | reflexivity]).
  assert (U3 : (compare args "UTF8 NLST" =? 0)%Z = false)
    by (rewrite Eargs; apply compare_heads; [rewrite Hy; discriminate | reflexivity]).
  clear Eargs Hy y rest.
  set (p := substr_from 5 args).
  cbv delta [OPTS]; cbv beta.
  destruct (setState_spec fd COMMAND false false s)
    as (_ & _ & S1 & S2 & S3 & S4 & _).
  forget (setState COMMAND false false s) s1. cbv zeta.
  rewrite U1, U2, U3, Hp. cbn [orb]. fold p.
  match goal with
  | |- context [OPTS_mlst_loop ?f p ?x] =>
    pose proof (OPTS_mlst_loop_facts f p x ltac:(cbn [String.length]; lia)) as F;
      destruct (channel_fields fd x (OPTS_mlst_loop f p x)
                  (channel_OPTS_mlst_loop fd f p x)) as (T1 & T2 & T3);
      pose proof (latches_oracle _ _ (latches_OPTS_mlst_loop f p x)) as T4;
      change (m_commandSocket x) with (m_commandSocket s1) in T1;
      change (room x) with (room s1) in T2;
      change (command_output fd x) with (command_output fd s1) in T3;
      change (w_oracle (world x)) with (w_oracle (world s1)) in T4;
      cbn [m_mlstType m_mlstSize m_mlstModify m_mlstPerm m_mlstUnixMode
           set_m_mlstType set_m_mlstSize set_m_mlstModify set_m_mlstPerm
           set_m_mlstUnixMode orb] in F;
      forget (OPTS_mlst_loop f p x) s2
  end.
  destruct (mlst_facts_inv _ _ _ _ _ _ F) as (F1 & F2 & F3 & F4 & F5).
  rewrite F1, F2, F3, F4, F5.
  split; [rewrite mlst_facts_sendResponse; exact F|].
  intros Hfd Hw Hroom.
  match goal with
  | |- context [sendResponse ?r s2] =>
    destruct (reply_spec fd r s2) as (_ & _ & _ & O & _)
  end.
  - congruence.
  - rewrite T4, S4. exact Hw.
  - discriminate.
  - rewrite T2, S2. exact Hroom.
  - rewrite O, T3, S3. reflexivity.
Qed.

(** Logged in on the example platform: two facts asked for, a text that is
    no fact, and a name without its semicolon. *)
Lemma OPTS_MLST_selects_witness :
  mlst_facts (OPTS "mlst type;PERM;foo;size" example_login)
  = (true, false, false, true, false)
  /\ command_output 3 (OPTS "mlst type;PERM;foo;size" example_login)
     = command_output 3 example_login +++ "200 MLST OPTS Type;Perm;" +++ CRLF.
Proof.
  destruct (OPTS_MLST_selects "mlst type;PERM;foo;size" 3 example_login) as (F & R).
  - vm_compute. reflexivity.
  - vm_compute. reflexivity.
  - split; [exact F|]. apply R.
    + vm_compute. reflexivity.
    + apply example_writable.
    + vm_compute. lia.
Defined.

(** ** A listing line fits the buffer *)

Section Fits.

Variable size : nat.

Lemma length_substr_prefix (n : nat) (s : string) :
  n <= String.length s -> String.length (substr 0 n s) = n.
Proof.
  unfold substr. revert n. induction s as [|c s IH]; intros [|n] H; cbn in *;
    try reflexivity; try lia.
  rewrite IH by lia. reflexivity.
Qed.

Lemma length_snprintf_bytes (avail : nat) (text : string) :
  String.length text <= avail ->
  String.length (snprintf_bytes avail text) = String.length text.
Proof.
  intros H. unfold snprintf_bytes.
  destruct (Nat.ltb_spec (String.length text) avail); [reflexivity|].
  destruct (Nat.eqb_spec avail 0); [cbn; lia|].
  rewrite length_append, length_substr_prefix by lia. cbn. lia.
Qed.

Lemma fits_put (c : ascii) (out : Filled) : fits size out -> fits size (put size c out).
Proof.
  destruct out as [e|o]; [exact (fun H => H)|]. cbn [fits put]. intros H.
  destruct (Nat.leb_spec size (String.length o)); [exact I|].
  cbn [fits]. rewrite length_append. cbn. lia.
Qed.

Lemma fits_put_if (b : bool) (c : ascii) (out : Filled) :
  fits size out -> fits size (put_if b size c out).
Proof. destruct b; [apply fits_put | exact (fun H => H)]. Qed.

Lemma fits_put_snprintf (text : string) (out : Filled) :
  fits size out -> fits size (put_snprintf size text out).
Proof.
  destruct out as [e|o]; [exact (fun H => H)|]. cbn [fits put_snprintf]. intros H.
  cbv zeta. destruct (Nat.ltb_spec (size - String.length o) (String.length text));
    [exact I|].
  cbn [fits]. rewrite length_append, length_snprintf_bytes by lia. lia.
Qed.

Lemma fits_put_modify (err mtime : Z) (out : Filled) :
  fits size out -> fits size (put_modify size err mtime out).
Proof.
  destruct out as [e|o]; [exact (fun H => H)|]. cbn [fits put_modify]. intros H.
  destruct (gmtime mtime) as [t|]; [|exact I]. cbv zeta. unfold strftime_rc.
  destruct (Nat.ltb_spec (String.length (strftime_modify t)) (size - String.length o)).
  - destruct (Nat.eqb_spec (String.length (strftime_modify t)) 0); [exact I|].
    cbn [fits]. rewrite length_append. lia.
  - exact I.
Qed.

Lemma fits_put_perm (mode : Z) (out : Filled) :
  fits size out -> fits size (put_perm size mode out).
Proof.
  destruct out as [e|o]; [exact (fun H => H)|]. cbn [fits]. intros H.
  unfold put_perm.
  destruct (Nat.ltb_spec (size - String.length o) (String.length "Perm=")); [exact I|].
  cbv zeta.
  repeat first [apply fits_put | apply fits_put_if].
  cbn [fits]. rewrite length_append. lia.
Qed.

Lemma fits_fill_facts (buf : IOBuffer) (s : FtpSession) (st_ : stat_t)
    (type_ : option string) :
  fits size (fill_facts size buf s st_ type_).
Proof.
  unfold fill_facts. cbv zeta.
  match goal with
  | |- fits size (match ?out with _ => _ end) =>
    assert (H : fits size out);
      [| destruct out as [e|o]; [exact I|];
         destruct (Ascii.eqb (byte_before o buf s) SPACE);
         [exact H | exact (fits_put SPACE (inr o) H)] ]
  end.
  repeat match goal with
         | |- fits size (if ?b then _ else _) => destruct b
         | |- fits size (put_snprintf _ _ _) => apply fits_put_snprintf
         | |- fits size (put_perm _ _ _) => apply fits_put_perm
         | |- fits size (put_modify _ _ _ _) => apply fits_put_modify
         | |- fits size (put_if _ _ _ _) => apply fits_put_if
         end;
    cbn; lia.
Qed.

Lemma fits_fill_list (s : FtpSession) (st_ : stat_t) :
  fits size (fill_list size s st_).
Proof.
  unfold fill_list. cbv zeta.
  match goal with
  | |- fits size (match put_snprintf size ?text ?out with _ => _ end) =>
    assert (H : fits size (put_snprintf size text out))
      by (apply fits_put_snprintf, fits_put_if; cbn; lia);
      destruct (put_snprintf size text out) as [e|o]; [exact I|]
  end.
  destruct (gmtime (st_mtime st_)) as [t|]; [|exact I].
  cbn [fits] in H.
  match goal with
  | |- context [strftime_rc ?m ?text] =>
    unfold strftime_rc; generalize text; intros text'
  end.
  destruct (Nat.ltb_spec (String.length text') (size - String.length o)).
  - destruct (Nat.ltb_spec (size - String.length o) (String.length text')); [exact I|].
    destruct (Nat.eqb_spec (String.length text') 0); cbn [fits]; [exact H|].
    rewrite length_append. lia.
  - destruct (Nat.ltb_spec (size - String.length o) 0); [exact I | exact H].
Qed.

End Fits.

(** X15.  A listing line fits the buffer.  When [fillDirent] stores a
    line, the line is no longer than the free area of the buffer it is
    stored in and ends with the path and CR LF; when it returns an error
    instead, the session is left as it was. *)
Theorem fillDirent_line_fits (s : FtpSession) (st_ : stat_t) (path_ : string)
    (type_ : option string) :
  match fillDirent_line s st_ path_ type_ with
  | inr line =>
    String.length line <= freeSize (ioBuffer s)
    /\ (exists head, line = head +++ path_ +++ CRLF)
    /\ fst (fillDirent st_ path_ type_ s) = 0%Z
  | inl e => fillDirent st_ path_ type_ s = (e, s)
  end.
Proof.
  unfold fillDirent. unfold fillDirent_line. cbv zeta.
  set (size := freeSize (ioBuffer s)).
  assert (H : fits size
                match m_xferDirMode s with
                | MLSD_mode | MLST_mode => fill_facts size (ioBuffer s) s st_ type_
                | NLST_mode => inr EmptyString
                | LIST_mode | STAT_mode => fill_list size s st_
                end).
  { destruct (m_xferDirMode s);
      first [apply fits_fill_facts | apply fits_fill_list | cbn; lia]. }
  destruct (match m_xferDirMode s with
            | MLSD_mode | MLST_mode => fill_facts size (ioBuffer s) s st_ type_
            | NLST_mode => inr EmptyString
            | LIST_mode | STAT_mode => fill_list size s st_
            end) as [e|o]; [reflexivity|].
  cbn [fits] in H.
  destruct (Nat.ltb_spec (size - String.length o) (String.length path_ + 2));
    [reflexivity|].
  split; [|split; [now exists o | reflexivity]].
  rewrite !length_append. cbn [String.length CRLF]. 
  change (String.length CRLF) with 2. lia.
Qed.

(** ** The commands that pass during a transfer *)

Lemma state_stamp s : m_state (stamp s) = m_state s.
Proof. exact (control_state _ _ (control_stamp s)). Qed.

Lemma control_NOOP a s : control (NOOP a s) = control s.
Proof. unfold NOOP. apply control_sendResponse. Qed.

Lemma control_PWD a s : control (PWD a s) = control s.
Proof.
  unfold PWD, not_logged_in.
  destruct (negb (authorized s)); [apply control_sendResponse|].
  apply control_sendResponse_view.
Qed.

Lemma control_QUIT a s : control (QUIT a s) = control s.
Proof. unfold QUIT, andThen. now rewrite control_closeCommand, control_sendResponse. Qed.

Lemma control_STAT_busy a s : m_state s <> COMMAND -> control (STAT a s) = control s.
Proof.
  intros H. unfold STAT. destruct (m_state s); [contradiction| |];
    apply control_sendResponse.
Qed.

(** X16.  A transfer is not disturbed by the commands that pass during
    it, ABOR apart: when NOOP, PWD, XPWD, STAT or QUIT, in any letter
    case, arrives in DATA_CONNECT or DATA_TRANSFER, the state, the passive
    and the data socket, the two modes, the directions, the restart
    position, the size and position of the file and the working directory
    are afterwards what they were. *)
Theorem transfer_undisturbed (command args : string) (s : FtpSession) :
  m_state s <> COMMAND ->
  allowed_during_transfer command = true ->
  compare command "ABOR" <> 0%Z ->
  control (dispatch command args s) = control s.
Proof.
  intros Hst Hal Hab. unfold dispatch. cbv zeta.
  assert (Hst' : m_state (stamp s) <> COMMAND) by (now rewrite state_stamp).
  assert (B : State_eqb (m_state (stamp s)) COMMAND = false)
    by (destruct (m_state (stamp s)); [contradiction | reflexivity | reflexivity]).
  pose proof Hal as Hal'. unfold allowed_during_transfer in Hal'.
  destruct (compare command "ABOR" =? 0)%Z eqn:E1; [apply Z.eqb_eq in E1; contradiction|].
  destruct (compare command "NOOP" =? 0)%Z eqn:E2.
  { apply Z.eqb_eq in E2. rewrite (find_handler_same _ _ E2 eq_refl), find_handler_NOOP.
    rewrite B, Hal. cbn [negb]. now rewrite control_NOOP, control_stamp. }
  destruct (compare command "PWD" =? 0)%Z eqn:E3.
  { apply Z.eqb_eq in E3. rewrite (find_handler_same _ _ E3 eq_refl), find_handler_PWD.
    rewrite B, Hal. cbn [negb]. now rewrite control_PWD, control_stamp. }
  destruct (compare command "QUIT" =? 0)%Z eqn:E4.
  { apply Z.eqb_eq in E4. rewrite (find_handler_same _ _ E4 eq_refl), find_handler_QUIT.
    rewrite B, Hal. cbn [negb]. now rewrite control_QUIT, control_stamp. }
  destruct (compare command "STAT" =? 0)%Z eqn:E5.
  { apply Z.eqb_eq in E5. rewrite (find_handler_same _ _ E5 eq_refl), find_handler_STAT.
    rewrite B, Hal. cbn [negb]. now rewrite (control_STAT_busy _ _ Hst'), control_stamp. }
  destruct (compare command "XPWD" =? 0)%Z eqn:E6.
  { apply Z.eqb_eq in E6. rewrite (find_handler_same _ _ E6 eq_refl), find_handler_XPWD.
    rewrite B, Hal. cbn [negb]. now rewrite control_PWD, control_stamp. }
  discriminate Hal'.
Qed.

(** The session that waits for its listing is asked for its status. *)
Lemma transfer_undisturbed_witness :
  m_state example_listing <> COMMAND
  /\ control (dispatch "stat" "" example_listing) = control example_listing.
Proof.
  split; [vm_compute; discriminate|].
  apply (transfer_undisturbed "stat" "" example_listing).
  - vm_compute. discriminate.
  - vm_compute. reflexivity.
  - vm_compute. discriminate.
Defined.

(** X17.  QUIT disconnects, and does nothing else: in any state, logged
    in or not, after QUIT in any letter case the session has no command
    socket, while the state, the sockets of the data connection, the two
    modes and the positions are what they were, so that a transfer under
    way goes on. *)
Theorem QUIT_disconnects (command args : string) (s : FtpSession) :
  compare command "QUIT" = 0%Z ->
  m_commandSocket (dispatch command args s) = None
  /\ control (dispatch command args s) = control s.
Proof.
  intros E. unfold dispatch. cbv zeta.
  rewrite (find_handler_same _ _ E eq_refl), find_handler_QUIT.
  assert (Hal : allowed_during_transfer command = true).
  { unfold allowed_during_transfer. apply Z.eqb_eq in E. rewrite E. cbn [negb].
    now rewrite !andb_false_r. }
  rewrite Hal. cbn [negb].
  destruct (negb (State_eqb (m_state (stamp s)) COMMAND)).
  - split; [apply m_commandSocket_closeCommand|].
    now rewrite control_QUIT, control_stamp.
  - split; [apply m_commandSocket_closeCommand|].
    rewrite control_QUIT.
    destruct (negb (compare command "RNTO" =? 0)%Z);
      now rewrite ?control_set_m_rename, control_stamp.
Qed.

(** Logged in on the example platform. *)
Lemma QUIT_disconnects_witness :
  m_commandSocket example_login = Some 3
  /\ m_commandSocket (dispatch "quit" "" example_login) = None
  /\ control (dispatch "quit" "" example_login) = control example_login.
Proof.
  split; [vm_compute; reflexivity|].
  apply (QUIT_disconnects "quit" "" example_login).
  vm_compute. reflexivity.
Defined.

(** ** Resolving a resolved path *)

Section Idempotent.

Lemma find_skip (c : ascii) (pre s : string) (pos : nat) :
  find c (pre +++ s) (String.length pre + pos)
  = option_map (Nat.add (String.length pre)) (find c s pos).
Proof.
  induction pre as [|a pre IH]; cbn [String.append String.length Nat.add find].
  - now destruct (find c s pos).
  - rewrite IH. now destruct (find c s pos).
Qed.

Lemma find_skip0 (c : ascii) (pre s : string) :
  find c (pre +++ s) (String.length pre)
  = option_map (Nat.add (String.length pre)) (find c s 0).
Proof. rewrite <- (Nat.add_0_r (String.length pre)) at 1. apply find_skip. Qed.

Lemma find_first (c : ascii) (w rest : string) :
  sexists (Ascii.eqb c) w = false ->
  find c (w +++ String c rest) 0 = Some (String.length w).
Proof.
  induction w as [|a w IH]; cbn [sexists String.append find String.length]; intros H.
  - now rewrite Ascii.eqb_refl.
  - apply orb_false_iff in H as [Ha Hw]. rewrite Ascii.eqb_sym, Ha.
    now rewrite (IH Hw).
Qed.

Lemma find_none0 (c : ascii) (w : string) :
  sexists (Ascii.eqb c) w = false -> find c w 0 = None.
Proof.
  induction w as [|a w IH]; cbn [sexists find]; intros H; [reflexivity|].
  apply orb_false_iff in H as [Ha Hw]. rewrite Ascii.eqb_sym, Ha.
  now rewrite (IH Hw).
Qed.

Lemma substr_mid (pre w rest : string) :
  substr (String.length pre) (String.length w) (pre +++ w +++ rest) = w.
Proof.
  induction pre as [|a pre IH]; cbn [String.length String.append].
  - apply substr_prefix.
  - exact IH.
Qed.

Lemma substr_from_append (pre w : string) : substr_from (String.length pre) (pre +++ w) = w.
Proof.
  induction pre as [|a pre IH]; cbn [String.length String.append substr_from].
  - now destruct w.
  - exact IH.
Qed.

(** The splitting loop on components joined by single slashes gives the
    components back. *)
Lemma split_loop_joined (cs : list string) :
  Forall component cs ->
  forall fuel pre comps,
    String.length (joined cs) < fuel ->
    (let r := split_loop fuel (pre +++ joined cs) (String.length pre) comps in
     if fst r =? String.length (pre +++ joined cs) then snd r
     else snd r ++ [substr_from (fst r) (pre +++ joined cs)])
    = comps ++ cs.
Proof.
  induction 1 as [|c cs [Hne Hc] Hcs IH]; intros fuel pre comps Hf.
  - destruct fuel as [|fuel]; [lia|]. cbn [joined split_loop].
    rewrite find_skip0. cbn [find option_map]. cbv zeta.
    cbn [fst snd]. rewrite append_nil_r, Nat.eqb_refl. now rewrite app_nil_r.
  - destruct cs as [|d cs].
    + destruct fuel as [|fuel]; [lia|]. cbn [joined split_loop].
      rewrite find_skip0, (find_none0 _ _ Hc). cbn [option_map]. cbv zeta. cbn [fst snd].
      rewrite length_append.
      destruct (Nat.eqb_spec (String.length pre) (String.length pre + String.length c))
        as [E|_].
      * destruct c; [contradiction | cbn in E; lia].
      * now rewrite substr_from_append.
    + destruct fuel as [|fuel]; [lia|].
      change (joined (c :: d :: cs)) with (c +++ "/" +++ joined (d :: cs)) in *.
      cbn [split_loop].
      rewrite find_skip0.
      change (c +++ "/" +++ joined (d :: cs)) with (c +++ String SLASH (joined (d :: cs))).
      rewrite (find_first _ _ _ Hc). cbn [option_map].
      destruct (Nat.eqb_spec (String.length pre + String.length c) (String.length pre))
        as [E|_]; [destruct c; [contradiction | cbn in E; lia]|].
      replace (String.length pre + String.length c - String.length pre)
        with (String.length c) by lia.
      change (c +++ String SLASH (joined (d :: cs)))
        with (c +++ "/" +++ joined (d :: cs)).
      rewrite substr_mid.
      replace (pre +++ c +++ "/" +++ joined (d :: cs))
        with ((pre +++ c +++ "/") +++ joined (d :: cs))
        by (now rewrite !append_assoc).
      replace (String.length pre + String.length c + 1)
        with (String.length (pre +++ c +++ "/"))
        by (rewrite !length_append; cbn; lia).
      rewrite !length_append in Hf. cbn [String.length] in Hf.
      pose proof (IH fuel (pre +++ c +++ "/") (comps ++ [c]) ltac:(lia)) as R.
      cbv zeta in R |- *. rewrite R. now rewrite <- app_assoc.
Qed.

Lemma split_components_joined (cs : list string) :
  Forall component cs -> split_components ("/" +++ joined cs) = cs.
Proof.
  intros H. unfold split_components.
  pose proof (split_loop_joined cs H (String.length ("/" +++ joined cs)) "/" []
                ltac:(cbn; lia)) as L.
  cbv zeta in L. cbn [String.length app] in L.
  change (String.length "/") with 1 in L.
  destruct (split_loop (String.length ("/" +++ joined cs)) ("/" +++ joined cs) 1 [])
    as [pos comps].
  exact L.
Qed.

Lemma collapse_plain (cs : list string) :
  Forall plain_component cs -> forall done, collapse done cs = done ++ cs.
Proof.
  induction 1 as [|c cs (_ & H1 & H2) _ IH]; intros done; cbn [collapse].
  - now rewrite app_nil_r.
  - apply String.eqb_neq in H1, H2. rewrite H1, H2, IH. now rewrite <- app_assoc.
Qed.

Lemma plain_is_component (cs : list string) :
  Forall plain_component cs -> Forall component cs.
Proof. apply Forall_impl. now intros c [H _]. Qed.

Lemma canonical_fixed (q : string) : canonical_path q -> resolvePath_lexical q = q.
Proof.
  intros (cs & Hcs & ->).
  change (String SLASH (joined cs)) with ("/" +++ joined cs).
  rewrite resolvePath_lexical_joined,
    (split_components_joined cs (plain_is_component cs Hcs)),
    (collapse_plain cs Hcs []).
  reflexivity.
Qed.

Lemma resolvePath_lexical_canonical (p : string) :
  begins_with_slash p = true -> canonical_path (resolvePath_lexical p).
Proof.
  intros H. rewrite resolvePath_lexical_joined.
  exists (collapse [] (split_components p)). split; [|reflexivity].
  apply collapse_spec; [constructor | now apply split_components_spec].
Qed.

End Idempotent.

(** X18.  Resolving a resolved path changes nothing.  What [resolvePath]
    makes of an absolute path, once the parent directory was accepted, is
    a slash followed by components that are neither empty nor [.] nor
    [..], with one slash between two; every path of that form is resolved
    to itself, so resolving twice gives what resolving once gives. *)
Theorem resolvePath_idempotent (p : string) :
  begins_with_slash p = true ->
  canonical_path (resolvePath_lexical p)
  /\ resolvePath_lexical (resolvePath_lexical p) = resolvePath_lexical p
  /\ (forall q, canonical_path q -> resolvePath_lexical q = q).
Proof.
  intros H. pose proof (resolvePath_lexical_canonical p H) as C.
  split; [exact C|]. split; [exact (canonical_fixed _ C) | exact canonical_fixed].
Qed.

Lemma resolvePath_idempotent_witness :
  resolvePath_lexical "/a/./b//../c/" = "/a/c"
  /\ resolvePath_lexical (resolvePath_lexical "/a/./b//../c/")
     = resolvePath_lexical "/a/./b//../c/".
Proof.
  split; [vm_compute; reflexivity|].
  refine (proj1 (proj2 (resolvePath_idempotent "/a/./b//../c/" _))).
  reflexivity.
Defined.

(** ** The MLSD listing *)

Lemma listing_inv s a b c d e f g h i j k l m :
  listing s = (a, b, c, d, e, f, g, h, i, j, k, l, m) ->
  m_state s = a /\ m_xferDirMode s = b /\ m_deflate s = c /\ m_zFlushed s = d
  /\ m_dir s = e /\ m_eof s = f /\ m_xferBuffer s = g /\ m_zStreamBuffer s = h
  /\ m_dataSocket s = i /\ mlst_facts s = j /\ m_pasv s = k /\ m_port s = l
  /\ m_lwd s = m.
Proof. unfold listing. intros H. inversion H. repeat split. Qed.

(** Waiting for the data connection keeps the listing as it is set up. *)
Lemma listing_setState_connect s :
  listing (setState DATA_CONNECT false true s)
  = (DATA_CONNECT, m_xferDirMode s, m_deflate s, m_zFlushed s, m_dir s, m_eof s,
     m_xferBuffer s, m_zStreamBuffer s, None, mlst_facts s, m_pasv s, m_port s,
     m_lwd s).
Proof.
  unfold setState. cbv zeta iota. unfold closeData, closeSocket. cbv zeta.
  destruct (m_dataSocket (stamp (set_m_state DATA_CONNECT s))) eqn:E;
    [destruct (use_count _ _ =? 1)|];
    unfold listing; cbn in E |- *; rewrite ?E; reflexivity.
Qed.

(** In passive mode the listing is connected later, by the reactor. *)
Lemma listing_xferDir_connect s :
  m_pasv s = true -> m_port s = false ->
  listing (xferDir_connect MLSD_mode s)
  = (DATA_CONNECT, m_xferDirMode s, m_deflate s, m_zFlushed s, m_dir s, m_eof s,
     m_xferBuffer s, m_zStreamBuffer s, None, mlst_facts s, true, false, m_lwd s).
Proof.
  intros Hpv Hpt. cbv delta [xferDir_connect]; cbv beta iota.
  rewrite Hpv, Hpt. cbn [negb andb].
  pose proof (listing_setState_connect s) as L.
  rewrite Hpv, Hpt in L.
  forget (setState DATA_CONNECT false true s) s1. cbv zeta.
  destruct (listing_inv _ _ _ _ _ _ _ _ _ _ _ _ _ _ L)
    as (L1 & L2 & L3 & L4 & L5 & L6 & L7 & L8 & L9 & L10 & L11 & L12 & L13).
  change (m_port (set_m_send true s1)) with (m_port s1). rewrite L12.
  cbn [fst snd negb].
  change (listing (set_m_send true s1)) with (listing s1). exact L.
Qed.

(** What [fillDirent] stores in stream mode. *)
Lemma fillDirent_stores u st p ty line :
  fillDirent_line u st p ty = inr line ->
  m_deflate u = false ->
  fst (fillDirent st p ty u) = 0%Z
  /\ world (snd (fillDirent st p ty u)) = world u
  /\ listing (snd (fillDirent st p ty u))
     = (m_state u, m_xferDirMode u, m_deflate u, m_zFlushed u, m_dir u, m_eof u,
        markUsed line (m_xferBuffer u), m_zStreamBuffer u, m_dataSocket u,
        mlst_facts u, m_pasv u, m_port u, m_lwd u)
  /\ bystanders (snd (fillDirent st p ty u)) = bystanders u.
Proof.
  intros H Hd. unfold fillDirent. rewrite H. unfold set_ioBuffer, ioBuffer.
  rewrite Hd. cbv zeta. repeat split.
  unfold listing. cbn. now rewrite Hd.
Qed.

(** A line ends with CR LF, so it is not empty. *)
Lemma sempty_append a b : sempty (a +++ b) = sempty a && sempty b.
Proof. destruct a; reflexivity. Qed.

Lemma fillDirent_line_not_empty u st p ty line :
  fillDirent_line u st p ty = inr line -> sempty line = false.
Proof.
  unfold fillDirent_line. cbv zeta.
  destruct (match m_xferDirMode u with
            | MLSD_mode | MLST_mode => _ | NLST_mode => _ | _ => _ end) as [e|o];
    [discriminate|].
  destruct (_ <? _); [discriminate|].
  intros H. injection H as <-.
  rewrite !sempty_append. cbn. now rewrite !andb_false_r.
Qed.

Lemma dir_open_opened p s :
  dir_open_ok p s = true -> dir_open p s = set_m_dir true (sys (DirOpen p) s).
Proof. intros H. unfold dir_open. cbv zeta. now rewrite H. Qed.

(** What [fillDirent (path_, type_)] stores in stream mode, where the
    entry is found. *)
Lemma fillDirent_path_stores u st p ty line :
  stats u p st ->
  fillDirent_line (tzStat (c_str p) u) st (encodePath p false) ty = inr line ->
  m_deflate u = false ->
  fst (fillDirent_path p ty u) = 0%Z
  /\ w_oracle (world (snd (fillDirent_path p ty u))) = w_oracle (world u)
  /\ listing (snd (fillDirent_path p ty u))
     = (m_state u, m_xferDirMode u, m_deflate u, m_zFlushed u, m_dir u, m_eof u,
        markUsed line (m_xferBuffer u), m_zStreamBuffer u, m_dataSocket u,
        mlst_facts u, m_pasv u, m_port u, m_lwd u).
Proof.
  intros Hst H Hd. unfold fillDirent_path. cbv zeta.
  unfold tzStat_rc, tzStat_st, answer, ask.
  destruct (Hst (w_trace (world u))) as [-> ->].
  change (negb (0 =? 0)%Z) with false. cbv iota.
  destruct (fillDirent_stores (tzStat (c_str p) u) st (encodePath p false) ty line H Hd)
    as (F1 & F2 & F3 & _).
  split; [exact F1|]. split; [now rewrite F2|exact F3].
Qed.

(** MLSD without an argument, in stream and passive mode with the fact
    Type on, where the working directory opens and is found: the line of
    the directory itself, with the type [cdir], is stored in the emptied
    transfer buffer and the session waits for the data connection. *)
Lemma xferDir_MLSD_start (t : FtpSession) (st : stat_t) (line : string) :
  m_deflate t = false ->
  m_mlstType t = true ->
  m_pasv t = true ->
  m_port t = false ->
  opens_directory t (m_cwd t) ->
  stats t (m_cwd t) st ->
  MLSD_line t st (encodePath (m_cwd t) false) (Some "cdir") line ->
  listing (xferDir "" MLSD_mode false t)
  = (DATA_CONNECT, MLSD_mode, false, false, true, false,
     markUsed line (buf_clear (m_xferBuffer t)), buf_clear (m_zStreamBuffer t),
     None, mlst_facts t, true, false, m_cwd t).
Proof.
  intros Hd Hty Hpv Hpt Hop Hst Hline.
  unfold xferDir.
  generalize (fun a => xferDir_with (fun _ s => s) a MLSD_mode false). intros retry.
  cbv delta [xferDir_with]; cbv beta.
  change (0 <? String.length "") with false. cbv iota.
  do 8 inline.
  lazymatch goal with
  | |- _ (let y := ?v in _) = _ =>
    assert (L : listing v
                = (m_state t, MLSD_mode, m_deflate t, false, m_dir t, false,
                   buf_clear (m_xferBuffer t), buf_clear (m_zStreamBuffer t),
                   m_dataSocket t, mlst_facts t, m_pasv t, m_port t, m_lwd t))
      by reflexivity;
    assert (O : w_oracle (world v) = w_oracle (world t)) by reflexivity;
    assert (C : m_cwd v = m_cwd t) by reflexivity
  end.
  rewrite Hd, Hpv, Hpt in L.
  into s1.
  destruct (listing_inv _ _ _ _ _ _ _ _ _ _ _ _ _ _ L) as (_ & _ & D1 & _).
  rewrite D1. cbv iota. inline. inline. inline.
  change (negb (Z_OK =? Z_OK)%Z) with false. cbv iota.
  assert (L2 : listing (set_m_transfer (Some xfer_list) s1)
               = (m_state t, MLSD_mode, false, false, m_dir t, false,
                  buf_clear (m_xferBuffer t), buf_clear (m_zStreamBuffer t),
                  m_dataSocket t, mlst_facts t, true, false, m_lwd t)) by exact L.
  assert (O2 : w_oracle (world (set_m_transfer (Some xfer_list) s1))
               = w_oracle (world t)) by exact O.
  assert (C2 : m_cwd (set_m_transfer (Some xfer_list) s1) = m_cwd t) by exact C.
  clear L O C D1. into s2.
  rewrite C2.
  assert (F : dir_open_ok (c_str (m_cwd t)) s2 = true).
  { unfold dir_open_ok, answer, ask. rewrite O2. apply Hop. }
  rewrite F. inline. rewrite (dir_open_opened _ _ F).
  assert (L3 : listing (set_m_dir true (sys (DirOpen (c_str (m_cwd t))) s2))
               = (m_state t, MLSD_mode, false, false, true, false,
                  buf_clear (m_xferBuffer t), buf_clear (m_zStreamBuffer t),
                  m_dataSocket t, mlst_facts t, true, false, m_lwd t)).
  { destruct (listing_inv _ _ _ _ _ _ _ _ _ _ _ _ _ _ L2)
      as (A1 & A2 & A3 & A4 & A5 & A6 & A7 & A8 & A9 & A10 & A11 & A12 & A13).
    unfold listing.
    change (mlst_facts (set_m_dir true (sys (DirOpen (c_str (m_cwd t))) s2)))
      with (mlst_facts s2).
    cbn [m_state m_xferDirMode m_deflate m_zFlushed m_dir m_eof m_xferBuffer
         m_zStreamBuffer m_dataSocket m_pasv m_port m_lwd set_m_dir sys set_world].
    now rewrite A1, A2, A3, A4, A6, A7, A8, A9, A10, A11, A12, A13. }
  assert (O3 : w_oracle (world (set_m_dir true (sys (DirOpen (c_str (m_cwd t))) s2)))
               = w_oracle (world t)) by exact O2.
  assert (C3 : m_cwd (set_m_dir true (sys (DirOpen (c_str (m_cwd t))) s2)) = m_cwd t)
    by exact C2.
  clear L2 O2 C2 F. into s3.
  change (negb true) with false. cbv iota. rewrite C3.
  destruct (listing_inv _ _ _ _ _ _ _ _ _ _ _ _ _ _ L3)
    as (A1 & A2 & A3 & A4 & A5 & A6 & A7 & A8 & A9 & A10 & A11 & A12 & A13).
  assert (L4 : listing (set_m_lwd (m_cwd t) s3)
               = (m_state t, MLSD_mode, false, false, true, false,
                  buf_clear (m_xferBuffer t), buf_clear (m_zStreamBuffer t),
                  m_dataSocket t, mlst_facts t, true, false, m_cwd t)).
  { unfold listing.
    change (mlst_facts (set_m_lwd (m_cwd t) s3)) with (mlst_facts s3).
    cbn [m_state m_xferDirMode m_deflate m_zFlushed m_dir m_eof m_xferBuffer
         m_zStreamBuffer m_dataSocket m_pasv m_port m_lwd set_m_lwd].
    now rewrite A1, A2, A3, A4, A5, A6, A7, A8, A9, A10, A11, A12. }
  assert (O4 : w_oracle (world (set_m_lwd (m_cwd t) s3)) = w_oracle (world t))
    by exact O3.
  clear L3 O3 C3 A1 A2 A3 A4 A5 A6 A7 A8 A9 A10 A11 A12 A13. into s4.
  destruct (listing_inv _ _ _ _ _ _ _ _ _ _ _ _ _ _ L4)
    as (A1 & A2 & A3 & A4 & A5 & A6 & A7 & A8 & A9 & A10 & A11 & A12 & A13).
  assert (Ty : m_mlstType s4 = true).
  { unfold mlst_facts in A10. injection A10. intros _ _ _ _ E. now rewrite E. }
  rewrite Ty, A13.
  destruct (fillDirent_path_stores s4 st (m_cwd t) (Some "cdir") line)
    as (F1 & F2 & F3).
  { unfold stats. rewrite O4. exact Hst. }
  { apply Hline; assumption. }
  { exact A3. }
  rewrite A1, A2, A3, A4, A5, A6, A7, A8, A9, A10, A11, A12, A13 in F3.
  clear L4 O4 A1 A2 A3 A4 A5 A6 A7 A8 A9 A10 A11 A12 A13 Ty F2.
  into f. rewrite F1. change (negb (0 =? 0)%Z) with false. cbv iota.
  destruct (listing_inv _ _ _ _ _ _ _ _ _ _ _ _ _ _ F3)
    as (A1 & A2 & A3 & A4 & A5 & A6 & A7 & A8 & A9 & A10 & A11 & A12 & A13).
  rewrite listing_xferDir_connect by assumption.
  change (mlst_facts (set_m_workItem (m_lwd (snd f)) (snd f)))
    with (mlst_facts (snd f)).
  cbn [m_state m_xferDirMode m_deflate m_zFlushed m_dir m_eof m_xferBuffer
       m_zStreamBuffer m_dataSocket m_pasv m_port m_lwd set_m_workItem].
  now rewrite A2, A3, A4, A5, A6, A7, A8, A10, A13.
Qed.

Lemma substr_from_whole (s : string) : substr_from (String.length s) s = "".
Proof. induction s as [|c s IH]; [reflexivity|exact IH]. Qed.

Lemma sempty_length (s : string) : sempty s = false -> 0 < String.length s.
Proof. destruct s; [discriminate|cbn; lia]. Qed.

(** A round entered with bytes in the transfer buffer only sends. *)
Lemma listTransfer_pending fuel s :
  buf_empty (m_xferBuffer s) = false -> listTransfer fuel s = Some (send_pending s).
Proof. intros H. unfold listTransfer. now rewrite H. Qed.

(** The data socket is offered what the transfer buffer holds; where it
    takes all of it, the buffer is left empty and the listing as it
    was. *)
Lemma send_pending_takes_all fd s :
  m_dataSocket s = Some fd ->
  buf_empty (m_xferBuffer s) = false ->
  takes_all s fd (usedArea (m_xferBuffer s)) ->
  fst (send_pending s) = true
  /\ socket_output fd (snd (send_pending s))
     = socket_output fd s +++ usedArea (m_xferBuffer s)
  /\ w_oracle (world (snd (send_pending s))) = w_oracle (world s)
  /\ listing (snd (send_pending s))
     = (m_state s, m_xferDirMode s, m_deflate s, m_zFlushed s, m_dir s, m_eof s,
        markFree (String.length (usedArea (m_xferBuffer s))) (m_xferBuffer s),
        m_zStreamBuffer s, m_dataSocket s, mlst_facts s, m_pasv s, m_port s,
        m_lwd s)
  /\ buf_empty (m_xferBuffer (snd (send_pending s))) = true
  /\ w_trace (world (snd (send_pending s)))
     = SysTime :: SockWrite fd (usedArea (m_xferBuffer s)) :: w_trace (world s)
  /\ bystanders (snd (send_pending s)) = bystanders s.
Proof.
  intros Hfd Hne Htake. unfold send_pending. rewrite Hfd. cbv zeta.
  pose proof (sempty_length _ Hne) as Hlen.
  assert (Hrc : rc (answer (SockWrite fd (usedArea (m_xferBuffer s))) s)
                = Z.of_nat (String.length (usedArea (m_xferBuffer s)))).
  { unfold answer, ask. apply Htake. }
  rewrite Hrc.
  change (m_xferBuffer (sys (SockWrite fd (usedArea (m_xferBuffer s))) s))
    with (m_xferBuffer s).
  rewrite Nat2Z.id.
  destruct (0 <? Z.of_nat (String.length (usedArea (m_xferBuffer s))))%Z eqn:E1;
    [|apply Z.ltb_ge in E1; unfold usedArea, buf_empty in *; lia].
  destruct (Z.of_nat (String.length (usedArea (m_xferBuffer s))) <=? 0)%Z eqn:E2;
    [apply Z.leb_le in E2; unfold usedArea, buf_empty in *; lia|].
  cbn [fst snd]. split; [reflexivity|]. split.
  { unfold socket_output, stamp, sys, answer, ask. cbn.
    rewrite Nat.eqb_refl. cbn [andb].
    change (ask (SockWrite fd (buf_used (m_xferBuffer s))) (world s))
      with (answer (SockWrite fd (usedArea (m_xferBuffer s))) s).
    fold (usedArea (m_xferBuffer s)).
    unfold answer, ask in Hrc. unfold usedArea in *. rewrite Hrc.
    unfold usedArea in E1. rewrite E1, Nat2Z.id, append_nil_r.
    now rewrite substr_whole by lia. }
  split; [reflexivity|]. split; [unfold listing; cbn; now rewrite Hfd|].
  split; [|split; reflexivity].
  unfold buf_empty, markFree, usedArea. cbn. now rewrite substr_from_whole.
Qed.

(** The start of a round of [listTransfer_fill] in stream mode with
    nothing waiting in the zlib buffer: both buffers are emptied. *)
Ltac fill_start s Hd Hz :=
  cbv beta delta [listTransfer_fill] fix match; fold listTransfer_fill;
  inline;
  assert (L1 : listing (set_m_xferBuffer (buf_clear (m_xferBuffer s)) s)
               = (m_state s, m_xferDirMode s, m_deflate s, m_zFlushed s, m_dir s,
                  m_eof s, buf_clear (m_xferBuffer s), m_zStreamBuffer s,
                  m_dataSocket s, mlst_facts s, m_pasv s, m_port s, m_lwd s))
    by reflexivity;
  assert (W1 : world (set_m_xferBuffer (buf_clear (m_xferBuffer s)) s) = world s)
    by reflexivity;
  assert (K1 : bystanders (set_m_xferBuffer (buf_clear (m_xferBuffer s)) s)
               = bystanders s)
    by reflexivity;
  let s1 := fresh "s" in
  into s1;
  let A3 := fresh "A" in let A8 := fresh "A" in
  destruct (listing_inv _ _ _ _ _ _ _ _ _ _ _ _ _ _ L1)
    as (_ & _ & A3 & _ & _ & _ & _ & A8 & _);
  rewrite A8, Hz, A3, Hd; clear A3 A8;
  change (negb true) with false; rewrite !andb_false_l; cbv iota;
  lazymatch goal with
  | |- _ (let y := ?v in _) = _ =>
    assert (L2 : listing v
                 = (m_state s, m_xferDirMode s, m_deflate s, m_zFlushed s, m_dir s,
                    m_eof s, buf_clear (m_xferBuffer s),
                    buf_clear (m_zStreamBuffer s),
                    m_dataSocket s, mlst_facts s, m_pasv s, m_port s, m_lwd s))
      by (destruct (listing_inv _ _ _ _ _ _ _ _ _ _ _ _ _ _ L1)
            as (B1 & B2 & B3 & B4 & B5 & B6 & B7 & B8 & B9 & B10 & B11 & B12 & B13);
          unfold listing;
          change (mlst_facts v) with (mlst_facts s1);
          cbn [m_state m_xferDirMode m_deflate m_zFlushed m_dir m_eof m_xferBuffer
               m_zStreamBuffer m_dataSocket m_pasv m_port m_lwd set_m_zStreamBuffer];
          now rewrite B1, B2, B3, B4, B5, B6, B7, B9, B10, B11, B12, B13);
    assert (W2 : world v = world s) by exact W1;
    assert (K2 : bystanders v = bystanders s) by exact K1
  end;
  clear L1 W1 K1;
  let s2 := fresh "s" in
  into s2;
  lazymatch goal with
  | L : listing ?x = _ |- _ => rename x into u
  end.

(** A round that reads an entry stores its line and leaves the loop for
    the sending code. *)
Lemma listTransfer_fill_entry fuel fd s d st line :
  listing_ready fd s ->
  succeeded (answer DirRead s) = true ->
  c_str (r_data (answer DirRead s)) = d ->
  d <> "." -> d <> ".." ->
  lstats s (buildPath (m_lwd s) d) st ->
  MLSD_line s st (encodePath d false) None line ->
  option_map (fun r => (fst r, listing (snd r), w_oracle (world (snd r)),
                        w_trace (world (snd r)), bystanders (snd r)))
    (listTransfer_fill (S fuel) s)
  = Some (None,
          (m_state s, MLSD_mode, false, m_zFlushed s, true, false,
           markUsed line (buf_clear (m_xferBuffer s)),
           buf_clear (m_zStreamBuffer s), Some fd, mlst_facts s, m_pasv s,
           m_port s, m_lwd s),
          w_oracle (world s),
          SysLStat (c_str (buildPath (m_lwd s) d)) :: DirRead :: w_trace (world s),
          bystanders s).
Proof.
  intros ((R1 & R2 & R3 & R4 & R6 & R7 & R8) & R5) Hread Hname Hdot Hdotdot Hlst Hline.
  fill_start s R2 R6.
  rewrite R1, R2, R3, R4, R7 in L2.
  destruct (listing_inv _ _ _ _ _ _ _ _ _ _ _ _ _ _ L2)
    as (B1 & B2 & B3 & B4 & B5 & B6 & B7 & B8 & B9 & B10 & B11 & B12 & B13).
  rewrite B6, B5. rewrite !andb_false_l. change (negb true) with false. cbv iota.
  change (answer DirRead u) with (ask DirRead (world u)). rewrite W2.
  change (ask DirRead (world s)) with (answer DirRead s).
  inline.
  assert (L3 : listing (sys DirRead u)
               = (m_state s, MLSD_mode, false, m_zFlushed s, true, false,
                  buf_clear (m_xferBuffer s), buf_clear (m_zStreamBuffer s),
                  Some fd, mlst_facts s, m_pasv s, m_port s, m_lwd s)) by exact L2.
  assert (W3 : world (sys DirRead u) = tell DirRead (world s))
    by (unfold sys; cbn [world set_world]; now rewrite W2).
  assert (K3 : bystanders (sys DirRead u) = bystanders s) by exact K2.
  clear L2 W2 K2 B1 B2 B3 B4 B5 B6 B7 B8 B9 B10 B11 B12 B13. into s3.
  rewrite Hread, Hname. change (negb true) with false. cbv iota. inline.
  apply String.eqb_neq in Hdot, Hdotdot. rewrite Hdot, Hdotdot.
  change (false || false) with false. cbv iota.
  destruct (listing_inv _ _ _ _ _ _ _ _ _ _ _ _ _ _ L3)
    as (B1 & B2 & B3 & B4 & B5 & B6 & B7 & B8 & B9 & B10 & B11 & B12 & B13).
  rewrite B2, B13. cbv iota. inline.
  assert (T : tzLStat_rc (c_str (buildPath (m_lwd s) d)) s3 = 0%Z).
  { unfold tzLStat_rc, answer, ask. rewrite W3. apply Hlst. }
  assert (T' : tzLStat_st (c_str (buildPath (m_lwd s) d)) s3 = st).
  { unfold tzLStat_st, answer, ask. rewrite W3. apply Hlst. }
  rewrite T, T'. inline. inline.
  assert (L4 : listing (tzLStat (c_str (buildPath (m_lwd s) d)) s3)
               = (m_state s, MLSD_mode, false, m_zFlushed s, true, false,
                  buf_clear (m_xferBuffer s), buf_clear (m_zStreamBuffer s),
                  Some fd, mlst_facts s, m_pasv s, m_port s, m_lwd s)) by exact L3.
  assert (W4 : world (tzLStat (c_str (buildPath (m_lwd s) d)) s3)
               = tell (SysLStat (c_str (buildPath (m_lwd s) d)))
                   (tell DirRead (world s)))
    by (unfold tzLStat, sys; cbn [world set_world]; now rewrite W3).
  assert (K4 : bystanders (tzLStat (c_str (buildPath (m_lwd s) d)) s3)
               = bystanders s) by exact K3.
  clear L3 W3 K3 T T' B1 B2 B3 B4 B5 B6 B7 B8 B9 B10 B11 B12 B13. into s4.
  change (negb (0 =? 0)%Z) with false. cbv iota. inline.
  destruct (listing_inv _ _ _ _ _ _ _ _ _ _ _ _ _ _ L4)
    as (B1 & B2 & B3 & B4 & B5 & B6 & B7 & B8 & B9 & B10 & B11 & B12 & B13).
  destruct (fillDirent_stores s4 st (encodePath d false) None line)
    as (F1 & F2 & F3 & F4).
  { apply Hline; assumption. }
  { exact B3. }
  rewrite B1, B2, B3, B4, B5, B6, B7, B8, B9, B10, B11, B12, B13 in F3.
  rewrite W4 in F2. rewrite K4 in F4.
  clear L4 W4 K4 B1 B2 B3 B4 B5 B6 B7 B8 B9 B10 B11 B12 B13. into f. inline.
  rewrite F1. change (negb (0 =? 0)%Z) with false. cbv iota.
  destruct (listing_inv _ _ _ _ _ _ _ _ _ _ _ _ _ _ F3)
    as (B1 & B2 & B3 & B4 & B5 & B6 & B7 & B8 & B9 & B10 & B11 & B12 & B13).
  rewrite B3. cbv iota. rewrite B7.
  assert (N : buf_empty (markUsed line (buf_clear (m_xferBuffer s))) = false).
  { unfold buf_empty, markUsed, buf_clear. cbn.
    apply (fillDirent_line_not_empty
             (set_m_xferBuffer (buf_clear (m_xferBuffer s))
                (set_m_deflate false (set_m_xferDirMode MLSD_mode s)))
             st (encodePath d false) None).
    apply Hline; reflexivity. }
  rewrite N. cbv iota. cbn [option_map fst snd].
  rewrite F3, F2, F4. reflexivity.
Qed.

(** A round that finds the directory exhausted marks the end and sends
    nothing. *)
Lemma listTransfer_fill_exhausted fuel fd s :
  listing_ready fd s ->
  succeeded (answer DirRead s) = false ->
  option_map (fun r => (fst r, listing (snd r), w_oracle (world (snd r)),
                        w_trace (world (snd r)), bystanders (snd r)))
    (listTransfer_fill (S fuel) s)
  = Some (Some true,
          (m_state s, MLSD_mode, false, m_zFlushed s, true, true,
           buf_clear (m_xferBuffer s), buf_clear (m_zStreamBuffer s), Some fd,
           mlst_facts s, m_pasv s, m_port s, m_lwd s),
          w_oracle (world s), DirRead :: w_trace (world s), bystanders s).
Proof.
  intros ((R1 & R2 & R3 & R4 & R6 & R7 & R8) & R5) Hread.
  fill_start s R2 R6.
  rewrite R1, R2, R3, R4, R7 in L2.
  destruct (listing_inv _ _ _ _ _ _ _ _ _ _ _ _ _ _ L2)
    as (B1 & B2 & B3 & B4 & B5 & B6 & B7 & B8 & B9 & B10 & B11 & B12 & B13).
  rewrite B6, B5. rewrite !andb_false_l. change (negb true) with false. cbv iota.
  change (answer DirRead u) with (ask DirRead (world u)). rewrite W2.
  change (ask DirRead (world s)) with (answer DirRead s).
  inline. inline. rewrite Hread. change (negb false) with true. cbv iota.
  cbn [option_map fst snd].
  change (listing (set_m_eof true (sys DirRead u)))
    with (m_state u, m_xferDirMode u, m_deflate u, m_zFlushed u, m_dir u, true,
          m_xferBuffer u, m_zStreamBuffer u, m_dataSocket u, mlst_facts u,
          m_pasv u, m_port u, m_lwd u).
  change (world (set_m_eof true (sys DirRead u))) with (tell DirRead (world u)).
  change (bystanders (set_m_eof true (sys DirRead u))) with (bystanders u).
  rewrite W2, K2, B1, B2, B3, B4, B5, B7, B8, B9, B10, B11, B12, B13. reflexivity.
Qed.

(** What the data socket took is not touched by a reply or by the
    return to COMMAND. *)
Ltac by_cases :=
  repeat match goal with
         | |- context [match ?b with _ => _ end] => destruct b
         end.

Lemma socket_output_sendResponse fd cfd r s :
  m_commandSocket s = Some cfd -> cfd <> fd ->
  socket_output fd (sendResponse r s) = socket_output fd s.
Proof.
  intros Hc Hn. apply Nat.eqb_neq in Hn.
  unfold sendResponse. rewrite Hc. cbv zeta.
  unfold response_write, response_write_rc, closeCommand, closeSocket, stamp.
  cbv zeta. by_cases;
    unfold socket_output, sys, answer, ask; cbn;
    rewrite ?Hn; cbn; rewrite ?append_nil_r; reflexivity.
Qed.

Lemma socket_output_setState fd st cp cd s :
  socket_output fd (setState st cp cd s) = socket_output fd s.
Proof.
  unfold setState, stamp, closePasv, closeData, closeSocket, file_close, dir_close,
    zStream_reset.
  cbv zeta. by_cases;
    unfold socket_output, sys, answer, ask; cbn;
    rewrite ?append_nil_r; reflexivity.
Qed.

(** A round entered at the end of the directory with everything sent
    says 226 and returns the session to COMMAND. *)
Lemma listTransfer_fill_done fuel fd dfd s :
  m_xferDirMode s = MLSD_mode ->
  m_deflate s = false ->
  m_zFlushed s = false ->
  m_eof s = true ->
  buf_empty (m_zStreamBuffer s) = true ->
  m_commandSocket s = Some fd ->
  writable fd (w_oracle (world s)) ->
  String.length ("226 OK" +++ CRLF) < room s ->
  fd <> dfd ->
  option_map (fun r => (fst r, m_state (snd r), command_output fd (snd r),
                        socket_output dfd (snd r)))
    (listTransfer_fill (S fuel) s)
  = Some (Some false, COMMAND, command_output fd s +++ "226 OK" +++ CRLF,
          socket_output dfd s).
Proof.
  intros R1 R2 R8 R4 R6 Hfd Hw Hroom Hn.
  fill_start s R2 R6.
  rewrite R1, R2, R8, R4 in L2.
  destruct (listing_inv _ _ _ _ _ _ _ _ _ _ _ _ _ _ L2)
    as (B1 & B2 & B3 & B4 & B5 & B6 & B7 & B8 & B9 & B10 & B11 & B12 & B13).
  rewrite B6, B3, B4. change (true && Bool.eqb false false) with true. cbv iota.
  cbn [option_map fst snd]. unfold list_done_code. rewrite B2. cbv iota.
  unfold bystanders in K2. injection K2 as _ K2 K3.
  assert (Ho : command_output fd u = command_output fd s).
  { unfold command_output. now rewrite W2, K3. }
  assert (Hd : socket_output dfd u = socket_output dfd s).
  { unfold socket_output. now rewrite W2. }
  unfold andThen.
  destruct (reply_spec fd ("226" +++ " OK" +++ CRLF) u)
    as (_ & _ & _ & O & Cc & _).
  { now rewrite K2. }
  { now rewrite W2. }
  { discriminate. }
  { unfold room. rewrite K3. exact Hroom. }
  destruct (setState_spec fd COMMAND true true
              (sendResponse ("226" +++ " OK" +++ CRLF) u))
    as (_ & _ & _ & _ & S3 & _ & _ & S6).
  destruct (control_inv _ _ _ _ _ _ _ _ _ _ _ _ S6) as (C1 & _).
  rewrite C1, S3, O, Ho.
  rewrite socket_output_setState.
  rewrite (socket_output_sendResponse dfd fd) by (rewrite ?K2; assumption).
  rewrite Hd. reflexivity.
Qed.

(** ** A directory with one entry, from the first round to the last *)

Lemma pump_S n fuel s :
  pump (S n) fuel s
  = match run_transfer fuel s with
    | None => None
    | Some (true, s') => pump n fuel s'
    | Some (false, s') => Some s'
    end.
Proof. reflexivity. Qed.

Lemma run_transfer_list fuel s :
  m_transfer s = Some xfer_list -> run_transfer fuel s = listTransfer fuel s.
Proof. intros H. unfold run_transfer. now rewrite H. Qed.

Lemma listing_kept_same fd s : listing_open fd s -> listing_kept fd s s.
Proof. intros H. unfold listing_kept. repeat split; try reflexivity; apply H. Qed.

(** Sending what is pending goes on with the listing. *)
Lemma send_pending_kept fd s t :
  listing_kept fd s t ->
  buf_empty (m_xferBuffer t) = false ->
  takes_everything s fd ->
  exists t2,
    send_pending t = (true, t2)
    /\ listing_kept fd s t2
    /\ buf_empty (m_xferBuffer t2) = true
    /\ w_trace (world t2)
       = SysTime :: SockWrite fd (usedArea (m_xferBuffer t)) :: w_trace (world t).
Proof.
  intros ((R1 & R2 & R3 & R4 & R6 & R7 & R8) & KO & KB & KL & KF & KC) Hne Htake.
  destruct (send_pending_takes_all fd t R7 Hne) as (P1 & _ & P3 & P4 & P5 & P6 & P7).
  { intros trace. rewrite KO. apply Htake. }
  destruct (send_pending t) as [b t2]. cbn [fst snd] in *. subst b.
  exists t2. split; [reflexivity|].
  destruct (listing_inv _ _ _ _ _ _ _ _ _ _ _ _ _ _ P4)
    as (B1 & B2 & B3 & B4 & B5 & B6 & B7 & B8 & B9 & B10 & B11 & B12 & B13).
  split; [|split; assumption].
  unfold listing_kept, listing_open.
  rewrite B2, B3, B4, B5, B6, B7, B8, B9, B10, B13, P3, P7.
  repeat split; assumption.
Qed.

(** The four rounds of the listing of a directory that holds one entry:
    the line that was pending is sent, the entry is read and its line
    sent, the directory is found exhausted, and 226 is said. *)
Lemma pump_one_entry (n fuel : nat) (fd cfd : Socket) (t : FtpSession)
    (d : string) (est : stat_t) (line : string) :
  4 <= n ->
  m_transfer t = Some xfer_list ->
  listing_open fd t ->
  buf_empty (m_xferBuffer t) = false ->
  m_commandSocket t = Some cfd ->
  cfd <> fd ->
  writable cfd (w_oracle (world t)) ->
  String.length ("226 OK" +++ CRLF) < room t ->
  takes_everything t fd ->
  holds_one t d ->
  existsb is_DirRead (w_trace (world t)) = false ->
  d <> "." -> d <> ".." ->
  lstats t (buildPath (m_lwd t) d) est ->
  MLSD_line t est (encodePath d false) None line ->
  exists t',
    pump n (S fuel) t = Some t'
    /\ m_state t' = COMMAND
    /\ socket_output fd t'
       = socket_output fd t +++ usedArea (m_xferBuffer t) +++ line
    /\ command_output cfd t' = command_output cfd t +++ "226 OK" +++ CRLF.
Proof.
  intros Hn Hx Hopen Hne Hc Hcf Hw Hroom Htake Hone Hfresh Hdot Hdotdot Hlst Hline.
  destruct n as [|[|[|[|m]]]]; try lia. clear Hn.
  assert (Hnf : (fd =? cfd) = false) by (apply Nat.eqb_neq; congruence).
  (* the pending line is sent *)
  destruct (send_pending_kept fd t t (listing_kept_same fd t Hopen) Hne Htake)
    as (t2 & S2 & K2 & E2 & T2).
  rewrite pump_S, (run_transfer_list _ _ Hx), (listTransfer_pending _ _ Hne), S2.
  destruct K2 as (O2 & KO2 & KB2 & KL2 & KF2 & KC2).
  assert (Hx2 : m_transfer t2 = Some xfer_list).
  { unfold bystanders in KB2. injection KB2 as A _ _. now rewrite A. }
  (* the entry is read and its line stored *)
  assert (Hread : succeeded (answer DirRead t2) = true
                  /\ c_str (r_data (answer DirRead t2)) = d).
  { unfold answer, ask. rewrite KO2. apply Hone. rewrite T2. exact Hfresh. }
  pose proof (listTransfer_fill_entry fuel fd t2 d est line
                (conj O2 E2) (proj1 Hread) (proj2 Hread) Hdot Hdotdot) as F.
  assert (Hl2 : lstats t2 (buildPath (m_lwd t2) d) est)
    by (unfold lstats; rewrite KO2, KL2; exact Hlst).
  assert (Hm2 : MLSD_line t2 est (encodePath d false) None line).
  { intros u U1 U2 U3 U4. apply Hline; try assumption.
    - now rewrite U3.
    - now rewrite U4. }
  specialize (F Hl2 Hm2).
  rewrite pump_S, (run_transfer_list _ _ Hx2). unfold listTransfer at 1. rewrite E2.
  destruct (listTransfer_fill (S fuel) t2) as [[o t3]|]; [|discriminate F].
  cbn [option_map fst snd] in F.
  remember (listing t3) as lt eqn:El. remember (bystanders t3) as bt eqn:Eb.
  injection F as F1 F2 F3 F4 F5. subst o lt bt.
  destruct O2 as (R1 & R2 & R3 & R4 & R6 & R7 & R8).
  destruct (listing_inv _ _ _ _ _ _ _ _ _ _ _ _ _ _ F2)
    as (B1 & B2 & B3 & B4 & B5 & B6 & B7 & B8 & B9 & B10 & B11 & B12 & B13).
  assert (K3 : listing_kept fd t t3).
  { unfold listing_kept, listing_open.
    rewrite B2, B3, B4, B5, B6, B7, B8, B9, B10, B13, F3, F5, R8.
    repeat split; try assumption; try reflexivity. }
  assert (N3 : buf_empty (m_xferBuffer t3) = false).
  { rewrite B7. unfold buf_empty, markUsed, buf_clear. cbn.
    apply (fillDirent_line_not_empty
             (set_m_xferBuffer (buf_clear (m_xferBuffer t))
                (set_m_deflate false (set_m_xferDirMode MLSD_mode t)))
             est (encodePath d false) None).
    apply Hline; reflexivity. }
  assert (A3 : usedArea (m_xferBuffer t3) = line) by (rewrite B7; reflexivity).
  (* the line of the entry is sent *)
  destruct (send_pending_kept fd t t3 K3 N3 Htake) as (t4 & S4 & K4 & E4 & T4).
  rewrite S4. rewrite A3 in T4.
  destruct K4 as (O4 & KO4 & KB4 & KL4 & KF4 & KC4).
  assert (Hx4 : m_transfer t4 = Some xfer_list).
  { unfold bystanders in KB4. injection KB4 as A _ _. now rewrite A. }
  (* the directory is found exhausted *)
  assert (Hend : succeeded (answer DirRead t4) = false).
  { unfold answer, ask. rewrite KO4. apply Hone. rewrite T4, F4. reflexivity. }
  pose proof (listTransfer_fill_exhausted fuel fd t4 (conj O4 E4) Hend) as G.
  rewrite pump_S, (run_transfer_list _ _ Hx4). unfold listTransfer at 1. rewrite E4.
  destruct (listTransfer_fill (S fuel) t4) as [[o t5]|]; [|discriminate G].
  cbn [option_map fst snd] in G.
  remember (listing t5) as lt eqn:El. remember (bystanders t5) as bt eqn:Eb.
  injection G as G1 G2 G3 G4 G5. subst o lt bt.
  destruct (listing_inv _ _ _ _ _ _ _ _ _ _ _ _ _ _ G2)
    as (D1 & D2 & D3 & D4 & D5 & D6 & D7 & D8 & D9 & D10 & D11 & D12 & D13).
  destruct O4 as (Q1 & Q2 & Q3 & Q4 & Q6 & Q7 & Q8).
  assert (Hx5 : m_transfer t5 = Some xfer_list
                /\ m_commandSocket t5 = Some cfd
                /\ m_responseBuffer t5 = m_responseBuffer t).
  { rewrite KB4 in G5. unfold bystanders in G5. injection G5 as A B C.
    rewrite A, B, C. repeat split; assumption. }
  destruct Hx5 as (Hx5 & Hc5 & Hb5).
  (* 226 *)
  pose proof (listTransfer_fill_done fuel cfd fd t5) as H.
  rewrite D2, D3, D4, D6, D8 in H.
  specialize (H eq_refl eq_refl Q8 eq_refl eq_refl Hc5).
  rewrite G3, KO4 in H. specialize (H Hw).
  unfold room in H. rewrite Hb5 in H. specialize (H Hroom Hcf).
  rewrite pump_S, (run_transfer_list _ _ Hx5). unfold listTransfer at 1.
  rewrite D7. change (buf_empty (buf_clear (m_xferBuffer t4))) with true. cbv iota.
  destruct (listTransfer_fill (S fuel) t5) as [[o t6]|]; [|discriminate H].
  cbn [option_map fst snd] in H. injection H as H1 H2 H3 H4. subst o.
  exists t6. split; [reflexivity|]. split; [exact H2|].
  split.
  - rewrite H4. unfold socket_output.
    rewrite G3, KO4, G4, T4, F4, T2. cbn [sent_on].
    rewrite Nat.eqb_refl. cbn [andb].
    pose proof (Htake line (SysLStat (c_str (buildPath (m_lwd t2) d))
                              :: DirRead :: SysTime
                              :: SockWrite fd (usedArea (m_xferBuffer t))
                              :: w_trace (world t))) as W1.
    pose proof (Htake (usedArea (m_xferBuffer t)) (w_trace (world t))) as W0.
    rewrite W1, W0, !Nat2Z.id, !append_nil_r.
    pose proof (sempty_length _ Hne) as L0.
    assert (L1 : 0 < String.length line).
    { apply sempty_length. rewrite <- A3. exact N3. }
    replace (0 <? Z.of_nat (String.length line))%Z with true
      by (symmetry; apply Z.ltb_lt; lia).
    replace (0 <? Z.of_nat (String.length (usedArea (m_xferBuffer t))))%Z with true
      by (symmetry; apply Z.ltb_lt; unfold usedArea; lia).
    rewrite !substr_whole by lia. now rewrite append_assoc.
  - rewrite H3. f_equal. unfold command_output.
    rewrite G3, KO4, G4, T4, F4, T2, Hb5. cbn [sent_on].
    rewrite Hnf. cbn [andb]. now rewrite !append_nil_r.
Qed.

Lemma find_handler_MLSD : find_handler "MLSD" = Some ("MLSD", MLSD).
Proof. lookup. Qed.

(** A call that is no write adds nothing to what a socket took. *)
Lemma sent_on_quiet oracle fd c trace :
  match c with SockWrite _ _ => False | _ => True end ->
  sent_on oracle fd (c :: trace) = sent_on oracle fd trace.
Proof. intros H. destruct c; try contradiction; cbn; apply append_nil_r. Qed.

(** The line of the file in the listings of a session. *)
Lemma MLSD_line_file (t : FtpSession) (st : stat_t) :
  m_mlstType t = true ->
  m_mlstSize t = true ->
  m_mlstModify t = true ->
  m_mlstPerm t = true ->
  st_mode st = Z.lor S_IFREG 420 ->
  st_size st = 1024%Z ->
  st_mtime st = 1705320000%Z ->
  80 <= buf_capacity (m_xferBuffer t) ->
  MLSD_line t st "x" None
    ("Type=file;Size=1024;Modify=20240115120000;Perm=adfrw;"
     +++ (if m_mlstUnixMode t then "UNIX.mode=0644;" else "")
     +++ " x" +++ CRLF).
Proof.
  intros Ht Hs Hm Hp Hst Hsz Hmt Hroom u Hu1 Hu2 Hu3 Hu4.
  unfold mlst_facts in Hu3. injection Hu3. intros E5 E4 E3 E2 E1.
  rewrite <- E5.
  apply fillDirent_line_file; try congruence.
  unfold ioBuffer. rewrite Hu2, Hu4. unfold freeSize, buf_clear. cbn. lia.
Qed.

(** MLSD received in COMMAND by a session that is logged in. *)
Lemma dispatch_MLSD_start (command : string) (t : FtpSession) (st : stat_t)
    (line : string) :
  compare command "MLSD" = 0%Z ->
  m_state t = COMMAND ->
  authorized t = true ->
  m_deflate t = false ->
  m_mlstType t = true ->
  m_pasv t = true ->
  m_port t = false ->
  opens_directory t (m_cwd t) ->
  stats t (m_cwd t) st ->
  MLSD_line t st (encodePath (m_cwd t) false) (Some "cdir") line ->
  listing (dispatch command "" t)
  = (DATA_CONNECT, MLSD_mode, false, false, true, false,
     markUsed line (buf_clear (m_xferBuffer t)), buf_clear (m_zStreamBuffer t),
     None, mlst_facts t, true, false, m_cwd t).
Proof.
  intros E Hs Ha Hd Hty Hpv Hpt Hop Hst Hline.
  unfold dispatch. cbv zeta.
  rewrite (find_handler_same _ _ E eq_refl), find_handler_MLSD.
  change (m_state (stamp t)) with (m_state t). rewrite Hs.
  change (negb (State_eqb COMMAND COMMAND)) with false. cbv iota.
  destruct (negb (compare command "RNTO" =? 0)%Z); unfold MLSD.
  - change (authorized (set_m_rename "" (stamp t))) with (authorized t).
    rewrite Ha. change (negb true) with false. cbv iota.
    exact (xferDir_MLSD_start (set_m_rename "" (stamp t)) st line
             Hd Hty Hpv Hpt Hop Hst Hline).
  - change (authorized (stamp t)) with (authorized t).
    rewrite Ha. change (negb true) with false. cbv iota.
    exact (xferDir_MLSD_start (stamp t) st line Hd Hty Hpv Hpt Hop Hst Hline).
Qed.

(** C6 (as the code has it).  The line [fillDirent] stores in MLSD mode
    for a regular file [x] of 1024 bytes, mode 0644, last modified on
    2024-01-15 at 12:00:00 UTC, with the facts Type, Size, Modify and Perm
    switched on and room for 80 bytes, is
    [Type=file;Size=1024;Modify=20240115120000;Perm=adfrw; x] with CR LF
    when the fact UNIX.mode is off, and has [UNIX.mode=0644;] before the
    space when it is on; a fresh session has it off; and that is the line
    of the file in every stream-mode listing of a session with these
    facts and a transfer buffer of 80 bytes or more.

    The listing itself goes as follows, in stream mode.  An MLSD without
    argument, in any letter case, received in COMMAND by a session that
    is logged in, in passive mode, with the fact Type on, whose working
    directory opens and is found, stores the line of the directory itself,
    of type [cdir], in the emptied transfer buffer and waits in
    DATA_CONNECT with the directory open.  A round of [listTransfer]
    entered with bytes in the transfer buffer only sends them; a data
    socket that takes all it is offered leaves the buffer empty and has
    taken these bytes.  A round entered with the buffer empty, the
    directory open and not exhausted, that reads an entry other than
    [.] and [..] which [lstat] finds, stores the line of that entry and
    goes on to send it, before anything else is sent.  A round that finds
    the directory exhausted sends nothing and marks the end; and a round
    entered at the end with nothing left to send says [226 OK] on a
    command channel that takes writes and has room for it, and returns the
    session to COMMAND.

    Together: when the transfer starts with a line pending, on a session
    that has read no directory before, a directory that holds one entry
    and a data socket that takes all it is offered, the reactor's calls
    of the transfer (four of them) end with the session in COMMAND; the
    data socket has taken the pending line and then the line of the
    entry and nothing else, and the command channel has [226 OK] after
    what it said before. *)
Theorem MLSD_listing (s : FtpSession) (st : stat_t) :
  m_xferDirMode s = MLSD_mode ->
  m_mlstType s = true ->
  m_mlstSize s = true ->
  m_mlstModify s = true ->
  m_mlstPerm s = true ->
  st_mode st = Z.lor S_IFREG 420 ->
  st_size st = 1024%Z ->
  st_mtime st = 1705320000%Z ->
  80 <= freeSize (ioBuffer s) ->
  fillDirent_line s st "x" None
  = inr ("Type=file;Size=1024;Modify=20240115120000;Perm=adfrw;"
         +++ (if m_mlstUnixMode s then "UNIX.mode=0644;" else "")
         +++ " x" +++ CRLF)
  /\ (forall config fd cb rb xb w,
        mlst_facts (FtpSession_new config fd cb rb xb w)
        = (true, true, true, true, false))
  /\ (forall t,
        m_mlstType t = true -> m_mlstSize t = true -> m_mlstModify t = true ->
        m_mlstPerm t = true -> 80 <= buf_capacity (m_xferBuffer t) ->
        MLSD_line t st "x" None
          ("Type=file;Size=1024;Modify=20240115120000;Perm=adfrw;"
           +++ (if m_mlstUnixMode t then "UNIX.mode=0644;" else "")
           +++ " x" +++ CRLF))
  /\ (forall command t dst line,
        compare command "MLSD" = 0%Z ->
        m_state t = COMMAND ->
        authorized t = true ->
        m_deflate t = false ->
        m_mlstType t = true ->
        m_pasv t = true ->
        m_port t = false ->
        opens_directory t (m_cwd t) ->
        stats t (m_cwd t) dst ->
        MLSD_line t dst (encodePath (m_cwd t) false) (Some "cdir") line ->
        m_state (dispatch command "" t) = DATA_CONNECT
        /\ usedArea (m_xferBuffer (dispatch command "" t)) = line
        /\ listing (dispatch command "" t)
           = (DATA_CONNECT, MLSD_mode, false, false, true, false,
              markUsed line (buf_clear (m_xferBuffer t)),
              buf_clear (m_zStreamBuffer t), None, mlst_facts t, true, false,
              m_cwd t))
  /\ (forall fuel t,
        buf_empty (m_xferBuffer t) = false ->
        listTransfer fuel t = Some (send_pending t))
  /\ (forall fd t,
        m_dataSocket t = Some fd ->
        buf_empty (m_xferBuffer t) = false ->
        takes_all t fd (usedArea (m_xferBuffer t)) ->
        fst (send_pending t) = true
        /\ socket_output fd (snd (send_pending t))
           = socket_output fd t +++ usedArea (m_xferBuffer t)
        /\ w_oracle (world (snd (send_pending t))) = w_oracle (world t)
        /\ (listing_open fd t -> listing_ready fd (snd (send_pending t))))
  /\ (forall fuel fd t d dst line,
        listing_ready fd t ->
        succeeded (answer DirRead t) = true ->
        c_str (r_data (answer DirRead t)) = d ->
        d <> "." -> d <> ".." ->
        lstats t (buildPath (m_lwd t) d) dst ->
        MLSD_line t dst (encodePath d false) None line ->
        exists t',
          listTransfer (S fuel) t = Some (send_pending t')
          /\ usedArea (m_xferBuffer t') = line
          /\ listing_open fd t'
          /\ socket_output fd t' = socket_output fd t
          /\ w_oracle (world t') = w_oracle (world t)
          /\ m_lwd t' = m_lwd t)
  /\ (forall fuel fd t,
        listing_ready fd t ->
        succeeded (answer DirRead t) = false ->
        exists t',
          listTransfer (S fuel) t = Some (true, t')
          /\ socket_output fd t' = socket_output fd t
          /\ m_xferDirMode t' = MLSD_mode
          /\ m_deflate t' = false
          /\ m_zFlushed t' = false
          /\ m_eof t' = true
          /\ buf_empty (m_xferBuffer t') = true
          /\ buf_empty (m_zStreamBuffer t') = true)
  /\ (forall fuel fd dfd t,
        m_xferDirMode t = MLSD_mode ->
        m_deflate t = false ->
        m_zFlushed t = false ->
        m_eof t = true ->
        buf_empty (m_xferBuffer t) = true ->
        buf_empty (m_zStreamBuffer t) = true ->
        m_commandSocket t = Some fd ->
        writable fd (w_oracle (world t)) ->
        String.length ("226 OK" +++ CRLF) < room t ->
        fd <> dfd ->
        exists t',
          listTransfer (S fuel) t = Some (false, t')
          /\ m_state t' = COMMAND
          /\ command_output fd t' = command_output fd t +++ "226 OK" +++ CRLF
          /\ socket_output dfd t' = socket_output dfd t)
  /\ (forall n fuel fd cfd t d dst line,
        4 <= n ->
        m_transfer t = Some xfer_list ->
        listing_open fd t ->
        buf_empty (m_xferBuffer t) = false ->
        m_commandSocket t = Some cfd ->
        cfd <> fd ->
        writable cfd (w_oracle (world t)) ->
        String.length ("226 OK" +++ CRLF) < room t ->
        takes_everything t fd ->
        holds_one t d ->
        existsb is_DirRead (w_trace (world t)) = false ->
        d <> "." -> d <> ".." ->
        lstats t (buildPath (m_lwd t) d) dst ->
        MLSD_line t dst (encodePath d false) None line ->
        exists t',
          pump n (S fuel) t = Some t'
          /\ m_state t' = COMMAND
          /\ socket_output fd t'
             = socket_output fd t +++ usedArea (m_xferBuffer t) +++ line
          /\ command_output cfd t' = command_output cfd t +++ "226 OK" +++ CRLF).
Proof.
  intros Hmode Ht Hs Hm Hp Hst Hsz Hmt Hroom.
  split; [now apply fillDirent_line_file|].
  split; [apply mlst_facts_new|].
  split; [intros t T1 T2 T3 T4 T5; now apply MLSD_line_file|].
  split.
  { intros command t dst line E Hc Ha Hd Hty Hpv Hpt Hop Hdst Hline.
    pose proof (dispatch_MLSD_start command t dst line
                  E Hc Ha Hd Hty Hpv Hpt Hop Hdst Hline) as L.
    destruct (listing_inv _ _ _ _ _ _ _ _ _ _ _ _ _ _ L) as (L1 & _ & _ & _ & _ & _ & L7 & _).
    split; [exact L1|]. split; [|exact L].
    rewrite L7. reflexivity. }
  split; [intros fuel t; apply listTransfer_pending|].
  split.
  { intros fd t Hfd Hne Htake.
    destruct (send_pending_takes_all fd t Hfd Hne Htake)
      as (P1 & P2 & P3 & P4 & P5 & _).
    split; [exact P1|]. split; [exact P2|]. split; [exact P3|].
    intros (R1 & R2 & R3 & R4 & R6 & R7 & R8).
    destruct (listing_inv _ _ _ _ _ _ _ _ _ _ _ _ _ _ P4)
      as (B1 & B2 & B3 & B4 & B5 & B6 & B7 & B8 & B9 & B10 & B11 & B12 & B13).
    split; [|exact P5].
    unfold listing_open. rewrite B2, B3, B4, B5, B6, B8, B9. tauto. }
  split.
  { intros fuel fd t d dst line Hr Hread Hname Hdot Hdotdot Hlst Hline.
    pose proof (listTransfer_fill_entry fuel fd t d dst line
                  Hr Hread Hname Hdot Hdotdot Hlst Hline) as F.
    destruct Hr as ((R1 & R2 & R3 & R4 & R6 & R7 & R8) & R5).
    unfold listTransfer. rewrite R5.
    destruct (listTransfer_fill (S fuel) t) as [[o t']|]; [|discriminate F].
    cbn [option_map fst snd] in F.
    remember (listing t') as lt eqn:El. remember (bystanders t') as bt eqn:Eb.
    injection F as F1 F2 F3 F4 F5. clear Eb F5 bt.
    subst o. rewrite El in F2. clear El.
    exists t'. split; [reflexivity|].
    destruct (listing_inv _ _ _ _ _ _ _ _ _ _ _ _ _ _ F2)
      as (B1 & B2 & B3 & B4 & B5 & B6 & B7 & B8 & B9 & B10 & B11 & B12 & B13).
    split; [rewrite B7; reflexivity|]. split.
    { unfold listing_open. rewrite B2, B3, B4, B5, B6, B8, B9, R8. tauto. }
    split; [|split; assumption].
    unfold socket_output. rewrite F3, F4.
    rewrite !sent_on_quiet by exact I. reflexivity. }
  split.
  { intros fuel fd t Hr Hread.
    pose proof (listTransfer_fill_exhausted fuel fd t Hr Hread) as F.
    destruct Hr as ((R1 & R2 & R3 & R4 & R6 & R7 & R8) & R5).
    unfold listTransfer. rewrite R5.
    destruct (listTransfer_fill (S fuel) t) as [[o t']|]; [|discriminate F].
    cbn [option_map fst snd] in F.
    remember (listing t') as lt eqn:El. remember (bystanders t') as bt eqn:Eb.
    injection F as F1 F2 F3 F4 F5. clear Eb F5 bt.
    subst o. rewrite El in F2. clear El.
    exists t'. split; [reflexivity|].
    destruct (listing_inv _ _ _ _ _ _ _ _ _ _ _ _ _ _ F2)
      as (B1 & B2 & B3 & B4 & B5 & B6 & B7 & B8 & B9 & B10 & B11 & B12 & B13).
    split.
    { unfold socket_output. rewrite F3, F4.
      rewrite sent_on_quiet by exact I. reflexivity. }
    rewrite B2, B3, B4, B6, B7, B8, R8. repeat split. }
  split.
  { intros fuel fd dfd t R1 R2 R8 R4 R5 R6 Hfd Hw Hroom' Hn.
    pose proof (listTransfer_fill_done fuel fd dfd t R1 R2 R8 R4 R6 Hfd Hw Hroom' Hn)
      as F.
    unfold listTransfer. rewrite R5.
    destruct (listTransfer_fill (S fuel) t) as [[o t']|]; [|discriminate F].
    cbn [option_map fst snd] in F. injection F as F1 F2 F3 F4. subst o.
    exists t'. repeat split; assumption. }
  intros n fuel fd cfd t d dst line. apply pump_one_entry.
Qed.

(** On the platform whose directory holds the one file [x]: the line of
    [x] on a session switched to MLSD; an [mlsd] received after login and
    PASV stores the line of the directory [/] and waits for the data
    connection; once that line was sent, the next round stores the line
    of [x] and goes on to send it. *)
Lemma MLSD_listing_witness :
  fillDirent_line (set_m_xferDirMode MLSD_mode example_login) example_file_stat "x" None
  = inr ("Type=file;Size=1024;Modify=20240115120000;Perm=adfrw;"
         +++ (if m_mlstUnixMode (set_m_xferDirMode MLSD_mode example_login)
              then "UNIX.mode=0644;" else "")
         +++ " x" +++ CRLF)
  /\ m_mlstUnixMode (set_m_xferDirMode MLSD_mode example_login) = false
  /\ m_state (dispatch "mlsd" ""
                (run [("USER", "user"); ("PASS", "secret"); ("PASV", "")]
                   listing_session))
     = DATA_CONNECT
  /\ usedArea (m_xferBuffer
                 (dispatch "mlsd" ""
                    (run [("USER", "user"); ("PASS", "secret"); ("PASV", "")]
                       listing_session)))
     = "Type=cdir;Size=4096;Modify=19700101000000;Perm=cdeflmp; /" +++ CRLF
  /\ socket_output 8 (snd (send_pending listing_started))
     = "Type=cdir;Size=4096;Modify=19700101000000;Perm=cdeflmp; /" +++ CRLF
  /\ (exists t',
        listTransfer 1 (snd (send_pending listing_started)) = Some (send_pending t')
        /\ usedArea (m_xferBuffer t')
           = "Type=file;Size=1024;Modify=20240115120000;Perm=adfrw; x" +++ CRLF
        /\ socket_output 8 t' = socket_output 8 (snd (send_pending listing_started)))
  /\ exists t',
       pump 10 5 listing_started = Some t'
       /\ m_state t' = COMMAND
       /\ socket_output 8 t'
          = "Type=cdir;Size=4096;Modify=19700101000000;Perm=cdeflmp; /" +++ CRLF
            +++ "Type=file;Size=1024;Modify=20240115120000;Perm=adfrw; x" +++ CRLF
       /\ command_output 3 t'
          = command_output 3 listing_started +++ "226 OK" +++ CRLF.
Proof.
  destruct (MLSD_listing (set_m_xferDirMode MLSD_mode example_login) example_file_stat)
    as (A & _ & A' & C & _ & D' & D & _ & _ & P).
  1-8: vm_compute; reflexivity.
  { vm_compute. lia. }
  split; [exact A|]. split; [vm_compute; reflexivity|].
  assert (Hop : opens_directory
                  (run [("USER", "user"); ("PASS", "secret"); ("PASV", "")]
                     listing_session) "/")
    by (intros trace; vm_compute; reflexivity).
  assert (Hst : stats
                  (run [("USER", "user"); ("PASS", "secret"); ("PASV", "")]
                     listing_session) "/" example_stat)
    by (intros trace; vm_compute; split; reflexivity).
  assert (Hline : MLSD_line
                    (run [("USER", "user"); ("PASS", "secret"); ("PASV", "")]
                       listing_session) example_stat "/" (Some "cdir")
                    ("Type=cdir;Size=4096;Modify=19700101000000;Perm=cdeflmp; /"
                     +++ CRLF)).
  { intros u M Dd F B. unfold fillDirent_line, fill_facts, ioBuffer.
    replace (mlst_facts
               (run [("USER", "user"); ("PASS", "secret"); ("PASV", "")]
                  listing_session))
      with (true, true, true, true, false) in F by (vm_compute; reflexivity).
    unfold mlst_facts in F. injection F. intros E5 E4 E3 E2 E1.
    rewrite M, Dd, B, E1, E2, E3, E4, E5.
    generalize (errno u) as e. intros e.
    unfold byte_before.
    generalize (answer StaleByte u) as stale. intros stale.
    vm_compute. reflexivity. }
  destruct (C "mlsd"
              (run [("USER", "user"); ("PASS", "secret"); ("PASV", "")] listing_session)
              example_stat
              ("Type=cdir;Size=4096;Modify=19700101000000;Perm=cdeflmp; /" +++ CRLF))
    as (C1 & C2 & _).
  1-7: vm_compute; reflexivity.
  { exact Hop. }
  { exact Hst. }
  { exact Hline. }
  split; [exact C1|]. split; [exact C2|].
  destruct (D' 8 listing_started) as (_ & P2 & _ & P4).
  1-2: vm_compute; reflexivity.
  { intros trace. vm_compute. reflexivity. }
  split; [rewrite P2; vm_compute; reflexivity|].
  destruct (D 0 8 (snd (send_pending listing_started)) "x" example_file_stat
              ("Type=file;Size=1024;Modify=20240115120000;Perm=adfrw; x" +++ CRLF))
    as (t' & T1 & T2 & _ & T4 & _).
  { apply P4. unfold listing_open. vm_compute. repeat split. }
  { vm_compute. reflexivity. }
  { vm_compute. reflexivity. }
  { discriminate. }
  { discriminate. }
  { intros trace. vm_compute. split; reflexivity. }
  { change (encodePath "x" false) with "x".
    apply (A' (snd (send_pending listing_started))).
    1-4: vm_compute; reflexivity.
    vm_compute. lia. }
  split; [exists t'; split; [exact T1|]; split; [exact T2|exact T4]|].
  assert (Ho : w_oracle (world listing_started) = listing_oracle)
    by (vm_compute; reflexivity).
  destruct (P 10 4 8 3 listing_started "x" example_file_stat
              ("Type=file;Size=1024;Modify=20240115120000;Perm=adfrw; x" +++ CRLF))
    as (t5 & Q1 & Q2 & Q3 & Q4).
  { lia. }
  { vm_compute. reflexivity. }
  { unfold listing_open. vm_compute. repeat split. }
  { vm_compute. reflexivity. }
  { vm_compute. reflexivity. }
  { discriminate. }
  { rewrite Ho. intros data trace Hd. left. cbn.
    destruct data as [|c data]; [contradiction|]. cbn [String.length]. lia. }
  { vm_compute. lia. }
  { intros bytes trace. rewrite Ho. reflexivity. }
  { intros trace. rewrite Ho. cbn [listing_oracle].
    split; intros E; rewrite E; [split|]; reflexivity. }
  { vm_compute. reflexivity. }
  { discriminate. }
  { discriminate. }
  { intros trace. vm_compute. split; reflexivity. }
  { change (encodePath "x" false) with "x".
    apply (A' listing_started).
    1-4: vm_compute; reflexivity.
    vm_compute. lia. }
  exists t5. split; [exact Q1|]. split; [exact Q2|]. split; [|exact Q4].
  rewrite Q3. vm_compute. reflexivity.
Defined.

(** C6 (as the specification has it) fails: on a platform whose
    directory holds that one file, a session with the default facts, after
    login, PASV and MLSD, sends on the data connection a line for the
    directory itself and then the line of [x], which has no UNIX.mode
    fact; after that it says 226. *)
Lemma MLSD_default_line_has_no_unix_mode :
  mlst_facts listing_session = (true, true, true, true, false)
  /\ m_state listing_started = DATA_TRANSFER
  /\ m_dataSocket listing_started = Some 8
  /\ exists s,
       pump 10 5 listing_started = Some s
       /\ m_state s = COMMAND
       /\ sent_on listing_oracle 8 (w_trace (world s))
          = "Type=cdir;Size=4096;Modify=19700101000000;Perm=cdeflmp; /" +++ CRLF
            +++ "Type=file;Size=1024;Modify=20240115120000;Perm=adfrw; x" +++ CRLF
       /\ command_output 3 s
          = command_output 3 listing_started +++ "226 OK" +++ CRLF.
Proof.
  split; [vm_compute; reflexivity|]. split; [vm_compute; reflexivity|].
  split; [vm_compute; reflexivity|].
  destruct (pump 10 5 listing_started) as [s|] eqn:E; [|vm_compute in E; discriminate E].
  exists s. split; [reflexivity|].
  vm_compute in E. injection E as <-.
  split; [vm_compute; reflexivity|]. split; vm_compute; reflexivity.
Qed.
